(* ===== verification/_CoqProject ===== *)
-Q . S2P
Prelude.v
PyStr.v
PyPath.v
Batcher.v
Regex.v
Fences.v
World.v
Console.v
Config.v
FileIO.v
Requester.v
FixApplier.v
Collector.v
Export.v
Json.v
Pipeline.v
Markdown.v
Gui.v
Toolkit.v
Threads.v
Widgets.v
Cli.v
