(* ===== verification/Prelude.v ===== *)
(** * Verification of the AI code debugger and auto-fixer ([src/app.py])

    ** The program

    [src/app.py] is a single Python module.  It walks a project directory
    ([get_code_files]), reads the source files ([read_file]), packs them into
    prompt-sized batches ([build_file_section], [chunk_files]), asks a hosted
    language model for a review of every batch ([generate_content],
    [review_project]), optionally asks the model for a corrected version of
    every file of the batch and writes it back after a one-time backup
    ([auto_fix_project], [write_file], [safe_backup], [clean_code_fences]),
    and finally aggregates and exports the reviews ([run_pipeline],
    [save_to_excel], the JSON file).  Two front ends drive [run_pipeline]:
    the command line ([main]) calls it directly, and a Tk window
    ([launch_ui]) runs it in a thread of its own ([on_run]), which talks to
    the window through callbacks registered with the main loop: [safe_log]
    for messages, rendered by [render_markdown], and [ui_yes_no] for the
    confirmation of a fix.

    Data flows forward only: paths, then batches, then review text, then
    per-file fix text, then writes to disk and the aggregated report.

    ** The development, file by file (in dependency order)

    The semantic base (Python and its libraries, as far as the program
    relies on them):

    - [Prelude] (this file): the [outcome] of fallible code with its bind
      notation in [py_scope], list scanning ([take_while], [drop_while],
      [join_with]), the hint databases [py] and [py_rw], the tactics
      [case_if], [inv_outcome] and [bool_to_prop].
    - [PyStr]: a Python [str] as the list of its code points; literals
      decoded from UTF-8 ([lit]); [strip], [lstrip], [startswith],
      [endswith], [lower] and the like with their lemmas; the exceptions
      ([exn]).  The interpreter's Unicode tables (alphanumeric class for
      [\w], lower-casing) are the class [Unicode]; [ascii_unicode] is the
      instance of the concrete runs.
    - [PyPath]: [pathlib]'s [parts], [name], [suffix] in the POSIX flavour.
    - [Regex]: a backtracking matcher in continuation-passing style for the
      constructs the program's patterns use, with [re.sub] ([re_sub]),
      [re.split] for a pattern that is one group ([re_split_group]) and
      [re.match]; the relation [matches] is what a pattern means, and the
      matcher finds a match exactly when there is one ([run_is_Some]).
    - [World]: what lies outside the program.  The state [world] is the file
      system (a map from paths to text files, undecodable files and
      directories) and the log of everything shown or asked ([event]); the
      class [Env] holds what the environment decides: the variables of the
      process, the constructor of the model, the model's replies, the
      keyboard, permissions, [os.name], [os.walk].  Effectful code lives in the
      monad [M] (state, and an [outcome] so that effects before an exception
      persist); [try_except], [for_each] and [fold_each] are [try], [for] and
      a loop with an accumulator.  [total], [fs_pure], [fs_frame] and
      [log_grows], [silent] and [raises_only] are the properties of runs
      that compose along [bind]; the hint database [io] carries their
      composition lemmas.  [agree_outside] is the equivalence of file
      systems behind [fs_frame]; the class [FsProp] is what [fs_frame] and
      the invariants [fs_inv] have in common, so that the walk through a
      component's code is done once ([decide_fix_prop], [fix_file_prop],
      [review_batches_prop]).
    - [Toolkit]: Tkinter as far as [launch_ui] uses it.  The state
      [toolkit] holds every widget with its class, its parent and its
      options (association lists in the order written), the list of the
      packer in the order in which the widgets take their room, the tags
      of the text widget, its contents, the Tk variables and the queues
      of [app.after]; a call of a widget ([create], [configure], [pack],
      [pack_forget], [tag_configure]) is a function on it.  The class
      [Tcl] says which calls of a [try] block Tcl takes; [try_pass] is
      [try: ... except Exception: pass].  [complete], [still] and
      [keeps] are what a call leaves alone; the hint database [tk]
      carries their composition lemmas.

    The program, one file per component, each definition named as in the
    source:

    - [Config]: the module-level configuration (lines 24-30):
      [MODEL_NAME] and the API key from the variables of the process,
      [MODEL] as the outcome of the constructor at import, and
      [model_loaded], the test of [generate_content] on it.
    - [Console]: [clear_screen] and [print_logo] (lines 37-52), with the
      logo as the source has it; [banner] is what the two leave in the log.
    - [Batcher]: [build_file_section] and [chunk_files] (lines 104-130).  The
      loop is [chunk_step] over the record [chunk_state], run by
      [chunk_loop]; [chunk_finish] is the flush after it.
    - [Fences]: [clean_code_fences] (lines 82-92), its three patterns in the
      syntax of [Regex].
    - [FileIO]: [read_file], [safe_backup], [write_file] (lines 66-80,
      94-102).
    - [Requester]: [generate_content], [review_project] with the prompt,
      character for character (lines 132-204).
    - [FixApplier]: [auto_fix_project] (lines 206-277); [fix_file] is the
      loop body, [show_fix] and [decide_fix] its display and its decision.
    - [Collector]: [get_code_files] (lines 32, 54-64); [collect] is the pair
      of loops over what [os.walk] yields.
    - [Export]: [save_to_excel] (lines 280-308) with the workbook as a list
      of sheets, and the text of the JSON file (lines 370-372).
    - [Json]: the reader of the exported document ([json.load]), for the
      round trip of the export.
    - [Pipeline]: [run_pipeline] (lines 310-382) as the sequence
      [read_contents], [chunk_files], [review_batches] (rounds
      [review_round]), [export_stage].
    - [Markdown]: [render_markdown] (lines 498-581).  The text widget is the
      list of the pieces inserted, each with its tag ([insert]); the [while]
      loop is [render_step] over the record [render_state] of its variables,
      run by [render_loop]; [render_line] has the branches of the loop body
      in the order of the source, [render_table] and [table_rows] the table
      with its inner loop.
    - [Gui]: the window (lines 384-697).  The record [window] holds the
      variables of the form, the header, the controls that [set_running]
      switches, the text widget and the two queues of [app.after]; a
      registered callable is a [callback] and [run_callback] its body.
      [safe_log] with [classify] and [append], [ui_yes_no] with [ask],
      [pulse_header], [set_running], [browse], [on_run] with [read_form],
      and the body of the thread ([worker], [run_job]).  The answers of the dialog are the
      class [Tk].
    - [Threads]: the main loop and the thread together (lines 613-627,
      695-701), as the transition system [step] on the state [sys]: a move
      ([label]) is a press of [Run], a change of the form, the [Browse...]
      dialog, [Clear Output], the oldest callback of [after(0, ...)], the oldest callback of
      [after(300, ...)], or the next call of the thread.  The thread is the
      list of the calls of [safe_log] and [ui_yes_no] that its run makes
      ([actions], read off the log of [worker]); [result_holder] and [gate]
      are the rendezvous of [ui_yes_no]; [reachable] is the set of states
      the window can be in.
    - [Widgets]: the widgets of the window (lines 389-496, 630-667, 699).
      [launch_ui_widgets] is the sequence of the calls that build the
      window, in the order of the source and in its groups ([root_window],
      [declare_variables], [header_bar], [folder_row], [option_rows],
      [output_area] with [tag_table], [button_row]); [launch_ui_build] is
      the toolkit they leave.  [tk_pulse_header], [tk_set_running] (with
      its loop [configure_inputs] over [inputs]), [tk_on_run], [tk_browse]
      and [tk_clear_output] are the callbacks of [Gui] written on the
      widgets, call by call, with their [try] blocks.  [window_of] reads
      the [window] of [Gui] off the toolkit; [built] are the toolkits the
      callbacks can make of the window as built.
    - [Cli]: [main] and the head of [launch_ui] (lines 384-389,
      703-721); [sys.argv] and the result of [argparse] are the class
      [Argv], the way [main] ends is an [ending].

    ** What the theorems show

    - Batcher: the batches partition the file list in order and none is
      empty; the packing is first-fit, it is the only first-fit packing, and
      [chunk_files] refines the recursive specification [greedy]; an
      oversized file is alone in its batch; a missing key raises [KeyError];
      the joined text of a batch exceeds the budget by up to one character
      per separator.
    - Fences: the three substitutions equal closed forms without the matcher
      and [clean_code_fences] equals [clean_spec]; a fenced reply is
      unwrapped; the result of a non-empty reply ends in exactly one
      newline; cleaning is not idempotent; for every reply that is a label
      the pattern accepts ([is_label]) followed by a fenced block, the
      label and the closing fence go and the opening fence stays
      ([clean_code_fences_label_then_fence]).
    - FileIO: none of the three functions raises; [write_file] touches only
      the file and its backup; the first version of a file survives any
      number of writes when the backup can be made, and is lost when it
      cannot.
    - Requester: [generate_content] turns every failure of the service into
      text, but raises when the model was never constructed; [replies]
      reads the answers to the requests of a log off the service, and
      [answered] says which answers a run has received.
    - FixApplier: only the listed files and their backups can change;
      nothing changes without consent; a failure ends one round, never the
      loop, and every listed file with text is asked for, in order
      ([auto_fix_project_every_file]); with [apply_all] the cleaned reply
      is what the file holds.
    - Collector: the result is sorted, a permutation of the eligible paths,
      independent of the order of the walk; membership is characterised; a
      project under an ignored directory name yields nothing.
    - Export and Json: the saved workbook cell by cell; a control character
      in the review makes the save raise; the JSON text is printable ASCII
      and reads back as the review.
    - Pipeline: without [autofix], or when nobody agrees to a fix, no source
      file changes; in every case only the files [get_code_files] finds,
      their backups and the two exports can change
      ([run_pipeline_only_project]), and the first version of every source
      file survives in its backup ([run_pipeline_keeps_originals]); the exceptions that can leave a run are
      exactly those of [pipeline_failure] ([run_pipeline_raises_only]); a
      review end to end in every installation, from the files found to the
      export: one request per batch in order, the reviews are the answers
      to them, and the run ends as [export_stage] does on these reviews
      ([run_pipeline_review]); the early returns; [RuntimeError] escapes
      when the model is missing; [interactive] is ignored; a failing workbook
      prevents the JSON export; a run only adds to the log.
    - Markdown: the loop terminates, by its own test; regular text is shown
      as it is; a code block is shown verbatim; the separator pattern of a
      table equals a closed form; a line with inline code keeps all its
      characters but backticks; an unclosed fence swallows the rest of a
      message, and a table without outer bars loses cells.
    - Gui: the window state stays well formed ([window_ok]) under every
      operation; [on_run] without a folder and with an unreadable batch
      size; the thread turns an exception of the pipeline into a message,
      shown as an error; from the window the pipeline never lacks its
      confirmation function.
    - Threads: the invariant [sys_ok] of the reachable states (a thread is
      alive only while the window runs, its release is queued when it has
      ended, a waiting thread has its question queued); one thread at a
      time; a run ends for every interleaving, with the window released
      ([run_ends]: the measure [work] goes down with every move of the
      program, and a move is possible while work is left); [ui_yes_no]
      returns with the answer of the dialog; the text widget ends up holding
      the rendering of the log, whatever the interleaving ([future] is
      invariant under the moves of the program); a user who never ticks
      [Apply all fixes automatically] and declines every dialog keeps every
      source file, whatever is pressed and in whatever order
      ([declined_keeps_sources], by the invariant [sources_kept]); the queue
      of the pulse move by move ([pulse_chains]), by which two pulses can be
      at work at once.
    - Widgets: the record of [Gui] is an abstraction of the widgets.  The
      toolkit as built is [initial_window], with the tree and the packing
      of the source, whatever Tcl refuses in the three [try] blocks, and
      the tags configured are a prefix of the seven
      ([launch_ui_whatever_tcl]); every callback on the widgets is the
      callback of [Gui] on the window read off ([callbacks_refine]), and
      every window [Threads] can reach is the window of a toolkit that is
      [built] ([reachable_widgets]); the tree stays as built and well
      formed and only the progress bar and its placeholder are repacked
      ([built_laid_out], by induction on [built]); no callback changes a
      command or a variable of a widget, and during a run every widget
      that reacts to the user but [Clear Output] is disabled
      ([running_only_clear_output]); what the [try] blocks of
      [set_running] can hide is the state of the inputs and whether the bar
      runs, nothing else ([tk_set_running_tries]); in the packer of
      [Toolkit] the placeholder of the progress bar is left of the buttons
      at the start and right of them after a run ([placeholder_moves], a
      lemma on the model of Tk, which the source alone does not settle).
    - Cli: the dispatch of [main]; the banner is printed twice.

    Every theorem with a hypothesis has a witness (named [..._witness]) that
    applies it to a concrete world ([ex_world], [ex_project] with [ex_env],
    [ex_tk], [ex_argv]), to a concrete state of the window ([ex_asked],
    [ex_filled]) or to the window as built under [tcl_yes] or [tcl_no].

    ** Conventions, bounds and fuel

    - [len] is [length], slicing is [take]/[drop].  Integers are unbounded in
      Python: a budget is a [Z] (it may be zero or negative), a length or a
      row number a [nat], a code point an [N].
    - An exception is a value of [exn] carried by [Raise]; uncaught
      exceptions propagate through [bind].  [KeyboardInterrupt] and other
      non-[Exception] exits are outside the model.
    - Loops over lists are structural.  The matcher has two counters: the
      iterations of a star are bounded by [S (length s)] since every
      iteration but the last consumes a character, and [re_sub] gets
      [2 * length s + 2] steps since each step consumes a character or
      follows an empty match; [Regex.star_loop_fuel] and
      [Regex.sub_loop_fuel] show that more fuel changes nothing, so the
      bounds are never met.  [re.split] has the counter of [re.sub].
    - The loop of [render_markdown] gets [len(lines)] iterations, which is
      enough because every iteration moves the index forward
      ([Markdown.render_step_index], [Markdown.render_loop_fuel]).
    - The two threads of the window are interleaved move by move.  A
      callback of the main loop is atomic, and so is a call of the window by
      the thread: Tk runs one callback at a time, and the thread touches the
      window only through [app.after].  The files and the log of a run are
      those of [Pipeline], computed when the thread starts; the window can
      observe them only through the calls of the thread, which are made in
      the order of the log.  Callbacks registered with the same delay run in
      the order of their registration.
    - Answers of the environment are functions of the whole log, so a reply
      may depend on everything that was shown, asked and requested before.
      The module is imported before anything is logged: the constructor of
      the model at import is asked with the empty log, the one of
      [auto_fix_project] with the log of its call, and the two may differ.
    - File contents are text as Python reads it; reading turns [\r\n] and
      [\r] into [\n]; a string with a lone surrogate cannot be written.
    - A call of a widget that the source makes outside a [try] block is
      taken to succeed; a call in a [try] block is made when Tcl takes it,
      and Tcl may decide by the whole toolkit.  The facts of the window as
      built are proved for every such Tcl by cases on its answers
      ([try_blocks]: two for a block of one call, eight for the block of
      the seven tags).  [pack] appends a widget that is not packed to the
      packer's list and leaves a packed one in its place.

    ** Not modelled

    What Tk draws from the options of the widgets (the geometry in
    pixels, fonts and colours on the screen): the options are kept as
    given, and of the packer only the order of its list.  Closing the
    window: the thread is a daemon and ends with the process at whatever
    point it has reached, so a faithful account needs the worlds between
    the steps of a run, while [Threads] takes the world of a run as a
    whole.  The parsing of the command line, which is
    [argparse]'s.  The console's markup rendering and what the shell
    command of [clear_screen] does to the terminal, the zip container of the
    workbook, the network, and what [genai.configure] does with the key.
    [render_markdown] does not raise in the model, so the handler of line
    601 has no case. *)

From Stdlib Require Export Lia.
From stdpp Require Export base tactics option list numbers.

(** ** Outcomes of fallible code *)

(** What a Python call produces: a value, or an exception of type [E]. *)
Inductive outcome (E A : Type) : Type :=
| Ok (a : A)
| Raise (e : E).
Arguments Ok {E A} a.
Arguments Raise {E A} e.

Definition outcome_bind {E A B} (m : outcome E A) (k : A → outcome E B) : outcome E B :=
  match m with
  | Ok a => k a
  | Raise e => Raise e
  end.

Definition outcome_map {E A B} (f : A → B) (m : outcome E A) : outcome E B :=
  outcome_bind m (λ a, Ok (f a)).

(** [try: m except: h]: the handler runs on any exception. *)
Definition outcome_catch {E A} (m : outcome E A) (h : E → outcome E A) : outcome E A :=
  match m with
  | Ok a => Ok a
  | Raise e => h e
  end.

Definition is_ok {E A} (m : outcome E A) : bool :=
  match m with Ok _ => true | Raise _ => false end.

#[export] Instance outcome_eq_dec {E A} `{EqDecision E, EqDecision A} : EqDecision (outcome E A).
Proof. solve_decision. Defined.

Declare Scope py_scope.
Delimit Scope py_scope with py.
Notation "x <- m ;; k" := (outcome_bind m (λ x, k))
  (at level 100, m at next level, k at level 200, right associativity) : py_scope.
Open Scope py_scope.

(** ** Scanning a list from the left *)

(** The longest prefix whose elements satisfy [p], and what is left. *)
Fixpoint take_while {A} (p : A → bool) (l : list A) : list A :=
  match l with
  | x :: l' => if p x then x :: take_while p l' else []
  | [] => []
  end.

Fixpoint drop_while {A} (p : A → bool) (l : list A) : list A :=
  match l with
  | x :: l' => if p x then drop_while p l' else l
  | [] => []
  end.

(** [sep.join(parts)] of Python, for lists of any element type. *)
Fixpoint join_with {A} (sep : list A) (parts : list (list A)) : list A :=
  match parts with
  | [] => []
  | [x] => x
  | x :: rest => x ++ sep ++ join_with sep rest
  end.

(** The first element of a list satisfies [p] (false on the empty list). *)
Definition head_is {A} (p : A → bool) (l : list A) : bool :=
  match l with
  | x :: _ => p x
  | [] => false
  end.

(** Python's truth value of a list or a string: it is not empty. *)
Definition nonempty {A} (l : list A) : bool := if l is [] then false else true.

(** ** Tactics and hints *)

Create HintDb py discriminated.
Create Rewrite HintDb py_rw.

(** Case analysis on the [if] or [match] the goal is stuck on. *)
Ltac case_if :=
  match goal with
  | |- context [if ?b then _ else _] => destruct b eqn:?
  end.

(** Invert equations between outcomes and pairs in the context. *)
Ltac inv_outcome :=
  repeat match goal with
  | H : Ok _ = Ok _ |- _ => injection H as H; try subst
  | H : Ok _ = Raise _ |- _ => discriminate H
  | H : Raise _ = Ok _ |- _ => discriminate H
  | H : Raise _ = Raise _ |- _ => injection H as H; try subst
  | H : (_, _) = (_, _) |- _ => injection H as ?; try subst
  end.

(** Boolean comparisons on [N] as propositions, for [lia]. *)
Ltac bool_to_prop :=
  repeat first
    [ rewrite andb_true_iff in * | rewrite orb_true_iff in *
    | rewrite andb_false_iff in * | rewrite orb_false_iff in *
    | rewrite N.eqb_eq in * | rewrite N.eqb_neq in *
    | rewrite N.leb_le in * | rewrite N.leb_gt in *
    | rewrite N.ltb_lt in * | rewrite N.ltb_ge in * ].

(** ** Lemmas *)

Section outcome_laws.
Context {E A B C : Type}.
Implicit Types (m : outcome E A) (f : A → outcome E B) (g : B → outcome E C).

Lemma outcome_bind_ok (a : A) f : outcome_bind (Ok a) f = f a.
Proof. done. Qed.

Lemma outcome_bind_ret m : outcome_bind m Ok = m.
Proof. by destruct m. Qed.

Lemma outcome_bind_assoc m f g :
  outcome_bind (outcome_bind m f) g = outcome_bind m (λ a, outcome_bind (f a) g).
Proof. by destruct m. Qed.

Lemma outcome_bind_Ok_inv m f (b : B) :
  outcome_bind m f = Ok b ↔ ∃ a, m = Ok a ∧ f a = Ok b.
Proof. destruct m; simpl; split; [eauto| |done|]; intros (a' & Ha & Hf); by simplify_eq. Qed.

Lemma outcome_catch_ok m (h : E → outcome E A) : is_ok m = true → outcome_catch m h = m.
Proof. by destruct m. Qed.

End outcome_laws.

Lemma nonempty_true {A} (l : list A) : nonempty l = true ↔ l ≠ [].
Proof. by destruct l. Qed.

Lemma nonempty_fmap {A B} (f : A → B) (l : list A) : nonempty (f <$> l) = nonempty l.
Proof. by destruct l. Qed.

Lemma nonempty_snoc {A} (l : list A) x : nonempty (l ++ [x]) = true.
Proof. by destruct l. Qed.

Section scanning.
Context {A : Type}.
Implicit Types (p : A → bool) (l k : list A) (ls : list (list A)).

Lemma take_drop_while p l : take_while p l ++ drop_while p l = l.
Proof. induction l as [|x l IH]; simpl; [done|]. case_if; simpl; by f_equal. Qed.

Lemma take_while_Forall p l : Forall (λ x, p x = true) (take_while p l).
Proof. induction l as [|x l IH]; simpl; [done|]. case_if; by constructor. Qed.

Lemma drop_while_head p l : head_is p (drop_while p l) = false.
Proof. induction l as [|x l IH]; simpl; [done|]. case_if; [done|]. by simpl. Qed.

Lemma drop_while_idemp p l : drop_while p (drop_while p l) = drop_while p l.
Proof.
  pose proof (drop_while_head p l) as H.
  destruct (drop_while p l) as [|x k]; simpl in *; [done|]. by rewrite H.
Qed.

Lemma drop_while_fix p l : head_is p l = false → drop_while p l = l.
Proof. destruct l as [|x l]; simpl; [done|]. by intros ->. Qed.

Lemma drop_while_cons_true p x l : p x = true → drop_while p (x :: l) = drop_while p l.
Proof. simpl. by intros ->. Qed.

Lemma drop_while_cons_false p x l : p x = false → drop_while p (x :: l) = x :: l.
Proof. simpl. by intros ->. Qed.

Lemma drop_while_suffix p l : drop_while p l `suffix_of` l.
Proof. exists (take_while p l). by rewrite take_drop_while. Qed.

Lemma length_drop_while p l : length (drop_while p l) ≤ length l.
Proof. apply suffix_length, drop_while_suffix. Qed.

Lemma drop_while_app_all p l k :
  Forall (λ x, p x = true) l → drop_while p (l ++ k) = drop_while p k.
Proof. induction 1 as [|x l Hx _ IH]; simpl; [done|]. by rewrite Hx. Qed.

Lemma take_while_app_all p l k :
  Forall (λ x, p x = true) l → take_while p (l ++ k) = l ++ take_while p k.
Proof. induction 1 as [|x l Hx _ IH]; simpl; [done|]. by rewrite Hx, IH. Qed.

Lemma drop_while_all p l : Forall (λ x, p x = true) l → drop_while p l = [].
Proof. intros H. rewrite <-(app_nil_r l). by rewrite drop_while_app_all. Qed.

(** The scan stops at the latest where the second list starts. *)
Lemma drop_while_app_fix p l k :
  head_is p k = false → drop_while p (l ++ k) = drop_while p l ++ k.
Proof.
  intros Hk. induction l as [|x l IH]; simpl; [by apply drop_while_fix|].
  by destruct (p x).
Qed.

Lemma join_with_cons sep x y ls :
  join_with sep (x :: y :: ls) = x ++ sep ++ join_with sep (y :: ls).
Proof. done. Qed.

Lemma join_with_snoc sep ls x :
  ls ≠ [] → join_with sep (ls ++ [x]) = join_with sep ls ++ sep ++ x.
Proof.
  induction ls as [|y ls IH]; [done|]. intros _.
  destruct ls as [|z ls]; [done|].
  change ((y :: z :: ls) ++ [x]) with (y :: z :: (ls ++ [x])).
  rewrite !join_with_cons. change (z :: ls ++ [x]) with ((z :: ls) ++ [x]).
  rewrite IH by done. by rewrite <-!(assoc_L (++)).
Qed.

Lemma length_join_with sep ls :
  length (join_with sep ls) = sum_list_with length ls + length sep * pred (length ls).
Proof.
  induction ls as [|x ls IH]; [simpl; lia|].
  destruct ls as [|y ls]; [simpl; lia|].
  rewrite join_with_cons, !length_app, IH. simpl. lia.
Qed.

Lemma not_elem_of_pair (x a b : A) : x ∉ [a; b] ↔ x ≠ a ∧ x ≠ b.
Proof. rewrite !not_elem_of_cons. pose proof (not_elem_of_nil x). tauto. Qed.

Lemma sub_app_l (l k : list A) : l ⊆ l ++ k.
Proof. intros x Hx. apply elem_of_app. by left. Qed.

Lemma sub_app_r (l k : list A) : k ⊆ l ++ k.
Proof. intros x Hx. apply elem_of_app. by right. Qed.

(** Boolean tests over a list, as [Forall]: what a computation decides. *)
Lemma Forall_true_forallb (p : A → bool) l :
  forallb p l = true → Forall (λ x, p x = true) l.
Proof. induction l; simpl; [done|]. intros [??]%andb_true_iff. constructor; auto. Qed.

Lemma Forall_false_forallb (p : A → bool) l :
  forallb (λ x, negb (p x)) l = true → Forall (λ x, p x = false) l.
Proof.
  induction l; simpl; [done|]. intros [?%negb_true_iff ?]%andb_true_iff. constructor; auto.
Qed.

End scanning.

#[export] Hint Resolve drop_while_head take_while_Forall drop_while_suffix : py.
#[export] Hint Rewrite @take_drop_while @drop_while_idemp : py_rw.
