(* ===== verification/PyStr.v ===== *)
(** * Python [str] values and the [str] methods the program calls

    A [str] is the list of its Unicode code points ([N]); [len] is [length],
    [s[:n]] is [take n s], [a + b] is [a ++ b].  Literals are written as Rocq
    strings (UTF-8 bytes) and decoded by [lit].  The whitespace class of
    [str.strip] and of the regular expression [\s] is [is_space]
    (CPython's [Py_UNICODE_ISSPACE]).  What the program needs from the
    interpreter's Unicode database beyond that, the alphanumeric class and
    lower-casing, is the class [Unicode]: it is exact on ASCII by its laws and
    a parameter elsewhere. *)

From stdpp Require Export strings.
From stdpp Require Import pretty.
From Stdlib Require Ascii String.
From S2P Require Export Prelude.

Abbreviation char := N (only parsing).
Abbreviation str := (list N) (only parsing).

(** ** Literals *)

(** UTF-8 decoding of a byte sequence; a byte that starts no well-formed
    sequence stands for itself. *)
Fixpoint utf8_decode (bs : list N) : str :=
  match bs with
  | [] => []
  | b :: rest =>
    if (b <? 128)%N then b :: utf8_decode rest
    else match rest with
    | b1 :: rest1 =>
      if (192 <=? b)%N && (b <? 224)%N then
        ((b - 192) * 64 + (b1 - 128))%N :: utf8_decode rest1
      else match rest1 with
      | b2 :: rest2 =>
        if (224 <=? b)%N && (b <? 240)%N then
          ((b - 224) * 4096 + (b1 - 128) * 64 + (b2 - 128))%N :: utf8_decode rest2
        else match rest2 with
        | b3 :: rest3 =>
          ((b - 240) * 262144 + (b1 - 128) * 4096 + (b2 - 128) * 64 + (b3 - 128))%N
            :: utf8_decode rest3
        | [] => b :: utf8_decode rest
        end
      | [] => b :: utf8_decode rest
      end
    | [] => [b]
    end
  end.

Definition lit (s : string) : str :=
  utf8_decode (Byte.to_N <$> String.list_byte_of_string s).

(** Characters the source names. *)
Definition ch_nl : char := 10%N.
Definition ch_dot : char := 46%N.
Definition ch_slash : char := 47%N.
Definition ch_colon : char := 58%N.
Definition ch_backtick : char := 96%N.
Definition ch_dquote : char := 34%N.
Definition ch_plus : char := 43%N.
Definition ch_minus : char := 45%N.
Definition ch_underscore : char := 95%N.

(** ** Character classes *)

(** [str.isspace] on one character, which is also [\s] of [re] on [str]
    patterns and the set [str.strip()] removes. *)
Definition is_space (c : char) : bool :=
  ((9 <=? c) && (c <=? 13) || (28 <=? c) && (c <=? 32)
   || (c =? 133) || (c =? 160) || (c =? 5760)
   || (8192 <=? c) && (c <=? 8202)
   || (c =? 8232) || (c =? 8233) || (c =? 8239) || (c =? 8287) || (c =? 12288))%N.

Definition ascii_isupper (c : char) : bool := ((65 <=? c) && (c <=? 90))%N.
Definition ascii_islower (c : char) : bool := ((97 <=? c) && (c <=? 122))%N.
Definition ascii_isdigit (c : char) : bool := ((48 <=? c) && (c <=? 57))%N.
Definition ascii_isalnum (c : char) : bool :=
  ascii_isupper c || ascii_islower c || ascii_isdigit c.
Definition ascii_lower (c : char) : char := if ascii_isupper c then (c + 32)%N else c.

(** The interpreter's Unicode database, as far as the program reaches it. *)
Class Unicode := {
  uni_isalnum : char → bool;
  uni_lower : char → str;
  uni_isalnum_ascii c : (c < 128)%N → uni_isalnum c = ascii_isalnum c;
  uni_lower_ascii c : (c < 128)%N → uni_lower c = [ascii_lower c];
}.

(** The database restricted to ASCII: no other character is alphanumeric or
    has a case. *)
#[export] Program Instance ascii_unicode : Unicode := {|
  uni_isalnum c := (c <? 128)%N && ascii_isalnum c;
  uni_lower c := [ascii_lower c];
|}.
Next Obligation. intros c Hc. simpl. by rewrite (proj2 (N.ltb_lt _ _) Hc). Qed.
Next Obligation. done. Qed.

(** [\w] of [re] on a [str] pattern. *)
Definition is_word `{Unicode} (c : char) : bool := uni_isalnum c || (c =? ch_underscore)%N.

(** ** Methods of [str] *)

Definition lstrip (s : str) : str := drop_while is_space s.
Definition rstrip (s : str) : str := reverse (drop_while is_space (reverse s)).
Definition strip (s : str) : str := lstrip (rstrip s).

(** [s.lstrip(chars)]. *)
Definition lstrip_chars (chars : str) (s : str) : str :=
  drop_while (λ c, bool_decide (c ∈ chars)) s.

(** [s.rstrip(chars)] and [s.strip(chars)]. *)
Definition rstrip_chars (chars : str) (s : str) : str :=
  reverse (lstrip_chars chars (reverse s)).
Definition strip_chars (chars : str) (s : str) : str :=
  lstrip_chars chars (rstrip_chars chars s).

(** [c in s] for one character. *)
Definition has_char (c : char) (s : str) : bool := existsb (λ x, (x =? c)%N) s.

Fixpoint startswith (s pre : str) {struct pre} : bool :=
  match pre with
  | [] => true
  | p :: pre' =>
    match s with
    | c :: s' => (c =? p)%N && startswith s' pre'
    | [] => false
    end
  end.

Definition endswith (s suf : str) : bool := startswith (reverse s) (reverse suf).

(** [s.endswith(t)] for a tuple [t] of suffixes. *)
Definition endswith_any (s : str) (sufs : list str) : bool :=
  existsb (endswith s) sufs.

(** [s.lower()]. *)
Definition lower `{Unicode} (s : str) : str := s ≫= uni_lower.

(** [sub in s]. *)
Fixpoint contains (s sub : str) : bool :=
  startswith s sub ||
  match s with
  | [] => false
  | _ :: s' => contains s' sub
  end.

(** [s.split(sep)] for a separator of one character. *)
Fixpoint split_on (sep : char) (s : str) : list str :=
  match s with
  | [] => [[]]
  | c :: s' =>
    if (c =? sep)%N then [] :: split_on sep s'
    else match split_on sep s' with
         | w :: ws => (c :: w) :: ws
         | [] => [[c]]
         end
  end.

(** [s.rfind(c)] for one character: the index of its last occurrence. *)
Fixpoint rfind (c : char) (s : str) : option nat :=
  match s with
  | [] => None
  | x :: s' =>
    match rfind c s' with
    | Some i => Some (S i)
    | None => if (x =? c)%N then Some 0 else None
    end
  end.

(** [str(n)] for a natural number. *)
Definition str_of_nat (n : nat) : str := lit (pretty n).

(** [x or y] on strings: [x] unless it is empty. *)
Definition str_or (x y : str) : str := if x is [] then y else x.

(** ** Exceptions *)

(** The exceptions the program can meet, each with the text [str(e)]
    gives. *)
Inductive exn : Type :=
| KeyError (key : str)
| RuntimeError (msg : str)
| TypeError (msg : str)
| AttributeError (msg : str)
| OSError (msg : str)
| ImportError (msg : str)
| ValueError (msg : str)
| IllegalCharacterError (msg : str)
| EOFError
| ServiceError (msg : str).

#[export] Instance exn_eq_dec : EqDecision exn.
Proof. solve_decision. Defined.

(** ** Lemmas *)

Lemma lit_ascii_example : lit "a.py" = [97; 46; 112; 121]%N.
Proof. reflexivity. Qed.

Lemma lit_utf8_example : lit "✅" = [9989%N] ∧ lit "é" = [233%N] ∧ lit "🤖" = [129302%N].
Proof. by vm_compute. Qed.

Lemma is_space_nl : is_space ch_nl = true.
Proof. reflexivity. Qed.

Lemma startswith_prefix s pre : startswith s pre = true ↔ pre `prefix_of` s.
Proof.
  revert s. induction pre as [|p pre IH]; intros s; simpl.
  - split; [intros _; apply prefix_nil|done].
  - destruct s as [|c s]; [split; [done|]; by intros ?%prefix_nil_not|].
    rewrite andb_true_iff, N.eqb_eq, IH.
    split.
    + intros [-> ?]. by apply prefix_cons.
    + intros H. split; [symmetry; by eapply prefix_cons_inv_1|by eapply prefix_cons_inv_2].
Qed.

Lemma startswith_app s t : startswith (s ++ t) s = true.
Proof. apply startswith_prefix. by exists t. Qed.

Lemma startswith_split s pre :
  startswith s pre = true → s = pre ++ drop (length pre) s.
Proof.
  intros [k ->]%startswith_prefix. by rewrite drop_app_length.
Qed.

Lemma endswith_suffix s suf : endswith s suf = true ↔ suf `suffix_of` s.
Proof.
  unfold endswith. rewrite startswith_prefix. symmetry. apply suffix_prefix_reverse.
Qed.

Lemma endswith_app s t : endswith (s ++ t) t = true.
Proof. apply endswith_suffix. by exists s. Qed.

Lemma startswith_app_l s t pre : startswith s pre = true → startswith (s ++ t) pre = true.
Proof. rewrite !startswith_prefix. intros [u ->]. exists (u ++ t). by rewrite (assoc_L (++)). Qed.

Lemma contains_startswith s sub : startswith s sub = true → contains s sub = true.
Proof. intros Hs. destruct s; simpl; by rewrite Hs. Qed.

Lemma endswith_any_spec s sufs :
  endswith_any s sufs = true ↔ ∃ suf, suf ∈ sufs ∧ suf `suffix_of` s.
Proof.
  unfold endswith_any. rewrite existsb_exists. setoid_rewrite <-list_elem_of_In.
  by setoid_rewrite endswith_suffix.
Qed.

Section strip.
Implicit Types s : str.

Lemma lstrip_head s : head_is is_space (lstrip s) = false.
Proof. apply drop_while_head. Qed.

Lemma lstrip_idemp s : lstrip (lstrip s) = lstrip s.
Proof. apply drop_while_idemp. Qed.

Lemma lstrip_fix s : head_is is_space s = false → lstrip s = s.
Proof. apply drop_while_fix. Qed.

Lemma lstrip_suffix s : lstrip s `suffix_of` s.
Proof. apply drop_while_suffix. Qed.

Lemma rstrip_prefix s : rstrip s `prefix_of` s.
Proof.
  unfold rstrip. rewrite prefix_suffix_reverse, reverse_involutive.
  apply drop_while_suffix.
Qed.

Lemma rstrip_last s : head_is is_space (reverse (rstrip s)) = false.
Proof. unfold rstrip. rewrite reverse_involutive. apply drop_while_head. Qed.

Lemma rstrip_fix s : head_is is_space (reverse s) = false → rstrip s = s.
Proof. intros H. unfold rstrip. by rewrite drop_while_fix, reverse_involutive. Qed.

Lemma rstrip_idemp s : rstrip (rstrip s) = rstrip s.
Proof. apply rstrip_fix, rstrip_last. Qed.

(** Removing a suffix of a list keeps its first element, unless nothing
    is left. *)
Lemma head_is_prefix (p : char → bool) s t :
  t `prefix_of` s → t ≠ [] → head_is p t = head_is p s.
Proof. intros [k ->] Ht. by destruct t. Qed.

Lemma lstrip_rstrip_last s : head_is is_space (reverse (lstrip (rstrip s))) = false.
Proof.
  destruct (decide (lstrip (rstrip s) = [])) as [->|Hne]; [done|].
  rewrite <-(rstrip_last s). apply head_is_prefix.
  - rewrite <-suffix_prefix_reverse. apply lstrip_suffix.
  - intros Hnil. apply Hne. apply (f_equal reverse) in Hnil.
    by rewrite reverse_involutive in Hnil.
Qed.

Lemma strip_first s : head_is is_space (strip s) = false.
Proof. apply lstrip_head. Qed.

Lemma strip_last s : head_is is_space (reverse (strip s)) = false.
Proof. apply lstrip_rstrip_last. Qed.

(** A string with no whitespace at either end is left alone. *)
Lemma strip_fix s :
  head_is is_space s = false → head_is is_space (reverse s) = false → strip s = s.
Proof. intros H1 H2. unfold strip. by rewrite rstrip_fix, lstrip_fix. Qed.

Lemma strip_idemp s : strip (strip s) = strip s.
Proof. apply strip_fix; [apply strip_first|apply strip_last]. Qed.

Lemma strip_nil : strip [] = [].
Proof. done. Qed.

(** What stands before the whitespace at the end is kept: a prefix that
    ends in another character stays whole. *)
Lemma rstrip_app_l s t :
  head_is is_space (reverse s) = false → rstrip (s ++ t) = s ++ rstrip t.
Proof.
  intros Hs. unfold rstrip.
  by rewrite reverse_app, drop_while_app_fix, reverse_app, reverse_involutive.
Qed.

Lemma strip_app_l s t :
  head_is is_space s = false → s ≠ [] → head_is is_space (reverse s) = false →
  strip (s ++ t) = s ++ rstrip t.
Proof.
  intros Hs Hne Hr. unfold strip. rewrite rstrip_app_l by done.
  apply lstrip_fix. by destruct s.
Qed.

Lemma length_strip s : length (strip s) ≤ length s.
Proof.
  unfold strip. etrans; [apply suffix_length, lstrip_suffix|].
  apply prefix_length, rstrip_prefix.
Qed.

End strip.

Lemma lower_ascii_char `{Unicode} c s : (c < 128)%N → lower (c :: s) = ascii_lower c :: lower s.
Proof. intros Hc. unfold lower. simpl. by rewrite uni_lower_ascii. Qed.

(** On ASCII text every Unicode table lower-cases alike. *)
Lemma lower_ascii `{Unicode} s :
  forallb (λ c, (c <? 128)%N) s = true → lower s = ascii_lower <$> s.
Proof.
  induction s as [|c s IH]; [done|]. cbn [forallb]. intros [Hc Hs]%andb_true_iff.
  apply N.ltb_lt in Hc. by rewrite lower_ascii_char, IH.
Qed.

Lemma lower_app `{Unicode} s t : lower (s ++ t) = lower s ++ lower t.
Proof. unfold lower. apply bind_app. Qed.

Lemma split_on_cons_sep sep s : split_on sep (sep :: s) = [] :: split_on sep s.
Proof. simpl. by rewrite N.eqb_refl. Qed.

Lemma split_on_nonempty sep s : split_on sep s ≠ [].
Proof. destruct s as [|c s]; simpl; [done|]. destruct (c =? sep)%N; [done|]. by destruct (split_on sep s). Qed.

Lemma split_on_cons_other sep c s :
  (c =? sep)%N = false →
  split_on sep (c :: s) = (c :: default [] (head (split_on sep s))) :: tail (split_on sep s).
Proof.
  intros Hc. simpl. rewrite Hc. pose proof (split_on_nonempty sep s).
  by destruct (split_on sep s).
Qed.

Lemma join_with_cons_ne {A} (sep x : list A) ls :
  ls ≠ [] → join_with sep (x :: ls) = x ++ sep ++ join_with sep ls.
Proof. by destruct ls. Qed.

(** [sep.join(s.split(sep)) == s]. *)
Lemma join_split_on sep s : join_with [sep] (split_on sep s) = s.
Proof.
  induction s as [|c s IH]; [done|]. pose proof (split_on_nonempty sep s) as Hne.
  destruct (c =? sep)%N eqn:Hc.
  - apply N.eqb_eq in Hc as ->.
    by rewrite split_on_cons_sep, join_with_cons_ne, IH.
  - rewrite (split_on_cons_other _ _ _ Hc).
    destruct (split_on sep s) as [|w [|w' ws]] eqn:Hs; [done|simpl in *; by rewrite IH|].
    simpl head. simpl tail. rewrite join_with_cons in *. simpl. by rewrite <-IH.
Qed.

Lemma split_on_sep_app sep a b :
  split_on sep (a ++ sep :: b) = split_on sep a ++ split_on sep b.
Proof.
  induction a as [|c a IH]; [apply split_on_cons_sep|]. simpl app.
  destruct (c =? sep)%N eqn:Hc.
  - apply N.eqb_eq in Hc as ->. by rewrite !split_on_cons_sep, IH.
  - rewrite !(split_on_cons_other _ _ _ Hc), IH. pose proof (split_on_nonempty sep a).
    by destruct (split_on sep a).
Qed.

(** A piece that has no separator is one field. *)
Lemma split_on_app sep a b :
  has_char sep a = false → split_on sep (a ++ sep :: b) = a :: split_on sep b.
Proof.
  induction a as [|c a IH]; intros Ha; [apply split_on_cons_sep|].
  simpl in Ha. apply orb_false_iff in Ha as [Hc Ha]. simpl app.
  rewrite (split_on_cons_other _ _ _ Hc), IH by done. done.
Qed.

Lemma split_on_single sep a : has_char sep a = false → split_on sep a = [a].
Proof.
  induction a as [|c a IH]; intros Ha; [done|].
  simpl in Ha. apply orb_false_iff in Ha as [Hc Ha].
  by rewrite (split_on_cons_other _ _ _ Hc), IH.
Qed.

Lemma has_char_app c s t : has_char c (s ++ t) = has_char c s || has_char c t.
Proof. apply existsb_app. Qed.

Lemma str_or_nonempty x y : x ≠ [] → str_or x y = x.
Proof. by destruct x. Qed.

Lemma rfind_lt c s i : rfind c s = Some i → i < length s.
Proof.
  revert i. induction s as [|x s IH]; intros i; simpl; [done|].
  destruct (rfind c s) as [j|].
  - intros [= <-]. specialize (IH j eq_refl). lia.
  - case_if; [|done]. intros [= <-]. lia.
Qed.

Lemma rfind_lookup c s i : rfind c s = Some i → s !! i = Some c.
Proof.
  revert i. induction s as [|x s IH]; intros i; simpl; [done|].
  destruct (rfind c s) as [j|] eqn:Hj.
  - intros [= <-]. by apply IH.
  - case_if; [|done]. intros [= <-]. simpl. f_equal. by apply N.eqb_eq.
Qed.

Lemma rfind_None c s : rfind c s = None ↔ c ∉ s.
Proof.
  induction s as [|x s IH]; simpl; [split; [intros _; apply not_elem_of_nil|done]|].
  rewrite not_elem_of_cons. destruct (rfind c s) as [j|].
  - split; [done|]. intros [_ Hs]. by apply IH in Hs.
  - destruct (N.eqb_spec x c) as [->|Hne]; [split; [done|by intros [? _]]|].
    split; [|done]. intros _. split; [done|by apply IH].
Qed.

(** Nothing after the index [rfind] returns is the character. *)
Lemma rfind_last c s i : rfind c s = Some i → c ∉ drop (S i) s.
Proof.
  revert i. induction s as [|x s IH]; intros i; simpl; [done|].
  destruct (rfind c s) as [j|] eqn:Hj.
  - intros [= <-]. by apply IH.
  - case_if; [|done]. intros [= <-]. simpl. rewrite drop_0. by apply rfind_None.
Qed.

#[export] Hint Resolve strip_first strip_last lstrip_head rstrip_last : py.
#[export] Hint Rewrite strip_idemp lstrip_idemp rstrip_idemp : py_rw.
