(* ===== verification/PyPath.v ===== *)
(** * [pathlib.Path] as the program uses it

    The POSIX flavour of [pathlib.PurePath]: a path is split at [/], empty
    components and [.] components are dropped, and a leading [/] is a part of
    its own.  [path_suffix] follows the rule of Python 3.8 to 3.12: the final
    component's text from its last dot, unless that dot is its first or its
    last character. *)

From S2P Require Export PyStr.

(** The components of a path that are names: empty ones and [.] dropped. *)
Definition path_components (p : str) : list str :=
  filter (λ c, c ≠ [] ∧ c ≠ [ch_dot]) (split_on ch_slash p).

(** [Path(p).parts]: the root, when the path is absolute, then the names.
    Exactly two leading slashes are a root of their own in POSIX. *)
Definition path_root (p : str) : list str :=
  match p with
  | a :: b :: c :: _ =>
    if (a =? ch_slash)%N then
      if (b =? ch_slash)%N && negb (c =? ch_slash)%N then [[ch_slash; ch_slash]]
      else [[ch_slash]]
    else []
  | [a; b] =>
    if (a =? ch_slash)%N then
      if (b =? ch_slash)%N then [[ch_slash; ch_slash]] else [[ch_slash]]
    else []
  | [a] => if (a =? ch_slash)%N then [[ch_slash]] else []
  | [] => []
  end.

Definition path_parts (p : str) : list str := path_root p ++ path_components p.

(** [Path(p).name]: the final component, empty when there is none. *)
Definition path_name (p : str) : str := default [] (list.last (path_components p)).

(** [Path(p).suffix]. *)
Definition path_suffix (p : str) : str :=
  let name := path_name p in
  match rfind ch_dot name with
  | Some i => if (0 <? i) && (i <? length name - 1) then drop i name else []
  | None => []
  end.

(** [os.path.join(a, b)] for a relative [b]: one separator between them
    unless [a] is empty or already ends with one. *)
Definition path_join (a b : str) : str :=
  match list.last a with
  | None => b
  | Some c => if (c =? ch_slash)%N then a ++ b else a ++ [ch_slash] ++ b
  end.

(** ** Lemmas *)

Lemma path_suffix_examples :
  path_suffix (lit "src/app.py") = lit ".py" ∧
  path_suffix (lit "a/b.tar.gz") = lit ".gz" ∧
  path_suffix (lit "dir/.bashrc") = [] ∧
  path_suffix (lit "dir/name.") = [] ∧
  path_suffix (lit "dir.d/name") = [] ∧
  path_suffix (lit "a/b.py/") = lit ".py" ∧
  path_suffix (lit ".py") = [].
Proof. by vm_compute. Qed.

Lemma path_parts_examples :
  path_parts (lit "/usr//lib/./x.py") = [lit "/"; lit "usr"; lit "lib"; lit "x.py"] ∧
  path_parts (lit "a/../b") = [lit "a"; lit ".."; lit "b"] ∧
  path_parts (lit "//net/x") = [lit "//"; lit "net"; lit "x"] ∧
  path_parts (lit "///x") = [lit "/"; lit "x"].
Proof. by vm_compute. Qed.

(** A suffix is empty or a dot followed by at least one character, none of
    them a dot. *)
Lemma path_suffix_shape p :
  path_suffix p = [] ∨
  ∃ ext, path_suffix p = ch_dot :: ext ∧ ext ≠ [] ∧ ch_dot ∉ ext.
Proof.
  unfold path_suffix. destruct (rfind ch_dot (path_name p)) as [i|] eqn:Hi; [|by left].
  case_if; [|by left]. right.
  apply andb_true_iff in Heqb as [_ Hlt%Nat.ltb_lt].
  pose proof (rfind_lookup _ _ _ Hi) as Hdot. pose proof (rfind_last _ _ _ Hi) as Hlast.
  rewrite (drop_S _ _ _ Hdot). eexists. split; [done|]. split; [|done].
  intros Hnil%(f_equal length). rewrite length_drop in Hnil. simpl in Hnil. lia.
Qed.

Lemma path_join_examples :
  path_join (lit "proj") (lit "a.py") = lit "proj/a.py" ∧
  path_join (lit "proj/") (lit "a.py") = lit "proj/a.py" ∧
  path_join [] (lit "a.py") = lit "a.py".
Proof. by vm_compute. Qed.
