(* ===== verification/Batcher.v ===== *)
(** * The batcher: [build_file_section] and [chunk_files]

    src/app.py lines 104-130.  [build_file_section] formats one file as a
    labelled section; [chunk_files] packs the sections, in order, into
    batches under a character budget.  The body of the [for] loop is
    [chunk_step] over the loop's variables [chunk_state]; [chunk_loop] runs
    it over the files and [chunk_finish] is the flush after the loop.  A
    file that is no key of [file_contents] raises [KeyError], as the
    subscript does.

    [greedy] is the same packing stated on file lists alone, and [first_fit]
    is its contract: the theorems show that [chunk_files] computes [greedy],
    that [greedy] meets [first_fit], and that [first_fit] has one solution. *)

From stdpp Require Import gmap.
From S2P Require Import PyPath.

(** ** [build_file_section] *)

(** [Path(file_path).suffix.lstrip('.') or 'txt']. *)
Definition section_lang (file_path : str) : str :=
  str_or (lstrip_chars [ch_dot] (path_suffix file_path)) (lit "txt").

Definition build_file_section (file_path code : str) : str :=
  lit "### FILE PATH: " ++ file_path ++ [ch_nl] ++ lit "```" ++ section_lang file_path
    ++ [ch_nl] ++ code ++ [ch_nl] ++ lit "```" ++ [ch_nl; ch_nl].

(** ** [chunk_files] *)

(** The variables of the loop. *)
Record chunk_state : Type := ChunkState {
  batches : list str;
  batch_files : list (list str);
  current : list str;
  current_files : list str;
  cur_length : nat;
}.

Definition chunk_init : chunk_state :=
  {| batches := []; batch_files := []; current := []; current_files := []; cur_length := 0 |}.

(** One iteration of the loop, for the file [f]. *)
Definition chunk_step (file_contents : gmap (list N) (list N)) (max_chars : Z)
    (st : chunk_state) (f : str) : outcome exn chunk_state :=
  match file_contents !! f with
  | None => Raise (KeyError f)
  | Some code =>
    let section := build_file_section f code in
    if nonempty (current st) && (max_chars <? Z.of_nat (cur_length st + length section))%Z then
      Ok {| batches := batches st ++ [join_with [ch_nl] (current st)];
            batch_files := batch_files st ++ [current_files st];
            current := [section];
            current_files := [f];
            cur_length := length section |}
    else
      Ok {| batches := batches st;
            batch_files := batch_files st;
            current := current st ++ [section];
            current_files := current_files st ++ [f];
            cur_length := cur_length st + length section |}
  end.

Fixpoint chunk_loop (file_contents : gmap (list N) (list N)) (max_chars : Z)
    (st : chunk_state) (files : list str) : outcome exn chunk_state :=
  match files with
  | [] => Ok st
  | f :: files' =>
    st' <- chunk_step file_contents max_chars st f ;;
    chunk_loop file_contents max_chars st' files'
  end.

(** The flush after the loop and the returned pair. *)
Definition chunk_finish (st : chunk_state) : list str * list (list str) :=
  if nonempty (current st) then
    (batches st ++ [join_with [ch_nl] (current st)], batch_files st ++ [current_files st])
  else (batches st, batch_files st).

Definition chunk_files (files : list str) (file_contents : gmap (list N) (list N))
    (max_chars : Z) : outcome exn (list str * list (list str)) :=
  st <- chunk_loop file_contents max_chars chunk_init files ;;
  Ok (chunk_finish st).

(** ** The packing on file lists, and its contract *)

Section packing.
Context (seclen : str → nat) (max_chars : Z).

(** Total section length of a batch. *)
Definition batch_len (b : list str) : nat := sum_list_with seclen b.

(** The packing [chunk_files] performs, with [cur] the open batch. *)
Fixpoint greedy (cur : list str) (files : list str) : list (list str) :=
  match files with
  | [] => if nonempty cur then [cur] else []
  | f :: files' =>
    if nonempty cur && (max_chars <? Z.of_nat (batch_len cur + seclen f))%Z
    then cur :: greedy [f] files'
    else greedy (cur ++ [f]) files'
  end.

(** A batch fits: it is one file, or its sections sum to at most the
    budget. *)
Definition fits (b : list str) : Prop :=
  length b ≤ 1 ∨ (Z.of_nat (batch_len b) ≤ max_chars)%Z.

(** Each batch is closed only because the next file did not fit. *)
Fixpoint closed_late (bs : list (list str)) : Prop :=
  match bs with
  | b :: rest =>
    match rest with
    | (f :: _) :: _ => (max_chars < Z.of_nat (batch_len b + seclen f))%Z
    | _ => True
    end ∧ closed_late rest
  | [] => True
  end.

(** The contract of the batcher: an order-preserving first-fit packing. *)
Record first_fit (files : list str) (bs : list (list str)) : Prop := FirstFit {
  ff_partition : mjoin bs = files;
  ff_nonempty : Forall (λ b, b ≠ []) bs;
  ff_fits : Forall fits bs;
  ff_closed_late : closed_late bs;
}.

End packing.

(** The section of a file under the given contents (empty for a file with
    none), its length, and the text of a batch. *)
Definition section_of (file_contents : gmap (list N) (list N)) (f : str) : str :=
  build_file_section f (default [] (file_contents !! f)).

Definition section_len (file_contents : gmap (list N) (list N)) (f : str) : nat :=
  length (section_of file_contents f).

Definition batch_text (file_contents : gmap (list N) (list N)) (b : list str) : str :=
  join_with [ch_nl] (section_of file_contents <$> b).

(** The loop's variables describe the files seen so far. *)
Record chunk_repr (file_contents : gmap (list N) (list N)) (st : chunk_state) : Prop := ChunkRepr {
  repr_batches : batches st = batch_text file_contents <$> batch_files st;
  repr_current : current st = section_of file_contents <$> current_files st;
  repr_length : cur_length st = batch_len (section_len file_contents) (current_files st);
}.

(** ** Inputs of the concrete runs *)

(** Two files of 500 characters each: [a.py] and [b.py]. *)
Definition ex_files : list str := [lit "a.py"; lit "b.py"].
Definition ex_contents : gmap (list N) (list N) :=
  <[lit "a.py" := replicate 500 120%N]> (<[lit "b.py" := replicate 500 121%N]> ∅).
Definition ex_packing : list (list str) := [[lit "a.py"]; [lit "b.py"]].

(** Two files of one character each, whose sections are 33 characters
    long, under a budget of 66. *)
Definition ex2_contents : gmap (list N) (list N) :=
  <[lit "a.py" := lit "x"]> (<[lit "b.py" := lit "y"]> ∅).

Arguments build_file_section : simpl never.
Arguments section_of : simpl never.
Arguments section_len : simpl never.
Arguments batch_text : simpl never.
Arguments batch_len : simpl never.

(** ** Lemmas on [build_file_section] *)

(** The language tag is the extension without its dot, or [txt]. *)
Lemma section_lang_spec file_path :
  (path_suffix file_path = [] ∧ section_lang file_path = lit "txt") ∨
  (∃ ext, path_suffix file_path = ch_dot :: ext ∧ ext ≠ [] ∧ section_lang file_path = ext).
Proof.
  unfold section_lang. destruct (path_suffix_shape file_path) as [->|(ext & -> & Hne & Hdot)].
  - by left.
  - right. exists ext. split_and!; [done..|].
    unfold lstrip_chars. rewrite drop_while_cons_true by (by apply bool_decide_eq_true_2, list_elem_of_here).
    rewrite drop_while_fix; [by apply str_or_nonempty|].
    destruct ext as [|c ext]; [done|]. apply bool_decide_eq_false_2.
    intros ->%list_elem_of_singleton. apply Hdot, list_elem_of_here.
Qed.

Lemma section_lang_nonempty file_path : section_lang file_path ≠ [].
Proof.
  destruct (section_lang_spec file_path) as [[_ ->]|(ext & _ & Hne & ->)]; [|done].
  by vm_compute.
Qed.

(** The length of a section: path, tag and code, and 26 characters of
    markup. *)
Lemma length_build_file_section file_path code :
  length (build_file_section file_path code)
  = length file_path + length (section_lang file_path) + length code + 26.
Proof.
  unfold build_file_section. rewrite !length_app.
  change (length (lit "### FILE PATH: ")) with 15. change (length (lit "```")) with 3.
  simpl. lia.
Qed.

(** ** Lemmas on the packing *)

Section packing_lemmas.
Context (seclen : str → nat) (max_chars : Z).
Implicit Types (cur b : list str) (files : list str) (bs : list (list str)).
Local Abbreviation greedy := (greedy seclen max_chars).
Local Abbreviation fits := (fits seclen max_chars).
Local Abbreviation closed_late := (closed_late seclen max_chars).
Local Abbreviation first_fit := (first_fit seclen max_chars).
Local Abbreviation batch_len := (batch_len seclen).

Lemma batch_len_app b1 b2 : batch_len (b1 ++ b2) = batch_len b1 + batch_len b2.
Proof. apply sum_list_with_app. Qed.

Lemma batch_len_single f : batch_len [f] = seclen f.
Proof. unfold Batcher.batch_len. simpl. lia. Qed.

Lemma batch_len_cons f b : batch_len (f :: b) = seclen f + batch_len b.
Proof. done. Qed.

Lemma batch_len_snoc b f : batch_len (b ++ [f]) = batch_len b + seclen f.
Proof. by rewrite batch_len_app, batch_len_single. Qed.

Lemma greedy_cons cur f files :
  greedy cur (f :: files)
  = if nonempty cur && (max_chars <? Z.of_nat (batch_len cur + seclen f))%Z
    then cur :: greedy [f] files else greedy (cur ++ [f]) files.
Proof. done. Qed.

Lemma greedy_concat cur files : mjoin (greedy cur files) = cur ++ files.
Proof.
  revert cur. induction files as [|f files IH]; intros cur; simpl.
  - destruct cur; simpl; by rewrite ?app_nil_r.
  - case_if; simpl; rewrite IH; [done|]. by rewrite <-(assoc_L (++)).
Qed.

Lemma greedy_nonempty cur files : Forall (λ b, b ≠ []) (greedy cur files).
Proof.
  revert cur. induction files as [|f files IH]; intros cur; simpl.
  - destruct cur; repeat constructor; done.
  - case_if; [|done]. constructor; [|done].
    apply andb_true_iff in Heqb as [?%nonempty_true _]. done.
Qed.

(** The open batch is a prefix of the first batch produced. *)
Lemma greedy_head cur files :
  cur ≠ [] → ∃ ext bs, greedy cur files = (cur ++ ext) :: bs.
Proof.
  revert cur. induction files as [|f files IH]; intros cur Hcur; simpl.
  - destruct cur; [done|]. exists [], []. by rewrite app_nil_r.
  - case_if.
    + exists [], (greedy [f] files). by rewrite app_nil_r.
    + destruct (IH (cur ++ [f])) as (ext & bs & ->); [by destruct cur|].
      exists (f :: ext), bs. by rewrite <-(assoc_L (++)).
Qed.

Lemma fits_single f : fits [f].
Proof. left. simpl. lia. Qed.

Lemma fits_nil : fits [].
Proof. left. simpl. lia. Qed.

Lemma greedy_fits cur files : fits cur → Forall fits (greedy cur files).
Proof.
  revert cur. induction files as [|f files IH]; intros cur Hcur; simpl.
  - destruct cur; simpl; [constructor|]. by constructor; [|constructor].
  - case_if.
    + constructor; [done|]. apply IH, fits_single.
    + apply IH. apply andb_false_iff in Heqb as [Hnil|Hle].
      * destruct cur; [apply fits_single|done].
      * right. rewrite batch_len_snoc. by apply Z.ltb_ge in Hle.
Qed.

Lemma greedy_closed_late cur files : closed_late (greedy cur files).
Proof.
  revert cur. induction files as [|f files IH]; intros cur; simpl.
  - by destruct cur.
  - case_if; [|done].
    apply andb_true_iff in Heqb as [_ Hlt%Z.ltb_lt].
    specialize (IH [f]). destruct (greedy_head [f] files) as (ext & bs & Heq); [done|].
    rewrite Heq in *. by split.
Qed.

(** [greedy] from an empty open batch meets the contract. *)
Lemma greedy_first_fit files : first_fit files (greedy [] files).
Proof.
  split.
  - by rewrite greedy_concat.
  - apply greedy_nonempty.
  - apply greedy_fits, fits_nil.
  - apply greedy_closed_late.
Qed.

Lemma closed_late_tail b bs : closed_late (b :: bs) → closed_late bs.
Proof. by intros [_ ?]. Qed.

Lemma first_fit_tail files b bs : first_fit files (b :: bs) → first_fit (mjoin bs) bs.
Proof.
  intros [Hc Hn Hf Hl]. split; [done|by eapply Forall_cons_1|by eapply Forall_cons_1|].
  by eapply closed_late_tail.
Qed.

(** A batch that is followed by the file [g] could not take [g]. *)
Lemma closed_late_next b bs g tl :
  closed_late (b :: bs) → Forall (λ b, b ≠ []) bs → mjoin bs = g :: tl →
  (max_chars < Z.of_nat (batch_len b + seclen g))%Z.
Proof.
  destruct bs as [|[|f b'] bs]; simpl; [done| |].
  - intros _ Hne _. by apply Forall_cons_1 in Hne as [? _].
  - by intros [Hlt _] _ [= -> _].
Qed.

(** Of two packings of the same files, the first batch of one cannot be a
    proper prefix of the first batch of the other. *)
Lemma first_batch_not_shorter b bs b' k g :
  closed_late (b :: bs) → Forall (λ b, b ≠ []) bs → fits b' → b ≠ [] →
  b' = b ++ g :: k → (∃ tl, mjoin bs = g :: tl) → False.
Proof.
  intros Hlate Hne Hfit Hb -> [tl Htl].
  pose proof (closed_late_next _ _ _ _ Hlate Hne Htl) as Hlt.
  destruct Hfit as [Hlen|Hle].
  - rewrite length_app in Hlen. simpl in Hlen. destruct b; [done|]. simpl in Hlen. lia.
  - rewrite batch_len_app, batch_len_cons in Hle. lia.
Qed.

Lemma first_fit_unique files bs bs' : first_fit files bs → first_fit files bs' → bs = bs'.
Proof.
  revert files bs'. induction bs as [|b bs IH]; intros files bs' H H'.
  - destruct H as [<- _ _ _], H' as [Hc Hn _ _]. destruct bs' as [|b' bs']; [done|].
    apply Forall_cons_1 in Hn as [Hb' _]. simpl in Hc. by destruct b'.
  - destruct bs' as [|b' bs'].
    { destruct H as [Hc Hn _ _], H' as [<- _ _ _].
      apply Forall_cons_1 in Hn as [Hb _]. simpl in Hc. by destruct b. }
    pose proof (first_fit_tail _ _ _ H) as Ht. pose proof (first_fit_tail _ _ _ H') as Ht'.
    destruct H as [Hc Hn Hf Hl], H' as [Hc' Hn' Hf' Hl'].
    apply Forall_cons_1 in Hn as [Hb Hn], Hn' as [Hb' Hn'], Hf as [Hfb _], Hf' as [Hfb' _].
    simpl in Hc, Hc'. rewrite <-Hc' in Hc.
    assert (b = b') as <-.
    { apply app_eq_inv in Hc as [(k & Hk1 & Hk2)|(k & Hk1 & Hk2)]; destruct k as [|g k].
      - by rewrite app_nil_r in Hk1.
      - exfalso. eapply (first_batch_not_shorter b' bs' b k g); eauto.
      - by rewrite app_nil_r in Hk1.
      - exfalso. eapply (first_batch_not_shorter b bs b' k g); eauto. }
    f_equal. apply app_inv_head in Hc. rewrite <-Hc in Ht'. by eapply IH.
Qed.

(** In a first-fit packing, a file whose section alone exceeds the budget
    shares its batch with no other file. *)
Lemma greedy_oversized_alone cur files b f :
  (max_chars < Z.of_nat (seclen f))%Z → fits cur →
  b ∈ greedy cur files → f ∈ b → b = [f].
Proof.
  intros Hbig Hcur Hb Hf.
  pose proof (greedy_fits cur files Hcur) as Hfits.
  rewrite list.Forall_forall in Hfits. destruct (Hfits b Hb) as [Hlen|Hle].
  - destruct b as [|x [|y b]]; simpl in Hlen; [by apply elem_of_nil in Hf| |lia].
    by apply list_elem_of_singleton in Hf as ->.
  - exfalso. apply list_elem_of_split in Hf as (b1 & b2 & ->).
    rewrite batch_len_app, batch_len_cons in Hle. lia.
Qed.

End packing_lemmas.

(** ** [chunk_files] computes the packing *)

Section chunk_lemmas.
Context (file_contents : gmap (list N) (list N)) (max_chars : Z).
Implicit Types (st : chunk_state) (f : str) (files : list str).
Local Abbreviation seclen := (section_len file_contents).
Local Abbreviation has_content := (λ f : list N, is_Some (file_contents !! f)).
Local Abbreviation pack := (greedy (section_len file_contents) max_chars).

Lemma section_len_lookup f code :
  file_contents !! f = Some code → length (build_file_section f code) = seclen f.
Proof. intros H. unfold section_len, section_of. by rewrite H. Qed.

Lemma chunk_init_repr : chunk_repr file_contents chunk_init.
Proof. by split. Qed.

Lemma chunk_step_KeyError st f :
  file_contents !! f = None → chunk_step file_contents max_chars st f = Raise (KeyError f).
Proof. unfold chunk_step. by intros ->. Qed.

Lemma chunk_step_Ok_inv st st' f :
  chunk_step file_contents max_chars st f = Ok st' → has_content f.
Proof. unfold chunk_step. destruct (file_contents !! f); [eauto|done]. Qed.

(** One iteration moves one file from the input of the packing to its
    open batch, and keeps the representation. *)
Lemma chunk_step_greedy st f files :
  has_content f → chunk_repr file_contents st →
  ∃ st', chunk_step file_contents max_chars st f = Ok st' ∧ chunk_repr file_contents st' ∧
    batch_files st' ++ pack (current_files st') files
    = batch_files st ++ pack (current_files st) (f :: files).
Proof.
  intros [code Hcode] [Hb Hc Hl]. unfold chunk_step. rewrite Hcode. cbv beta iota zeta.
  rewrite (section_len_lookup _ _ Hcode), Hc, nonempty_fmap, Hl.
  assert (build_file_section f code = section_of file_contents f) as Hsec.
  { unfold section_of. by rewrite Hcode. }
  rewrite greedy_cons. case_if; eexists; (split; [reflexivity|]); simpl.
  - split; [split; simpl|by rewrite <-(assoc_L (++))].
    + by rewrite fmap_app, Hb.
    + by rewrite Hsec.
    + by rewrite batch_len_single.
  - split; [split; simpl|done].
    + done.
    + by rewrite fmap_app, Hsec.
    + by rewrite batch_len_snoc.
Qed.

Lemma chunk_loop_greedy st files :
  Forall has_content files → chunk_repr file_contents st →
  ∃ st', chunk_loop file_contents max_chars st files = Ok st' ∧ chunk_repr file_contents st' ∧
    batch_files st' ++ pack (current_files st') []
    = batch_files st ++ pack (current_files st) files.
Proof.
  intros Hall. revert st. induction Hall as [|f files Hf _ IH]; intros st Hst.
  - by exists st.
  - destruct (chunk_step_greedy st f files Hf Hst) as (st1 & Hstep & Hst1 & Heq).
    destruct (IH st1 Hst1) as (st' & Hloop & Hst' & Heq').
    exists st'. split_and!; [|done|by rewrite Heq', Heq]. simpl. by rewrite Hstep.
Qed.

Lemma chunk_loop_Ok_inv st st' files :
  chunk_loop file_contents max_chars st files = Ok st' → Forall has_content files.
Proof.
  revert st. induction files as [|f files IH]; intros st; simpl; [by constructor|].
  intros (st1 & Hstep & Hloop)%outcome_bind_Ok_inv. constructor.
  - by eapply chunk_step_Ok_inv.
  - by eapply IH.
Qed.

(** The loop stops at the first file without content. *)
Lemma chunk_loop_KeyError st pre f post :
  Forall has_content pre → file_contents !! f = None → chunk_repr file_contents st →
  chunk_loop file_contents max_chars st (pre ++ f :: post) = Raise (KeyError f).
Proof.
  intros Hpre Hf. revert st. induction Hpre as [|g pre Hg _ IH]; intros st Hst; simpl.
  - by rewrite chunk_step_KeyError.
  - destruct (chunk_step_greedy st g [] Hg Hst) as (st1 & -> & Hst1 & _). simpl. by apply IH.
Qed.

Lemma chunk_finish_repr st :
  chunk_repr file_contents st →
  chunk_finish st
  = (batch_text file_contents <$> (batch_files st ++ pack (current_files st) []),
     batch_files st ++ pack (current_files st) []).
Proof.
  intros [Hb Hc Hl]. unfold chunk_finish. rewrite Hc, nonempty_fmap. simpl.
  destruct (nonempty (current_files st)).
  - by rewrite fmap_app, Hb.
  - by rewrite app_nil_r, Hb.
Qed.

(** With every file in the dictionary, [chunk_files] returns: the packing
    of the files, with the texts of its batches. *)
Lemma chunk_files_run files :
  Forall has_content files →
  ∃ bfs, chunk_files files file_contents max_chars = Ok (batch_text file_contents <$> bfs, bfs) ∧
         mjoin bfs = files.
Proof.
  intros Hall. unfold chunk_files.
  destruct (chunk_loop_greedy chunk_init files Hall chunk_init_repr) as (st & -> & Hst & Hpack).
  simpl. rewrite (chunk_finish_repr _ Hst). eexists. split; [done|].
  rewrite Hpack. simpl. apply greedy_concat.
Qed.

End chunk_lemmas.

(** ** Theorems on [chunk_files] *)

Section chunk_files_theorems.
Context (file_contents : gmap (list N) (list N)) (max_chars : Z).
Implicit Types (f : str) (files : list str) (b : list str) (bs : list str) (bfs : list (list str)).
Local Abbreviation seclen := (section_len file_contents).
Local Abbreviation has_content := (λ f : list N, is_Some (file_contents !! f)).
Local Abbreviation pack := (greedy (section_len file_contents) max_chars).

(** C11: when every file has an entry in [file_contents], [chunk_files]
    returns the first-fit packing [greedy] of the files, started from an empty
    open batch, together with the text of each batch: the sections of its
    files joined by a newline. *)
Theorem chunk_files_greedy files :
  Forall has_content files →
  chunk_files files file_contents max_chars
  = Ok (batch_text file_contents <$> pack [] files, pack [] files).
Proof.
  intros Hall. unfold chunk_files.
  destruct (chunk_loop_greedy file_contents max_chars chunk_init files Hall
              (chunk_init_repr _)) as (st & -> & Hst & Heq).
  simpl. by rewrite (chunk_finish_repr file_contents max_chars st Hst), Heq.
Qed.

(** A file that is no key of [file_contents] makes [chunk_files] raise
    [KeyError] for the first such file; no batch is returned. *)
Theorem chunk_files_KeyError pre f post :
  Forall has_content pre → file_contents !! f = None →
  chunk_files (pre ++ f :: post) file_contents max_chars = Raise (KeyError f).
Proof.
  intros Hpre Hf. unfold chunk_files.
  by rewrite (chunk_loop_KeyError _ _ _ _ _ _ Hpre Hf (chunk_init_repr _)).
Qed.

(** Whatever [chunk_files] returns is the packing and its texts. *)
Lemma chunk_files_Ok_inv files bs bfs :
  chunk_files files file_contents max_chars = Ok (bs, bfs) →
  Forall has_content files ∧ bfs = pack [] files ∧ bs = batch_text file_contents <$> bfs.
Proof.
  intros H. assert (Forall has_content files) as Hall.
  { unfold chunk_files in H. apply outcome_bind_Ok_inv in H as (st & Hloop & _).
    by eapply chunk_loop_Ok_inv. }
  rewrite (chunk_files_greedy _ Hall) in H. by simplify_eq.
Qed.

(** C1: the batches partition the input: concatenating the returned file
    lists in order gives back the file list, no batch is empty, and the two
    returned lists have one entry per batch, the text being that of the
    batch's files. *)
Theorem chunk_files_partition files bs bfs :
  chunk_files files file_contents max_chars = Ok (bs, bfs) →
  mjoin bfs = files ∧ Forall (λ b, b ≠ []) bfs ∧ bs = batch_text file_contents <$> bfs.
Proof.
  intros (_ & -> & ->)%chunk_files_Ok_inv. split_and!; [|apply greedy_nonempty|done].
  by rewrite greedy_concat.
Qed.

(** C7: the returned batches meet the contract [first_fit]: they partition
    the files in order, none is empty, a batch of several files has sections
    that sum to at most [max_chars], and each batch but the last is followed
    by a file that did not fit into it. *)
Theorem chunk_files_first_fit files bs bfs :
  chunk_files files file_contents max_chars = Ok (bs, bfs) →
  first_fit seclen max_chars files bfs.
Proof. intros (_ & -> & _)%chunk_files_Ok_inv. apply greedy_first_fit. Qed.

(** The contract determines the result: any packing of the files that
    meets [first_fit] is the one [chunk_files] returns. *)
Theorem chunk_files_unique files bfs :
  Forall has_content files → first_fit seclen max_chars files bfs →
  chunk_files files file_contents max_chars = Ok (batch_text file_contents <$> bfs, bfs).
Proof.
  intros Hall Hff. rewrite (chunk_files_greedy _ Hall).
  by rewrite (first_fit_unique _ _ _ _ _ (greedy_first_fit _ _ files) Hff).
Qed.

(** A file whose section alone is longer than the budget is never
    dropped and never shares a batch: the batch that holds it is that file
    alone. *)
Theorem chunk_files_oversized_alone files bs bfs f :
  chunk_files files file_contents max_chars = Ok (bs, bfs) →
  f ∈ files → (max_chars < Z.of_nat (seclen f))%Z →
  ∃ b, b ∈ bfs ∧ f ∈ b ∧ ∀ b', b' ∈ bfs → f ∈ b' → b' = [f].
Proof.
  intros (_ & -> & _)%chunk_files_Ok_inv Hf Hbig.
  assert (f ∈ mjoin (pack [] files)) as Hin by by rewrite greedy_concat.
  apply list_elem_of_join in Hin as (b & Hfb & Hb). exists b. split_and!; [done..|].
  intros b' Hb' Hfb'. eapply greedy_oversized_alone; eauto using fits_nil.
Qed.

Lemma sum_list_with_fmap {A B} (g : B → nat) (h : A → B) (l : list A) :
  sum_list_with g (h <$> l) = sum_list_with (g ∘ h) l.
Proof. induction l as [|x l IH]; simpl; [done|]. by f_equal. Qed.

Lemma length_batch_text b :
  length (batch_text file_contents b) = batch_len seclen b + (length b - 1).
Proof.
  unfold batch_text. rewrite length_join_with, sum_list_with_fmap, length_fmap. simpl.
  unfold batch_len. change (length ∘ section_of file_contents) with seclen. lia.
Qed.

(** C28: the text of a batch is as long as its sections and the newlines
    between them, so a batch of [n >= 2] files has a text of at most
    [max_chars + n - 1] characters: the budget bounds the sections, not the
    separators. *)
Theorem chunk_files_budget files bs bfs :
  chunk_files files file_contents max_chars = Ok (bs, bfs) →
  Forall2 (λ text b,
    length text = batch_len seclen b + (length b - 1) ∧
    (2 ≤ length b → (Z.of_nat (length text) ≤ max_chars + Z.of_nat (length b) - 1)%Z))
    bs bfs.
Proof.
  intros (_ & -> & ->)%chunk_files_Ok_inv.
  pose proof (greedy_fits seclen max_chars [] files (fits_nil _ _)) as Hfits.
  apply Forall2_fmap_l, Forall_Forall2_diag.
  eapply list.Forall_impl; [exact Hfits|]. intros b Hb. simpl. rewrite length_batch_text.
  split; [done|]. intros Hlen. destruct Hb as [?|Hle]; lia.
Qed.

End chunk_files_theorems.

(** ** Concrete runs *)

Lemma ex_has_content : Forall (λ f, is_Some (ex_contents !! f)) ex_files.
Proof. apply (bool_decide_unpack _). by vm_compute. Qed.

Lemma ex_run :
  chunk_files ex_files ex_contents 600
  = Ok (batch_text ex_contents <$> ex_packing, ex_packing).
Proof. by vm_compute. Qed.

(** The scenario of two files of 500 characters under a budget of 600:
    two batches of one file each. *)
Example chunk_files_scenario :
  length <$> ex_contents = <[lit "a.py" := 500]> (<[lit "b.py" := 500]> ∅) ∧
  outcome_map snd (chunk_files ex_files ex_contents 600) = Ok ex_packing.
Proof. split; by vm_compute. Qed.

Lemma ex_run_100 :
  chunk_files ex_files ex_contents 100
  = Ok (batch_text ex_contents <$> ex_packing, ex_packing).
Proof. by vm_compute. Qed.

Lemma ex_first_fit : first_fit (section_len ex_contents) 600 ex_files ex_packing.
Proof.
  replace ex_packing with (greedy (section_len ex_contents) 600 [] ex_files) by by vm_compute.
  apply greedy_first_fit.
Qed.

Lemma ex2_run :
  chunk_files ex_files ex2_contents 66
  = Ok (batch_text ex2_contents <$> [ex_files], [ex_files]).
Proof. by vm_compute. Qed.

(** The text of a batch can be longer than the budget: two sections of
    33 characters fill a budget of 66 exactly and are sent as one batch of 67
    characters, the newline between them included. *)
Example batch_text_exceeds_budget :
  ∃ text, chunk_files ex_files ex2_contents 66 = Ok ([text], [ex_files]) ∧
          length text = 67 ∧ (66 < Z.of_nat (length text))%Z.
Proof. eexists. split; [by vm_compute|]. split; by vm_compute. Qed.

Lemma chunk_files_greedy_witness :
  chunk_files ex_files ex_contents 600
  = Ok (batch_text ex_contents <$> greedy (section_len ex_contents) 600 [] ex_files,
        greedy (section_len ex_contents) 600 [] ex_files).
Proof. exact (chunk_files_greedy ex_contents 600 ex_files ex_has_content). Defined.

Lemma chunk_files_KeyError_witness :
  chunk_files ([lit "a.py"] ++ lit "c.js" :: [lit "b.py"]) ex_contents 600
  = Raise (KeyError (lit "c.js")).
Proof.
  apply chunk_files_KeyError; [apply (bool_decide_unpack _)|]; by vm_compute.
Defined.

Lemma chunk_files_partition_witness :
  mjoin ex_packing = ex_files ∧ Forall (λ b, b ≠ []) ex_packing ∧
  batch_text ex_contents <$> ex_packing = batch_text ex_contents <$> ex_packing.
Proof. exact (chunk_files_partition ex_contents 600 ex_files _ _ ex_run). Defined.

Lemma chunk_files_first_fit_witness :
  first_fit (section_len ex_contents) 600 ex_files ex_packing.
Proof. exact (chunk_files_first_fit ex_contents 600 ex_files _ _ ex_run). Defined.

Lemma chunk_files_unique_witness :
  chunk_files ex_files ex_contents 600
  = Ok (batch_text ex_contents <$> ex_packing, ex_packing).
Proof. exact (chunk_files_unique ex_contents 600 ex_files _ ex_has_content ex_first_fit). Defined.

Lemma chunk_files_oversized_alone_witness :
  ∃ b, b ∈ ex_packing ∧ lit "a.py" ∈ b ∧
       ∀ b', b' ∈ ex_packing → lit "a.py" ∈ b' → b' = [lit "a.py"].
Proof.
  apply (chunk_files_oversized_alone ex_contents 100 ex_files _ _ _ ex_run_100).
  - apply list_elem_of_here.
  - by vm_compute.
Defined.

Lemma chunk_files_budget_witness :
  Forall2 (λ text b,
    length text = batch_len (section_len ex2_contents) b + (length b - 1) ∧
    (2 ≤ length b → (Z.of_nat (length text) ≤ 66 + Z.of_nat (length b) - 1)%Z))
    (batch_text ex2_contents <$> [ex_files]) [ex_files].
Proof. exact (chunk_files_budget ex2_contents 66 ex_files _ _ ex2_run). Defined.
