(* ===== verification/Regex.v ===== *)
(** * Regular expressions of Python's [re], as far as the program uses them

    The patterns of src/app.py are built from literals, character classes,
    concatenation, alternation, the greedy quantifiers [*], [+] and [?], and
    the anchors [^] and [$] (without [re.MULTILINE]).  [regex] is that
    syntax and [run] is a backtracking matcher in continuation-passing style
    that tries the alternatives in the order CPython's engine does: the left
    branch of [|] first, one more iteration of [*] before none.  An iteration
    of [*] that consumes nothing ends the repetition, as the engine's guard
    against empty loops does.  [re_sub] is [re.sub] with a constant
    replacement: the leftmost match is replaced, the scan goes on after it,
    and an empty match is not accepted where the previous match ended empty
    (Python 3.7 and later).

    The repetition and the scan of [re_sub] recurse on a counter; the lemmas
    [star_loop_fuel] and the closed forms show that the counters chosen are
    never exhausted. *)

From S2P Require Import PyStr.

(** ** Syntax *)

Inductive regex : Type :=
| Eps
| Class (p : N → bool)
| Seq (r1 r2 : regex)
| Alt (r1 r2 : regex)
| Star (r : regex)
| Bol
| Eol.

(** [r?] and [r+], greedy. *)
Definition Opt (r : regex) : regex := Alt r Eps.
Definition Plus (r : regex) : regex := Seq r (Star r).

(** One given character. *)
Definition Chr (c : char) : regex := Class (λ x, (x =? c)%N).

(** A literal string. *)
Fixpoint Lit (s : str) : regex :=
  match s with
  | [] => Eps
  | c :: s' => Seq (Chr c) (Lit s')
  end.

(** Whether [c] matches the pattern character [p] under [re.IGNORECASE], for
    an ASCII [p]: the two cases of [p], and the characters whose simple case
    mapping reaches it (dotted capital I and dotless i for [i], long s for
    [s], the Kelvin sign for [k]). *)
Definition ci_eq (p c : char) : bool :=
  let lp := ascii_lower p in
  ((c <? 128) && (ascii_lower c =? lp)
   || (lp =? 105) && ((c =? 304) || (c =? 305))
   || (lp =? 115) && (c =? 383)
   || (lp =? 107) && (c =? 8490))%N.

(** A literal string under [re.IGNORECASE]. *)
Fixpoint LitI (s : str) : regex :=
  match s with
  | [] => Eps
  | c :: s' => Seq (Class (ci_eq c)) (LitI s')
  end.

(** [s] starts with [pat] under [re.IGNORECASE]. *)
Fixpoint startswith_ci (s pat : str) {struct pat} : bool :=
  match pat with
  | [] => true
  | p :: pat' =>
    match s with
    | c :: s' => ci_eq p c && startswith_ci s' pat'
    | [] => false
    end
  end.

(** ** Matching *)

(** [$] without [re.MULTILINE]: at the end, or before a final newline. *)
Definition at_eol (s : str) : bool :=
  match s with
  | [] => true
  | [c] => (c =? ch_nl)%N
  | _ => false
  end.

(** The repetition [body*] followed by [k], at position [i] with [s] left:
    one more iteration first, then none.  An iteration that does not advance
    hands over to [k]. *)
Fixpoint star_loop {A} (body : nat → str → (nat → str → option A) → option A)
    (k : nat → str → option A) (fuel : nat) (i : nat) (s : str) : option A :=
  match fuel with
  | 0 => k i s
  | S fuel' =>
    match body i s (λ j t, if j =? i then k j t else star_loop body k fuel' j t) with
    | Some a => Some a
    | None => k i s
    end
  end.

(** [run r i s k]: match [r] at position [i], where [s] is what is left of
    the subject, and hand the position and the rest after the match to [k];
    when [k] fails, the next way of matching [r] is tried. *)
Fixpoint run {A} (r : regex) (i : nat) (s : str) (k : nat → str → option A) : option A :=
  match r with
  | Eps => k i s
  | Class p =>
    match s with
    | c :: s' => if p c then k (S i) s' else None
    | [] => None
    end
  | Seq r1 r2 => run r1 i s (λ j t, run r2 j t k)
  | Alt r1 r2 =>
    match run r1 i s k with
    | Some a => Some a
    | None => run r2 i s k
    end
  | Star r1 => star_loop (λ i s k', run r1 i s k') k (S (length s)) i s
  | Bol => if i =? 0 then k i s else None
  | Eol => if at_eol s then k i s else None
  end.

(** The match of [r] at position [i], if any: where it ends and what is
    left.  With [must_advance], an empty match is not accepted. *)
Definition match_at (r : regex) (must_advance : bool) (i : nat) (s : str) : option (nat * str) :=
  run r i s (λ j t, if must_advance && (j =? i) then None else Some (j, t)).

(** [re.match(r, s)]: a match at the start of [s]. *)
Definition re_match (r : regex) (s : str) : option (nat * str) := match_at r false 0 s.

(** The leftmost match at or after position [i]: the text skipped before
    it, where it ends and what is left. *)
Fixpoint search (r : regex) (must_advance : bool) (i : nat) (s : str) : option (str * nat * str) :=
  match match_at r must_advance i s with
  | Some (j, t) => Some ([], j, t)
  | None =>
    match s with
    | [] => None
    | c :: s' =>
      match search r false (S i) s' with
      | Some (pre, j, t) => Some (c :: pre, j, t)
      | None => None
      end
    end
  end.

(** The loop of [re.sub]: replace the leftmost match and go on after it. *)
Fixpoint sub_loop (fuel : nat) (r : regex) (repl : str) (must_advance : bool)
    (i : nat) (s : str) : str :=
  match fuel with
  | 0 => s
  | S fuel' =>
    match search r must_advance i s with
    | None => s
    | Some (pre, j, t) =>
      pre ++ repl ++ sub_loop fuel' r repl (j =? i + length pre) j t
    end
  end.

(** [re.sub(r, repl, s)] for a replacement without group references. *)
Definition re_sub (r : regex) (repl : str) (s : str) : str :=
  sub_loop (2 * length s + 2) r repl false 0 s.

(** The loop of [re.split] for a pattern that is one capturing group: the
    text before the leftmost match, the match, and so on after it. *)
Fixpoint split_loop (fuel : nat) (r : regex) (must_advance : bool) (i : nat) (s : str)
    : list str :=
  match fuel with
  | 0 => [s]
  | S fuel' =>
    match search r must_advance i s with
    | None => [s]
    | Some (pre, j, t) =>
      pre :: take (j - (i + length pre)) (drop (length pre) s)
          :: split_loop fuel' r (j =? i + length pre) j t
    end
  end.

(** [re.split('(' r ')', s)]. *)
Definition re_split_group (r : regex) (s : str) : list str :=
  split_loop (2 * length s + 2) r false 0 s.

(** ** Closed forms used by the lemmas *)

(** [p*] followed by [k]: the longest run of [p] first, then shorter ones. *)
Fixpoint star_class {A} (p : N → bool) (k : nat → str → option A) (i : nat) (s : str) : option A :=
  match s with
  | c :: s' =>
    if p c then
      match star_class p k (S i) s' with
      | Some a => Some a
      | None => k i s
      end
    else k i s
  | [] => k i s
  end.

(** ** Predicates on continuations *)

(** Whatever [run] returns comes from its continuation, called at a
    position at or after the start, with as much text left as the subject
    had there. *)
Definition reached {A} (k : nat → str → option A) (i : nat) (s : str) (a : A) : Prop :=
  ∃ j t, k j t = Some a ∧ i ≤ j ∧ length t + (j - i) = length s.

(** Two continuations that agree wherever a match from [i] on [s] can end. *)
Definition agree {A} (k k' : nat → str → option A) (i : nat) (s : str) : Prop :=
  ∀ j t, i ≤ j → length t + (j - i) = length s → k j t = k' j t.

(** [body] consults its continuation only where a match can end. *)
Definition local {A} (body : nat → str → (nat → str → option A) → option A) : Prop :=
  ∀ i s k k', agree k k' i s → body i s k = body i s k'.

(** ** What a pattern matches

    [matches r i s j t]: from position [i], where [s] is left of the
    subject, [r] can match up to position [j], leaving [t].  This is the
    usual meaning of a regular expression, with the two anchors; a
    repetition is a sequence of iterations that each consume something. *)
Inductive matches : regex → nat → str → nat → str → Prop :=
| matches_eps i s : matches Eps i s i s
| matches_class p c i s : p c = true → matches (Class p) i (c :: s) (S i) s
| matches_seq r1 r2 i s j t j' t' :
    matches r1 i s j t → matches r2 j t j' t' → matches (Seq r1 r2) i s j' t'
| matches_alt_l r1 r2 i s j t : matches r1 i s j t → matches (Alt r1 r2) i s j t
| matches_alt_r r1 r2 i s j t : matches r2 i s j t → matches (Alt r1 r2) i s j t
| matches_star_nil r i s : matches (Star r) i s i s
| matches_star_cons r i s j t j' t' :
    matches r i s j t → j ≠ i → matches (Star r) j t j' t' → matches (Star r) i s j' t'
| matches_bol s : matches Bol 0 s 0 s
| matches_eol i s : at_eol s = true → matches Eol i s i s.

(** Every character class of [r] lies within [C]. *)
Fixpoint classes_in (C : N → bool) (r : regex) : Prop :=
  match r with
  | Class p => ∀ c, p c = true → C c = true
  | Seq r1 r2 | Alt r1 r2 => classes_in C r1 ∧ classes_in C r2
  | Star r1 => classes_in C r1
  | Eps | Bol | Eol => True
  end.

(** [r] ends with [$]. *)
Fixpoint ends_eol (r : regex) : bool :=
  match r with
  | Seq _ r2 => ends_eol r2
  | Eol => true
  | _ => false
  end.

(** ** Lemmas *)

Lemma run_examples :
  re_match (Seq (Lit (lit "ab")) (Star (Chr 99))) (lit "abccd") = Some (4, lit "d") ∧
  re_match (Seq (Star (Chr 97)) (Lit (lit "ab"))) (lit "aaab") = Some (4, []) ∧
  re_match (Seq (Opt (Chr 97)) (Lit (lit "ab"))) (lit "ab") = Some (2, []) ∧
  re_match (Seq (Lit (lit "a")) Eol) (lit "a
") = Some (1, [ch_nl]) ∧
  re_match (Star (Alt Eps (Chr 97))) (lit "a") = Some (0, lit "a") ∧
  re_sub (Star (Chr 120)) (lit "-") (lit "abxd") = lit "-a-b--d-" ∧
  re_sub (Chr 97) (lit "bc") (lit "banana") = lit "bbcnbcnbc".
Proof. by vm_compute. Qed.

Section run_lemmas.
Context {A : Type}.
Implicit Types (k : nat → str → option A) (i j : nat) (s t : str) (p : N → bool).

Lemma run_seq r1 r2 i s k : run (Seq r1 r2) i s k = run r1 i s (λ j t, run r2 j t k).
Proof. done. Qed.

Lemma run_chr_cons c x s i k :
  run (Chr c) i (x :: s) k = if (x =? c)%N then k (S i) s else None.
Proof. done. Qed.

(** A literal matches exactly when the text starts with it. *)
Lemma run_lit l i s k :
  run (Lit l) i s k
  = if startswith s l then k (i + length l) (drop (length l) s) else None.
Proof.
  revert i s. induction l as [|c l IH]; intros i s; simpl.
  - by rewrite Nat.add_0_r.
  - destruct s as [|x s]; [done|]. simpl. destruct (x =? c)%N; simpl; [|done].
    rewrite IH. by replace (S i + length l) with (i + S (length l)) by lia.
Qed.

Lemma run_opt r i s k :
  run (Opt r) i s k = match run r i s k with Some a => Some a | None => k i s end.
Proof. done. Qed.

Lemma run_bol_0 r s k : run (Seq Bol r) 0 s k = run r 0 s k.
Proof. done. Qed.

Lemma run_bol_S r i s k : run (Seq Bol r) (S i) s k = None.
Proof. done. Qed.

(** [p*] is [star_class], for any counter above the length of the text:
    the counter of the repetition is never exhausted. *)
Lemma star_loop_S (body : nat → str → (nat → str → option A) → option A) k fuel i s :
  star_loop body k (S fuel) i s
  = match body i s (λ j t, if j =? i then k j t else star_loop body k fuel j t) with
    | Some a => Some a
    | None => k i s
    end.
Proof. done. Qed.

Lemma eqb_succ_self i : (S i =? i) = false.
Proof. apply Nat.eqb_neq. lia. Qed.

Lemma star_loop_class p k fuel i s :
  length s < fuel →
  star_loop (λ i s k', run (Class p) i s k') k fuel i s = star_class p k i s.
Proof.
  revert fuel i. induction s as [|c s IH]; intros fuel i Hfuel;
    (destruct fuel as [|fuel]; [simpl in Hfuel; lia|]); rewrite star_loop_S; cbn [run star_class];
    [done|].
  destruct (p c); [|done]. rewrite eqb_succ_self, IH; [done|]. simpl in Hfuel. lia.
Qed.

Lemma run_star_class p i s k : run (Star (Class p)) i s k = star_class p k i s.
Proof. apply star_loop_class. lia. Qed.

(** When the continuation succeeds after the longest run, that is the
    match. *)
Lemma star_class_greedy p k i s a :
  k (i + length (take_while p s)) (drop_while p s) = Some a →
  star_class p k i s = Some a.
Proof.
  revert i. induction s as [|c s IH]; intros i; simpl.
  - by rewrite Nat.add_0_r.
  - destruct (p c); simpl; [|by rewrite Nat.add_0_r].
    intros Hk. rewrite (IH (S i)); [done|].
    by replace (S i + length (take_while p s)) with (i + S (length (take_while p s))) by lia.
Qed.

(** When the continuation fails on every text that starts with a character
    of the class, giving back characters cannot help: the repetition takes
    the longest run. *)
Lemma star_class_commit p k i s :
  (∀ j t, head_is p t = true → k j t = None) →
  star_class p k i s = k (i + length (take_while p s)) (drop_while p s).
Proof.
  intros Hk. revert i. induction s as [|c s IH]; intros i; simpl.
  - by rewrite Nat.add_0_r.
  - destruct (p c) eqn:Hc; simpl; [|by rewrite Nat.add_0_r].
    rewrite (IH (S i)).
    replace (S i + length (take_while p s)) with (i + S (length (take_while p s))) by lia.
    destruct (k _ (drop_while p s)); [done|]. apply Hk. simpl. done.
Qed.

End run_lemmas.

Lemma search_eq r must_advance i s :
  search r must_advance i s
  = match match_at r must_advance i s with
    | Some (j, t) => Some ([], j, t)
    | None =>
      match s with
      | [] => None
      | c :: s' =>
        match search r false (S i) s' with
        | Some (pre, j, t) => Some (c :: pre, j, t)
        | None => None
        end
      end
    end.
Proof. by destruct s. Qed.

Lemma sub_loop_S fuel r repl must_advance i s :
  sub_loop (S fuel) r repl must_advance i s
  = match search r must_advance i s with
    | None => s
    | Some (pre, j, t) => pre ++ repl ++ sub_loop fuel r repl (j =? i + length pre) j t
    end.
Proof. done. Qed.

Lemma match_at_bol_S r must_advance i s : match_at (Seq Bol r) must_advance (S i) s = None.
Proof. done. Qed.

Lemma match_at_bol_0 r must_advance s :
  match_at (Seq Bol r) must_advance 0 s = match_at r must_advance 0 s.
Proof. done. Qed.

(** A pattern anchored at the start matches nowhere else. *)
Lemma search_bol_S r must_advance i s : search (Seq Bol r) must_advance (S i) s = None.
Proof.
  revert must_advance i. induction s as [|c s IH]; intros m i;
    rewrite search_eq, match_at_bol_S; [done|]. by rewrite IH.
Qed.

Lemma search_bol_0 r s :
  search (Seq Bol r) false 0 s
  = match match_at r false 0 s with Some (j, t) => Some ([], j, t) | None => None end.
Proof.
  rewrite search_eq, match_at_bol_0. destruct (match_at r false 0 s) as [[]|]; [done|].
  destruct s; [done|]. by rewrite search_bol_S.
Qed.

(** [re.sub] with a pattern anchored at the start: a match that is not
    empty is replaced and nothing else is; without a match the text is
    unchanged. *)
Lemma re_sub_bol_match r repl s j t :
  match_at r false 0 s = Some (S j, t) → re_sub (Seq Bol r) repl s = repl ++ t.
Proof.
  intros Hm. unfold re_sub. replace (2 * length s + 2) with (S (S (2 * length s))) by lia.
  rewrite sub_loop_S, search_bol_0, Hm, sub_loop_S, search_bol_S. done.
Qed.

Lemma re_sub_bol_nomatch r repl s :
  match_at r false 0 s = None → re_sub (Seq Bol r) repl s = s.
Proof.
  intros Hm. unfold re_sub. replace (2 * length s + 2) with (S (2 * length s + 1)) by lia.
  by rewrite sub_loop_S, search_bol_0, Hm.
Qed.

(** The scan of [re.sub], one position at a time: a match here is
    replaced and the scan goes on after it; without one the character is
    kept. *)
Lemma sub_loop_hit fuel r repl i s j t :
  match_at r false i s = Some (j, t) →
  sub_loop (S fuel) r repl false i s = repl ++ sub_loop fuel r repl (j =? i) j t.
Proof.
  intros Hm. rewrite sub_loop_S, search_eq, Hm. simpl. by rewrite Nat.add_0_r.
Qed.

Lemma sub_loop_skip fuel r repl i c s :
  match_at r false i (c :: s) = None →
  sub_loop (S fuel) r repl false i (c :: s) = c :: sub_loop (S fuel) r repl false (S i) s.
Proof.
  intros Hm. rewrite !sub_loop_S, (search_eq _ _ i), Hm.
  destruct (search r false (S i) s) as [[[pre j] t]|]; [|done].
  simpl. by replace (i + S (length pre)) with (S (i + length pre)) by lia.
Qed.

Lemma sub_loop_nil fuel r repl must_advance i :
  match_at r must_advance i [] = None → sub_loop fuel r repl must_advance i [] = [].
Proof. intros Hm. destruct fuel; [done|]. by rewrite sub_loop_S, search_eq, Hm. Qed.

(** ** Positions *)

Lemma reached_here {A} (k : nat → str → option A) i s a : k i s = Some a → reached k i s a.
Proof. intros H. exists i, s. split_and!; [done|lia..]. Qed.

Lemma reached_trans {A} (k k' : nat → str → option A) i s a :
  reached k' i s a → (∀ j t, k' j t = Some a → i ≤ j → length t + (j - i) = length s →
                             reached k j t a) →
  reached k i s a.
Proof.
  intros (j & t & Hk' & Hij & Hlen) H. destruct (H j t Hk' Hij Hlen) as (j' & t' & Hk & ? & ?).
  exists j', t'. split_and!; [done|lia..].
Qed.

Lemma star_loop_result {A} (body : nat → str → (nat → str → option A) → option A) k fuel i s a :
  (∀ i s k a, body i s k = Some a → reached k i s a) →
  star_loop body k fuel i s = Some a → reached k i s a.
Proof.
  intros Hbody. revert i s. induction fuel as [|fuel IH]; intros i s; [apply reached_here|].
  rewrite star_loop_S. destruct (body i s _) as [b|] eqn:Hb; [|apply reached_here].
  intros [= ->]. apply Hbody in Hb. eapply reached_trans; [exact Hb|].
  intros j t Hjt Hij Hlen. simpl in Hjt. destruct (j =? i); [by apply reached_here|by apply IH].
Qed.

Lemma run_result {A} r i s (k : nat → str → option A) a :
  run r i s k = Some a → reached k i s a.
Proof.
  revert i s k a. induction r as [|p|r1 IH1 r2 IH2|r1 IH1 r2 IH2|r1 IH1| |]; intros i s k a;
    cbn [run].
  - apply reached_here.
  - destruct s as [|c s]; [done|]. destruct (p c); [|done]. intros H.
    exists (S i), s. split_and!; [done|lia|simpl; lia].
  - intros H%IH1. eapply reached_trans; [exact H|]. intros j t Hjt _ _. by apply IH2.
  - destruct (run r1 i s k) as [b|] eqn:Hb; [intros [= ->]; by apply IH1|apply IH2].
  - apply star_loop_result. intros i' s' k' a'. apply IH1.
  - destruct (i =? 0); [apply reached_here|done].
  - destruct (at_eol s); [apply reached_here|done].
Qed.

(** A match ends where the text it leaves starts; an empty match leaves the
    whole text, and is not accepted under [must_advance]. *)
Lemma match_at_pos r must_advance i s j t :
  match_at r must_advance i s = Some (j, t) →
  i ≤ j ∧ length t + (j - i) = length s ∧ (must_advance = true → i < j).
Proof.
  intros (j' & t' & Hk & Hij & Hlen)%run_result. simpl in Hk.
  destruct must_advance; simpl in Hk.
  - destruct (j' =? i) eqn:Hji; [done|]. apply Nat.eqb_neq in Hji. simplify_eq.
    split_and!; [done..|]. intros _. lia.
  - simplify_eq. by split_and!.
Qed.

Lemma match_at_shorter r must_advance i s j t :
  match_at r must_advance i s = Some (j, t) → length t < length s → i < j.
Proof. intros (? & ? & _)%match_at_pos ?. lia. Qed.

(** [re.sub] with a pattern anchored at the start: a match that is not
    empty is replaced and nothing else is. *)
Lemma re_sub_bol_shorter r repl s j t :
  match_at r false 0 s = Some (j, t) → length t < length s →
  re_sub (Seq Bol r) repl s = repl ++ t.
Proof.
  intros Hm Hlt. pose proof (match_at_shorter _ _ _ _ _ _ Hm Hlt) as Hj.
  destruct j as [|j]; [lia|]. by eapply re_sub_bol_match.
Qed.

(** ** The counters are never exhausted *)

Lemma agree_here {A} (k k' : nat → str → option A) i s : agree k k' i s → k i s = k' i s.
Proof. intros H. apply H; lia. Qed.

Lemma agree_later {A} (k k' : nat → str → option A) i s j t :
  agree k k' i s → i ≤ j → length t + (j - i) = length s → agree k k' j t.
Proof. intros H Hij Hlen j' t' Hjj' Hlen'. apply H; lia. Qed.

Section locality.
Context {A : Type}.
Implicit Types (k : nat → str → option A) (body : nat → str → (nat → str → option A) → option A).

Lemma star_loop_local body fuel i s k k' :
  local body → agree k k' i s → star_loop body k fuel i s = star_loop body k' fuel i s.
Proof.
  intros Hbody. revert i s. induction fuel as [|fuel IH]; intros i s Hk; [by apply agree_here|].
  rewrite !star_loop_S, (agree_here _ _ _ _ Hk).
  erewrite Hbody; [done|]. intros j t Hij Hlen. simpl.
  destruct (j =? i); [by apply Hk|]. apply IH. by eapply agree_later.
Qed.

Lemma run_local r : local (λ i s k, run r i s k).
Proof.
  induction r as [|p|r1 IH1 r2 IH2|r1 IH1 r2 IH2|r1 IH1| |]; intros i s k k' Hk; cbn [run].
  - by apply agree_here.
  - destruct s as [|c s]; [done|]. destruct (p c); [|done]. apply Hk; simpl; lia.
  - apply IH1. intros j t Hij Hlen. apply IH2. by eapply agree_later.
  - by rewrite (IH1 _ _ _ _ Hk), (IH2 _ _ _ _ Hk).
  - by apply star_loop_local.
  - destruct (i =? 0); [by apply agree_here|done].
  - destruct (at_eol s); [by apply agree_here|done].
Qed.

(** Any counter above the length of the text gives the same repetition:
    every iteration but the last consumes a character. *)
Lemma star_loop_fuel body k fuel fuel' i s :
  local body → length s < fuel → length s < fuel' →
  star_loop body k fuel i s = star_loop body k fuel' i s.
Proof.
  intros Hbody. revert fuel' i s. induction fuel as [|fuel IH]; intros fuel' i s Hf Hf'; [lia|].
  destruct fuel' as [|fuel']; [lia|]. rewrite !star_loop_S.
  erewrite Hbody; [done|]. intros j t Hij Hlen. simpl.
  destruct (j =? i) eqn:Hji; [done|]. apply Nat.eqb_neq in Hji. apply IH; lia.
Qed.

Lemma run_star_eq r i s k :
  run (Star r) i s k = star_loop (λ i s k', run r i s k') k (S (length s)) i s.
Proof. done. Qed.

(** [r*] unfolds: one iteration of [r] and then [r*] again, or nothing. *)
Lemma run_star_unfold r i s k :
  run (Star r) i s k
  = match run r i s (λ j t, if j =? i then k j t else run (Star r) j t k) with
    | Some a => Some a
    | None => k i s
    end.
Proof.
  rewrite run_star_eq, star_loop_S. erewrite run_local; [done|].
  intros j t Hij Hlen. cbv beta. destruct (j =? i) eqn:Hji; [done|]. apply Nat.eqb_neq in Hji.
  rewrite run_star_eq. apply star_loop_fuel; [apply run_local|lia..].
Qed.

End locality.

Lemma search_pos r must_advance i s pre j t :
  search r must_advance i s = Some (pre, j, t) →
  i + length pre ≤ j ∧ length t + (j - i) = length s ∧ (must_advance = true → i < j).
Proof.
  revert must_advance i pre. induction s as [|c s IH]; intros m i pre; rewrite search_eq;
    destruct (match_at r m i _) as [[j' t']|] eqn:Hm.
  - intros [= <- <- <-]. apply match_at_pos in Hm as (? & ? & ?). simpl in *. split_and!; [lia..|done].
  - done.
  - intros [= <- <- <-]. apply match_at_pos in Hm as (? & ? & ?). simpl in *. split_and!; [lia..|done].
  - destruct (search r false (S i) s) as [[[pre' j'] t']|] eqn:Hs; [|done].
    intros [= <- <- <-]. apply IH in Hs as (? & ? & _). simpl in *. split_and!; [lia..|]. intros _. lia.
Qed.

(** The scan of [re.sub] makes progress: a match consumes text, or is empty
    and forbids an empty match at the same place.  Any counter above twice
    the length of the text gives the same result. *)
Lemma sub_loop_fuel fuel fuel' r repl (must_advance : bool) i s :
  2 * length s + (if must_advance then 0 else 1) < fuel →
  2 * length s + (if must_advance then 0 else 1) < fuel' →
  sub_loop fuel r repl must_advance i s = sub_loop fuel' r repl must_advance i s.
Proof.
  revert fuel' must_advance i s. induction fuel as [|fuel IH]; intros fuel' m i s Hf Hf'; [lia|].
  destruct fuel' as [|fuel']; [lia|]. rewrite !sub_loop_S.
  destruct (search r m i s) as [[[pre j] t]|] eqn:Hs; [|done].
  apply search_pos in Hs as (Hij & Hlen & Hm). do 2 f_equal.
  assert (m = true → i < j) as Hm' by done. clear Hm.
  destruct (j =? i + length pre) eqn:Hj;
    [apply Nat.eqb_eq in Hj|apply Nat.eqb_neq in Hj]; apply IH;
    (destruct m; [specialize (Hm' eq_refl)|clear Hm']); lia.
Qed.

Lemma re_sub_fuel fuel r repl s :
  2 * length s + 1 < fuel → sub_loop fuel r repl false 0 s = re_sub r repl s.
Proof. intros Hf. apply sub_loop_fuel; lia. Qed.

(** ** The rest after a match, without positions *)

Lemma run_ext {A} r i s (k k' : nat → str → option A) :
  (∀ j t, k j t = k' j t) → run r i s k = run r i s k'.
Proof. intros Hk. apply run_local. intros j t _ _. apply Hk. Qed.

(** [run] does not look at what the continuation returns. *)
Lemma run_fmap {A B} (f : A → B) r i s (k : nat → str → option A) :
  run r i s (λ j t, f <$> k j t) = f <$> run r i s k.
Proof.
  revert i s k. induction r as [|p|r1 IH1 r2 IH2|r1 IH1 r2 IH2|r1 IH1| |]; intros i s k; cbn [run].
  - done.
  - destruct s as [|c s]; [done|]. by destruct (p c).
  - rewrite <-IH1. apply run_ext. intros j t. apply IH2.
  - rewrite IH1, IH2. by destruct (run r1 i s k).
  - generalize (S (length s)). intros fuel. revert i s.
    induction fuel as [|fuel IH]; intros i s; [done|]. rewrite !star_loop_S.
    rewrite (run_ext r1 i s _ (λ j t, f <$> (if j =? i then k j t else
      star_loop (λ i s k', run r1 i s k') k fuel j t))).
    + rewrite IH1. by destruct (run r1 i s _).
    + intros j t. rewrite IH. by destruct (j =? i).
  - by destruct (i =? 0).
  - by destruct (at_eol s).
Qed.

(** What is left after the match of [r] at position [i], if any. *)
Lemma match_at_rest r i s :
  snd <$> match_at r false i s = run r i s (λ _ t, Some t).
Proof. unfold match_at. by rewrite <-run_fmap. Qed.

Lemma match_at_Some r i s t :
  run r i s (λ _ t, Some t) = Some t → ∃ j, match_at r false i s = Some (j, t).
Proof.
  rewrite <-match_at_rest. destruct (match_at r false i s) as [[j t']|]; [|done].
  intros [= ->]. by exists j.
Qed.

Lemma match_at_None r i s :
  run r i s (λ _ t, Some t) = None → match_at r false i s = None.
Proof. rewrite <-match_at_rest. by destruct (match_at r false i s). Qed.

(** A literal under [re.IGNORECASE] matches exactly when the text starts
    with it, case ignored. *)
Lemma run_litI {A} l i s (k : nat → str → option A) :
  run (LitI l) i s k
  = if startswith_ci s l then k (i + length l) (drop (length l) s) else None.
Proof.
  revert i s. induction l as [|c l IH]; intros i s; simpl.
  - by rewrite Nat.add_0_r.
  - destruct s as [|x s]; [done|]. simpl. destruct (ci_eq c x); simpl; [|done].
    rewrite IH. by replace (S i + length l) with (i + S (length l)) by lia.
Qed.

(** ** The matcher finds a match exactly when there is one *)

(** A match consumes a piece [u] of the text and moves forward by its
    length. *)
Lemma matches_split r i s j t :
  matches r i s j t → ∃ u, s = u ++ t ∧ j = i + length u.
Proof.
  assert (∀ i (s t t' u u' : str) j j', s = u ++ t → j = i + length u → t = u' ++ t' →
    j' = j + length u' → ∃ v, s = v ++ t' ∧ j' = i + length v) as Happ.
  { intros i' s' t0 t' u u' j0 j' -> -> -> ->. exists (u ++ u').
    rewrite length_app, <-(assoc_L (++)). split; [done|lia]. }
  induction 1 as [i s|p c i s Hp|r1 r2 i s j t j' t' _ (u & ? & ?) _ (u' & ? & ?)|
    r1 r2 i s j t _ IH|r1 r2 i s j t _ IH|r i s|r i s j t j' t' _ (u & ? & ?) _ _ (u' & ? & ?)|
    s|i s _]; try done; try (exists []; split; [done|simpl; lia]); [|by eapply Happ..].
  exists [c]. split; [done|simpl; lia].
Qed.

Lemma matches_same_pos r i s t : matches r i s i t → t = s.
Proof.
  intros (u & -> & Hi)%matches_split. destruct u; [done|simpl in Hi; lia].
Qed.

(** The text a match consumes is made of characters of its classes. *)
Lemma matches_within C r i s j t :
  classes_in C r → matches r i s j t → ∃ u, s = u ++ t ∧ forallb C u = true.
Proof.
  intros HC Hm. induction Hm as [i s|p c i s Hp|r1 r2 i s j t j' t' _ IH1 _ IH2|
    r1 r2 i s j t _ IH|r1 r2 i s j t _ IH|r i s|r i s j t j' t' _ IH1 _ _ IH2|s|i s _];
    simpl in HC; try (by exists []).
  - exists [c]. simpl. by rewrite (HC c Hp).
  - destruct HC as [HC1 HC2]. destruct (IH1 HC1) as (u & -> & Hu), (IH2 HC2) as (u' & -> & Hu').
    exists (u ++ u'). by rewrite forallb_app, Hu, Hu', <-(assoc_L (++)).
  - apply IH, HC.
  - apply IH, HC.
  - destruct (IH1 HC) as (u & -> & Hu), (IH2 HC) as (u' & -> & Hu').
    exists (u ++ u'). by rewrite forallb_app, Hu, Hu', <-(assoc_L (++)).
Qed.

(** A pattern that ends with [$] leaves nothing, or one newline. *)
Lemma matches_ends_eol r i s j t : ends_eol r = true → matches r i s j t → at_eol t = true.
Proof. intros Hr Hm. induction Hm; simpl in Hr; try done; auto. Qed.

(** [p*] can take any run of characters of [p]. *)
Lemma matches_star_class (p : N → bool) u t i :
  forallb p u = true → matches (Star (Class p)) i (u ++ t) (i + length u) t.
Proof.
  revert i. induction u as [|c u IH]; intros i Hu; simpl in *.
  - rewrite Nat.add_0_r. constructor.
  - apply andb_true_iff in Hu as [Hc Hu]. replace (i + S (length u)) with (S i + length u) by lia.
    eapply matches_star_cons; [by constructor|lia|by apply IH].
Qed.

Section adequacy.
Context {A : Type}.
Implicit Types (k : nat → str → option A).

Lemma star_loop_sound r k fuel i s a :
  (∀ i s k, run r i s k = Some a → ∃ j t, matches r i s j t ∧ k j t = Some a) →
  star_loop (λ i s k', run r i s k') k fuel i s = Some a →
  ∃ j t, matches (Star r) i s j t ∧ k j t = Some a.
Proof.
  intros Hr. revert i s. induction fuel as [|fuel IH]; intros i s.
  { intros Hk. exists i, s. split; [constructor|done]. }
  rewrite star_loop_S. destruct (run r i s _) as [b|] eqn:Hb.
  - intros [= ->]. destruct (Hr i s _ Hb) as (j & t & Hm & Hk). cbv beta in Hk.
    destruct (j =? i) eqn:Hji.
    + apply Nat.eqb_eq in Hji as ->. apply matches_same_pos in Hm as ->.
      exists i, s. split; [constructor|done].
    + apply Nat.eqb_neq in Hji. destruct (IH _ _ Hk) as (j' & t' & Hm' & Hk').
      exists j', t'. split; [by eapply matches_star_cons|done].
  - intros Hk. exists i, s. split; [constructor|done].
Qed.

(** Whatever the matcher returns comes from a match of the pattern. *)
Lemma run_sound r i s k a :
  run r i s k = Some a → ∃ j t, matches r i s j t ∧ k j t = Some a.
Proof.
  revert i s k. induction r as [|p|r1 IH1 r2 IH2|r1 IH1 r2 IH2|r1 IH1| |]; intros i s k; cbn [run].
  - intros Hk. exists i, s. split; [constructor|done].
  - destruct s as [|c s]; [done|]. destruct (p c) eqn:Hp; [|done].
    intros Hk. exists (S i), s. split; [by constructor|done].
  - intros (j & t & Hm & (j' & t' & Hm' & Hk)%IH2)%IH1.
    exists j', t'. split; [by econstructor|done].
  - destruct (run r1 i s k) as [b|] eqn:Hb.
    + intros [= ->]. destruct (IH1 i s k Hb) as (j & t & Hm & Hk).
      exists j, t. split; [by apply matches_alt_l|done].
    + intros (j & t & Hm & Hk)%IH2. exists j, t. split; [by apply matches_alt_r|done].
  - by apply star_loop_sound.
  - destruct (i =? 0) eqn:Hi; [|done]. apply Nat.eqb_eq in Hi as ->.
    intros Hk. exists 0, s. split; [constructor|done].
  - destruct (at_eol s) eqn:He; [|done].
    intros Hk. exists i, s. split; [by constructor|done].
Qed.

(** Backtracking is complete: when the pattern has a match that the
    continuation accepts, the matcher returns something. *)
Lemma run_complete r i s j t k :
  matches r i s j t → is_Some (k j t) → is_Some (run r i s k).
Proof.
  intros Hm. revert k. induction Hm as [i s|p c i s Hp|r1 r2 i s j t j' t' _ IH1 _ IH2|
    r1 r2 i s j t _ IH|r1 r2 i s j t _ IH|r i s|r i s j t j' t' _ IH1 Hji _ IH2|s|i s He];
    intros k Hk.
  - done.
  - cbn [run]. by rewrite Hp.
  - cbn [run]. apply IH1. by apply IH2.
  - cbn [run]. specialize (IH k Hk). by destruct (run r1 i s k).
  - cbn [run]. specialize (IH k Hk). by destruct (run r1 i s k).
  - rewrite run_star_unfold. by destruct (run r i s _).
  - rewrite run_star_unfold.
    assert (is_Some (run r i s (λ j t, if j =? i then k j t else run (Star r) j t k))) as [a ->];
      [|done].
    apply IH1. apply Nat.eqb_neq in Hji as ->. by apply IH2.
  - done.
  - cbn [run]. by rewrite He.
Qed.

Lemma run_is_Some r i s k :
  is_Some (run r i s k) ↔ ∃ j t, matches r i s j t ∧ is_Some (k j t).
Proof.
  split; [|intros (j & t & Hm & Hk); by eapply run_complete].
  intros [a (j & t & Hm & Hk)%run_sound]. by exists j, t.
Qed.

End adequacy.

(** [re.match(r, s)] succeeds exactly when [r] matches at the start. *)
Lemma re_match_is_Some r s : is_Some (re_match r s) ↔ ∃ j t, matches r 0 s j t.
Proof.
  unfold re_match, match_at. rewrite run_is_Some. simpl.
  split; intros (j & t & Hm); exists j, t; [tauto|by split].
Qed.

(** A match found by [match_at] is a match of the pattern; it consumes a
    piece of the text. *)
Lemma match_at_matches r must_advance i s j t :
  match_at r must_advance i s = Some (j, t) → matches r i s j t.
Proof.
  intros (j' & t' & Hm & Hk)%run_sound. destruct (must_advance && (j' =? i)); by simplify_eq.
Qed.

Lemma search_split r must_advance i s pre j t :
  search r must_advance i s = Some (pre, j, t) →
  s = pre ++ take (j - (i + length pre)) (drop (length pre) s) ++ t.
Proof.
  revert must_advance i pre. induction s as [|c s IH]; intros m i pre; rewrite search_eq;
    destruct (match_at r m i _) as [[j' t']|] eqn:Hm; try done.
  - intros [= <- <- <-]. apply match_at_matches, matches_split in Hm as (u & Hu & _).
    destruct u, t'; try done. simpl. by rewrite take_nil.
  - intros [= <- <- <-]. apply match_at_matches, matches_split in Hm as (u & Hu & ->).
    rewrite Hu. simpl. rewrite Nat.add_0_r. replace (i + length u - i) with (length u) by lia.
    by rewrite drop_0, take_app_length.
  - destruct (search r false (S i) s) as [[[pre' j'] t']|] eqn:Hs; [|done].
    intros [= <- <- <-]. simpl. f_equal. apply IH in Hs.
    by replace (j' - (i + S (length pre'))) with (j' - (S i + length pre')) by lia.
Qed.

(** The pieces of [re.split] with a capturing group, put together again,
    are the text. *)
Lemma split_loop_join fuel r must_advance i s :
  mjoin (split_loop fuel r must_advance i s) = s.
Proof.
  revert must_advance i s. induction fuel as [|fuel IH]; intros m i s; simpl.
  { by rewrite (right_id_L [] (++)). }
  destruct (search r m i s) as [[[pre j] t]|] eqn:Hs; simpl; [|by rewrite (right_id_L [] (++))].
  rewrite IH. symmetry. by eapply search_split.
Qed.

Lemma re_split_group_join r s : mjoin (re_split_group r s) = s.
Proof. apply split_loop_join. Qed.
