(* ===== verification/Fences.v ===== *)
(** * Text cleanup: [clean_code_fences]

    src/app.py lines 82-92.  The three calls of [re.sub] are [re_sub] on the
    patterns [fence_open_re], [fence_close_re] and [label_re], which are the
    source's patterns in the syntax of [Regex].  [strip_fence_open],
    [strip_fence_close] and [strip_label] say what each substitution does
    without the matcher; the theorems show that they are the substitutions,
    and then what [clean_code_fences] returns. *)

From S2P Require Import PyStr Regex.

(** ** The patterns *)

Definition fence : str := lit "```".

(** [[\w+-]]. *)
Definition tag_char `{Unicode} (c : char) : bool :=
  is_word c || (c =? ch_plus)%N || (c =? ch_minus)%N.

(** [^```[\w+-]*\n?]. *)
Definition fence_open_re `{Unicode} : regex :=
  Seq Bol (Seq (Lit fence) (Seq (Star (Class tag_char)) (Opt (Chr ch_nl)))).

(** [\n?```$]. *)
Definition fence_close_re : regex := Seq (Opt (Chr ch_nl)) (Seq (Lit fence) Eol).

(** [(Fixed code|Corrected code|Suggested fix)] under [re.IGNORECASE]. *)
Definition label_alt : regex :=
  Alt (LitI (lit "Fixed code")) (Alt (LitI (lit "Corrected code")) (LitI (lit "Suggested fix"))).

(** [^\s*(Fixed code|Corrected code|Suggested fix)\s*:\s*] under
    [re.IGNORECASE]. *)
Definition label_re : regex :=
  Seq Bol (Seq (Star (Class is_space)) (Seq label_alt
    (Seq (Star (Class is_space)) (Seq (Chr ch_colon) (Star (Class is_space)))))).

(** ** [clean_code_fences] *)

Definition clean_code_fences `{Unicode} (text : str) : str :=
  if nonempty text then
    let s := strip text in
    let s := re_sub fence_open_re [] s in
    let s := re_sub fence_close_re [] s in
    let s := re_sub label_re [] s in
    strip s ++ [ch_nl]
  else [].

(** ** The substitutions without the matcher *)

(** An opening fence at the start goes, with its language tag and the
    newline after it. *)
Definition strip_fence_open `{Unicode} (s : str) : str :=
  if startswith s fence then
    match drop_while tag_char (drop 3 s) with
    | c :: t => if (c =? ch_nl)%N then t else c :: t
    | [] => []
    end
  else s.

(** What a closing fence leaves when [t] is one: nothing, or the final
    newline. *)
Definition fence_tail (t : str) : option str :=
  if startswith t fence && at_eol (drop 3 t) then Some (drop 3 t) else None.

(** A closing fence, with the newline before it if there is one, starts
    here. *)
Definition fence_close_at (s : str) : option str :=
  match s with
  | c :: s' =>
    if (c =? ch_nl)%N then
      match fence_tail s' with
      | Some r => Some r
      | None => fence_tail s
      end
    else fence_tail s
  | [] => None
  end.

(** The closing fence goes, wherever the scan finds it first. *)
Fixpoint strip_fence_close (s : str) : str :=
  match fence_close_at s with
  | Some r => r
  | None =>
    match s with
    | [] => []
    | c :: s' => c :: strip_fence_close s'
    end
  end.

(** [t] starts with the label [l], then a colon with optional whitespace
    around it: what follows. *)
Definition after_label (t l : str) : option str :=
  if startswith_ci t l then
    match lstrip (drop (length l) t) with
    | c :: v => if (c =? ch_colon)%N then Some (lstrip v) else None
    | [] => None
    end
  else None.

(** A label at the start goes, with the whitespace before it and around
    its colon. *)
Definition strip_label (s : str) : str :=
  let t := lstrip s in
  match after_label t (lit "Fixed code") with
  | Some r => r
  | None =>
    match after_label t (lit "Corrected code") with
    | Some r => r
    | None =>
      match after_label t (lit "Suggested fix") with
      | Some r => r
      | None => s
      end
    end
  end.

(** What the pattern has after the label: the colon and the whitespace
    around it. *)
Definition label_tail_re : regex :=
  Seq (Star (Class is_space)) (Seq (Chr ch_colon) (Star (Class is_space))).

(** The text after the first label that [t] starts with, in the order of
    the alternation. *)
Definition labelled (t : str) : option str :=
  match after_label t (lit "Fixed code") with
  | Some r => Some r
  | None =>
    match after_label t (lit "Corrected code") with
    | Some r => Some r
    | None => after_label t (lit "Suggested fix")
    end
  end.

(** [clean_code_fences] without the matcher. *)
Definition clean_spec `{Unicode} (text : str) : str :=
  if nonempty text then
    strip (strip_label (strip_fence_close (strip_fence_open (strip text)))) ++ [ch_nl]
  else [].



(** ** Concrete runs *)

Lemma clean_code_fences_examples :
  clean_code_fences (lit "```python
print(1)
```") = lit "print(1)
" ∧
  clean_code_fences (lit "  Fixed code:  x = 1  ") = lit "x = 1
" ∧
  clean_code_fences (lit "```c++
int x;
```
") = lit "int x;
" ∧
  clean_code_fences (lit "   ") = [ch_nl] ∧
  clean_code_fences (lit "CORRECTED CODE :
```js
f()
```") = lit "```js
f()
" ∧
  clean_code_fences [] = [].
Proof. by vm_compute. Qed.

Lemma clean_spec_examples :
  Forall (λ text, clean_code_fences text = clean_spec text)
    [lit "```python
print(1)
```"; lit "  Fixed code:  x = 1  "; lit "```
```"; lit "a```
```"; lit "suggested FIX:y"; lit "```py"; lit "x
```
"; lit "Fixed codes: z"; lit "  ```
 Corrected code : q"].
Proof. repeat constructor; by vm_compute. Qed.

(** ** The substitutions are what the matcher computes *)

Lemma ascii_lower_cases c : ascii_lower c = c ∨ ((65 ≤ c ≤ 90)%N ∧ ascii_lower c = (c + 32)%N).
Proof.
  unfold ascii_lower, ascii_isupper. destruct (_ && _) eqn:Hc; [right|by left].
  bool_to_prop. lia.
Qed.

(** No whitespace character matches a letter under [re.IGNORECASE]. *)
Lemma ci_eq_space p c :
  is_space c = true → (97 ≤ ascii_lower p ≤ 122)%N → ci_eq p c = false.
Proof.
  unfold is_space, ci_eq. intros Hc Hp. cbv zeta.
  destruct (ascii_lower_cases c) as [->|[? ->]]; bool_to_prop; lia.
Qed.



Lemma is_space_not_colon c : is_space c = true → (c =? ch_colon)%N = false.
Proof. unfold is_space, ch_colon. intros Hc. bool_to_prop. lia. Qed.

Lemma at_eol_final r : at_eol r = true → r = [] ∨ r = [ch_nl].
Proof. destruct r as [|c [|]]; simpl; [by left| |done]. intros ->%N.eqb_eq. by right. Qed.

Lemma startswith_length s pre : startswith s pre = true → length pre ≤ length s.
Proof. intros [k ->]%startswith_prefix. rewrite length_app. lia. Qed.

Section substitutions.
Context `{Unicode}.
Implicit Types (s t r : str) (i j : nat).

Lemma nl_not_tag : tag_char ch_nl = false.
Proof. unfold tag_char, is_word. by rewrite uni_isalnum_ascii. Qed.

(** *** The opening fence *)

Lemma rest_fence_open s :
  run (Seq (Lit fence) (Seq (Star (Class tag_char)) (Opt (Chr ch_nl)))) 0 s (λ _ t, Some t)
  = if startswith s fence then Some (strip_fence_open s) else None.
Proof.
  rewrite run_seq, run_lit. unfold strip_fence_open. destruct (startswith s fence); [|done].
  rewrite run_seq, run_star_class. apply star_class_greedy. rewrite run_opt.
  change (drop (length fence) s) with (drop 3 s).
  destruct (drop_while tag_char (drop 3 s)) as [|c t]; [done|].
  rewrite run_chr_cons. by destruct (c =? ch_nl)%N.
Qed.

Lemma length_strip_fence_open s :
  startswith s fence = true → length (strip_fence_open s) < length s.
Proof.
  intros Hs. unfold strip_fence_open. rewrite Hs.
  pose proof (startswith_length _ _ Hs) as Hlen. change (length fence) with 3 in Hlen.
  pose proof (length_drop_while tag_char (drop 3 s)) as Hd. rewrite length_drop in Hd.
  destruct (drop_while tag_char (drop 3 s)) as [|c t]; simpl in *; [lia|].
  destruct (c =? ch_nl)%N; simpl; lia.
Qed.

Lemma re_sub_fence_open s : re_sub fence_open_re [] s = strip_fence_open s.
Proof.
  pose proof (rest_fence_open s) as Hr. destruct (startswith s fence) eqn:Hs.
  - apply match_at_Some in Hr as [j Hj].
    by rewrite (re_sub_bol_shorter _ _ _ _ _ Hj (length_strip_fence_open _ Hs)).
  - apply match_at_None in Hr. rewrite (re_sub_bol_nomatch _ _ _ Hr).
    unfold strip_fence_open. by rewrite Hs.
Qed.

(** *** The closing fence *)

Lemma rest_fence_tail i t : run (Seq (Lit fence) Eol) i t (λ _ t, Some t) = fence_tail t.
Proof.
  rewrite run_seq, run_lit. unfold fence_tail. destruct (startswith t fence); [|done].
  cbn [run]. change (drop (length fence) t) with (drop 3 t). by destruct (at_eol _).
Qed.

Lemma rest_fence_close i s : run fence_close_re i s (λ _ t, Some t) = fence_close_at s.
Proof.
  unfold fence_close_re. rewrite run_seq, run_opt. destruct s as [|c s].
  - by rewrite rest_fence_tail.
  - rewrite run_chr_cons, !rest_fence_tail. unfold fence_close_at.
    destruct (c =? ch_nl)%N; [|done]. by destruct (fence_tail s).
Qed.

Lemma fence_tail_final t r : fence_tail t = Some r → r = [] ∨ r = [ch_nl].
Proof.
  unfold fence_tail. destruct (startswith t fence); [|done]. simpl.
  destruct (at_eol (drop 3 t)) eqn:He; [|done]. intros [= <-]. by apply at_eol_final.
Qed.

Lemma fence_close_at_final s r : fence_close_at s = Some r → r = [] ∨ r = [ch_nl].
Proof.
  unfold fence_close_at. destruct s as [|c s]; [done|].
  destruct (c =? ch_nl)%N; [destruct (fence_tail s) eqn:Ht|]; eauto using fence_tail_final.
  intros [= <-]. eauto using fence_tail_final.
Qed.

Lemma strip_fence_close_cons c s :
  strip_fence_close (c :: s)
  = match fence_close_at (c :: s) with
    | Some r => r
    | None => c :: strip_fence_close s
    end.
Proof. done. Qed.

(** After the closing fence nothing is left to replace. *)
Lemma sub_fence_close_final fuel must_advance j r :
  r = [] ∨ r = [ch_nl] → sub_loop fuel fence_close_re [] must_advance j r = r.
Proof.
  destruct fuel as [|fuel]; [done|].
  intros [->| ->]; rewrite sub_loop_S, search_eq; [done|].
  change (match_at fence_close_re must_advance j [ch_nl]) with (@None (nat * list N)).
  cbv iota. by rewrite search_eq.
Qed.

Lemma sub_fence_close fuel i s :
  sub_loop (S fuel) fence_close_re [] false i s = strip_fence_close s.
Proof.
  revert i. induction s as [|c s IH]; intros i; [by apply sub_loop_nil|].
  rewrite strip_fence_close_cons. pose proof (rest_fence_close i (c :: s)) as Hr.
  destruct (fence_close_at (c :: s)) as [r|] eqn:Hc.
  - apply match_at_Some in Hr as [j Hj]. rewrite (sub_loop_hit _ _ _ _ _ _ _ Hj).
    by rewrite sub_fence_close_final by by eapply fence_close_at_final.
  - apply match_at_None in Hr. by rewrite (sub_loop_skip _ _ _ _ _ _ Hr), IH.
Qed.

Lemma re_sub_fence_close s : re_sub fence_close_re [] s = strip_fence_close s.
Proof.
  unfold re_sub. replace (2 * length s + 2) with (S (2 * length s + 1)) by lia.
  apply sub_fence_close.
Qed.


(** *** The label *)

Lemma rest_label_tail j t :
  run label_tail_re j t (λ _ t, Some t)
  = match lstrip t with
    | c :: v => if (c =? ch_colon)%N then Some (lstrip v) else None
    | [] => None
    end.
Proof.
  unfold label_tail_re, lstrip. rewrite run_seq, run_star_class, star_class_commit.
  - rewrite run_seq. destruct (drop_while is_space t) as [|c v]; [done|].
    rewrite run_chr_cons. destruct (c =? ch_colon)%N; [|done].
    rewrite run_star_class. by apply star_class_greedy.
  - intros j' [|c v] Hc; [done|]. simpl in Hc.
    by rewrite run_seq, run_chr_cons, (is_space_not_colon _ Hc).
Qed.

Lemma rest_after_label j t l :
  run (Seq (LitI l) label_tail_re) j t (λ _ t, Some t) = after_label t l.
Proof.
  rewrite run_seq, run_litI. unfold after_label.
  destruct (startswith_ci t l); [|done]. apply rest_label_tail.
Qed.

(** A label does not start with whitespace. *)
Lemma after_label_space c t l :
  is_space c = true →
  head_is (λ p, (97 <=? ascii_lower p)%N && (ascii_lower p <=? 122)%N) l = true →
  after_label (c :: t) l = None.
Proof.
  intros Hc Hl. destruct l as [|p l]; [done|]. simpl in Hl. bool_to_prop.
  unfold after_label. simpl. by rewrite (ci_eq_space p c Hc) by lia.
Qed.

Lemma rest_label_alt j t :
  run (Seq label_alt label_tail_re) j t (λ _ t, Some t) = labelled t.
Proof.
  unfold label_alt, labelled. rewrite run_seq. cbn [run].
  by rewrite <-!run_seq, !rest_after_label.
Qed.

Lemma labelled_space c t : is_space c = true → labelled (c :: t) = None.
Proof.
  intros Hc. unfold labelled.
  by rewrite !(after_label_space _ _ _ Hc) by done.
Qed.

Lemma rest_label s :
  run (Seq (Star (Class is_space)) (Seq label_alt label_tail_re)) 0 s (λ _ t, Some t)
  = labelled (lstrip s).
Proof.
  rewrite run_seq, run_star_class, star_class_commit; [apply rest_label_alt|].
  intros j [|c v] Hc; [done|]. rewrite rest_label_alt. by apply labelled_space.
Qed.

Lemma after_label_shorter t l r : after_label t l = Some r → length r < length t.
Proof.
  unfold after_label. destruct (startswith_ci t l); [|done].
  pose proof (length_drop_while is_space (drop (length l) t)) as Hd.
  rewrite length_drop in Hd. unfold lstrip in *.
  destruct (drop_while is_space (drop (length l) t)) as [|c v]; [done|].
  destruct (c =? ch_colon)%N; [|done]. intros [= <-].
  pose proof (length_drop_while is_space v). simpl in *. lia.
Qed.

Lemma labelled_shorter t r : labelled t = Some r → length r < length t.
Proof.
  unfold labelled. repeat case_match; intros; simplify_eq; eauto using after_label_shorter.
Qed.

Lemma strip_label_labelled s :
  strip_label s = default s (labelled (lstrip s)).
Proof. unfold strip_label, labelled. by repeat case_match. Qed.

Lemma re_sub_label s : re_sub label_re [] s = strip_label s.
Proof.
  rewrite strip_label_labelled. pose proof (rest_label s) as Hr.
  destruct (labelled (lstrip s)) as [r|] eqn:Hl.
  - apply match_at_Some in Hr as [j Hj]. apply labelled_shorter in Hl.
    pose proof (length_drop_while is_space s). unfold lstrip in Hl.
    rewrite (re_sub_bol_shorter _ _ _ _ _ Hj); [done|lia].
  - apply match_at_None in Hr. by rewrite (re_sub_bol_nomatch _ _ _ Hr).
Qed.

(** *** The whole function *)

Lemma clean_code_fences_spec text : clean_code_fences text = clean_spec text.
Proof.
  unfold clean_code_fences, clean_spec.
  by rewrite re_sub_fence_open, re_sub_fence_close, re_sub_label.
Qed.


(** ** What the function returns *)

Lemma fence_eq : fence = [ch_backtick; ch_backtick; ch_backtick].
Proof. done. Qed.

Lemma fence_tail_Some t r : fence_tail t = Some r → t = fence ++ r ∧ (r = [] ∨ r = [ch_nl]).
Proof.
  intros Ht. split; [|by eapply fence_tail_final]. unfold fence_tail in Ht.
  destruct (startswith t fence) eqn:Hs; [|done].
  apply startswith_prefix in Hs as [k ->]. simpl in Ht. rewrite drop_0 in Ht.
  destruct (at_eol k); by simplify_eq.
Qed.

(** A string that ends in a backquote and is longer than a fence is not a
    closing fence. *)
Lemma fence_tail_None t :
  4 ≤ length t → list.last t = Some ch_backtick → fence_tail t = None.
Proof.
  intros Hlen Hlast. destruct (fence_tail t) as [r|] eqn:Ht; [|done].
  apply fence_tail_Some in Ht as [-> [->| ->]]; [simpl in Hlen; lia|done].
Qed.

(** The closing fence at the end goes with the newline before it, and
    nothing before it is touched. *)
Lemma strip_fence_close_app body : strip_fence_close (body ++ [ch_nl] ++ fence) = body.
Proof.
  assert (∀ b, list.last (b ++ [ch_nl] ++ fence) = Some ch_backtick) as Hlast.
  { intros b. by rewrite (assoc_L (++)), fence_eq, last_app. }
  assert (∀ b, 4 ≤ length (b ++ [ch_nl] ++ fence)) as Hlen.
  { intros b. rewrite length_app. simpl. lia. }
  induction body as [|c body IH]; [done|].
  change ((c :: body) ++ [ch_nl] ++ fence) with (c :: (body ++ [ch_nl] ++ fence)).
  rewrite strip_fence_close_cons. unfold fence_close_at.
  rewrite (fence_tail_None (body ++ _)) by done.
  rewrite (fence_tail_None (c :: _)); [|apply (Hlen (c :: body))|apply (Hlast (c :: body))].
  destruct (c =? ch_nl)%N; by rewrite IH.
Qed.

Lemma strip_fence_open_app tag rest :
  Forall (λ c, tag_char c = true) tag →
  strip_fence_open (fence ++ tag ++ [ch_nl] ++ rest) = rest.
Proof.
  intros Htag. unfold strip_fence_open. rewrite startswith_app.
  change (drop 3 (fence ++ ?l)) with l. rewrite drop_while_app_all by done.
  simpl. by rewrite nl_not_tag.
Qed.

(** C6: the three substitutions of [clean_code_fences] are the closed forms
    [strip_fence_open], [strip_fence_close] and [strip_label], so the
    function is [clean_spec]: strip, drop an opening fence with its tag, drop
    the first closing fence that ends the text, drop one label, strip, add a
    newline. *)
Theorem clean_code_fences_closed_form :
  (∀ s, re_sub fence_open_re [] s = strip_fence_open s) ∧
  (∀ s, re_sub fence_close_re [] s = strip_fence_close s) ∧
  (∀ s, re_sub label_re [] s = strip_label s) ∧
  (∀ text, clean_code_fences text = clean_spec text).
Proof.
  split_and!; auto using re_sub_fence_open, re_sub_fence_close, re_sub_label,
    clean_code_fences_spec.
Qed.

(** A non-empty reply is cleaned to a body with no whitespace at either
    end, followed by exactly one newline. *)
Theorem clean_code_fences_one_newline text :
  text ≠ [] →
  ∃ body, clean_code_fences text = body ++ [ch_nl] ∧ strip body = body.
Proof.
  intros Hne%nonempty_true. unfold clean_code_fences. rewrite Hne.
  eexists. split; [done|]. apply strip_idemp.
Qed.

(** A reply that is one fenced block, with any language tag, is
    unwrapped to the block's content (less a label at its start). *)
Theorem clean_code_fences_fenced tag body :
  Forall (λ c, tag_char c = true) tag →
  clean_code_fences (fence ++ tag ++ [ch_nl] ++ body ++ [ch_nl] ++ fence)
  = strip (strip_label body) ++ [ch_nl].
Proof.
  intros Htag. rewrite clean_code_fences_spec. unfold clean_spec.
  rewrite (strip_fix (fence ++ _)), strip_fence_open_app, strip_fence_close_app; [done..|].
  by rewrite !(assoc_L (++)), reverse_app.
Qed.

(** The empty reply, and only it, is cleaned to the empty string: the
    result then has no final newline. *)
Theorem clean_code_fences_empty text : clean_code_fences text = [] ↔ text = [].
Proof.
  unfold clean_code_fences. destruct text as [|c text]; [done|]. simpl.
  split; [|done]. by intros ?%app_nil_r_inv%symmetry.
Qed.

(** Cleaning is not idempotent: only one label is removed by a call, so
    a second call on the result removes the next one. *)
Example clean_code_fences_twice :
  clean_code_fences (lit "Fixed code: Fixed code: x") = lit "Fixed code: x
" ∧
  clean_code_fences (clean_code_fences (lit "Fixed code: Fixed code: x")) = lit "x
".
Proof. rewrite !clean_code_fences_spec. by vm_compute. Qed.

(** *** A label before the fence *)










End substitutions.

Lemma clean_code_fences_one_newline_witness :
  ∃ body, clean_code_fences (lit "```
x
```") = body ++ [ch_nl] ∧ strip body = body.
Proof. by apply (clean_code_fences_one_newline (lit "```
x
```")). Defined.

Lemma clean_code_fences_fenced_witness :
  clean_code_fences (fence ++ lit "c++" ++ [ch_nl] ++ lit "int x;" ++ [ch_nl] ++ fence)
  = lit "int x;
".
Proof. apply (clean_code_fences_fenced (lit "c++") (lit "int x;")). by repeat constructor. Defined.

