(* ===== verification/World.v ===== *)
(** * The world the program runs in

    What [src/app.py] reads and changes outside its own variables: the file
    system, the console and the window's log, the model service, the
    keyboard.  The state is the record [world]; what the environment answers
    is the class [Env].  Effectful code is a function of the monad [M]: a
    state transformer whose result is an [outcome], so that the effects made
    before an exception are kept, as in Python. *)

From stdpp Require Import gmap.
From S2P Require Import PyStr.

(** ** Files *)

(** A file holds text, or bytes that are not UTF-8 ([None]). *)
Inductive node : Type :=
| File (data : option str)
| Dir.

#[export] Instance node_eq_dec : EqDecision node.
Proof. solve_decision. Defined.

(** ** Workbooks *)

(** A cell of a sheet: row, column, value, bold face. *)
Record cell : Type := Cell {
  c_row : nat;
  c_col : nat;
  c_value : str;
  c_bold : bool;
}.

(** A sheet: its title, its cells in the order they were written, and the
    widths set for its columns. *)
Record sheet : Type := Sheet {
  sh_title : str;
  sh_cells : list cell;
  sh_widths : list (nat * nat);
}.

#[export] Instance cell_eq_dec : EqDecision cell.
Proof. solve_decision. Defined.
#[export] Instance sheet_eq_dec : EqDecision sheet.
Proof. solve_decision. Defined.

(** ** What the program shows and asks *)

Inductive event : Type :=
| Print (markup : str)            (* console.print(markup) *)
| PrintMarkdown (text : str)      (* console.print(Markdown(text)) *)
| Rule (markup : str)             (* console.rule(markup) *)
| UiLog (msg : str) (is_markdown : bool)   (* ui_logger(msg, is_markdown=...) *)
| Request (prompt : str)          (* generate_content(prompt) of the service *)
| Asked (question : str)          (* prompt_func(question) *)
| Input (prompt : str)            (* input(prompt) *)
| Saved (filename : str) (book : list sheet)   (* wb.save(filename) *)
| System (command : str).         (* os.system(command) *)

#[export] Instance event_eq_dec : EqDecision event.
Proof. solve_decision. Defined.

Record world : Type := World {
  w_fs : gmap str node;
  w_log : list event;
}.

(** What the service returns: a response whose [text] is a string or
    [None], or an exception. *)
Inductive reply : Type :=
| Response (text : option str)
| Failure (e : exn).

(** The kinds of failure of a file operation. *)
Inductive os_error : Type := ENOENT | EACCES | EISDIR | EILSEQ.

(** [prompt_func]: the answer to a question, given what happened so far. *)
Definition prompt_fn : Type := list event → str → bool.

(** What the environment decides.  Answers may depend on everything that
    happened before (the log). *)
Class Env : Type := {
  (** [os.getenv(name)]: the value of a variable of the process, if set. *)
  getenv : str → option str;
  (** [genai.GenerativeModel(name)]: [None] when it returns a model, or
      the exception it raises.  At import nothing has happened yet: the log
      is empty. *)
  GenerativeModel : list event → str → option exn;
  (** [model.generate_content(prompt)] and the access to [.text]. *)
  generate : list event → str → reply;
  (** [input(...)]: a line, or end of file. *)
  stdin : list event → option str;
  (** Paths that cannot be opened for reading, or for writing. *)
  unreadable : str → bool;
  unwritable : str → bool;
  (** [str(e)] of the [OSError] raised for a path. *)
  os_msg : os_error → str → str;
  (** [repr] of a string. *)
  py_repr : str → str;
  (** [import openpyxl] succeeds. *)
  has_openpyxl : bool;
  (** [os.name]. *)
  os_name : str;
  (** What [os.walk(directory)] yields on a file system: a directory, its
      sub-directories and its files, for every directory under it. *)
  walk : gmap str node → str → list (str * list str * list str);
}.

(** ** The monad *)

Definition M (A : Type) : Type := world → outcome exn A * world.

Definition ret {A} (a : A) : M A := λ w, (Ok a, w).

Definition bind {A B} (m : M A) (k : A → M B) : M B := λ w,
  match m w with
  | (Ok a, w') => k a w'
  | (Raise e, w') => (Raise e, w')
  end.

Definition raise {A} (e : exn) : M A := λ w, (Raise e, w).

(** [try: m except Exception as e: h e]. *)
Definition try_except {A} (m : M A) (h : exn → M A) : M A := λ w,
  match m w with
  | (Ok a, w') => (Ok a, w')
  | (Raise e, w') => h e w'
  end.

Definition get_log : M (list event) := λ w, (Ok (w_log w), w).

Definition emit (e : event) : M unit := λ w,
  (Ok (), World (w_fs w) (w_log w ++ [e])).

(** A pure computation that may raise. *)
Definition lift {A} (o : outcome exn A) : M A := λ w, (o, w).

(** [for x in xs: body x]; an exception ends the loop. *)
Fixpoint for_each {A} (xs : list A) (body : A → M unit) : M unit :=
  match xs with
  | [] => ret ()
  | x :: xs' => bind (body x) (λ _, for_each xs' body)
  end.

(** A loop that carries a value from one round to the next. *)
Fixpoint fold_each {A S} (xs : list A) (s : S) (body : S → A → M S) : M S :=
  match xs with
  | [] => ret s
  | x :: xs' => bind (body s x) (λ s', fold_each xs' s' body)
  end.

Declare Scope io_scope.
Delimit Scope io_scope with io.
Notation "x ← m ; k" := (bind m (λ x, k))
  (at level 20, m at level 100, k at level 200, only parsing) : io_scope.
Notation "m ;; k" := (bind m (λ _, k))
  (at level 100, k at level 200, right associativity) : io_scope.

(** ** Primitives of the interpreter and its libraries *)

(** [str(e)]. *)
Definition exn_text `{Env} (e : exn) : str :=
  match e with
  | KeyError k => py_repr k
  | RuntimeError m | TypeError m | AttributeError m | OSError m
  | ImportError m | ValueError m | IllegalCharacterError m | ServiceError m => m
  | EOFError => lit "EOF when reading a line"
  end.

(** Reading in text mode turns [\r\n] and [\r] into [\n]. *)
Fixpoint universal_newlines (s : str) : str :=
  match s with
  | [] => []
  | c :: rest =>
    if (c =? 13)%N then
      ch_nl :: match rest with
               | d :: rest' =>
                 if (d =? ch_nl)%N then universal_newlines rest' else universal_newlines rest
               | [] => []
               end
    else c :: universal_newlines rest
  end.

(** A string with a lone surrogate cannot be encoded as UTF-8. *)
Definition encodable (s : str) : bool :=
  forallb (λ c, negb ((55296 <=? c) && (c <=? 57343))%N) s.

Definition set_fs (f : gmap str node → gmap str node) : M unit := λ w,
  (Ok (), World (f (w_fs w)) (w_log w)).

Definition lookup_fs (path : str) : M (option node) := λ w, (Ok (w_fs w !! path), w).

Definition os_raise `{Env} {A} (k : os_error) (path : str) : M A :=
  raise (OSError (os_msg k path)).

Local Open Scope io_scope.

(** [os.path.exists(path)]. *)
Definition path_exists (path : str) : M bool :=
  n ← lookup_fs path; ret (bool_decide (is_Some n)).

(** [with open(path, 'r', encoding='utf-8') as f: f.read()]. *)
Definition open_read `{Env} (path : str) : M str :=
  n ← lookup_fs path;
  match n with
  | None => os_raise ENOENT path
  | Some Dir => os_raise EISDIR path
  | Some (File data) =>
    if unreadable path then os_raise EACCES path
    else match data with
         | Some s => ret (universal_newlines s)
         | None => raise (ValueError (os_msg EILSEQ path))
         end
  end.

(** [with open(path, 'w', encoding='utf-8') as f: f.write(s)]: opening
    truncates the file, writing fails on a string that cannot be encoded. *)
Definition open_write `{Env} (path : str) (s : str) : M unit :=
  n ← lookup_fs path;
  if bool_decide (n = Some Dir) then os_raise EISDIR path
  else if unwritable path then os_raise EACCES path
  else if encodable s then set_fs (insert path (File (Some s)))
  else (set_fs (insert path (File (Some [])));; raise (ValueError (os_msg EILSEQ path))).

(** [shutil.copyfile(src, dst)]: the bytes are copied as they are. *)
Definition copyfile `{Env} (src dst : str) : M unit :=
  n ← lookup_fs src;
  d ← lookup_fs dst;
  match n with
  | None => os_raise ENOENT src
  | Some Dir => os_raise EISDIR src
  | Some (File data) =>
    if unreadable src then os_raise EACCES src
    else if bool_decide (d = Some Dir) then os_raise EISDIR dst
    else if unwritable dst then os_raise EACCES dst
    else set_fs (insert dst (File data))
  end.

(** [model.generate_content(prompt)] and the read of [.text]. *)
Definition call_model `{Env} (prompt : str) : M (option str) :=
  log ← get_log;
  emit (Request prompt);;
  match generate log prompt with
  | Response text => ret text
  | Failure e => raise e
  end.

(** [genai.GenerativeModel(name)] inside a run. *)
Definition new_model `{Env} (name : str) : M unit := λ w,
  match GenerativeModel (w_log w) name with
  | None => (Ok (), w)
  | Some e => (Raise e, w)
  end.

(** [bool(prompt_func(question))]; calling [None] is a [TypeError]. *)
Definition call_prompt (prompt_func : option prompt_fn) (question : str) : M bool :=
  match prompt_func with
  | Some f => log ← get_log; emit (Asked question);; ret (f log question)
  | None => raise (TypeError (lit "'NoneType' object is not callable"))
  end.

(** [input(prompt)]. *)
Definition input `{Env} (prompt : str) : M str :=
  log ← get_log;
  emit (Input prompt);;
  match stdin log with
  | Some line => ret line
  | None => raise EOFError
  end.

(** [wb.save(filename)]: the file is a zip archive, no text. *)
Definition save_workbook `{Env} (filename : str) (book : list sheet) : M unit :=
  n ← lookup_fs filename;
  if bool_decide (n = Some Dir) then os_raise EISDIR filename
  else if unwritable filename then os_raise EACCES filename
  else (set_fs (insert filename (File None));; emit (Saved filename book)).

(** [list(os.walk(directory))]. *)
Definition os_walk `{Env} (directory : str) : M (list (str * list str * list str)) := λ w,
  (Ok (walk (w_fs w) directory), w).

(** [os.system(command)]; its status is not used. *)
Definition os_system (command : str) : M unit := emit (System command).

Definition console_print (markup : str) : M unit := emit (Print markup).
Definition console_rule (markup : str) : M unit := emit (Rule markup).
Definition ui_log (msg : str) : M unit := emit (UiLog msg false).

(** [ui_logger(a) if ui_logger else <console>]. *)
Definition log_or (ui_logger : bool) (msg : str) (console : M unit) : M unit :=
  if ui_logger then ui_log msg else console.

(** ** A small example world *)

(** An environment whose service always gives the same reply and whose
    keyboard always gives the same line. *)
Definition env_of (r : reply) (line : option str) (new : option exn) : Env := {|
  getenv := λ _, None;
  GenerativeModel := λ _ _, new;
  generate := λ _ _, r;
  stdin := λ _, line;
  unreadable := λ _, false;
  unwritable := λ p, bool_decide (p = lit "ro.py.bak") || bool_decide (p = lit "locked.py");
  os_msg := λ _ _, lit "denied";
  py_repr := λ s, s;
  has_openpyxl := true;
  os_name := lit "posix";
  walk := λ _ _, [(lit "proj", [lit "src"], [lit "b.py"; lit "a.py"; lit "notes.txt"]);
                  (lit "proj/src", [], [lit "Main.JS"])];
|}.

Definition ex_reply : reply := Response (Some (lit "```python
x = 2
```")).

Definition ex_env : Env := env_of ex_reply (Some (lit "y")) None.

(** The same environment with another walk, without the model, without
    [openpyxl]. *)
Definition with_walk (E : Env) (wk : list (str * list str * list str)) : Env := {|
  getenv := @getenv E; GenerativeModel := @GenerativeModel E; generate := @generate E;
  stdin := @stdin E; unreadable := @unreadable E; unwritable := @unwritable E;
  os_msg := @os_msg E; py_repr := @py_repr E; has_openpyxl := @has_openpyxl E;
  os_name := @os_name E;
  walk := λ _ _, wk;
|}.

Definition unloaded (E : Env) : Env := {|
  getenv := @getenv E;
  GenerativeModel := λ log name,
    if log is [] then Some (ValueError (lit "unknown model")) else @GenerativeModel E log name;
  generate := @generate E;
  stdin := @stdin E; unreadable := @unreadable E; unwritable := @unwritable E;
  os_msg := @os_msg E; py_repr := @py_repr E; has_openpyxl := @has_openpyxl E;
  os_name := @os_name E;
  walk := @walk E;
|}.

Definition without_openpyxl (E : Env) : Env := {|
  getenv := @getenv E; GenerativeModel := @GenerativeModel E; generate := @generate E;
  stdin := @stdin E; unreadable := @unreadable E; unwritable := @unwritable E;
  os_msg := @os_msg E; py_repr := @py_repr E; has_openpyxl := false;
  os_name := @os_name E;
  walk := @walk E;
|}.

(** A project with three source files, as [ex_env] walks it. *)
Definition ex_project : world :=
  World (<[lit "proj" := Dir]>
         (<[lit "proj/a.py" := File (Some (lit "x = 1"))]>
         (<[lit "proj/b.py" := File (Some (lit "y = 1"))]>
         (<[lit "proj/src" := Dir]>
         (<[lit "proj/src/Main.JS" := File (Some (lit "f()"))]> ∅))))) [].

Definition ex_world : world :=
  World (<[lit "a.py" := File (Some (lit "x = 1"))]>
         (<[lit "ro.py" := File (Some (lit "y = 1"))]>
         (<[lit "locked.py" := File (Some (lit "z = 1"))]> ∅))) [].

(** ** Properties of runs *)

(** [m] cannot raise. *)
Definition total {A} (m : M A) : Prop := ∀ w, is_ok (m w).1 = true.

(** [m] leaves the files alone. *)
Definition fs_pure {A} (m : M A) : Prop := ∀ w, w_fs (m w).2 = w_fs w.

(** [m] only adds to the log. *)
Definition log_grows {A} (m : M A) : Prop := ∀ w, w_log w `prefix_of` w_log (m w).2.

(** [m] raises nothing but exceptions in [P]. *)
Definition raises_only {A} (P : exn → Prop) (m : M A) : Prop :=
  ∀ w e w', m w = (Raise e, w') → P e.

(** The requests of a log, in order. *)
Definition requests (log : list event) : list str :=
  omap (λ e, if e is Request p then Some p else None) log.

Definition is_request (e : event) : bool := if e is Request _ then true else false.

(** [m] sends no request. *)
Definition silent {A} (m : M A) : Prop :=
  ∀ w, requests (w_log (m w).2) = requests (w_log w).

(** An [OSError] for [path]. *)
Definition os_failure `{Env} (path : str) (e : exn) : Prop := ∃ k, e = OSError (os_msg k path).

(** [m] changes no file outside [paths]. *)
Definition fs_frame {A} (paths : list str) (m : M A) : Prop :=
  ∀ w p, p ∉ paths → w_fs (m w).2 !! p = w_fs w !! p.

(** [m] keeps the property [I] of the files. *)
Definition fs_inv (I : gmap str node → Prop) {A} (m : M A) : Prop :=
  ∀ w, I (w_fs w) → I (w_fs (m w).2).

(** A property of runs that speaks of the files only: code that leaves the
    files alone has it, and it composes along [bind] and [try]. *)
Class FsProp (Φ : ∀ A, M A → Prop) : Prop := {
  fs_prop_pure {A} (m : M A) : fs_pure m → Φ A m;
  fs_prop_bind {A B} (m : M A) (k : A → M B) : Φ A m → (∀ a, Φ B (k a)) → Φ B (bind m k);
  fs_prop_try {A} (m : M A) (h : exn → M A) : Φ A m → (∀ e, Φ A (h e)) → Φ A (try_except m h);
}.

(** Two file systems that agree outside [paths]. *)
Definition agree_outside (paths : list str) : relation (gmap str node) :=
  λ fs fs', ∀ p, p ∉ paths → fs !! p = fs' !! p.

#[export] Instance agree_outside_equiv paths : Equivalence (agree_outside paths).
Proof.
  split.
  - by intros fs p.
  - intros fs fs' Hfs p Hp. by rewrite Hfs.
  - intros fs1 fs2 fs3 H12 H23 p Hp. by rewrite H12, H23.
Qed.

(** More paths let more file systems agree. *)
#[export] Instance agree_outside_mono :
  Proper ((⊆) ==> (=) ==> (=) ==> impl) agree_outside.
Proof. intros paths paths' Hsub fs ? <- fs' ? <- Hfs p Hp. apply Hfs. set_solver. Qed.

#[export] Instance agree_outside_flip_mono :
  Proper (flip (⊆) ==> (=) ==> (=) ==> flip impl) agree_outside.
Proof. intros paths paths' Hsub fs ? <- fs' ? <- Hfs. by eapply agree_outside_mono. Qed.

(** ** Lemmas *)

Section monad_laws.
Context {A B C : Type}.
Implicit Types (m : M A) (k : A → M B) (h : B → M C) (w : world).

Lemma bind_ret_l (a : A) k w : bind (ret a) k w = k a w.
Proof. done. Qed.

Lemma bind_ret_r m w : bind m ret w = m w.
Proof. unfold bind. by destruct (m w) as [[]]. Qed.

Lemma bind_assoc m k h w : bind (bind m k) h w = bind m (λ a, bind (k a) h) w.
Proof. unfold bind. by destruct (m w) as [[]]. Qed.

Lemma bind_ext m k (k' : A → M B) w : (∀ a w', k a w' = k' a w') → bind m k w = bind m k' w.
Proof. intros Hk. unfold bind. by destruct (m w) as [[]]. Qed.

Lemma bind_Ok m k w a w' : m w = (Ok a, w') → bind m k w = k a w'.
Proof. unfold bind. by intros ->. Qed.

Lemma bind_Raise m k w e w' : m w = (Raise e, w') → bind m k w = (Raise e, w').
Proof. unfold bind. by intros ->. Qed.

Lemma try_except_total m (h : exn → M A) : (∀ e, total (h e)) → total (try_except m h).
Proof. intros Hh w. unfold try_except. destruct (m w) as [[a|e] w']; [done|apply Hh]. Qed.

Lemma total_bind m k : total m → (∀ a, total (k a)) → total (bind m k).
Proof.
  intros Hm Hk w. unfold bind. specialize (Hm w).
  destruct (m w) as [[a|e] w']; [apply Hk|done].
Qed.

Lemma fs_pure_bind m k : fs_pure m → (∀ a, fs_pure (k a)) → fs_pure (bind m k).
Proof.
  intros Hm Hk w. unfold bind. specialize (Hm w).
  destruct (m w) as [[a|e] w']; [|done]. by rewrite Hk.
Qed.

Lemma fs_pure_try m (h : exn → M A) : fs_pure m → (∀ e, fs_pure (h e)) → fs_pure (try_except m h).
Proof.
  intros Hm Hh w. unfold try_except. specialize (Hm w).
  destruct (m w) as [[a|e] w']; [done|]. by rewrite Hh.
Qed.

Lemma log_grows_bind m k : log_grows m → (∀ a, log_grows (k a)) → log_grows (bind m k).
Proof.
  intros Hm Hk w. unfold bind. specialize (Hm w).
  destruct (m w) as [[a|e] w']; [|done]. by etrans; [|apply Hk].
Qed.

Lemma log_grows_try m (h : exn → M A) :
  log_grows m → (∀ e, log_grows (h e)) → log_grows (try_except m h).
Proof.
  intros Hm Hh w. unfold try_except. specialize (Hm w).
  destruct (m w) as [[a|e] w']; [done|]. by etrans; [|apply Hh].
Qed.

Lemma fs_frame_bind paths m k :
  fs_frame paths m → (∀ a, fs_frame paths (k a)) → fs_frame paths (bind m k).
Proof.
  intros Hm Hk w p Hp. unfold bind. specialize (Hm w p Hp).
  destruct (m w) as [[a|e] w']; [|done]. by rewrite Hk.
Qed.

Lemma fs_frame_try paths m (h : exn → M A) :
  fs_frame paths m → (∀ e, fs_frame paths (h e)) → fs_frame paths (try_except m h).
Proof.
  intros Hm Hh w p Hp. unfold try_except. specialize (Hm w p Hp).
  destruct (m w) as [[a|e] w']; [done|]. by rewrite Hh.
Qed.

Lemma fs_frame_agree paths m :
  fs_frame paths m ↔ ∀ w, agree_outside paths (w_fs (m w).2) (w_fs w).
Proof. done. Qed.

Lemma fs_pure_frame paths m : fs_pure m → fs_frame paths m.
Proof. intros Hm w p _. by rewrite Hm. Qed.

Lemma total_raises_only P m : total m → raises_only P m.
Proof. intros Hm w e w' Hrun. specialize (Hm w). by rewrite Hrun in Hm. Qed.

Lemma raises_only_mono (P Q : exn → Prop) m :
  (∀ e, P e → Q e) → raises_only P m → raises_only Q m.
Proof. intros HPQ Hm w e w' Hrun. eapply HPQ, Hm, Hrun. Qed.

Lemma raises_only_bind P m k :
  raises_only P m → (∀ a, raises_only P (k a)) → raises_only P (bind m k).
Proof.
  intros Hm Hk w e w'. unfold bind. destruct (m w) as [[a|e0] w0] eqn:Hrun.
  - apply Hk.
  - intros [= <- <-]. eapply Hm, Hrun.
Qed.

Lemma silent_bind m k : silent m → (∀ a, silent (k a)) → silent (bind m k).
Proof.
  intros Hm Hk w. unfold bind. specialize (Hm w).
  destruct (m w) as [[a|e] w']; [|done]. by rewrite Hk.
Qed.

Lemma silent_try m (h : exn → M A) : silent m → (∀ e, silent (h e)) → silent (try_except m h).
Proof.
  intros Hm Hh w. unfold try_except. specialize (Hm w).
  destruct (m w) as [[a|e] w']; [done|]. by rewrite Hh.
Qed.

Lemma fs_frame_nil m : fs_frame [] m → fs_pure m.
Proof. intros Hm w. apply map_eq. intros p. apply Hm, not_elem_of_nil. Qed.

Lemma fs_frame_mono paths paths' m : paths ⊆ paths' → fs_frame paths m → fs_frame paths' m.
Proof. intros Hsub Hm. apply fs_frame_agree. intros w. rewrite <-Hsub. by apply fs_frame_agree. Qed.

Lemma try_except_Ok m (h : exn → M A) w a w' : m w = (Ok a, w') → try_except m h w = (Ok a, w').
Proof. unfold try_except. by intros ->. Qed.

Lemma try_except_Raise m (h : exn → M A) w e w' :
  m w = (Raise e, w') → try_except m h w = h e w'.
Proof. unfold try_except. by intros ->. Qed.

End monad_laws.

(** One step of a run. *)
Section steps.
Context {B : Type}.
Implicit Types (w : world).

Lemma bind_lookup_fs p (k : option node → M B) w : bind (lookup_fs p) k w = k (w_fs w !! p) w.
Proof. done. Qed.

Lemma bind_path_exists p (k : bool → M B) w :
  bind (path_exists p) k w = k (bool_decide (is_Some (w_fs w !! p))) w.
Proof. done. Qed.

Lemma bind_emit e (k : unit → M B) w : bind (emit e) k w = k () (World (w_fs w) (w_log w ++ [e])).
Proof. done. Qed.

Lemma bind_set_fs f (k : unit → M B) w : bind (set_fs f) k w = k () (World (f (w_fs w)) (w_log w)).
Proof. done. Qed.

Lemma bind_get_log (k : list event → M B) w : bind get_log k w = k (w_log w) w.
Proof. done. Qed.

Lemma bind_raise {A} e (k : A → M B) w : bind (raise e) k w = (Raise e, w).
Proof. done. Qed.

Lemma bind_lift_Ok {A} (a : A) (k : A → M B) w : bind (lift (Ok a)) k w = k a w.
Proof. done. Qed.

Lemma bind_lift_Raise {A} e (k : A → M B) w : bind (lift (Raise e)) k w = (Raise e, w).
Proof. done. Qed.

End steps.

(** A computation that cannot raise, leaves the files alone and only adds
    to the log. *)
Lemma silent_run {A} (m : M A) w :
  total m → fs_pure m → log_grows m → silent m →
  ∃ a w', m w = (Ok a, w') ∧ w_fs w' = w_fs w ∧ w_log w `prefix_of` w_log w' ∧
          requests (w_log w') = requests (w_log w).
Proof.
  intros Ht Hfs Hlog Hs. specialize (Ht w). specialize (Hfs w). specialize (Hlog w).
  specialize (Hs w). destruct (m w) as [[a|e] w']; [|done]. by exists a, w'.
Qed.

Lemma quiet_run {A} (m : M A) w :
  total m → fs_pure m → log_grows m →
  ∃ a w', m w = (Ok a, w') ∧ w_fs w' = w_fs w ∧ w_log w `prefix_of` w_log w'.
Proof.
  intros Ht Hfs Hlog. specialize (Ht w). specialize (Hfs w). specialize (Hlog w).
  destruct (m w) as [[a|e] w']; [|done]. by exists a, w'.
Qed.

Lemma ret_total {A} (a : A) : total (ret a).
Proof. done. Qed.
Lemma ret_fs_pure {A} (a : A) : fs_pure (ret a).
Proof. done. Qed.
Lemma ret_log_grows {A} (a : A) : log_grows (ret a).
Proof. by intros w. Qed.
Lemma emit_total e : total (emit e).
Proof. done. Qed.
Lemma emit_fs_pure e : fs_pure (emit e).
Proof. done. Qed.
Lemma emit_log_grows e : log_grows (emit e).
Proof. intros w. by apply prefix_app_r. Qed.
Lemma requests_snoc log e :
  requests (log ++ [e]) = requests log ++ (if e is Request p then [p] else []).
Proof. unfold requests. rewrite omap_app. by destruct e. Qed.
Lemma ret_silent {A} (a : A) : silent (ret a).
Proof. done. Qed.
Lemma emit_silent e : is_request e = false → silent (emit e).
Proof. intros He w. simpl. rewrite requests_snoc. destruct e; try done; by rewrite app_nil_r. Qed.
Lemma raise_fs_pure {A} e : fs_pure (@raise A e).
Proof. done. Qed.
Lemma raise_log_grows {A} e : log_grows (@raise A e).
Proof. by intros w. Qed.
Lemma get_log_total : total get_log.
Proof. done. Qed.
Lemma get_log_fs_pure : fs_pure get_log.
Proof. done. Qed.
Lemma get_log_grows : log_grows get_log.
Proof. by intros w. Qed.
Lemma lookup_fs_total p : total (lookup_fs p).
Proof. done. Qed.
Lemma lookup_fs_pure p : fs_pure (lookup_fs p).
Proof. done. Qed.
Lemma lookup_fs_log_grows p : log_grows (lookup_fs p).
Proof. by intros w. Qed.
Lemma set_fs_total f : total (set_fs f).
Proof. done. Qed.
Lemma set_fs_log_grows f : log_grows (set_fs f).
Proof. by intros w. Qed.

Lemma lift_fs_pure {A} (o : outcome exn A) : fs_pure (lift o).
Proof. done. Qed.
Lemma lift_log_grows {A} (o : outcome exn A) : log_grows (lift o).
Proof. by intros w. Qed.

Lemma raise_silent {A} e : silent (@raise A e).
Proof. done. Qed.
Lemma get_log_silent : silent get_log.
Proof. done. Qed.
Lemma lookup_fs_silent p : silent (lookup_fs p).
Proof. done. Qed.
Lemma set_fs_silent f : silent (set_fs f).
Proof. done. Qed.
Lemma path_exists_silent p : silent (path_exists p).
Proof. done. Qed.

Section primitives.
Context `{Env}.

(** *** What sends no request *)

Lemma open_read_silent p : silent (open_read p).
Proof. intros w. unfold open_read, bind, lookup_fs. simpl. by repeat case_match. Qed.

Lemma open_write_silent p s : silent (open_write p s).
Proof. intros w. unfold open_write, bind, lookup_fs. simpl. by repeat case_match. Qed.

Lemma copyfile_silent src dst : silent (copyfile src dst).
Proof. intros w. unfold copyfile, bind, lookup_fs. simpl. by repeat case_match. Qed.

Lemma new_model_silent name : silent (new_model name).
Proof. intros w. unfold new_model. by case_match. Qed.

Lemma call_prompt_silent f q : silent (call_prompt f q).
Proof. intros w. destruct f; [|done]. simpl. by rewrite requests_snoc, app_nil_r. Qed.

Lemma input_silent q : silent (input q).
Proof.
  intros w. unfold input, bind, get_log, emit. simpl.
  destruct (stdin _); simpl; by rewrite requests_snoc, app_nil_r.
Qed.

Lemma call_model_run prompt w :
  call_model prompt w
  = (match generate (w_log w) prompt with Response text => Ok text | Failure e => Raise e end,
     World (w_fs w) (w_log w ++ [Request prompt])).
Proof. unfold call_model, bind, get_log, emit. simpl. by destruct (generate _ _). Qed.

Lemma call_model_fs_pure prompt : fs_pure (call_model prompt).
Proof. intros w. unfold call_model, bind, get_log, emit. simpl. by destruct (generate _ _). Qed.

Lemma call_model_log prompt w : w_log (call_model prompt w).2 = w_log w ++ [Request prompt].
Proof. unfold call_model, bind, get_log, emit. simpl. by destruct (generate _ _). Qed.

Lemma call_model_log_grows prompt : log_grows (call_model prompt).
Proof. intros w. rewrite call_model_log. by apply prefix_app_r. Qed.

Lemma new_model_run name w :
  new_model name w
  = (match GenerativeModel (w_log w) name with None => Ok () | Some e => Raise e end, w).
Proof. unfold new_model. by destruct (GenerativeModel _ _). Qed.

Lemma new_model_raises name :
  raises_only (λ e, ∃ log, GenerativeModel log name = Some e) (new_model name).
Proof.
  intros w e w'. rewrite new_model_run.
  destruct (GenerativeModel (w_log w) name) eqn:Hn; [|done]. intros [= <- <-]. eauto.
Qed.

Lemma new_model_fs_pure name : fs_pure (new_model name).
Proof. intros w. by rewrite new_model_run. Qed.

Lemma new_model_log_grows name : log_grows (new_model name).
Proof. intros w. by rewrite new_model_run. Qed.

Lemma call_prompt_fs_pure f q : fs_pure (call_prompt f q).
Proof. intros w. by destruct f. Qed.

Lemma call_prompt_log_grows f q : log_grows (call_prompt f q).
Proof. intros w. destruct f; [by apply prefix_app_r|done]. Qed.

Lemma input_fs_pure q : fs_pure (input q).
Proof. intros w. unfold input, bind, get_log, emit. simpl. by destruct (stdin _). Qed.

Lemma input_log_grows q : log_grows (input q).
Proof.
  intros w. unfold input, bind, get_log, emit. simpl.
  destruct (stdin _); by apply prefix_app_r.
Qed.

Lemma save_workbook_frame filename book : fs_frame [filename] (save_workbook filename book).
Proof.
  intros w q Hq. unfold save_workbook. rewrite bind_lookup_fs.
  repeat case_match; try done. simpl. apply lookup_insert_ne.
  intros ->. apply Hq. constructor.
Qed.

Lemma save_workbook_raises filename book :
  raises_only (os_failure filename) (save_workbook filename book).
Proof.
  intros w e w'. unfold save_workbook. rewrite bind_lookup_fs.
  repeat case_match; try done; intros [= <- <-]; by eexists.
Qed.

Lemma open_write_raises p s : encodable s = true → raises_only (os_failure p) (open_write p s).
Proof.
  intros Hs w e w'. unfold open_write. rewrite bind_lookup_fs, Hs.
  repeat case_match; try done; intros [= <- <-]; by eexists.
Qed.

Lemma save_workbook_log_grows filename book : log_grows (save_workbook filename book).
Proof.
  intros w. unfold save_workbook. rewrite bind_lookup_fs.
  repeat case_match; try done. by apply prefix_app_r.
Qed.

End primitives.

#[export] Instance fs_frame_prop paths : FsProp (λ A, @fs_frame A paths).
Proof.
  split; intros; first [by apply fs_pure_frame|by apply fs_frame_bind|by apply fs_frame_try].
Qed.

#[export] Instance fs_inv_prop I : FsProp (λ A, @fs_inv I A).
Proof.
  split.
  - intros A m Hm w. by rewrite Hm.
  - intros A B m k Hm Hk w Hw. unfold bind. specialize (Hm w Hw).
    destruct (m w) as [[a|e] w']; [by apply Hk|done].
  - intros A m h Hm Hh w Hw. unfold try_except. specialize (Hm w Hw).
    destruct (m w) as [[a|e] w']; [done|by apply Hh].
Qed.

(** What is kept by every change outside [paths] is kept by code that
    changes nothing else. *)
Lemma fs_frame_inv {A : Type} (paths : list str) (I : gmap str node → Prop) (m : M A) :
  (∀ fs fs', agree_outside paths fs fs' → I fs' → I fs) → fs_frame paths m → fs_inv I m.
Proof. intros HI Hm w. apply HI. exact (Hm w). Qed.

Section loops.
Context {A : Type}.
Implicit Types (xs : list A) (body : A → M unit).

Lemma for_each_prop `{!FsProp Φ} xs body :
  (∀ x, x ∈ xs → Φ _ (body x)) → Φ _ (for_each xs body).
Proof.
  induction xs as [|x xs IH]; intros Hb; [by apply fs_prop_pure|].
  apply fs_prop_bind; [apply Hb; left|]. intros _. apply IH. intros ??. apply Hb. by right.
Qed.

Lemma for_each_total xs body : (∀ x, total (body x)) → total (for_each xs body).
Proof. intros Hb. induction xs; [done|]. by apply total_bind. Qed.

Lemma for_each_fs_pure xs body : (∀ x, fs_pure (body x)) → fs_pure (for_each xs body).
Proof. intros Hb. induction xs; [done|]. by apply fs_pure_bind. Qed.

Lemma for_each_log_grows xs body : (∀ x, log_grows (body x)) → log_grows (for_each xs body).
Proof. intros Hb. induction xs; [apply ret_log_grows|]. by apply log_grows_bind. Qed.

Lemma for_each_frame paths xs body :
  (∀ x, fs_frame paths (body x)) → fs_frame paths (for_each xs body).
Proof. intros Hb. induction xs; [done|]. by apply fs_frame_bind. Qed.

Lemma for_each_app xs ys body w :
  for_each (xs ++ ys) body w = bind (for_each xs body) (λ _, for_each ys body) w.
Proof.
  revert w. induction xs as [|x xs IH]; intros w; [done|]. simpl.
  rewrite bind_assoc. apply bind_ext. intros _. apply IH.
Qed.

Context {S : Type}.
Implicit Types (step : S → A → M S).

Lemma fold_each_total xs s step : (∀ s x, total (step s x)) → total (fold_each xs s step).
Proof. intros Hb. revert s. induction xs; intros s; [done|]. by apply total_bind. Qed.

Lemma fold_each_log_grows xs s step :
  (∀ s x, log_grows (step s x)) → log_grows (fold_each xs s step).
Proof.
  intros Hb. revert s. induction xs; intros s; [apply ret_log_grows|]. by apply log_grows_bind.
Qed.

Lemma fold_each_frame paths xs s step :
  (∀ s x, fs_frame paths (step s x)) → fs_frame paths (fold_each xs s step).
Proof. intros Hb. revert s. induction xs; intros s; [done|]. by apply fs_frame_bind. Qed.

Lemma for_each_silent xs body : (∀ x, silent (body x)) → silent (for_each xs body).
Proof. intros Hb. induction xs; [done|]. by apply silent_bind. Qed.

Lemma fold_each_silent xs s step : (∀ s x, silent (step s x)) → silent (fold_each xs s step).
Proof. intros Hb. revert s. induction xs; intros s; [done|]. by apply silent_bind. Qed.

Lemma fold_each_raises P xs s step :
  (∀ s x, raises_only P (step s x)) → raises_only P (fold_each xs s step).
Proof.
  intros Hb. revert s. induction xs; intros s; [by apply total_raises_only|].
  by apply raises_only_bind.
Qed.

Lemma fold_each_prop `{!FsProp Φ} xs s step :
  (∀ s x, x ∈ xs → Φ _ (step s x)) → Φ _ (fold_each xs s step).
Proof.
  revert s. induction xs as [|x xs IH]; intros s Hb; [by apply fs_prop_pure|].
  apply fs_prop_bind; [apply Hb; left|]. intros s'. apply IH. intros ???. apply Hb. by right.
Qed.

Lemma fold_each_fs_pure xs s step : (∀ s x, fs_pure (step s x)) → fs_pure (fold_each xs s step).
Proof. intros Hb. revert s. induction xs; intros s; [done|]. by apply fs_pure_bind. Qed.

End loops.

Create HintDb io discriminated.
Create Rewrite HintDb io_rw.
#[export] Hint Rewrite @bind_ret_l @bind_lookup_fs @bind_path_exists @bind_emit @bind_set_fs
  @bind_get_log @bind_raise @bind_lift_Ok @bind_lift_Raise : io_rw.
#[export] Hint Resolve ret_total emit_total get_log_total lookup_fs_total set_fs_total
  try_except_total total_bind for_each_total fold_each_total : io.
#[export] Hint Resolve ret_fs_pure emit_fs_pure raise_fs_pure get_log_fs_pure lookup_fs_pure
  lift_fs_pure call_model_fs_pure new_model_fs_pure call_prompt_fs_pure input_fs_pure
  fs_pure_bind fs_pure_try for_each_fs_pure fold_each_fs_pure : io.
#[export] Hint Resolve ret_log_grows emit_log_grows raise_log_grows get_log_grows
  lookup_fs_log_grows set_fs_log_grows lift_log_grows call_model_log_grows call_prompt_log_grows
  input_log_grows save_workbook_log_grows new_model_log_grows
  log_grows_bind log_grows_try for_each_log_grows fold_each_log_grows : io.
#[export] Hint Resolve fs_frame_bind fs_frame_try for_each_frame fold_each_frame
  save_workbook_frame : io.
#[export] Hint Resolve ret_silent emit_silent raise_silent get_log_silent lookup_fs_silent
  set_fs_silent path_exists_silent open_read_silent open_write_silent copyfile_silent
  new_model_silent call_prompt_silent input_silent
  silent_bind silent_try for_each_silent fold_each_silent : io.

(** Totality, file purity and log growth of straight-line output code. *)
Ltac solve_quiet :=
  unfold log_or, ui_log, console_print, console_rule; repeat case_match; auto 10 with io.
