(* ===== verification/Console.v ===== *)
(** * The console: [clear_screen] and [print_logo]

    src/app.py lines 37-52.  Clearing the screen is the event [System] with
    the command for the operating system; the logo is printed as it is
    written in the source. *)

From S2P Require Import PyStr World.

Local Open Scope io_scope.

(** Lines 37-38. *)
Definition clear_screen `{Env} : M unit :=
  os_system (if bool_decide (os_name = lit "nt") then lit "cls" else lit "clear").

(** Lines 41-52: the markup of the logo. *)
Definition logo : str := lit "
[bold cyan]
  █████╗ ███████╗      ██████╗   ██████╗  ██████╗  ███████╗    ██████╗  ███████╗██████╗ ██╗   ██╗ ██████╗  ██████╗ ██████╗ ███████
██╔══██╗   ██║       ██╔════╝  ██╔══  ██╗  ██╔══██╗ ██╔════╝   ██╔══██╗ ██╔════╝██╔══██╗██║   ██║██╔════╝ ██╔════╝ ██╔════╝██╔══██╗
███████║   ██║       ██║       ██║    ██║  ██║  ██║ █████╗     ██   ██╔ ███████ ██████╔╝██║   ██║██║  ███╗██║  ███╗█████╗  ██████╔╝
██╔══██║   ██║       ██║       ██║    ██║  ██║  ██║ ██╔══╝     ██╔══██╗ ██╔══╝  ██╔══██╗██║   ██║██║   ██║██║   ██║██╔══╝  ██╔══██╗
██║  ██║ ███████╗     ╚██████╗  ╚██████╔╝ ██████╔╝ ███████╗    ██████╔╝ ███████╗██████╔╝╚██████╔╝╚██████╔╝╚██████╔╝███████╗██║  ██║



[bold magenta]🤖 AI-Based Multi-File Code Debugger + Auto Fixer[/bold magenta]
".

(** Lines 40-52. *)
Definition print_logo : M unit := console_print logo.

(** ** What the theorems speak of *)

(** What the two leave in the log. *)
Definition banner `{Env} : list event :=
  [System (if bool_decide (os_name = lit "nt") then lit "cls" else lit "clear"); Print logo].

(** ** Lemmas *)

Lemma banner_run `{Env} {A} (k : unit → M A) w :
  bind (clear_screen;; print_logo) k w = k () (World (w_fs w) (w_log w ++ banner)).
Proof.
  unfold clear_screen, print_logo, console_print, os_system. rewrite bind_assoc, !bind_emit.
  simpl. by rewrite <-(assoc_L (++)).
Qed.

Lemma banner_world `{Env} w :
  (clear_screen;; print_logo) w = (Ok (), World (w_fs w) (w_log w ++ banner)).
Proof. by rewrite <-(bind_ret_r (clear_screen;; print_logo)), banner_run. Qed.

Lemma clear_screen_total `{Env} : total clear_screen.
Proof. apply emit_total. Qed.

Lemma clear_screen_fs_pure `{Env} : fs_pure clear_screen.
Proof. apply emit_fs_pure. Qed.

Lemma clear_screen_log_grows `{Env} : log_grows clear_screen.
Proof. apply emit_log_grows. Qed.

Lemma print_logo_total : total print_logo.
Proof. apply emit_total. Qed.

Lemma print_logo_fs_pure : fs_pure print_logo.
Proof. apply emit_fs_pure. Qed.

Lemma print_logo_log_grows : log_grows print_logo.
Proof. apply emit_log_grows. Qed.

Lemma clear_screen_silent `{Env} : silent clear_screen.
Proof. by apply emit_silent. Qed.

Lemma print_logo_silent : silent print_logo.
Proof. by apply emit_silent. Qed.

(** The hints are keyed on the two names, so that proof search never has
    to compare the logo with another printed text. *)
#[export] Hint Extern 0 (total clear_screen) => apply clear_screen_total : io.
#[export] Hint Extern 0 (total print_logo) => apply print_logo_total : io.
#[export] Hint Extern 0 (fs_pure clear_screen) => apply clear_screen_fs_pure : io.
#[export] Hint Extern 0 (fs_pure print_logo) => apply print_logo_fs_pure : io.
#[export] Hint Extern 0 (log_grows clear_screen) => apply clear_screen_log_grows : io.
#[export] Hint Extern 0 (log_grows print_logo) => apply print_logo_log_grows : io.
#[export] Hint Extern 0 (silent clear_screen) => apply clear_screen_silent : io.
#[export] Hint Extern 0 (silent print_logo) => apply print_logo_silent : io.

Example logo_length : length logo = 753.
Proof. by vm_compute. Qed.
