(* ===== verification/Config.v ===== *)
(** * The configuration of the module

    src/app.py lines 24-30, run when the module is imported: the name of the
    model and the API key come from the environment of the process, with
    defaults, and the model object is constructed once, [None] standing for
    a constructor that raised. *)

From S2P Require Import PyStr World.

(** Line 24. *)
Definition MODEL_NAME `{Env} : str :=
  default (lit "gemini-2.0-flash") (getenv (lit "GEMINI_MODEL_NAME")).

(** Line 25: the key that [genai.configure] is given. *)
Definition API_KEY `{Env} : str :=
  default (lit "...Enter Your Gemini API Key here or Use Environment Variable for best practices...")
          (getenv (lit "GEMINI_API_KEY")).

(** Lines 27-30: [MODEL], a model known by its name, or [None]. *)
Definition MODEL `{Env} : option str :=
  match GenerativeModel [] MODEL_NAME with
  | None => Some MODEL_NAME
  | Some _ => None
  end.

(** Line 133: [MODEL is not None]. *)
Definition model_loaded `{Env} : bool := bool_decide (is_Some MODEL).

(** ** Lemmas *)

Section config.
Context `{Env}.

Lemma MODEL_NAME_cases :
  MODEL_NAME = match getenv (lit "GEMINI_MODEL_NAME") with
               | Some name => name
               | None => lit "gemini-2.0-flash"
               end.
Proof. unfold MODEL_NAME. by destruct (getenv _). Qed.

Lemma model_loaded_true : model_loaded = true ↔ GenerativeModel [] MODEL_NAME = None.
Proof.
  unfold model_loaded, MODEL. rewrite bool_decide_eq_true.
  destruct (GenerativeModel [] MODEL_NAME); split; try done; by intros [??].
Qed.

Lemma model_loaded_false : model_loaded = false ↔ is_Some (GenerativeModel [] MODEL_NAME).
Proof.
  unfold model_loaded, MODEL. rewrite bool_decide_eq_false.
  destruct (GenerativeModel [] MODEL_NAME); split; try done; try by intros [??].
  intros Hn. by destruct Hn.
Qed.

Lemma MODEL_name name : MODEL = Some name → name = MODEL_NAME.
Proof. unfold MODEL. destruct (GenerativeModel [] MODEL_NAME); by intros [=]. Qed.

End config.
