(* ===== verification/FileIO.v ===== *)
(** * Reading, backing up and writing files

    [read_file], [safe_backup] and [write_file] (src/app.py lines 66-80 and
    94-102) over the file system of [World].  Each catches every exception
    it meets and reports it on the console, so none of them can raise. *)

From stdpp Require Import gmap.
From S2P Require Import PyStr Fences World.

Local Open Scope io_scope.

(** ** The functions *)

Definition read_file `{Env} (file_path : str) : M (option str) :=
  try_except
    (s ← open_read file_path; ret (Some s))
    (λ e,
      console_print (lit "[red]Error reading " ++ file_path ++ lit ": " ++ exn_text e
                     ++ lit "[/red]");;
      ret None).

Definition safe_backup `{Env} (file_path : str) : M unit :=
  try_except
    (let bak := file_path ++ lit ".bak" in
     has_bak ← path_exists bak;
     has_file ← path_exists file_path;
     if negb has_bak && has_file then copyfile file_path bak else ret ())
    (λ e,
      console_print (lit "[yellow]Warning: Could not create backup for " ++ file_path
                     ++ lit ": " ++ exn_text e ++ lit "[/yellow]")).

Definition write_file `{Unicode, Env} (file_path new_code : str) : M unit :=
  try_except
    (safe_backup file_path;;
     let cleaned := clean_code_fences new_code in
     open_write file_path cleaned;;
     console_print (lit "[green]✅ Updated: " ++ file_path ++ lit "[/green]"))
    (λ e,
      console_print (lit "[red]❌ Error writing " ++ file_path ++ lit ": " ++ exn_text e
                     ++ lit "[/red]")).

(** ** What the functions promise *)

(** What reading [path] gives when it succeeds. *)
Definition readable_text `{Env} (fs : gmap str node) (path : str) : option str :=
  match fs !! path with
  | Some (File (Some s)) => if unreadable path then None else Some (universal_newlines s)
  | _ => None
  end.

(** [path] can be copied: it is a file that can be read. *)
Definition copyable `{Env} (fs : gmap str node) (path : str) : option node :=
  match fs !! path with
  | Some (File data) => if unreadable path then None else Some (File data)
  | _ => None
  end.

(** [path] can be written: it is no directory and may be opened. *)
Definition writable `{Env} (fs : gmap str node) (path : str) : bool :=
  negb (bool_decide (fs !! path = Some Dir)) && negb (unwritable path).

(** The warning of a backup that failed. *)
Definition backup_warning `{Env} (p : str) (e : exn) : event :=
  Print (lit "[yellow]Warning: Could not create backup for " ++ p ++ lit ": " ++ exn_text e
         ++ lit "[/yellow]").

(** The backup of [path]. *)
Definition bak_of (path : str) : str := path ++ lit ".bak".

(** What a restore from the backup would give: the backup if there is one,
    the file itself otherwise. *)
Definition original (fs : gmap str node) (path : str) : option node :=
  match fs !! bak_of path with
  | Some n => Some n
  | None => fs !! path
  end.

(** The file is there, and a restore from its backup gives [o]. *)
Definition kept (o : option node) (path : str) (fs : gmap str node) : Prop :=
  is_Some (fs !! path) ∧ original fs path = o.

Definition updated_msg (p : str) : event := Print (lit "[green]✅ Updated: " ++ p ++ lit "[/green]").

Definition write_error `{Env} (p : str) (e : exn) : event :=
  Print (lit "[red]❌ Error writing " ++ p ++ lit ": " ++ exn_text e ++ lit "[/red]").


(** ** Lemmas *)

(** A singleton list is included in a list that has its element. *)
Ltac sub_singleton := intros ? ->%list_elem_of_singleton; repeat constructor.

Section file_io.
Context `{Unicode, Env}.
Implicit Types (w : world) (p : str) (fs : gmap str node).

Lemma bak_of_ne p : bak_of p ≠ p.
Proof. intros Heq%(f_equal length). unfold bak_of in Heq. rewrite length_app in Heq. simpl in Heq. lia. Qed.

(** *** [read_file] *)

Lemma open_read_run w p :
  open_read p w
  = match readable_text (w_fs w) p with
    | Some s => (Ok s, w)
    | None => ((open_read p w).1, w)
    end.
Proof.
  unfold open_read, readable_text, bind, lookup_fs.
  destruct (w_fs w !! p) as [[[s|]|]|]; try done; by destruct (unreadable p).
Qed.

Lemma open_read_Ok w p s w' : open_read p w = (Ok s, w') → readable_text (w_fs w) p = Some s.
Proof.
  unfold open_read, readable_text, bind, lookup_fs.
  destruct (w_fs w !! p) as [[[s'|]|]|]; try done; destruct (unreadable p); try done.
  by intros [= -> _].
Qed.

Lemma read_file_Some w p s :
  readable_text (w_fs w) p = Some s → read_file p w = (Ok (Some s), w).
Proof. intros Hs. unfold read_file, try_except, bind. by rewrite open_read_run, Hs. Qed.

Lemma read_file_None w p :
  readable_text (w_fs w) p = None →
  ∃ e, (open_read p w).1 = Raise e ∧
    read_file p w
    = (Ok None, World (w_fs w) (w_log w ++
        [Print (lit "[red]Error reading " ++ p ++ lit ": " ++ exn_text e ++ lit "[/red]")])).
Proof.
  intros Hs. unfold read_file, try_except, bind. rewrite open_read_run, Hs.
  destruct ((open_read p w).1) as [s|e] eqn:Hr; [|by exists e].
  assert (open_read p w = (Ok s, w)) as Hok by (by rewrite open_read_run, Hs, Hr).
  apply open_read_Ok in Hok. congruence.
Qed.

Lemma read_file_result w p : (read_file p w).1 = Ok (readable_text (w_fs w) p).
Proof.
  destruct (readable_text (w_fs w) p) as [s|] eqn:Hs.
  - by rewrite (read_file_Some _ _ _ Hs).
  - by destruct (read_file_None _ _ Hs) as (e & _ & ->).
Qed.

Lemma read_file_fs_pure p : fs_pure (read_file p).
Proof.
  intros w. destruct (readable_text (w_fs w) p) as [s|] eqn:Hs.
  - by rewrite (read_file_Some _ _ _ Hs).
  - by destruct (read_file_None _ _ Hs) as (e & _ & ->).
Qed.

Lemma read_file_log_grows p : log_grows (read_file p).
Proof.
  intros w. destruct (readable_text (w_fs w) p) as [s|] eqn:Hs.
  - by rewrite (read_file_Some _ _ _ Hs).
  - destruct (read_file_None _ _ Hs) as (e & _ & ->). by apply prefix_app_r.
Qed.

Lemma read_file_is_total p : total (read_file p).
Proof. intros w. by rewrite read_file_result. Qed.

(** *** [safe_backup] *)

(** Nothing to do: the backup is there, or the file is not. *)
Lemma safe_backup_skip w p :
  is_Some (w_fs w !! bak_of p) ∨ w_fs w !! p = None → safe_backup p w = (Ok (), w).
Proof.
  intros Hs. unfold safe_backup. apply try_except_Ok. cbv zeta.
  rewrite !bind_path_exists. fold (bak_of p). destruct Hs as [Hb| ->].
  - by rewrite (bool_decide_eq_true_2 _ Hb).
  - rewrite (bool_decide_eq_false_2 (is_Some None)) by by intros [??].
    by rewrite andb_false_r.
Qed.

Lemma copyfile_Ok w src dst n :
  copyable (w_fs w) src = Some n → w_fs w !! dst ≠ Some Dir → unwritable dst = false →
  copyfile src dst w = (Ok (), World (<[dst := n]> (w_fs w)) (w_log w)).
Proof.
  unfold copyfile, copyable. rewrite !bind_lookup_fs. intros Hn Hd ->.
  destruct (w_fs w !! src) as [[d|]|]; [|done..]. destruct (unreadable src); [done|].
  rewrite (bool_decide_eq_false_2 _ Hd). by simplify_eq.
Qed.

Lemma copyfile_Raise w src dst :
  copyable (w_fs w) src = None ∨ unwritable dst = true → ∃ e, copyfile src dst w = (Raise e, w).
Proof.
  unfold copyfile, copyable. rewrite !bind_lookup_fs. intros Hc.
  destruct (w_fs w !! src) as [[d|]|]; [|by eexists..].
  destruct (unreadable src); [by eexists|].
  destruct (bool_decide _); [by eexists|]. destruct Hc as [?| ->]; [done|by eexists].
Qed.

Lemma safe_backup_copy w p n :
  w_fs w !! bak_of p = None → copyable (w_fs w) p = Some n → unwritable (bak_of p) = false →
  safe_backup p w = (Ok (), World (<[bak_of p := n]> (w_fs w)) (w_log w)).
Proof.
  intros Hb Hn Hw. unfold safe_backup. apply try_except_Ok. cbv zeta.
  rewrite !bind_path_exists. fold (bak_of p). rewrite Hb.
  assert (is_Some (w_fs w !! p)) as Hp.
  { unfold copyable in Hn. by destruct (w_fs w !! p). }
  rewrite (bool_decide_eq_true_2 _ Hp), (bool_decide_eq_false_2 (is_Some None)) by by intros [??].
  apply copyfile_Ok; [done| |done]. by rewrite Hb.
Qed.

Lemma safe_backup_fail w p :
  w_fs w !! bak_of p = None → is_Some (w_fs w !! p) →
  copyable (w_fs w) p = None ∨ unwritable (bak_of p) = true →
  ∃ e, safe_backup p w = (Ok (), World (w_fs w) (w_log w ++ [backup_warning p e])).
Proof.
  intros Hb Hp Hc. destruct (copyfile_Raise w p (bak_of p) Hc) as [e He]. exists e.
  unfold safe_backup. erewrite try_except_Raise; [done|]. cbv zeta.
  rewrite !bind_path_exists. fold (bak_of p). rewrite Hb.
  by rewrite (bool_decide_eq_true_2 _ Hp), (bool_decide_eq_false_2 (is_Some None)) by by intros [??].
Qed.

(** The three cases are all there is. *)
Lemma safe_backup_cases w p :
  safe_backup p w = (Ok (), w) ∨
  (∃ n, w_fs w !! bak_of p = None ∧ copyable (w_fs w) p = Some n ∧
        safe_backup p w = (Ok (), World (<[bak_of p := n]> (w_fs w)) (w_log w))) ∨
  (∃ e, safe_backup p w = (Ok (), World (w_fs w) (w_log w ++ [backup_warning p e]))).
Proof.
  destruct (w_fs w !! bak_of p) as [b|] eqn:Hb; [left; apply safe_backup_skip; eauto|].
  destruct (w_fs w !! p) as [n|] eqn:Hp; [|left; apply safe_backup_skip; eauto].
  destruct (copyable (w_fs w) p) as [n'|] eqn:Hc;
    [destruct (unwritable (bak_of p)) eqn:Hw|]; [right; right|right; left|right; right].
  - apply safe_backup_fail; eauto.
  - exists n'. eauto using safe_backup_copy.
  - apply safe_backup_fail; eauto.
Qed.

Lemma safe_backup_is_total p : total (safe_backup p).
Proof. intros w. by destruct (safe_backup_cases w p) as [->|[(?&?&?& ->)|[? ->]]]. Qed.

Lemma safe_backup_log_grows p : log_grows (safe_backup p).
Proof.
  intros w. destruct (safe_backup_cases w p) as [->|[(?&?&?& ->)|[? ->]]]; simpl;
    [done..|by apply prefix_app_r].
Qed.

Lemma safe_backup_frame p : fs_frame [bak_of p] (safe_backup p).
Proof.
  intros w q Hq. destruct (safe_backup_cases w p) as [->|[(?&?&?& ->)|[? ->]]]; simpl;
    [done| |done].
  apply lookup_insert_ne. set_solver.
Qed.

(** A backup that exists is never replaced. *)
Lemma safe_backup_keeps w p n :
  w_fs w !! bak_of p = Some n → safe_backup p w = (Ok (), w).
Proof. intros Hb. apply safe_backup_skip. eauto. Qed.

Lemma safe_backup_run w p : safe_backup p w = (Ok (), (safe_backup p w).2).
Proof. by destruct (safe_backup_cases w p) as [->|[(?&?&?& ->)|[? ->]]]. Qed.

Lemma safe_backup_same_file w p : w_fs (safe_backup p w).2 !! p = w_fs w !! p.
Proof. apply safe_backup_frame. intros Hin%list_elem_of_singleton. by apply (bak_of_ne p). Qed.

(** *** [write_file] *)

Lemma open_write_Ok w p s :
  writable (w_fs w) p = true → encodable s = true →
  open_write p s w = (Ok (), World (<[p := File (Some s)]> (w_fs w)) (w_log w)).
Proof.
  unfold open_write, writable. rewrite bind_lookup_fs. intros [Hd Hw]%andb_true_iff ->.
  apply negb_true_iff in Hd, Hw. by rewrite Hd, Hw.
Qed.

Lemma open_write_denied w p s :
  writable (w_fs w) p = false → ∃ e, open_write p s w = (Raise e, w).
Proof.
  unfold open_write, writable. rewrite bind_lookup_fs. intros Hw.
  destruct (bool_decide _); [by eexists|]. destruct (unwritable p); [by eexists|done].
Qed.

Lemma writable_same fs fs' p : fs' !! p = fs !! p → writable fs' p = writable fs p.
Proof. unfold writable. by intros ->. Qed.

Lemma write_file_Ok w p new_code :
  writable (w_fs w) p = true → encodable (clean_code_fences new_code) = true →
  write_file p new_code w
  = (Ok (), World (<[p := File (Some (clean_code_fences new_code))]> (w_fs (safe_backup p w).2))
                  (w_log (safe_backup p w).2 ++ [updated_msg p])).
Proof.
  intros Hw Hc. unfold write_file. apply try_except_Ok.
  rewrite (bind_Ok _ _ _ _ _ (safe_backup_run w p)). cbv zeta.
  assert (writable (w_fs (safe_backup p w).2) p = true) as Hw'.
  { by rewrite (writable_same (w_fs w)) by apply safe_backup_same_file. }
  by rewrite (bind_Ok _ _ _ _ _ (open_write_Ok _ _ _ Hw' Hc)).
Qed.

Lemma write_file_denied w p new_code :
  writable (w_fs w) p = false →
  ∃ e, write_file p new_code w
       = (Ok (), World (w_fs (safe_backup p w).2) (w_log (safe_backup p w).2 ++ [write_error p e])).
Proof.
  intros Hw. destruct (open_write_denied (safe_backup p w).2 p (clean_code_fences new_code)) as [e He].
  { by rewrite (writable_same (w_fs w)) by apply safe_backup_same_file. }
  exists e. unfold write_file. erewrite try_except_Raise; [done|].
  rewrite (bind_Ok _ _ _ _ _ (safe_backup_run w p)). cbv zeta.
  by erewrite bind_Raise.
Qed.

Lemma open_write_frame p s : fs_frame [p] (open_write p s).
Proof.
  intros w q Hq. unfold open_write. rewrite bind_lookup_fs.
  repeat case_match; try done; simpl; apply lookup_insert_ne; set_solver.
Qed.

Lemma open_write_keeps_file w p s :
  is_Some (w_fs w !! p) → is_Some (w_fs (open_write p s w).2 !! p).
Proof.
  intros Hp. unfold open_write. rewrite bind_lookup_fs.
  repeat case_match; simpl; rewrite ?lookup_insert_eq; eauto.
Qed.

Lemma write_file_keeps_file w p new_code :
  is_Some (w_fs w !! p) → is_Some (w_fs (write_file p new_code w).2 !! p).
Proof.
  intros Hp. unfold write_file, try_except.
  rewrite (bind_Ok _ _ _ _ _ (safe_backup_run w p)). cbv zeta. unfold bind.
  pose proof (open_write_keeps_file (safe_backup p w).2 p (clean_code_fences new_code)) as Hk.
  rewrite safe_backup_same_file in Hk. specialize (Hk Hp).
  by destruct (open_write p _ _) as [[[]|e] w'].
Qed.

Lemma kept_agree o p paths fs fs' :
  p ∉ paths → bak_of p ∉ paths → agree_outside paths fs fs' → kept o p fs' → kept o p fs.
Proof. intros Hp Hb Hfs [Hs <-]. unfold kept, original. by rewrite !Hfs. Qed.

Lemma open_write_log_grows p s : log_grows (open_write p s).
Proof. intros w. unfold open_write. rewrite bind_lookup_fs. by repeat case_match. Qed.

Lemma write_file_is_total p new_code : total (write_file p new_code).
Proof. unfold write_file. apply try_except_total. intros e. apply emit_total. Qed.

Lemma write_file_frame p new_code : fs_frame [p; bak_of p] (write_file p new_code).
Proof.
  unfold write_file. apply fs_frame_try; [|intros; apply fs_pure_frame, emit_fs_pure].
  apply fs_frame_bind; [eapply fs_frame_mono, safe_backup_frame; sub_singleton|]. intros _.
  apply fs_frame_bind; [eapply fs_frame_mono, open_write_frame; sub_singleton|]. intros _.
  apply fs_pure_frame, emit_fs_pure.
Qed.

Lemma write_file_log_grows p new_code : log_grows (write_file p new_code).
Proof.
  unfold write_file. apply log_grows_try; [|intros; apply emit_log_grows].
  apply log_grows_bind; [apply safe_backup_log_grows|]. intros _.
  apply log_grows_bind; [apply open_write_log_grows|]. intros _. apply emit_log_grows.
Qed.

Lemma original_same fs fs' p :
  fs' !! bak_of p = fs !! bak_of p → (fs !! bak_of p = None → fs' !! p = fs !! p) →
  original fs' p = original fs p.
Proof. unfold original. intros -> Hp. destruct (fs !! bak_of p); [done|by apply Hp]. Qed.

Lemma safe_backup_original w p :
  original (w_fs (safe_backup p w).2) p = original (w_fs w) p.
Proof.
  destruct (safe_backup_cases w p) as [->|[(n & Hb & Hn & ->)|[? ->]]]; [done| |done].
  unfold original, copyable in *. simpl. rewrite lookup_insert_eq, Hb.
  destruct (w_fs w !! p) as [[d|]|]; [|done..]. by destruct (unreadable p).
Qed.

(** With a backup in place, writing the file changes nothing of what a
    restore gives. *)
Lemma open_write_original w p s :
  is_Some (w_fs w !! bak_of p) ∨ w_fs w !! p = Some Dir →
  original (w_fs (open_write p s w).2) p = original (w_fs w) p.
Proof.
  intros Hb. apply original_same.
  - apply open_write_frame. intros Hin%list_elem_of_singleton. by apply (bak_of_ne p).
  - intros Hnone. destruct Hb as [[n Hn]|Hd]; [congruence|].
    unfold open_write. rewrite bind_lookup_fs, Hd. by rewrite bool_decide_eq_true_2.
Qed.

(** After [safe_backup] the backup is there, when it could be made. *)
Lemma safe_backup_made w p :
  is_Some (w_fs w !! p) → unreadable p = false → unwritable (bak_of p) = false →
  is_Some (w_fs (safe_backup p w).2 !! bak_of p) ∨ w_fs (safe_backup p w).2 !! p = Some Dir.
Proof.
  intros [n Hp] Hr Hw. destruct (w_fs w !! bak_of p) as [b|] eqn:Hb.
  { left. rewrite (safe_backup_keeps _ _ _ Hb). eauto. }
  destruct n as [d|].
  - left. erewrite safe_backup_copy; [|done| |done].
    + simpl. rewrite lookup_insert_eq. eauto.
    + unfold copyable. by rewrite Hp, Hr.
  - right. by rewrite safe_backup_same_file.
Qed.

(** *** No function of this file sends a request *)

Lemma read_file_silent p : silent (read_file p).
Proof. unfold read_file. solve_quiet. Qed.

Lemma safe_backup_silent p : silent (safe_backup p).
Proof.
  unfold safe_backup. cbv zeta. apply silent_try; [|intros; solve_quiet].
  do 2 (apply silent_bind; [solve_quiet|intros ?]). case_match; solve_quiet.
Qed.

Lemma write_file_silent p new_code : silent (write_file p new_code).
Proof.
  unfold write_file. cbv zeta. apply silent_try; [|intros; solve_quiet].
  apply silent_bind; [apply safe_backup_silent|intros _]. solve_quiet.
Qed.

End file_io.

#[export] Hint Resolve read_file_silent safe_backup_silent write_file_silent : io.
#[export] Hint Resolve read_file_is_total safe_backup_is_total write_file_is_total : io.
#[export] Hint Resolve read_file_fs_pure : io.
#[export] Hint Resolve read_file_log_grows safe_backup_log_grows write_file_log_grows : io.

(** ** Theorems *)

Section file_io_theorems.
Context `{Unicode, Env}.
Implicit Types (w : world) (p : str).

(** [read_file] never raises and never changes a file; it returns the
    text of a readable UTF-8 file, with its line ends as [\n], and [None]
    for anything else. *)
Theorem read_file_spec w p :
  (read_file p w).1 = Ok (readable_text (w_fs w) p) ∧ w_fs (read_file p w).2 = w_fs w.
Proof. split; [apply read_file_result|apply read_file_fs_pure]. Qed.

(** [write_file] never raises, changes no file but the one it is given
    and its backup, and only adds to the console's output. *)
Theorem write_file_contained p new_code :
  total (write_file p new_code) ∧
  fs_frame [p; bak_of p] (write_file p new_code) ∧
  log_grows (write_file p new_code).
Proof. auto using write_file_is_total, write_file_frame, write_file_log_grows. Qed.

(** When the file can be written, it holds the cleaned reply afterwards
    and the update is announced. *)
Theorem write_file_written w p new_code :
  writable (w_fs w) p = true → encodable (clean_code_fences new_code) = true →
  w_fs (write_file p new_code w).2 !! p = Some (File (Some (clean_code_fences new_code))) ∧
  list.last (w_log (write_file p new_code w).2) = Some (updated_msg p).
Proof.
  intros Hw Hc. rewrite (write_file_Ok _ _ _ Hw Hc). simpl.
  by rewrite lookup_insert_eq, last_snoc.
Qed.

(** When the file cannot be written, it is left as it was and the error
    is reported; [write_file] still returns normally. *)
Theorem write_file_refused w p new_code :
  writable (w_fs w) p = false →
  w_fs (write_file p new_code w).2 !! p = w_fs w !! p ∧
  ∃ e, list.last (w_log (write_file p new_code w).2) = Some (write_error p e).
Proof.
  intros Hw. destruct (write_file_denied _ _ new_code Hw) as [e ->]. simpl.
  split; [apply safe_backup_same_file|]. exists e. by rewrite last_snoc.
Qed.

(** Writing an existing, readable file whose backup can be created
    never changes what a restore from the backup gives: the first version
    of the file survives any number of writes. *)
Theorem write_file_keeps_original w p new_code :
  is_Some (w_fs w !! p) → unreadable p = false → unwritable (bak_of p) = false →
  original (w_fs (write_file p new_code w).2) p = original (w_fs w) p.
Proof.
  intros Hp Hr Hw. rewrite <-(safe_backup_original w p).
  pose proof (safe_backup_made _ _ Hp Hr Hw) as Hmade.
  rewrite <-(open_write_original _ _ (clean_code_fences new_code) Hmade).
  unfold write_file, try_except.
  rewrite (bind_Ok _ _ _ _ _ (safe_backup_run w p)). cbv zeta. unfold bind.
  by destruct (open_write p _ _) as [[[]|e] w'].
Qed.

(** The same as an invariant of the files, for the file that is written
    and for every other one. *)
Lemma write_file_kept o p g new_code :
  unreadable p = false → unwritable (bak_of p) = false →
  g ≠ bak_of p → bak_of g ≠ p →
  fs_inv (kept o p) (write_file g new_code).
Proof.
  intros Hr Hw Hg Hb. destruct (decide (g = p)) as [->|Hne].
  - intros w [Hp <-]. split; [by apply write_file_keeps_file|].
    by apply write_file_keeps_original.
  - eapply fs_frame_inv, write_file_frame. intros fs fs'. apply kept_agree.
    + intros [->|[->|[]%elem_of_nil]%elem_of_cons]%elem_of_cons; congruence.
    + intros [?|[?%(inj (λ q, q ++ lit ".bak"))|[]%elem_of_nil]%elem_of_cons]%elem_of_cons;
        congruence.
Qed.

(** [safe_backup] never raises, never touches the file itself and never
    changes what a restore gives; in particular a backup that exists is
    never replaced. *)
Theorem safe_backup_spec w p :
  (safe_backup p w).1 = Ok () ∧
  w_fs (safe_backup p w).2 !! p = w_fs w !! p ∧
  original (w_fs (safe_backup p w).2) p = original (w_fs w) p.
Proof.
  split_and!; [by rewrite safe_backup_run|apply safe_backup_same_file|apply safe_backup_original].
Qed.

(** C35: a backup that cannot be created does not stop the write: the file
    is replaced and its first version is lost. *)
Theorem write_file_without_backup w p new_code :
  is_Some (w_fs w !! p) → w_fs w !! bak_of p = None → unwritable (bak_of p) = true →
  writable (w_fs w) p = true → encodable (clean_code_fences new_code) = true →
  w_fs (write_file p new_code w).2 !! p = Some (File (Some (clean_code_fences new_code))) ∧
  w_fs (write_file p new_code w).2 !! bak_of p = None.
Proof.
  intros Hp Hb Hro Hw Hc. rewrite (write_file_Ok _ _ _ Hw Hc). simpl.
  destruct (safe_backup_fail w p Hb Hp) as [e ->]; [by right|]. simpl.
  by rewrite lookup_insert_eq, lookup_insert_ne by (intros Heq; by apply (bak_of_ne p)).
Qed.

End file_io_theorems.

(** ** Witnesses on the example world *)

Lemma write_file_written_witness :
  w_fs (@write_file ascii_unicode ex_env (lit "a.py") (lit "```python
x = 2
```") ex_world).2 !! lit "a.py" = Some (File (Some (lit "x = 2
"))) ∧
  list.last (w_log (@write_file ascii_unicode ex_env (lit "a.py") (lit "```python
x = 2
```") ex_world).2) = Some (updated_msg (lit "a.py")).
Proof.
  apply (@write_file_written ascii_unicode ex_env ex_world (lit "a.py") (lit "```python
x = 2
```")); by vm_compute.
Defined.

Lemma write_file_refused_witness :
  w_fs (@write_file ascii_unicode ex_env (lit "locked.py") (lit "z = 2") ex_world).2
    !! lit "locked.py" = Some (File (Some (lit "z = 1"))) ∧
  ∃ e, list.last (w_log (@write_file ascii_unicode ex_env (lit "locked.py") (lit "z = 2")
                           ex_world).2) = Some (@write_error ex_env (lit "locked.py") e).
Proof.
  apply (@write_file_refused ascii_unicode ex_env ex_world (lit "locked.py") (lit "z = 2")).
  by vm_compute.
Defined.

Lemma write_file_keeps_original_witness :
  original (w_fs (@write_file ascii_unicode ex_env (lit "a.py") (lit "x = 3")
    (@write_file ascii_unicode ex_env (lit "a.py") (lit "x = 2") ex_world).2).2) (lit "a.py")
  = Some (File (Some (lit "x = 1"))).
Proof.
  rewrite (@write_file_keeps_original ascii_unicode ex_env _ (lit "a.py") (lit "x = 3"));
    [|vm_compute; eauto..].
  apply (@write_file_keeps_original ascii_unicode ex_env ex_world (lit "a.py") (lit "x = 2"));
    vm_compute; eauto.
Defined.

Lemma write_file_without_backup_witness :
  w_fs (@write_file ascii_unicode ex_env (lit "ro.py") (lit "y = 2") ex_world).2 !! lit "ro.py"
  = Some (File (Some (lit "y = 2
"))) ∧
  w_fs (@write_file ascii_unicode ex_env (lit "ro.py") (lit "y = 2") ex_world).2
    !! bak_of (lit "ro.py") = None.
Proof.
  apply (@write_file_without_backup ascii_unicode ex_env ex_world (lit "ro.py") (lit "y = 2"));
    vm_compute; eauto.
Defined.
