(* ===== verification/Requester.v ===== *)
(** * Asking the model for a review

    [generate_content] and [review_project] (src/app.py lines 132-204).  The
    prompt is the source's template, character for character, around the
    user's requirement and the batch text.  [replies] and [answered] say
    which answers the requests of a log received. *)

From S2P Require Import PyStr World Config.

Local Open Scope io_scope.

(** ** The review prompt *)

(** The template up to the user's requirement. *)
Definition review_prompt_head : str :=
  lit "
You are an expert software debugger and code reviewer.

Analyze the entire project for defects and risks. Each section below starts with "
  ++ [ch_dquote]
  ++ lit "### FILE PATH:"
  ++ [ch_dquote]
  ++ lit "
and contains the full code for that file. Provide precise, actionable findings and corrected code.

Scope of checks (be thorough and conservative):
- Syntax errors and runtime errors (undefined names, indexing, attribute, import errors)
- Incorrect logic and edge cases (off-by-one, null/None checks, empty input handling)
- Exception handling quality (missing try/except where needed; overbroad excepts; swallowed errors)
- Resource handling (files, network, subprocesses) and leaks; context managers where applicable
- Dependency/import issues (wrong filenames/paths/extensions, missing modules, circular imports)
- API contract mismatches (wrong params/return types, missing awaits, async misuse)
- Type issues and nullability; mutation of shared state; concurrency/async pitfalls
- HTML/CSS/JS linkage mistakes (wrong script/style paths, case sensitivity, extension mismatches)
- Frontend errors (DOM selectors, event binding, missing assets, incorrect MIME/rel attributes)
- Security concerns (eval/exec, command injection, XSS/CSRF risks, hardcoded secrets, plaintext keys)
- Performance hotspots (N+1 queries/polls, excessive loops, unbounded recursion, heavy sync I/O on UI)
- Code quality (duplication, long functions, poor naming, missing docs/comments where non-obvious)
- During api fetching the code should be wrapped in try catch block.If not then the corrected code which you will give should contain that try catch block
Additionally, include three Markdown tables for every file:

Chart 1 - Review Checklist: for the present code and not about the corrected code. The charts should be made for the existing codes
| Review Aspect | Status |
|---|---|
| Variable naming | ✅ / ❌ |
| Hardcoded values/secrets | ✅ / ❌ |
| Code repetition | ✅ / ❌ |
| Modularity | ✅ / ❌ |
| Complexity (high/med/low) | high/med/low |
| Comments & docs | ✅ / ❌ |
| Exception handling present | ✅ / ❌ |
| Dependency/import correctness | ✅ / ❌ |
| Security concerns | ✅ / ❌ |

Chart 2 - API Calls Summary (if any found):
| API Endpoint | Request (sample) | Response (sample) |
|---|---|---|
| (list endpoints or 'None') | | |

Chart 3 - Security Issues / Best Practices:
| Category | Recommendation |
|---|---|
| (e.g. plaintext password storage) | (recommendation) |

User requirement: ".

(** From the requirement to the project text. *)
Definition review_prompt_mid : str :=
  lit "
Important: Fix file import/link mismatches robustly. Example: if the folder has script.js but HTML imports app.js,
change it to script.js; similarly styles.css vs style.css, respecting actual files present. NEVER invent new files
that do not exist—choose the most plausible correct existing path/filename.

Here is the project:
".

(** After the project text. *)
Definition review_prompt_tail : str :=
  lit "

Output format (repeat for all files whether there exists error or not. If no error is present then say that no error and in fixed code place the original code as it is, and if there is error then tell the error and give the corrected code in fixed code):
File: <path>
Error: <short description>
Fixed code:
```<language>
<corrected file code>
```

".

Definition review_prompt (all_code : str) (user_prompt : option str) : str :=
  review_prompt_head ++ str_or (default [] user_prompt) (lit "N/A") ++ review_prompt_mid
  ++ all_code ++ review_prompt_tail.

(** ** The two functions *)

Definition model_unavailable : exn :=
  RuntimeError (lit "Gemini model unavailable. Check API key or model name.").

Definition generate_content `{Env} (prompt : str) : M str :=
  if model_loaded then
    try_except
      (text ← call_model prompt; ret (default [] text))
      (λ e, ret (lit "Error: " ++ exn_text e))
  else raise model_unavailable.

Definition review_project `{Env} (all_code : str) (user_prompt : option str) : M str :=
  generate_content (review_prompt all_code user_prompt).

(** What [generate_content] returns for what the service answers. *)
Definition reply_text `{Env} (r : reply) : str :=
  match r with
  | Response text => default [] text
  | Failure e => lit "Error: " ++ exn_text e
  end.

(** What the service answered to the requests of [log], which follows
    [seen]: for each request, in order, the text that [generate_content]
    returns for the reply of the service at that moment. *)
Fixpoint replies `{Env} (seen log : list event) : list str :=
  match log with
  | [] => []
  | e :: log' =>
    (if e is Request prompt then [reply_text (generate seen prompt)] else [])
    ++ replies (seen ++ [e]) log'
  end.

(** From [w] to [w'] the log has grown, and [outputs] are the answers to
    the requests that were added. *)
Definition answered `{Env} (w w' : world) (outputs : list str) : Prop :=
  ∃ new, w_log w' = w_log w ++ new ∧ replies (w_log w) new = outputs.

(** ** Lemmas *)

Lemma length_review_prompt_parts :
  length review_prompt_head = 2433 ∧ length review_prompt_mid = 329 ∧
  length review_prompt_tail = 350.
Proof. by vm_compute. Qed.

Section requester.
Context `{Env}.
Implicit Types (w : world) (prompt : str).

(** *** The answers in a log *)

Lemma replies_app seen log1 log2 :
  replies seen (log1 ++ log2) = replies seen log1 ++ replies (seen ++ log1) log2.
Proof.
  revert seen. induction log1 as [|e log1 IH]; intros seen; simpl.
  - by rewrite app_nil_r.
  - by rewrite IH, <-!(assoc_L (++)).
Qed.

Lemma length_replies seen log : length (replies seen log) = length (requests log).
Proof.
  revert seen. induction log as [|e log IH]; intros seen; [done|].
  cbn [replies]. rewrite length_app, IH. unfold requests. by destruct e.
Qed.

Lemma answered_refl w : answered w w [].
Proof. exists []. by rewrite app_nil_r. Qed.

Lemma answered_trans w1 w2 w3 outputs1 outputs2 :
  answered w1 w2 outputs1 → answered w2 w3 outputs2 → answered w1 w3 (outputs1 ++ outputs2).
Proof.
  intros (new1 & Hlog1 & <-) (new2 & Hlog2 & <-). exists (new1 ++ new2).
  by rewrite replies_app, Hlog2, Hlog1, (assoc_L (++)).
Qed.

(** A step that sends no request has no answer. *)
Lemma answered_quiet w w' :
  w_log w `prefix_of` w_log w' → requests (w_log w') = requests (w_log w) → answered w w' [].
Proof.
  intros [new Hlog] Hreq. exists new. split; [done|]. apply nil_length_inv.
  rewrite length_replies. apply (f_equal length) in Hreq. unfold requests in *.
  rewrite Hlog, omap_app, length_app in Hreq. lia.
Qed.

Lemma answered_length w w' outputs :
  answered w w' outputs → length (requests (w_log w')) = length (requests (w_log w)) + length outputs.
Proof.
  intros (new & -> & <-). unfold requests. by rewrite omap_app, length_app, length_replies.
Qed.

Lemma generate_content_run prompt w :
  model_loaded = true →
  generate_content prompt w
  = (Ok (reply_text (generate (w_log w) prompt)), World (w_fs w) (w_log w ++ [Request prompt])).
Proof.
  intros Hm. unfold generate_content, try_except, bind. rewrite Hm, call_model_run.
  by destruct (generate _ _).
Qed.

Lemma generate_content_fs_pure prompt : fs_pure (generate_content prompt).
Proof.
  intros w. unfold generate_content. destruct model_loaded eqn:Hm; [|done].
  unfold try_except, bind. rewrite call_model_run. by destruct (generate _ _).
Qed.

Lemma generate_content_log_grows prompt : log_grows (generate_content prompt).
Proof.
  intros w. unfold generate_content. destruct model_loaded eqn:Hm; [|done].
  unfold try_except, bind. rewrite call_model_run. destruct (generate _ _); by apply prefix_app_r.
Qed.

Lemma review_project_fs_pure all_code user_prompt : fs_pure (review_project all_code user_prompt).
Proof. apply generate_content_fs_pure. Qed.

Lemma review_project_log_grows all_code user_prompt :
  log_grows (review_project all_code user_prompt).
Proof. apply generate_content_log_grows. Qed.

Lemma review_project_run all_code user_prompt w :
  model_loaded = true →
  review_project all_code user_prompt w
  = (Ok (reply_text (generate (w_log w) (review_prompt all_code user_prompt))),
     World (w_fs w) (w_log w ++ [Request (review_prompt all_code user_prompt)])).
Proof. apply generate_content_run. Qed.

Lemma review_project_answered all_code user_prompt w :
  answered w (World (w_fs w) (w_log w ++ [Request (review_prompt all_code user_prompt)]))
    [reply_text (generate (w_log w) (review_prompt all_code user_prompt))].
Proof. by eexists. Qed.

Lemma review_project_raises all_code user_prompt :
  raises_only (λ e, model_loaded = false ∧ e = model_unavailable)
    (review_project all_code user_prompt).
Proof.
  unfold review_project, generate_content. destruct model_loaded.
  - apply total_raises_only, try_except_total. intros e. apply ret_total.
  - by intros w e w' [= <- <-].
Qed.

Lemma review_project_unloaded all_code user_prompt w :
  model_loaded = false → review_project all_code user_prompt w = (Raise model_unavailable, w).
Proof. unfold review_project, generate_content. by intros ->. Qed.

(** ** Theorems *)

(** With the model loaded, [generate_content] never raises: it sends the
    prompt once and returns the reply's text, the empty string when the
    reply has none, and [Error: ] followed by the exception's text when the
    service fails; no file changes. *)
Theorem generate_content_spec prompt w :
  model_loaded = true →
  generate_content prompt w
  = (Ok (match generate (w_log w) prompt with
         | Response (Some text) => text
         | Response None => []
         | Failure e => lit "Error: " ++ exn_text e
         end),
     World (w_fs w) (w_log w ++ [Request prompt])).
Proof.
  intros Hm. rewrite (generate_content_run _ _ Hm). by destruct (generate _ _) as [[]|].
Qed.

(** The prompt of a review is the batch text and the user's
    requirement ([N/A] when there is none or it is empty) inside the fixed
    template: it is 3112 characters longer than the two together. *)
Theorem review_prompt_length all_code user_prompt :
  review_prompt all_code user_prompt
  = review_prompt_head ++ str_or (default [] user_prompt) (lit "N/A") ++ review_prompt_mid
    ++ all_code ++ review_prompt_tail ∧
  length (review_prompt all_code user_prompt)
  = 3112 + length (str_or (default [] user_prompt) (lit "N/A")) + length all_code.
Proof.
  split; [done|]. unfold review_prompt. rewrite !length_app.
  destruct length_review_prompt_parts as (-> & -> & ->). lia.
Qed.

End requester.

Lemma generate_content_spec_witness :
  @generate_content ex_env (lit "hi") ex_world
  = (Ok (lit "```python
x = 2
```"), World (w_fs ex_world) [Request (lit "hi")]).
Proof. by apply (@generate_content_spec ex_env (lit "hi") ex_world). Defined.
