(* ===== verification/FixApplier.v ===== *)
(** * Applying fixes: [auto_fix_project]

    src/app.py lines 206-277.  [fix_file] is the body of the loop over
    [files_to_process]: read the file, ask the model for a corrected
    version, show it, and write it when [apply_all] is set or the user
    agrees.  Whatever is raised after the file was read is caught and
    printed, and the loop goes on with the next file. *)

From stdpp Require Import gmap.
From S2P Require Import PyStr PyPath Fences World Config FileIO.

Local Open Scope io_scope.

(** ** The prompt *)

Definition fix_prompt (review_output file_path code : str) : str :=
  lit "
You are an AI assistant. Using the review below, fix only issues related to this file.

Review:
" ++ review_output ++ lit "

File: " ++ file_path ++ lit "
Current Code:
```" ++ drop 1 (path_suffix file_path) ++ [ch_nl] ++ code ++ lit "
```

Output the corrected code for this file only.
".

(** ** The loop body *)

(** [resp.text.strip()]: [None] has no [strip]. *)
Definition reply_strip (text : option str) : M str :=
  match text with
  | Some t => ret (strip t)
  | None => raise (AttributeError (lit "'NoneType' object has no attribute 'strip'"))
  end.

(** Lines 243-248: the suggestion is shown, cut to 3000 characters. *)
Definition show_fix (ui_logger : bool) (file_path new_code : str) : M unit :=
  console_rule (lit "[bold yellow]🧠 Suggested Fix for " ++ file_path ++ lit "[/bold yellow]");;
  if ui_logger then
    ui_log (lit "
===== Suggested Fix for " ++ file_path ++ lit " =====
");;
    ui_log (take 3000 new_code ++
            (if bool_decide (3000 < length new_code) then lit "
...[truncated]
" else [ch_nl]))
  else emit (PrintMarkdown (take 3000 new_code)).

Definition skipped_msg (file_path : str) : str :=
  lit "[yellow]⏩ Skipped: " ++ file_path ++ lit "[/yellow]".

(** Lines 250-275: write, ask, or skip. *)
Definition decide_fix `{Unicode, Env} (apply_all interactive : bool)
    (prompt_func : option prompt_fn) (ui_logger : bool) (file_path new_code : str) : M unit :=
  if apply_all then write_file file_path new_code
  else if interactive then
    if ui_logger then
      apply_change ← call_prompt prompt_func (lit "Apply suggested changes to " ++ file_path ++ lit "?");
      if (apply_change : bool) then write_file file_path new_code
      else if ui_logger then ui_log (lit "Skipped: " ++ file_path ++ [ch_nl])
      else console_print (skipped_msg file_path)
    else
      line ← input (lit "Apply suggested changes to " ++ file_path ++ lit "? (y/n): ");
      let choice := lower (strip line) in
      if bool_decide (choice = lit "y") then write_file file_path new_code
      else console_print (skipped_msg file_path)
  else if ui_logger then ui_log (lit "Skipped (non-interactive): " ++ file_path ++ [ch_nl])
  else console_print (lit "[yellow]⏩ Skipped (non-interactive): " ++ file_path ++ lit "[/yellow]").

Definition fix_error `{Env} (file_path : str) (e : exn) : event :=
  Print (lit "[red]Error fixing " ++ file_path ++ lit ": " ++ exn_text e ++ lit "[/red]").

(** Lines 222-277: one round of the loop. *)
Definition fix_file `{Unicode, Env} (review_output : str) (apply_all interactive : bool)
    (prompt_func : option prompt_fn) (ui_logger : bool) (file_path : str) : M unit :=
  code ← read_file file_path;
  match code with
  | None | Some [] => ret ()
  | Some code =>
    try_except
      (text ← call_model (fix_prompt review_output file_path code);
       new_code ← reply_strip text;
       show_fix ui_logger file_path new_code;;
       decide_fix apply_all interactive prompt_func ui_logger file_path new_code)
      (λ e, emit (fix_error file_path e))
  end.

(** ** [auto_fix_project] *)

Definition auto_fix_project `{Unicode, Env} (path review_output : str)
    (files_to_process : list str) (apply_all interactive : bool)
    (prompt_func : option prompt_fn) (ui_logger : bool) : M unit :=
  new_model MODEL_NAME;;
  for_each files_to_process
    (fix_file review_output apply_all interactive prompt_func ui_logger).

(** ** What the theorems speak of *)

(** The paths a run over [files] may change: the files and their backups. *)
Definition touched (files : list str) : list str := files ++ (bak_of <$> files).

(** Nobody ever agrees: the keyboard never answers [y] and [prompt_func]
    never answers true. *)
Definition never_yes `{Unicode, Env} (prompt_func : option prompt_fn) : Prop :=
  (∀ log, lower (strip (default [] (stdin log))) ≠ lit "y") ∧
  (∀ g log q, prompt_func = Some g → g log q = false).

(** Nobody agrees in the mode of the run: in the window [prompt_func]
    never answers true, on the console the keyboard never answers [y]. *)
Definition declines `{Unicode, Env} (ui_logger : bool) (prompt_func : option prompt_fn) : Prop :=
  if ui_logger then ∀ g log q, prompt_func = Some g → g log q = false
  else ∀ log, lower (strip (default [] (stdin log))) ≠ lit "y".

(** The request of the round of [f] on the files [fs]: the fix prompt of
    its text, when it can be read and is not empty. *)
Definition fix_request `{Env} (review_output : str) (fs : gmap str node) (f : str) : option str :=
  match readable_text fs f with
  | Some (c :: code) => Some (fix_prompt review_output f (c :: code))
  | _ => None
  end.

(** The files are listed once, and no backup of a listed file is listed. *)
Definition apart (files : list str) : Prop :=
  NoDup files ∧ Forall (λ f, bak_of f ∉ files) files.

(** ** Lemmas *)

Section fix_applier.
Context `{Unicode, Env}.
Implicit Types (w : world) (f : str) (files : list str) (ui_logger apply_all interactive : bool).

Lemma reply_strip_fs_pure text : fs_pure (reply_strip text).
Proof. by destruct text. Qed.

Lemma reply_strip_log_grows text : log_grows (reply_strip text).
Proof. intros w. by destruct text. Qed.

Lemma show_fix_fs_pure ui_logger f new_code : fs_pure (show_fix ui_logger f new_code).
Proof. by destruct ui_logger. Qed.

Lemma show_fix_log_grows ui_logger f new_code : log_grows (show_fix ui_logger f new_code).
Proof.
  unfold show_fix. apply log_grows_bind; [apply emit_log_grows|]. intros _.
  destruct ui_logger; [|apply emit_log_grows].
  apply log_grows_bind; intros; apply emit_log_grows.
Qed.

Lemma show_fix_is_total ui_logger f new_code : total (show_fix ui_logger f new_code).
Proof. by destruct ui_logger. Qed.

(** The branches of [decide_fix]: it writes the file, or it changes none. *)
(** The files change through [write_file] only: what [write_file] keeps,
    the decision keeps. *)
Lemma decide_fix_prop `{!FsProp Φ} apply_all interactive prompt_func ui_logger f new_code :
  Φ _ (write_file f new_code) →
  Φ _ (decide_fix apply_all interactive prompt_func ui_logger f new_code).
Proof.
  intros Hw. unfold decide_fix.
  destruct apply_all; [done|]. destruct interactive;
    [|destruct ui_logger; apply fs_prop_pure, emit_fs_pure].
  destruct ui_logger.
  - apply fs_prop_bind; [apply fs_prop_pure, call_prompt_fs_pure|].
    intros []; [done|apply fs_prop_pure, emit_fs_pure].
  - apply fs_prop_bind; [apply fs_prop_pure, input_fs_pure|]. intros line. cbv zeta.
    case_bool_decide; [done|apply fs_prop_pure, emit_fs_pure].
Qed.

Lemma decide_fix_frame apply_all interactive prompt_func ui_logger f new_code :
  fs_frame [f; bak_of f] (decide_fix apply_all interactive prompt_func ui_logger f new_code).
Proof. apply (decide_fix_prop (Φ := λ A, @fs_frame A _)), write_file_frame. Qed.

Lemma decide_fix_log_grows apply_all interactive prompt_func ui_logger f new_code :
  log_grows (decide_fix apply_all interactive prompt_func ui_logger f new_code).
Proof.
  unfold decide_fix.
  destruct apply_all; [apply write_file_log_grows|]. destruct interactive;
    [|destruct ui_logger; apply emit_log_grows].
  destruct ui_logger.
  - apply log_grows_bind; [apply call_prompt_log_grows|].
    intros []; [apply write_file_log_grows|apply emit_log_grows].
  - apply log_grows_bind; [apply input_log_grows|]. intros line. cbv zeta.
    case_bool_decide; [apply write_file_log_grows|apply emit_log_grows].
Qed.

(** Without [apply_all] and without a yes, [decide_fix] writes nothing. *)
Lemma never_yes_declines ui_logger prompt_func :
  never_yes prompt_func → declines ui_logger prompt_func.
Proof. intros [Hin Hask]. by destruct ui_logger. Qed.

Lemma decide_fix_declined interactive prompt_func ui_logger f new_code :
  declines ui_logger prompt_func →
  fs_pure (decide_fix false interactive prompt_func ui_logger f new_code).
Proof.
  unfold decide_fix. destruct interactive; [|by destruct ui_logger].
  destruct ui_logger; cbn [declines].
  - intros Hask w. destruct prompt_func as [g|]; [|done].
    unfold call_prompt. rewrite bind_assoc, bind_get_log, bind_assoc, bind_emit, bind_ret_l.
    by rewrite (Hask g _ _ eq_refl).
  - intros Hin w. unfold input. rewrite bind_assoc, bind_get_log, bind_assoc, bind_emit.
    specialize (Hin (w_log w)). destruct (stdin (w_log w)) as [line|]; [|done].
    rewrite bind_ret_l. cbv zeta. by rewrite bool_decide_eq_false_2.
Qed.

(** *** One round *)

Lemma fix_file_is_total review apply_all interactive prompt_func ui_logger f :
  total (fix_file review apply_all interactive prompt_func ui_logger f).
Proof.
  unfold fix_file. apply total_bind; [apply read_file_is_total|].
  intros [[|c code]|]; [done| |done]. apply try_except_total. intros e. apply emit_total.
Qed.

Lemma fix_file_prop `{!FsProp Φ} review apply_all interactive prompt_func ui_logger f :
  (∀ new_code, Φ _ (write_file f new_code)) →
  Φ _ (fix_file review apply_all interactive prompt_func ui_logger f).
Proof.
  intros Hw. unfold fix_file. apply fs_prop_bind; [apply fs_prop_pure, read_file_fs_pure|].
  intros [[|c code]|]; [by apply fs_prop_pure| |by apply fs_prop_pure].
  apply fs_prop_try; [|intros; apply fs_prop_pure, emit_fs_pure].
  apply fs_prop_bind; [apply fs_prop_pure, call_model_fs_pure|]. intros text.
  apply fs_prop_bind; [apply fs_prop_pure, reply_strip_fs_pure|]. intros new_code.
  apply fs_prop_bind; [apply fs_prop_pure, show_fix_fs_pure|]. intros _.
  by apply decide_fix_prop.
Qed.

Lemma fix_file_frame review apply_all interactive prompt_func ui_logger f :
  fs_frame [f; bak_of f] (fix_file review apply_all interactive prompt_func ui_logger f).
Proof. apply (fix_file_prop (Φ := λ A, @fs_frame A _)). intros. apply write_file_frame. Qed.

Lemma fix_file_log_grows review apply_all interactive prompt_func ui_logger f :
  log_grows (fix_file review apply_all interactive prompt_func ui_logger f).
Proof.
  unfold fix_file. apply log_grows_bind; [apply read_file_log_grows|].
  intros [[|c code]|]; [apply ret_log_grows| |apply ret_log_grows].
  apply log_grows_try; [|intros; apply emit_log_grows].
  apply log_grows_bind; [apply call_model_log_grows|]. intros text.
  apply log_grows_bind; [apply reply_strip_log_grows|]. intros new_code.
  apply log_grows_bind; [apply show_fix_log_grows|]. intros _.
  apply decide_fix_log_grows.
Qed.

Lemma fix_file_declined review interactive prompt_func ui_logger f :
  declines ui_logger prompt_func →
  fs_pure (fix_file review false interactive prompt_func ui_logger f).
Proof.
  intros Hno. unfold fix_file. apply fs_pure_bind; [apply read_file_fs_pure|].
  intros [[|c code]|]; [done| |done].
  apply fs_pure_try; [|intros; apply emit_fs_pure].
  apply fs_pure_bind; [apply call_model_fs_pure|]. intros text.
  apply fs_pure_bind; [apply reply_strip_fs_pure|]. intros new_code.
  apply fs_pure_bind; [apply show_fix_fs_pure|]. intros _.
  by apply decide_fix_declined.
Qed.

(** A file that cannot be read, or is empty, is passed over without a
    request. *)
Lemma fix_file_skip review apply_all interactive prompt_func ui_logger f w :
  readable_text (w_fs w) f = None ∨ readable_text (w_fs w) f = Some [] →
  fix_file review apply_all interactive prompt_func ui_logger f w = (Ok (), (read_file f w).2).
Proof.
  intros Hr. unfold fix_file, bind. pose proof (read_file_result w f) as Hres.
  destruct (read_file f w) as [[code|e] w1]; simpl in *; [|done].
  injection Hres as ->. by destruct Hr as [->| ->].
Qed.

Lemma touched_elem files f : f ∈ files → [f; bak_of f] ⊆ touched files.
Proof.
  intros Hf p [->|[->|[]%elem_of_nil]%elem_of_cons]%elem_of_cons; unfold touched;
    apply elem_of_app; [by left|right]. by apply list_elem_of_fmap_2.
Qed.

Lemma read_file_requests w f : requests (w_log (read_file f w).2) = requests (w_log w).
Proof.
  destruct (readable_text (w_fs w) f) as [s|] eqn:Hs.
  - by rewrite (read_file_Some _ _ _ Hs).
  - destruct (read_file_None _ _ Hs) as (e & _ & ->). simpl.
    by rewrite requests_snoc, app_nil_r.
Qed.

(** The run of a round up to the decision, when the file has text and the
    service answers with text. *)
Lemma fix_file_answered review apply_all interactive prompt_func ui_logger f w code t :
  readable_text (w_fs w) f = Some code → code ≠ [] →
  generate (w_log w) (fix_prompt review f code) = Response (Some t) →
  fix_file review apply_all interactive prompt_func ui_logger f w
  = try_except
      (decide_fix apply_all interactive prompt_func ui_logger f (strip t))
      (λ e, emit (fix_error f e))
      (show_fix ui_logger f (strip t)
         (World (w_fs w) (w_log w ++ [Request (fix_prompt review f code)]))).2.
Proof.
  intros Hr Hne Hg. unfold fix_file. rewrite (bind_Ok _ _ _ _ _ (read_file_Some _ _ _ Hr)).
  destruct code as [|c code]; [done|]. unfold try_except at 1.
  unfold call_model. rewrite !bind_assoc, bind_get_log, bind_assoc, bind_emit, Hg.
  rewrite bind_ret_l. simpl reply_strip. rewrite bind_ret_l.
  unfold bind at 1. pose proof (show_fix_is_total ui_logger f (strip t)) as Ht.
  match goal with |- context [show_fix _ _ _ ?w1] => specialize (Ht w1);
    destruct (show_fix ui_logger f (strip t) w1) as [[[]|e] w2] end; [done|done].
Qed.

(** *** The requests of a round *)

Lemma reply_strip_silent text : silent (reply_strip text).
Proof. by destruct text. Qed.

Lemma show_fix_silent ui_logger f new_code : silent (show_fix ui_logger f new_code).
Proof. unfold show_fix. solve_quiet. Qed.

Lemma decide_fix_silent apply_all interactive prompt_func ui_logger f new_code :
  silent (decide_fix apply_all interactive prompt_func ui_logger f new_code).
Proof.
  unfold decide_fix. destruct apply_all; [apply write_file_silent|].
  destruct interactive; [|solve_quiet]. destruct ui_logger.
  - apply silent_bind; [apply call_prompt_silent|]. intros []; [apply write_file_silent|].
    solve_quiet.
  - apply silent_bind; [apply input_silent|]. intros line. cbv zeta.
    case_bool_decide; [apply write_file_silent|solve_quiet].
Qed.

(** A call of the service in a [try] block whose other calls send
    nothing: the request is sent, whatever the service answers. *)
Lemma try_call_model_requests {A} prompt (k : option str → M A) (h : exn → M A) w :
  (∀ text, silent (k text)) → (∀ e, silent (h e)) →
  requests (w_log (try_except (bind (call_model prompt) k) h w).2)
  = requests (w_log w) ++ [prompt].
Proof.
  intros Hk Hh. unfold try_except, bind at 1. rewrite call_model_run.
  set (w1 := World (w_fs w) (w_log w ++ [Request prompt])).
  assert (requests (w_log w1) = requests (w_log w) ++ [prompt]) as Hw1
    by apply requests_snoc.
  destruct (generate _ _) as [text|e]; [|by rewrite Hh].
  pose proof (Hk text w1) as Hs.
  destruct (k text w1) as [[a|e] w']; cbn [snd] in *; [|rewrite Hh]; by rewrite Hs.
Qed.

(** A round sends the request of its file, and no other. *)
Lemma fix_file_requests review apply_all interactive prompt_func ui_logger f w :
  requests (w_log (fix_file review apply_all interactive prompt_func ui_logger f w).2)
  = requests (w_log w) ++ omap (fix_request review (w_fs w)) [f].
Proof.
  unfold fix_file, fix_request, bind at 1.
  pose proof (read_file_result w f) as Hres. pose proof (read_file_fs_pure f w) as Hfs.
  pose proof (read_file_silent f w) as Hreq.
  destruct (read_file f w) as [[code|e] w1]; simpl in *; [|done]. injection Hres as ->.
  destruct (readable_text (w_fs w) f) as [[|c code]|]; simpl; rewrite ?app_nil_r; [done| |done].
  rewrite try_call_model_requests, Hreq; [done| |intros; by apply emit_silent].
  intros text. apply silent_bind; [apply reply_strip_silent|intros new_code].
  apply silent_bind; [apply show_fix_silent|intros _]. apply decide_fix_silent.
Qed.

(** The requests of the files do not depend on the other paths. *)
Lemma fix_request_ext review fs1 fs2 files :
  (∀ g, g ∈ files → fs1 !! g = fs2 !! g) →
  omap (fix_request review fs1) files = omap (fix_request review fs2) files.
Proof.
  induction files as [|g files IH]; intros Hfs; [done|]. cbn [omap list_omap].
  rewrite IH by (intros; apply Hfs; by right).
  unfold fix_request, readable_text. by rewrite (Hfs g) by left.
Qed.

Lemma apart_cons f files :
  apart (f :: files) → apart files ∧ f ∉ files ∧ bak_of f ∉ files.
Proof.
  intros [[Hf Hnd]%list.NoDup_cons [Hb Hall]%list.Forall_cons]. split_and!; [|done|].
  - split; [done|]. eapply list.Forall_impl; [exact Hall|]. intros g Hg ?. apply Hg. by right.
  - intros ?. apply Hb. by right.
Qed.

(** The loop sends the request of every file, in the order of the list:
    whatever ends a round, the next round starts. *)
Lemma for_each_fix_requests review apply_all interactive prompt_func ui_logger files w :
  apart files →
  ∃ w', for_each files (fix_file review apply_all interactive prompt_func ui_logger) w
        = (Ok (), w') ∧
        requests (w_log w') = requests (w_log w) ++ omap (fix_request review (w_fs w)) files.
Proof.
  revert w. induction files as [|f files IH]; intros w Hfiles.
  { exists w. by rewrite app_nil_r. }
  apply apart_cons in Hfiles as (Hfiles & Hf & Hb). cbn [for_each].
  pose proof (fix_file_is_total review apply_all interactive prompt_func ui_logger f w) as Ht.
  pose proof (fix_file_requests review apply_all interactive prompt_func ui_logger f w) as Hreq.
  pose proof (fix_file_frame review apply_all interactive prompt_func ui_logger f w) as Hframe.
  destruct (fix_file _ _ _ _ _ f w) as [[[]|e] w1] eqn:Hrun; [|done]. cbn [fst snd] in *.
  destruct (IH w1 Hfiles) as (w' & Hloop & Hreq'). exists w'.
  rewrite (bind_Ok _ _ _ _ _ Hrun). split; [done|].
  rewrite Hreq', Hreq, <-(assoc_L (++)). f_equal.
  change (f :: files) with ([f] ++ files). rewrite omap_app. f_equal.
  apply fix_request_ext. intros g Hg. apply Hframe.
  rewrite !elem_of_cons, elem_of_nil. intros [->|[->|[]]]; done.
Qed.

Lemma show_fix_fs ui_logger f new_code w : w_fs (show_fix ui_logger f new_code w).2 = w_fs w.
Proof. apply show_fix_fs_pure. Qed.

(** *** The loop *)

Lemma auto_fix_project_prop `{!FsProp Φ} path review files apply_all interactive prompt_func
    ui_logger :
  (∀ f new_code, f ∈ files → Φ _ (write_file f new_code)) →
  Φ _ (auto_fix_project path review files apply_all interactive prompt_func ui_logger).
Proof.
  intros Hw. unfold auto_fix_project.
  apply fs_prop_bind; [apply fs_prop_pure, new_model_fs_pure|intros _].
  apply for_each_prop. intros f Hf. apply fix_file_prop. intros. by apply Hw.
Qed.

Lemma auto_fix_project_frame path review files apply_all interactive prompt_func ui_logger :
  fs_frame (touched files)
    (auto_fix_project path review files apply_all interactive prompt_func ui_logger).
Proof.
  apply (auto_fix_project_prop (Φ := λ A, @fs_frame A _)). intros f new_code Hf.
  eapply fs_frame_mono, write_file_frame. by apply touched_elem.
Qed.

Lemma auto_fix_project_declined path review files interactive prompt_func ui_logger :
  declines ui_logger prompt_func →
  fs_pure (auto_fix_project path review files false interactive prompt_func ui_logger).
Proof.
  intros Hno. unfold auto_fix_project.
  apply fs_pure_bind; [apply new_model_fs_pure|intros _].
  apply for_each_fs_pure. intros f. by apply fix_file_declined.
Qed.

Lemma auto_fix_project_raises path review files apply_all interactive prompt_func ui_logger :
  raises_only (λ e, ∃ log, GenerativeModel log MODEL_NAME = Some e)
    (auto_fix_project path review files apply_all interactive prompt_func ui_logger).
Proof.
  unfold auto_fix_project. apply raises_only_bind; [apply new_model_raises|intros _].
  apply total_raises_only, for_each_total. intros f. apply fix_file_is_total.
Qed.

End fix_applier.

(** ** Theorems *)

Section fix_applier_theorems.
Context `{Unicode, Env}.
Implicit Types (w : world) (f : str) (files : list str).

(** C27: [auto_fix_project] changes no path other than the files it is
    given and their backups, whatever the model and the user answer, and it
    only adds to the log. *)
Theorem auto_fix_project_only_listed path review files apply_all interactive prompt_func ui_logger :
  fs_frame (touched files)
    (auto_fix_project path review files apply_all interactive prompt_func ui_logger) ∧
  log_grows (auto_fix_project path review files apply_all interactive prompt_func ui_logger).
Proof.
  split; [apply auto_fix_project_frame|]. unfold auto_fix_project.
  apply log_grows_bind; [apply new_model_log_grows|intros _].
  apply for_each_log_grows. intros f. apply fix_file_log_grows.
Qed.

(** C9: once the model object is there, [auto_fix_project] returns normally
    for every list of files: a file that cannot be read, a failing service,
    a refused write or a missing prompt function ends one round, never the
    loop. *)
Theorem auto_fix_project_never_aborts path review files apply_all interactive prompt_func
    ui_logger w :
  GenerativeModel (w_log w) MODEL_NAME = None →
  (auto_fix_project path review files apply_all interactive prompt_func ui_logger w).1 = Ok ().
Proof.
  intros Hm. unfold auto_fix_project, bind. rewrite new_model_run, Hm.
  pose proof (for_each_total files
    (fix_file review apply_all interactive prompt_func ui_logger)
    (fix_file_is_total review apply_all interactive prompt_func ui_logger) w) as Ht.
  by destruct (for_each _ _ w) as [[[]|e] w'].
Qed.

(** C39: no round is lost.  Once the model object is there,
    [auto_fix_project] returns and has sent exactly one request for every
    listed file that can be read and is not empty, in the order of the
    list, each the fix prompt of the review and of the text the file had
    at the start: a failing service, a reply without text, a refused write
    or a missing prompt function ends the round of one file and the loop
    goes on with the next.  The files are listed once and none is the
    backup of another ([apart]), so that no round changes the text of a
    later file. *)
Theorem auto_fix_project_every_file path review files apply_all interactive prompt_func
    ui_logger w :
  GenerativeModel (w_log w) MODEL_NAME = None → apart files →
  ∃ w', auto_fix_project path review files apply_all interactive prompt_func ui_logger w
        = (Ok (), w') ∧
        requests (w_log w') = requests (w_log w) ++ omap (fix_request review (w_fs w)) files.
Proof.
  intros Hm Hfiles. unfold auto_fix_project, bind at 1. rewrite new_model_run, Hm.
  by apply for_each_fix_requests.
Qed.

(** C8: without [apply_all], and when neither the keyboard nor the prompt
    function ever says yes, [auto_fix_project] changes no file at all. *)
Theorem auto_fix_project_no_consent path review files interactive prompt_func ui_logger w :
  never_yes prompt_func →
  w_fs (auto_fix_project path review files false interactive prompt_func ui_logger w).2 = w_fs w.
Proof.
  intros Hno. by apply auto_fix_project_declined, never_yes_declines.
Qed.

(** With [apply_all], a readable, non-empty file for which the service
    answers with text is replaced by the cleaned, stripped answer, when it
    can be written. *)
Theorem fix_file_apply_all review interactive prompt_func ui_logger f w code t :
  readable_text (w_fs w) f = Some code → code ≠ [] →
  generate (w_log w) (fix_prompt review f code) = Response (Some t) →
  writable (w_fs w) f = true → encodable (clean_code_fences (strip t)) = true →
  w_fs (fix_file review true interactive prompt_func ui_logger f w).2 !! f
  = Some (File (Some (clean_code_fences (strip t)))).
Proof.
  intros Hr Hne Hg Hw Hc. rewrite (fix_file_answered _ _ _ _ _ _ _ _ _ Hr Hne Hg).
  unfold decide_fix. erewrite try_except_Ok; [|apply write_file_Ok; [|done]].
  - simpl. by rewrite lookup_insert_eq.
  - by rewrite show_fix_fs.
Qed.

(** When the service fails for a file, the file is left as it is, the
    error is printed on the console, and the round ends normally. *)
Theorem fix_file_service_failure review apply_all interactive prompt_func ui_logger f w code e :
  readable_text (w_fs w) f = Some code → code ≠ [] →
  generate (w_log w) (fix_prompt review f code) = Failure e →
  fix_file review apply_all interactive prompt_func ui_logger f w
  = (Ok (), World (w_fs w) (w_log w ++ [Request (fix_prompt review f code); fix_error f e])).
Proof.
  intros Hr Hne Hg. unfold fix_file. rewrite (bind_Ok _ _ _ _ _ (read_file_Some _ _ _ Hr)).
  destruct code as [|c code]; [done|]. unfold try_except.
  unfold call_model. rewrite !bind_assoc, bind_get_log, bind_assoc, bind_emit, Hg.
  rewrite bind_raise. unfold emit. simpl. by rewrite <-(assoc_L (++)).
Qed.

(** A file that cannot be read, or that is empty, is passed over: no
    request is made for it and no file changes. *)
Theorem fix_file_unreadable review apply_all interactive prompt_func ui_logger f w :
  readable_text (w_fs w) f = None ∨ readable_text (w_fs w) f = Some [] →
  w_fs (fix_file review apply_all interactive prompt_func ui_logger f w).2 = w_fs w ∧
  requests (w_log (fix_file review apply_all interactive prompt_func ui_logger f w).2)
  = requests (w_log w).
Proof.
  intros Hr. rewrite (fix_file_skip _ _ _ _ _ _ _ Hr). simpl.
  split; [apply read_file_fs_pure|apply read_file_requests].
Qed.

(** C36: in window mode without a prompt function, asking raises
    [TypeError]; it is caught, so no file is written, and the error goes to
    the console, not to the window's log. *)
Theorem fix_file_no_prompt_func review f w code t :
  readable_text (w_fs w) f = Some code → code ≠ [] →
  generate (w_log w) (fix_prompt review f code) = Response (Some t) →
  w_fs (fix_file review false true None true f w).2 = w_fs w ∧
  list.last (w_log (fix_file review false true None true f w).2)
  = Some (Print (lit "[red]Error fixing " ++ f
                 ++ lit ": 'NoneType' object is not callable[/red]")).
Proof.
  intros Hr Hne Hg. rewrite (fix_file_answered _ _ _ _ _ _ _ _ _ Hr Hne Hg).
  unfold decide_fix, call_prompt. erewrite try_except_Raise; [|done]. simpl.
  by rewrite last_snoc.
Qed.

(** When the model object cannot be constructed, [auto_fix_project]
    raises before it looks at any file. *)
Theorem auto_fix_project_model_error path review files apply_all interactive prompt_func
    ui_logger w e :
  GenerativeModel (w_log w) MODEL_NAME = Some e →
  auto_fix_project path review files apply_all interactive prompt_func ui_logger w
  = (Raise e, w).
Proof. intros He. unfold auto_fix_project, bind. by rewrite new_model_run, He. Qed.

End fix_applier_theorems.

(** ** Witnesses on the example world *)

Lemma auto_fix_project_never_aborts_witness :
  (@auto_fix_project ascii_unicode ex_env (lit ".") (lit "review")
     [lit "a.py"; lit "missing.py"; lit "locked.py"] true true None false ex_world).1 = Ok ().
Proof. by apply (@auto_fix_project_never_aborts ascii_unicode ex_env). Defined.

Lemma auto_fix_project_no_consent_witness :
  w_fs (@auto_fix_project ascii_unicode (env_of ex_reply (Some (lit "n")) None) (lit ".")
          (lit "review") [lit "a.py"; lit "ro.py"] false true None false ex_world).2
  = w_fs ex_world.
Proof.
  apply (@auto_fix_project_no_consent ascii_unicode (env_of ex_reply (Some (lit "n")) None)).
  by split.
Defined.

Lemma fix_file_apply_all_witness :
  w_fs (@fix_file ascii_unicode ex_env (lit "review") true true None false (lit "a.py")
          ex_world).2 !! lit "a.py" = Some (File (Some (lit "x = 2
"))).
Proof.
  apply (@fix_file_apply_all ascii_unicode ex_env (lit "review") true None false (lit "a.py")
           ex_world (lit "x = 1") (lit "```python
x = 2
```")); by vm_compute.
Defined.

Lemma fix_file_service_failure_witness :
  @fix_file ascii_unicode (env_of (Failure (ServiceError (lit "quota"))) None None)
    (lit "review") true true None false (lit "a.py") ex_world
  = (Ok (), World (w_fs ex_world)
       [Request (fix_prompt (lit "review") (lit "a.py") (lit "x = 1"));
        Print (lit "[red]Error fixing a.py: quota[/red]")]).
Proof.
  apply (@fix_file_service_failure ascii_unicode
           (env_of (Failure (ServiceError (lit "quota"))) None None) (lit "review") true true
           None false (lit "a.py") ex_world (lit "x = 1") (ServiceError (lit "quota")));
    by vm_compute.
Defined.

Lemma fix_file_unreadable_witness :
  w_fs (@fix_file ascii_unicode ex_env (lit "review") true true None false (lit "missing.py")
          ex_world).2 = w_fs ex_world ∧
  requests (w_log (@fix_file ascii_unicode ex_env (lit "review") true true None false
                     (lit "missing.py") ex_world).2) = [].
Proof.
  apply (@fix_file_unreadable ascii_unicode ex_env (lit "review") true true None false
           (lit "missing.py") ex_world).
  left. by vm_compute.
Defined.

Lemma fix_file_no_prompt_func_witness :
  w_fs (@fix_file ascii_unicode ex_env (lit "review") false true None true (lit "a.py")
          ex_world).2 = w_fs ex_world ∧
  list.last (w_log (@fix_file ascii_unicode ex_env (lit "review") false true None true
                      (lit "a.py") ex_world).2)
  = Some (Print (lit "[red]Error fixing " ++ lit "a.py"
                 ++ lit ": 'NoneType' object is not callable[/red]")).
Proof.
  apply (@fix_file_no_prompt_func ascii_unicode ex_env (lit "review") (lit "a.py") ex_world
           (lit "x = 1") (lit "```python
x = 2
```")); by vm_compute.
Defined.

Lemma auto_fix_project_model_error_witness :
  @auto_fix_project ascii_unicode (env_of ex_reply None (Some (ValueError (lit "no key"))))
    (lit ".") (lit "review") [lit "a.py"] true true None false ex_world
  = (Raise (ValueError (lit "no key")), ex_world).
Proof.
  by apply (@auto_fix_project_model_error ascii_unicode
              (env_of ex_reply None (Some (ValueError (lit "no key"))))).
Defined.

Lemma auto_fix_project_every_file_witness :
  ∃ w', @auto_fix_project ascii_unicode ex_env (lit ".") (lit "review")
          [lit "a.py"; lit "missing.py"; lit "locked.py"] true true None false ex_world
        = (Ok (), w') ∧
        requests (w_log w')
        = requests (w_log ex_world)
          ++ omap (@fix_request ex_env (lit "review") (w_fs ex_world))
               [lit "a.py"; lit "missing.py"; lit "locked.py"].
Proof.
  apply (@auto_fix_project_every_file ascii_unicode ex_env); [done|].
  split; [by apply (bool_decide_unpack _)|].
  repeat constructor; by apply (bool_decide_unpack _).
Defined.
