(* ===== verification/Collector.v ===== *)
(** * Collecting the source files: [get_code_files]

    src/app.py lines 32 and 54-64.  [os.walk] is the environment's; what the
    function does with the directories it yields is [collect], and the sort
    at the end is a merge sort on the code points of the paths. *)

From stdpp Require Import gmap sorting.
From S2P Require Import PyStr PyPath World.

Local Open Scope io_scope.

(** ** The constants *)

Definition SUPPORTED_SUFFIXES : list str :=
  [lit ".py"; lit ".js"; lit ".jsx"; lit ".ts"; lit ".java"; lit ".cpp"; lit ".html"; lit ".css"].

(** The directory names of line 60. *)
Definition IGNORED : list str :=
  [lit "node_modules"; lit ".git"; lit "__pycache__"; lit "dist"; lit "build"].

(** ** The order of [list.sort] on strings *)

(** [a <= b] on strings: by code point, a prefix first. *)
Fixpoint str_le (a b : str) : bool :=
  match a, b with
  | [], _ => true
  | _ :: _, [] => false
  | x :: a', y :: b' => (x <? y)%N || ((x =? y)%N && str_le a' b')
  end.

Definition str_leP (a b : str) : Prop := str_le a b = true.

#[export] Instance str_leP_dec : RelDecision str_leP.
Proof. intros a b. unfold str_leP. apply _. Defined.

(** ** The function *)

(** [os.path.join(root, file)] for a file name. *)
Definition os_path_join (root file : str) : str :=
  if head_is (λ c, (c =? ch_slash)%N) file then file
  else if nonempty root && negb (endswith root [ch_slash]) then root ++ [ch_slash] ++ file
  else root ++ file.

(** [any(ignored in Path(path).parts for ignored in (...))]. *)
Definition is_ignored (path : str) : bool :=
  existsb (λ ignored, bool_decide (ignored ∈ path_parts path)) IGNORED.

(** The body of the inner loop. *)
Definition collect_file `{Unicode} (root : str) (code_files : list str) (file : str) : list str :=
  if endswith_any (lower file) SUPPORTED_SUFFIXES then
    let path := os_path_join root file in
    if is_ignored path then code_files else code_files ++ [path]
  else code_files.

(** The body of the outer loop. *)
Definition collect_dir `{Unicode} (code_files : list str) (entry : str * list str * list str)
    : list str :=
  foldl (collect_file entry.1.1) code_files entry.2.

(** The two loops. *)
Definition collect `{Unicode} (walked : list (str * list str * list str)) : list str :=
  foldl collect_dir [] walked.

Definition get_code_files `{Unicode, Env} (directory : str) : M (list str) :=
  walked ← os_walk directory;
  ret (merge_sort str_leP (collect walked)).

(** ** What the theorems speak of *)

(** The paths that qualify in one directory, in the order of its files. *)
Definition eligible `{Unicode} (entry : str * list str * list str) : list str :=
  filter (λ p, is_ignored p = false)
    (os_path_join entry.1.1 <$>
       filter (λ file, endswith_any (lower file) SUPPORTED_SUFFIXES = true) entry.2).

(** The last characters of the supported suffixes. *)
Definition source_ends : list char := lit "ysxapl".

(** ** Lemmas *)

Section order.
Implicit Types a b c : str.

Lemma str_le_refl a : str_le a a = true.
Proof. induction a as [|x a IH]; [done|]. simpl. by rewrite N.eqb_refl, IH, orb_true_r. Qed.

Lemma str_le_trans a b c : str_le a b = true → str_le b c = true → str_le a c = true.
Proof.
  revert b c. induction a as [|x a IH]; intros [|y b] [|z c]; simpl; try done.
  intros Hab Hbc. bool_to_prop.
  destruct Hab as [?|[-> Hab]], Hbc as [?|[-> Hbc]]; [left; lia..|right].
  split; [done|]. by apply (IH b).
Qed.

Lemma str_le_antisym a b : str_le a b = true → str_le b a = true → a = b.
Proof.
  revert b. induction a as [|x a IH]; intros [|y b]; simpl; try done.
  intros Hab Hba. bool_to_prop.
  destruct Hab as [?|[-> Hab]], Hba as [?|[? Hba]]; [lia..|]. f_equal. by apply IH.
Qed.

Lemma str_le_total a b : str_le a b = true ∨ str_le b a = true.
Proof.
  revert b. induction a as [|x a IH]; intros [|y b]; simpl; [by left..|by right|].
  destruct (IH b) as [Hab|Hba], (N.lt_trichotomy x y) as [?|[->|?]]; bool_to_prop;
    rewrite ?N.eqb_refl; bool_to_prop; eauto.
Qed.

#[export] Instance str_leP_refl : Reflexive str_leP.
Proof. intros a. apply str_le_refl. Qed.
#[export] Instance str_leP_trans : Transitive str_leP.
Proof. intros a b c. apply str_le_trans. Qed.
#[export] Instance str_leP_antisym : AntiSymm (=) str_leP.
Proof. intros a b. apply str_le_antisym. Qed.
#[export] Instance str_leP_total : Total str_leP.
Proof. intros a b. apply str_le_total. Qed.

End order.

Section collector.
Context `{Unicode}.
Implicit Types (walked : list (str * list str * list str)) (files code_files : list str).

Lemma eligible_nil root dirs : eligible (root, dirs, []) = [].
Proof. done. Qed.

Lemma eligible_cons root dirs file files :
  eligible (root, dirs, file :: files)
  = (if endswith_any (lower file) SUPPORTED_SUFFIXES
     then if is_ignored (os_path_join root file) then [] else [os_path_join root file]
     else []) ++ eligible (root, dirs, files).
Proof.
  unfold eligible. cbn [fst snd]. rewrite filter_cons.
  destruct (endswith_any (lower file) SUPPORTED_SUFFIXES) eqn:He.
  - rewrite decide_True by done. rewrite fmap_cons, filter_cons.
    destruct (is_ignored (os_path_join root file)) eqn:Hi.
    + by rewrite decide_False by done.
    + by rewrite decide_True by done.
  - by rewrite decide_False by done.
Qed.

Lemma collect_files_eq root dirs code_files files :
  foldl (collect_file root) code_files files = code_files ++ eligible (root, dirs, files).
Proof.
  revert code_files. induction files as [|file files IH]; intros code_files.
  - by rewrite eligible_nil, app_nil_r.
  - cbn [foldl]. rewrite IH, eligible_cons. unfold collect_file. cbv zeta.
    destruct (endswith_any _ _); [|done].
    destruct (is_ignored _); [done|]. by rewrite <-(assoc_L (++)).
Qed.

Lemma collect_dir_eq code_files entry : collect_dir code_files entry = code_files ++ eligible entry.
Proof. destruct entry as [[root dirs] files]. apply collect_files_eq. Qed.

Lemma foldl_collect_dir code_files walked :
  foldl collect_dir code_files walked = code_files ++ (walked ≫= eligible).
Proof.
  revert code_files. induction walked as [|entry walked IH]; intros code_files;
    [by rewrite app_nil_r|].
  cbn [foldl mbind list_bind]. by rewrite IH, collect_dir_eq, <-(assoc_L (++)).
Qed.

(** The two loops gather the eligible paths of every directory, in order. *)
Lemma collect_eq walked : collect walked = walked ≫= eligible.
Proof. apply foldl_collect_dir. Qed.

Lemma elem_of_eligible p entry :
  p ∈ eligible entry ↔
  ∃ file, file ∈ entry.2 ∧ endswith_any (lower file) SUPPORTED_SUFFIXES = true ∧
          p = os_path_join entry.1.1 file ∧ is_ignored p = false.
Proof.
  unfold eligible. rewrite list_elem_of_filter, list_elem_of_fmap. split.
  - intros (Hi & file & -> & [He Hf]%list_elem_of_filter). eauto.
  - intros (file & Hf & He & -> & Hi). split; [done|]. exists file.
    by rewrite list_elem_of_filter.
Qed.

Lemma sorted_perm_eq (l k : list str) :
  l ≡ₚ k → merge_sort str_leP l = merge_sort str_leP k.
Proof.
  intros Hp. apply (Sorted_unique str_leP).
  - apply Sorted_merge_sort, _.
  - apply Sorted_merge_sort, _.
  - by rewrite !merge_sort_Permutation.
Qed.

Lemma last_suffix {A} (k l : list A) : k `suffix_of` l → k ≠ [] → list.last l = list.last k.
Proof.
  intros [u ->] Hk. rewrite last_app. destruct (list.last k) eqn:Hl; [done|].
  by apply last_None in Hl.
Qed.

Lemma os_path_join_suffix root file : file `suffix_of` os_path_join root file.
Proof.
  unfold os_path_join. destruct (head_is _ file); [done|].
  destruct (_ && _); [exists (root ++ [ch_slash]); by rewrite <-(assoc_L (++))|by exists root].
Qed.

(** A file whose name in lower case ends in a supported suffix ends, in
    lower case, in the last character of one. *)
Lemma supported_last file c :
  endswith_any (lower file) SUPPORTED_SUFFIXES = true → list.last file = Some c → (c < 128)%N →
  ascii_lower c ∈ source_ends.
Proof.
  intros (suf & Hsuf & Hs)%endswith_any_spec [file' ->]%last_Some Hc.
  rewrite lower_app, (lower_ascii_char c []) in Hs by done.
  assert (match list.last suf with Some x => bool_decide (x ∈ source_ends) | None => false end
          = true) as Hlast.
  { clear Hs. revert suf Hsuf. apply list.Forall_forall.
    apply (Forall_true_forallb
             (λ suf, match list.last suf with
                     | Some x => bool_decide (x ∈ source_ends) | None => false end)).
    by vm_compute. }
  destruct suf as [|x suf]; [done|]. rewrite <-(last_suffix _ _ Hs) in Hlast by done.
  change (lower []) with (@nil char) in Hlast. rewrite last_snoc in Hlast.
  by apply bool_decide_eq_true in Hlast.
Qed.

End collector.

(** ** Theorems *)

Section collector_theorems.
Context `{Unicode, Env}.
Implicit Types (w : world) (directory p : str).

(** C10: [get_code_files] never raises and changes nothing; the list it
    returns is sorted by code point and holds, as often as they were met,
    the eligible paths of the directories that [os.walk] yields. *)
Theorem get_code_files_sorted directory w :
  ∃ files, get_code_files directory w = (Ok files, w) ∧
    StronglySorted str_leP files ∧
    files ≡ₚ walk (w_fs w) directory ≫= eligible.
Proof.
  eexists. split; [done|]. split.
  - apply StronglySorted_merge_sort; apply _.
  - by rewrite merge_sort_Permutation, collect_eq.
Qed.

(** A path is returned exactly when it is the join of a walked
    directory and one of its files, the file's name in lower case ends in a
    supported suffix, and no part of the whole path is an ignored name. *)
Theorem get_code_files_elem directory w files p :
  (get_code_files directory w).1 = Ok files →
  p ∈ files ↔
  ∃ entry file, entry ∈ walk (w_fs w) directory ∧ file ∈ entry.2 ∧
    endswith_any (lower file) SUPPORTED_SUFFIXES = true ∧
    p = os_path_join entry.1.1 file ∧ is_ignored p = false.
Proof.
  intros [= <-]. rewrite merge_sort_Permutation, collect_eq, list_elem_of_bind.
  split.
  - intros (entry & (file & ?)%elem_of_eligible & ?). by exists entry, file.
  - intros (entry & file & ? & ?). exists entry. split; [|done].
    apply elem_of_eligible. by exists file.
Qed.

(** The result does not depend on the order in which [os.walk] yields
    the directories. *)
Theorem get_code_files_order directory directory' w w' :
  walk (w_fs w) directory ≡ₚ walk (w_fs w') directory' →
  (get_code_files directory w).1 = (get_code_files directory' w').1.
Proof.
  intros Hp. unfold get_code_files, os_walk, bind, ret. simpl. f_equal.
  apply sorted_perm_eq. rewrite !collect_eq. by rewrite Hp.
Qed.

(** A source file does not end like a backup or like the JSON
    export: its last character, in lower case, is the last of a supported
    suffix. *)
Lemma source_file_last directory w files p c :
  (get_code_files directory w).1 = Ok files → p ∈ files →
  list.last p = Some c → (c < 128)%N → ascii_lower c ∈ source_ends.
Proof.
  intros Hfiles (entry & file & _ & _ & Hsuf & -> & _)%(get_code_files_elem _ _ _ _ Hfiles).
  intros Hc. apply (supported_last file); [done|].
  rewrite <-Hc. symmetry. apply last_suffix; [apply os_path_join_suffix|].
  intros ->. apply endswith_any_spec in Hsuf as (suf & Hin & Hs).
  unfold lower in Hs. simpl in Hs. apply suffix_nil_inv in Hs as ->.
  revert Hin. apply (bool_decide_eq_false_1 _). by vm_compute.
Qed.

End collector_theorems.

(** The ignored names are looked for in every part of the joined path,
    the project's own location included: a project that lies under a
    directory called [build] has no eligible file. *)
Example collect_under_build :
  @collect ascii_unicode [(lit "/home/u/build/proj", [], [lit "main.py"])] = [] ∧
  @collect ascii_unicode [(lit "/home/u/proj", [], [lit "main.py"])]
  = [lit "/home/u/proj/main.py"].
Proof. by vm_compute. Qed.

(** A walk over two directories: the files come back sorted, a name
    in upper case qualifies by its lower-case suffix, other files do not. *)
Example get_code_files_scenario :
  @get_code_files ascii_unicode ex_env (lit "proj") ex_world
  = (Ok [lit "proj/a.py"; lit "proj/b.py"; lit "proj/src/Main.JS"], ex_world).
Proof. by vm_compute. Qed.

Lemma get_code_files_elem_witness :
  lit "proj/src/Main.JS" ∈ [lit "proj/a.py"; lit "proj/b.py"; lit "proj/src/Main.JS"] ↔
  ∃ entry file, entry ∈ @walk ex_env (w_fs ex_world) (lit "proj") ∧ file ∈ entry.2 ∧
    endswith_any (@lower ascii_unicode file) SUPPORTED_SUFFIXES = true ∧
    lit "proj/src/Main.JS" = os_path_join entry.1.1 file ∧
    is_ignored (lit "proj/src/Main.JS") = false.
Proof.
  apply (@get_code_files_elem ascii_unicode ex_env (lit "proj") ex_world). by vm_compute.
Defined.

Lemma get_code_files_order_witness :
  (@get_code_files ascii_unicode ex_env (lit "proj") ex_world).1
  = (@get_code_files ascii_unicode ex_env (lit "other") ex_world).1.
Proof. by apply (@get_code_files_order ascii_unicode ex_env). Defined.
