(* ===== verification/Export.v ===== *)
(** * Exporting the review: [save_to_excel] and the JSON file

    src/app.py lines 280-308 and 370-372.  The workbook is the list of its
    sheets; what [openpyxl] does to a cell's value (cut at 32767 characters,
    refuse control characters) is [check_string].  The JSON text is what
    [json.dump] writes for a one-key object with [indent=2] and the default
    [ensure_ascii]. *)

From stdpp Require Import gmap.
From S2P Require Import PyStr World.

Local Open Scope io_scope.

(** ** [str.splitlines] *)

Definition is_linebreak (c : char) : bool :=
  bool_decide (c ∈ [10; 11; 12; 13; 28; 29; 30; 133; 8232; 8233]%N).

(** [cur] is the line read so far. *)
Fixpoint splitlines_from (cur s : str) : list str :=
  match s with
  | [] => if nonempty cur then [cur] else []
  | c :: rest =>
    if (c =? 13)%N then
      cur :: match rest with
             | d :: rest' =>
               if (d =? ch_nl)%N then splitlines_from [] rest' else splitlines_from [] rest
             | [] => []
             end
    else if is_linebreak c then cur :: splitlines_from [] rest
    else splitlines_from (cur ++ [c]) rest
  end.

Definition splitlines (s : str) : list str := splitlines_from [] s.

(** ** Cells *)

(** The longest string a cell holds. *)
Definition cell_limit : nat := 32767.

(** The characters [openpyxl] refuses in a cell. *)
Definition illegal_char (c : char) : bool :=
  ((c <=? 8) || ((11 <=? c) && (c <=? 12)) || ((14 <=? c) && (c <=? 31)))%N.

(** The value a cell takes for a string. *)
Definition check_string (value : str) : outcome exn str :=
  let value := take cell_limit value in
  if existsb illegal_char value
  then Raise (IllegalCharacterError (value ++ lit " cannot be used in worksheets."))
  else Ok value.

(** [ws.cell(row=row, column=column, value=value)]. *)
Definition set_cell (cells : list cell) (row column : nat) (value : str)
    : outcome exn (list cell) :=
  v <- check_string value ;;
  Ok (cells ++ [Cell row column v false]).

(** Lines 299-303: one line of the review. *)
Definition raw_line (st : list cell * nat) (line : str) : outcome exn (list cell * nat) :=
  cells <- set_cell st.1 st.2 1 line ;;
  Ok (cells, S st.2).

Fixpoint raw_lines (st : list cell * nat) (lines : list str) : outcome exn (list cell * nat) :=
  match lines with
  | [] => Ok st
  | line :: lines' => st' <- raw_line st line ;; raw_lines st' lines'
  end.

(** Lines 293-305: the workbook. *)
Definition review_book (review_output : str) : outcome exn (list sheet) :=
  let ws := Sheet (lit "Sheet") [] [] in
  let header := Cell 1 1 (lit "Gemini Review (pre Auto-Fix)") true in
  st <- raw_lines ([header], 3) (splitlines review_output) ;;
  Ok [ws; Sheet (lit "Raw Review") st.1 [(1, 120)]].

(** ** [save_to_excel] *)

Definition save_to_excel `{Env} (review_output filename : str) : M unit :=
  if has_openpyxl then
    book ← lift (review_book review_output);
    save_workbook filename book;;
    console_print (lit "[green]📊 Review saved to Excel file named " ++ filename
                   ++ lit "[/green]")
  else
    console_print
      (lit "[yellow]Warning: openpyxl not installed. Cannot save to Excel.[/yellow]").

(** ** The JSON file *)

Definition hex_digit (n : N) : char := if (n <? 10)%N then (48 + n)%N else (87 + n)%N.

(** [\uXXXX] with four lower-case hexadecimal digits. *)
Definition u_escape (n : N) : str :=
  [92; 117; hex_digit (n / 4096 mod 16); hex_digit (n / 256 mod 16);
   hex_digit (n / 16 mod 16); hex_digit (n mod 16)]%N.

(** What [json] writes for a character inside a string, with
    [ensure_ascii]. *)
Definition json_char (c : char) : str :=
  if (c =? 92)%N then [92; 92]%N
  else if (c =? ch_dquote)%N then [92; ch_dquote]%N
  else if ((32 <=? c) && (c <=? 126))%N then [c]
  else if (c =? 8)%N then [92; 98]%N
  else if (c =? 12)%N then [92; 102]%N
  else if (c =? 10)%N then [92; 110]%N
  else if (c =? 13)%N then [92; 114]%N
  else if (c =? 9)%N then [92; 116]%N
  else if (c <? 65536)%N then u_escape c
  else u_escape (N.lor 55296 (N.land (N.shiftr (c - 65536) 10) 1023))
       ++ u_escape (N.lor 56320 (N.land (c - 65536) 1023)).

Definition json_string (s : str) : str := [ch_dquote] ++ (s ≫= json_char) ++ [ch_dquote].

(** [json.dump({"review": review_output}, f, indent=2)]. *)
Definition json_review (review_output : str) : str :=
  lit "{
  " ++ json_string (lit "review") ++ lit ": " ++ json_string review_output ++ lit "
}".

(** Lines 371-372. *)
Definition export_json_file `{Env} (review_output : str) : M unit :=
  open_write (lit "project_review.json") (json_review review_output).

(** ** What the theorems speak of *)

(** The cells of the lines of a review, from row [n] on. *)
Definition line_cells (n : nat) (lines : list str) : list cell :=
  imap (λ i line, Cell (n + i) 1 (take cell_limit line) false) lines.

(** The line can be put into a cell. *)
Definition legal_line (line : str) : Prop := existsb illegal_char (take cell_limit line) = false.

Definition excel_saved_msg (filename : str) : event :=
  Print (lit "[green]📊 Review saved to Excel file named " ++ filename ++ lit "[/green]").

(** ** Lemmas *)

Lemma check_string_legal line : legal_line line → check_string line = Ok (take cell_limit line).
Proof. unfold check_string, legal_line. cbv zeta. by intros ->. Qed.

Lemma check_string_illegal line :
  ¬ legal_line line → ∃ e, check_string line = Raise e.
Proof.
  unfold check_string, legal_line. cbv zeta. destruct (existsb _ _); [by eexists|done].
Qed.

Lemma raw_lines_ok cells n lines :
  Forall legal_line lines →
  raw_lines (cells, n) lines = Ok (cells ++ line_cells n lines, n + length lines).
Proof.
  intros Hl. revert cells n. induction Hl as [|line lines Hline _ IH]; intros cells n.
  - unfold line_cells. simpl. by rewrite app_nil_r, Nat.add_0_r.
  - cbn [raw_lines]. unfold raw_line, set_cell. cbn [fst snd].
    rewrite (check_string_legal _ Hline). simpl outcome_bind. rewrite IH.
    unfold line_cells. cbn [imap length]. rewrite <-(assoc_L (++)), Nat.add_0_r.
    f_equal. f_equal; [|lia]. f_equal. cbn [app]. f_equal.
    apply imap_ext. intros i x _. simpl. f_equal. lia.
Qed.

Lemma raw_lines_illegal st pre line post :
  Forall legal_line pre → ¬ legal_line line →
  ∃ e, raw_lines st (pre ++ line :: post) = Raise e.
Proof.
  intros Hpre Hline. revert st. induction Hpre as [|l pre Hl _ IH]; intros [cells n].
  - destruct (check_string_illegal _ Hline) as [e He]. exists e.
    cbn [app raw_lines]. unfold raw_line, set_cell. cbn [fst snd]. by rewrite He.
  - cbn [app raw_lines]. unfold raw_line, set_cell. cbn [fst snd].
    rewrite (check_string_legal _ Hl). simpl outcome_bind. apply IH.
Qed.

Lemma hex_digit_printable n : (n < 16)%N → (32 ≤ hex_digit n ≤ 126)%N.
Proof. unfold hex_digit. intros Hn. destruct (n <? 10)%N eqn:Hlt; bool_to_prop; lia. Qed.

Lemma u_escape_printable n : Forall (λ c, (32 ≤ c ≤ 126)%N) (u_escape n).
Proof.
  unfold u_escape. repeat constructor; try lia;
    apply hex_digit_printable, N.mod_upper_bound; lia.
Qed.

Lemma json_char_printable c : Forall (λ c, (32 ≤ c ≤ 126)%N) (json_char c).
Proof.
  unfold json_char, ch_dquote.
  repeat case_match; bool_to_prop;
    repeat first [apply Forall_app_2 | apply u_escape_printable | constructor]; lia.
Qed.

Lemma json_string_printable s : Forall (λ c, (32 ≤ c ≤ 126)%N) (json_string s).
Proof.
  unfold json_string. apply Forall_app_2; [repeat constructor; by vm_compute|].
  apply Forall_app_2; [|repeat constructor; by vm_compute].
  apply Forall_bind, Forall_true, json_char_printable.
Qed.

Lemma splitlines_from_no_break cur s :
  Forall (λ c, is_linebreak c = false) cur →
  Forall (Forall (λ c, is_linebreak c = false)) (splitlines_from cur s).
Proof.
  revert cur. induction s as [s IH] using (induction_ltof1 _ length); unfold ltof in IH.
  intros cur Hcur. destruct s as [|c rest]; simpl.
  - destruct cur; simpl; [done|]. by constructor.
  - destruct (c =? 13)%N.
    + constructor; [done|]. destruct rest as [|d rest']; [done|].
      destruct (d =? ch_nl)%N; apply IH; simpl; auto.
    + destruct (is_linebreak c) eqn:Hc; [constructor; [done|]; apply IH; simpl; auto|].
      apply IH; [simpl; lia|]. apply Forall_app_2; by repeat constructor.
Qed.

Lemma printable_encodable s : Forall (λ c, (c ≤ 126)%N) s → encodable s = true.
Proof.
  unfold encodable. induction 1 as [|c s Hc _ IH]; [done|]. cbn [forallb]. rewrite IH, andb_true_r.
  apply negb_true_iff, andb_false_iff. left. apply N.leb_gt. lia.
Qed.

Lemma json_string_ascii s : Forall (λ c, (c ≤ 126)%N) (json_string s).
Proof.
  eapply list.Forall_impl; [apply json_string_printable|]. intros c Hc. cbv beta in Hc. lia.
Qed.

Lemma json_review_encodable review_output : encodable (json_review review_output) = true.
Proof.
  apply printable_encodable. unfold json_review.
  apply Forall_app_2; [|apply Forall_app_2; [apply json_string_ascii|]].
  { change (lit "{
  ") with [123; 10; 32; 32]%N. by do 4 (constructor; [cbv beta; lia|]). }
  apply Forall_app_2; [|apply Forall_app_2; [apply json_string_ascii|]].
  { change (lit ": ") with [58; 32]%N. by do 2 (constructor; [cbv beta; lia|]). }
  change (lit "
}") with [10; 125]%N. by do 2 (constructor; [cbv beta; lia|]).
Qed.

Lemma raw_lines_raises st lines e :
  raw_lines st lines = Raise e → ∃ msg, e = IllegalCharacterError msg.
Proof.
  revert st. induction lines as [|line lines IH]; intros st; [done|]. cbn [raw_lines].
  unfold raw_line, set_cell, check_string. cbv zeta. case_match; simpl; [|apply IH].
  intros [= <-]. by eexists.
Qed.

Lemma review_book_raises review_output e :
  review_book review_output = Raise e → ∃ msg, e = IllegalCharacterError msg.
Proof.
  unfold review_book. cbv zeta.
  destruct (raw_lines _ _) as [st|e'] eqn:Hl; [done|]. intros [= <-]. by eapply raw_lines_raises.
Qed.

Lemma save_to_excel_raises `{Env} review_output filename :
  raises_only (λ e, has_openpyxl = true ∧
                    ((∃ msg, e = IllegalCharacterError msg) ∨ os_failure filename e))
    (save_to_excel review_output filename).
Proof.
  unfold save_to_excel. destruct has_openpyxl; [|apply total_raises_only, emit_total].
  apply raises_only_bind.
  - intros w e w'. unfold lift. destruct (review_book review_output) eqn:Hb; [done|].
    intros [= <- <-]. split; [done|]. left. by eapply review_book_raises.
  - intros book. apply raises_only_bind; [|intros; apply total_raises_only, emit_total].
    eapply raises_only_mono, save_workbook_raises. intros e He. split; [done|by right].
Qed.

Lemma export_json_file_raises `{Env} review_output :
  raises_only (os_failure (lit "project_review.json")) (export_json_file review_output).
Proof. apply open_write_raises, json_review_encodable. Qed.

Lemma save_to_excel_no_openpyxl_run `{Env} review_output filename w :
  has_openpyxl = false →
  save_to_excel review_output filename w
  = (Ok (), World (w_fs w) (w_log w ++
      [Print (lit "[yellow]Warning: openpyxl not installed. Cannot save to Excel.[/yellow]")])).
Proof. unfold save_to_excel. by intros ->. Qed.

(** ** Theorems *)

Section export.
Context `{Env}.
Implicit Types (w : world) (filename review_output : str).

(** Without [openpyxl], [save_to_excel] prints a warning and does
    nothing else. *)
Theorem save_to_excel_no_openpyxl review_output filename w :
  has_openpyxl = false →
  save_to_excel review_output filename w
  = (Ok (), World (w_fs w) (w_log w ++
      [Print (lit "[yellow]Warning: openpyxl not installed. Cannot save to Excel.[/yellow]")])).
Proof. apply save_to_excel_no_openpyxl_run. Qed.

(** When every line of the review can be put into a cell and the file
    can be written, the saved workbook has an empty first sheet and a sheet
    [Raw Review] with the bold title in row 1 and the lines of the review,
    each cut at 32767 characters, from row 3 on in column 1. *)
Theorem save_to_excel_saved review_output filename w :
  has_openpyxl = true → Forall legal_line (splitlines review_output) →
  w_fs w !! filename ≠ Some Dir → unwritable filename = false →
  save_to_excel review_output filename w
  = (Ok (), World (<[filename := File None]> (w_fs w))
      (w_log w ++
       [Saved filename
          [Sheet (lit "Sheet") [] [];
           Sheet (lit "Raw Review")
             (Cell 1 1 (lit "Gemini Review (pre Auto-Fix)") true
              :: line_cells 3 (splitlines review_output)) [(1, 120)]];
        excel_saved_msg filename])).
Proof.
  intros Hx Hl Hd Hw. unfold save_to_excel, review_book. rewrite Hx. cbv zeta.
  rewrite (raw_lines_ok _ _ _ Hl). simpl outcome_bind. rewrite bind_lift_Ok.
  unfold save_workbook. rewrite bind_assoc, bind_lookup_fs, (bool_decide_eq_false_2 _ Hd), Hw.
  rewrite !bind_assoc, bind_set_fs, bind_emit. unfold console_print, emit, excel_saved_msg.
  simpl. by rewrite <-(assoc_L (++)).
Qed.

(** C38: a line of the review with a control character that a cell cannot
    hold makes [save_to_excel] raise; nothing is saved, and the exception
    is not caught. *)
Theorem save_to_excel_illegal review_output filename w pre line post :
  has_openpyxl = true → splitlines review_output = pre ++ line :: post →
  Forall legal_line pre → ¬ legal_line line →
  ∃ e, save_to_excel review_output filename w = (Raise e, w).
Proof.
  intros Hx Hs Hpre Hline. unfold save_to_excel, review_book. rewrite Hx, Hs. cbv zeta.
  destruct (raw_lines_illegal ([Cell 1 1 (lit "Gemini Review (pre Auto-Fix)") true], 3)
              pre line post Hpre Hline) as [e ->].
  by exists e.
Qed.

End export.

(** The JSON text is printable ASCII apart from the two line ends of
    its layout, whatever the review holds. *)
Theorem json_review_printable review_output :
  ∃ body, json_review review_output = lit "{
  " ++ body ++ lit "
}" ∧ Forall (λ c, (32 ≤ c ≤ 126)%N) body.
Proof.
  exists (json_string (lit "review") ++ lit ": " ++ json_string review_output). split.
  - unfold json_review. rewrite <-!(assoc_L (++)). reflexivity.
  - apply Forall_app_2; [apply json_string_printable|].
    apply Forall_app_2; [|apply json_string_printable].
    change (lit ": ") with [58; 32]%N.
    by do 2 (constructor; [cbv beta; lia|]).
Qed.

(** No line that [splitlines] returns holds a line break. *)
Theorem splitlines_no_break s :
  Forall (Forall (λ c, is_linebreak c = false)) (splitlines s).
Proof. by apply splitlines_from_no_break. Qed.

(** Concrete runs of [splitlines] and of the JSON writer. *)
Example export_examples :
  splitlines (lit "ab
c

d
") = [lit "ab"; lit "c"; []; lit "d"] ∧
  splitlines [97; 13; 10; 98; 13; 99]%N = [lit "a"; lit "b"; lit "c"] ∧
  json_string (lit "a\b
é🤖") = [ch_dquote] ++ lit "a\\b\n\u00e9\ud83e\udd16" ++ [ch_dquote].
Proof. by vm_compute. Qed.

(** ** Witnesses *)

Lemma save_to_excel_saved_witness :
  @save_to_excel ex_env (lit "ok
fine") (lit "out.xlsx") ex_project
  = (Ok (), World (<[lit "out.xlsx" := File None]> (w_fs ex_project))
      (w_log ex_project ++
       [Saved (lit "out.xlsx")
          [Sheet (lit "Sheet") [] [];
           Sheet (lit "Raw Review")
             (Cell 1 1 (lit "Gemini Review (pre Auto-Fix)") true
              :: line_cells 3 (splitlines (lit "ok
fine"))) [(1, 120)]];
        excel_saved_msg (lit "out.xlsx")])).
Proof.
  apply (@save_to_excel_saved ex_env (lit "ok
fine") (lit "out.xlsx") ex_project).
  - reflexivity.
  - unfold legal_line. apply (bool_decide_unpack _). by vm_compute.
  - by vm_compute.
  - by vm_compute.
Defined.

Lemma save_to_excel_illegal_witness :
  ∃ e, @save_to_excel ex_env (lit "ok
" ++ [7%N; 120%N]) (lit "out.xlsx") ex_project = (Raise e, ex_project).
Proof.
  apply (@save_to_excel_illegal ex_env (lit "ok
" ++ [7%N; 120%N]) (lit "out.xlsx") ex_project [lit "ok"] [7%N; 120%N] []).
  - reflexivity.
  - by vm_compute.
  - unfold legal_line. apply (bool_decide_unpack _). by vm_compute.
  - unfold legal_line. by vm_compute.
Defined.
