(* ===== verification/Json.v ===== *)
(** * Reading the JSON export back

    src/app.py lines 371-372 write [{"review": ...}] with [json.dump]
    ([Export.json_review]).  This file has the reader, [json.load] on such
    a document ([json_load_review], with [json_scan] for a string), and the
    proof that what is written is read back unchanged. *)

From S2P Require Import PyStr Export.

Local Open Scope N_scope.

(** ** The reader *)

Definition hex_value (c : char) : option N :=
  if (48 <=? c) && (c <=? 57) then Some (c - 48)
  else if (97 <=? c) && (c <=? 102) then Some (c - 87)
  else if (65 <=? c) && (c <=? 70) then Some (c - 55)
  else None.

Definition hex4 (a b c d : char) : option N :=
  a ← hex_value a; b ← hex_value b; c ← hex_value c; d ← hex_value d;
  Some (4096 * a + 256 * b + 16 * c + d).

Definition is_high (n : N) : bool := (55296 <=? n) && (n <=? 56319).
Definition is_low (n : N) : bool := (56320 <=? n) && (n <=? 57343).

(** One more character in front of what is scanned. *)
Definition scanned (c : char) (r : option (str * str)) : option (str * str) :=
  prod_map (cons c) id <$> r.

(** What a one-letter escape stands for. *)
Definition escape_value (e : char) : option char :=
  if e =? ch_dquote then Some ch_dquote
  else if e =? 92 then Some 92
  else if e =? 47 then Some 47
  else if e =? 98 then Some 8
  else if e =? 102 then Some 12
  else if e =? 110 then Some 10
  else if e =? 114 then Some 13
  else if e =? 116 then Some 9
  else None.

(** A string, from after its opening quote: its characters and what
    follows its closing quote.  Two [\u] escapes that are a surrogate pair
    give one character. *)
Fixpoint json_scan (s : str) : option (str * str) :=
  match s with
  | [] => None
  | c :: r =>
    if c =? ch_dquote then Some ([], r)
    else if c =? 92 then
      match r with
      | [] => None
      | e :: r1 =>
        if e =? 117 then
          match r1 with
          | h1 :: h2 :: h3 :: h4 :: r2 =>
            match hex4 h1 h2 h3 h4 with
            | None => None
            | Some n =>
              match r2 with
              | b :: u :: l1 :: l2 :: l3 :: l4 :: r3 =>
                match hex4 l1 l2 l3 l4 with
                | Some m =>
                  if is_high n && (b =? 92) && (u =? 117) && is_low m
                  then scanned (65536 + (n - 55296) * 1024 + (m - 56320)) (json_scan r3)
                  else scanned n (json_scan r2)
                | None => scanned n (json_scan r2)
                end
              | _ => scanned n (json_scan r2)
              end
            end
          | _ => None
          end
        else
          match escape_value e with
          | Some v => scanned v (json_scan r1)
          | None => None
          end
      end
    else if c <? 32 then None
    else scanned c (json_scan r)
  end.

Definition json_ws (c : char) : bool := (c =? 32) || (c =? 9) || (c =? 10) || (c =? 13).

Definition skip_ws (s : str) : str := drop_while json_ws s.

(** A token, after white space. *)
Definition expect (c : char) (s : str) : option str :=
  match skip_ws s with
  | x :: r => if x =? c then Some r else None
  | [] => None
  end.

(** [json.load(f)["review"]] for a document that is an object with the
    one key [review] and a string for it. *)
Definition json_load_review (doc : str) : option str :=
  r ← expect 123 doc;
  r ← expect ch_dquote r;
  '(key, r) ← json_scan r;
  r ← expect 58 r;
  r ← expect ch_dquote r;
  '(value, r) ← json_scan r;
  r ← expect 125 r;
  if bool_decide (skip_ws r = []) && bool_decide (key = lit "review") then Some value else None.

(** ** What the theorems speak of *)

(** A character that a text has: a code point that is not a surrogate. *)
Definition scalar (c : char) : bool := (c <? 1114112) && negb ((55296 <=? c) && (c <=? 57343)).

(** ** Concrete runs *)

Example json_load_examples :
  json_load_review (json_review (lit "a\b
é🤖 " ++ [ch_dquote] ++ lit "q")) = Some (lit "a\b
é🤖 " ++ [ch_dquote] ++ lit "q") ∧
  json_load_review (lit "{" ++ [ch_dquote] ++ lit "review" ++ [ch_dquote] ++ lit " : "
                    ++ [ch_dquote] ++ lit "x\/y\u0041\ud83e\udd16" ++ [ch_dquote] ++ lit " }")
    = Some (lit "x/yA🤖") ∧
  json_load_review (lit "{" ++ [ch_dquote] ++ lit "other" ++ [ch_dquote] ++ lit ": "
                    ++ [ch_dquote] ++ lit "x" ++ [ch_dquote] ++ lit "}") = None.
Proof. by vm_compute. Qed.

(** ** Lemmas *)

(** A property of the numbers below [k], by checking them all. *)
Lemma N_below (P : N → bool) (k : nat) :
  forallb P (N.of_nat <$> seq 0 k) = true → ∀ x, x < N.of_nat k → P x = true.
Proof.
  intros Hall%Forall_true_forallb x Hx. rewrite list.Forall_forall in Hall. apply Hall.
  apply list_elem_of_fmap. exists (N.to_nat x). split; [by rewrite N2Nat.id|].
  apply elem_of_seq. lia.
Qed.

Lemma hex_value_digit d : d < 16 → hex_value (hex_digit d) = Some d.
Proof.
  intros Hd. apply (N_below (λ d, bool_decide (hex_value (hex_digit d) = Some d)) 16) in Hd;
    [by apply bool_decide_eq_true in Hd|by vm_compute].
Qed.

Lemma lor_high x : x < 1024 → N.lor 55296 x = 55296 + x.
Proof.
  intros Hx. apply (N_below (λ x, N.lor 55296 x =? 55296 + x) 1024) in Hx;
    [by apply N.eqb_eq|by vm_compute].
Qed.

Lemma lor_low x : x < 1024 → N.lor 56320 x = 56320 + x.
Proof.
  intros Hx. apply (N_below (λ x, N.lor 56320 x =? 56320 + x) 1024) in Hx;
    [by apply N.eqb_eq|by vm_compute].
Qed.

Lemma hex4_digits n :
  n < 65536 →
  hex4 (hex_digit (n / 4096 mod 16)) (hex_digit (n / 256 mod 16)) (hex_digit (n / 16 mod 16))
       (hex_digit (n mod 16)) = Some n.
Proof.
  intros Hn. unfold hex4. rewrite !hex_value_digit by (apply N.mod_upper_bound; lia). simpl.
  f_equal. pose proof (N.div_mod n 16). pose proof (N.div_mod (n / 16) 16).
  pose proof (N.div_mod (n / 256) 16). pose proof (N.mod_upper_bound n 16).
  pose proof (N.mod_upper_bound (n / 16) 16). pose proof (N.mod_upper_bound (n / 256) 16).
  pose proof (N.mod_upper_bound (n / 4096) 16).
  assert (n / 4096 < 16) by (apply N.Div0.div_lt_upper_bound; lia).
  rewrite (N.mod_small (n / 4096)) by done.
  replace (n / 256) with (n / 16 / 16) in * by (rewrite N.Div0.div_div; f_equal).
  replace (n / 4096) with (n / 16 / 16 / 16) in * by (rewrite !N.Div0.div_div; f_equal).
  pose proof (N.div_mod (n / 16 / 16) 16). lia.
Qed.

(** The scan of a [\u] escape. *)
Lemma json_scan_u_eq h1 h2 h3 h4 r2 :
  json_scan (92 :: 117 :: h1 :: h2 :: h3 :: h4 :: r2)
  = match hex4 h1 h2 h3 h4 with
    | None => None
    | Some n =>
      match r2 with
      | b :: u :: l1 :: l2 :: l3 :: l4 :: r3 =>
        match hex4 l1 l2 l3 l4 with
        | Some m =>
          if is_high n && (b =? 92) && (u =? 117) && is_low m
          then scanned (65536 + (n - 55296) * 1024 + (m - 56320)) (json_scan r3)
          else scanned n (json_scan r2)
        | None => scanned n (json_scan r2)
        end
      | _ => scanned n (json_scan r2)
      end
    end.
Proof. done. Qed.

Lemma json_scan_u n t :
  n < 65536 → is_high n = false → json_scan (u_escape n ++ t) = scanned n (json_scan t).
Proof.
  intros Hn Hh. unfold u_escape. cbn [app]. rewrite json_scan_u_eq, hex4_digits, Hh by done.
  destruct t as [|b [|u [|l1 [|l2 [|l3 [|l4 r3]]]]]]; try done. by destruct (hex4 l1 l2 l3 l4).
Qed.

Lemma json_scan_pair hi lo t :
  hi < 65536 → lo < 65536 → is_high hi = true → is_low lo = true →
  json_scan (u_escape hi ++ u_escape lo ++ t)
  = scanned (65536 + (hi - 55296) * 1024 + (lo - 56320)) (json_scan t).
Proof.
  intros Hhi Hlo Hh Hl. unfold u_escape at 1. cbn [app]. rewrite json_scan_u_eq, hex4_digits by done.
  unfold u_escape. cbn [app]. by rewrite hex4_digits, Hh, Hl.
Qed.

Lemma json_scan_plain c t :
  (c =? ch_dquote) = false → (c =? 92) = false → (c <? 32) = false →
  json_scan (c :: t) = scanned c (json_scan t).
Proof. intros H1 H2 H3. cbn [json_scan]. by rewrite H1, H2, H3. Qed.

(** One character, written and read. *)
Lemma json_scan_char c t :
  scalar c = true → json_scan (json_char c ++ t) = scanned c (json_scan t).
Proof.
  unfold scalar, json_char. intros [Hc Hs%negb_true_iff]%andb_true_iff.
  repeat (case_match; [bool_to_prop; subst; try done|]).
  - apply json_scan_plain; bool_to_prop; unfold ch_dquote in *; lia.
  - apply json_scan_u; [by bool_to_prop|]. unfold is_high. bool_to_prop. lia.
  - bool_to_prop. rewrite N.shiftr_div_pow2. change 1023 with (N.ones 10).
    rewrite !N.land_ones. change (2 ^ 10) with 1024.
    assert ((c - 65536) / 1024 < 1024) by (apply N.Div0.div_lt_upper_bound; lia).
    assert ((c - 65536) mod 1024 < 1024) by (apply N.mod_upper_bound; lia).
    assert (c - 65536 = 1024 * ((c - 65536) / 1024) + (c - 65536) mod 1024)
      by (apply N.div_mod; lia).
    rewrite (N.mod_small (_ / _)), lor_high, lor_low by lia. rewrite <-(assoc_L (++)).
    generalize dependent ((c - 65536) / 1024). generalize dependent ((c - 65536) mod 1024).
    intros m Hm d Hd Hc'.
    rewrite json_scan_pair; [f_equal; lia|lia|lia|unfold is_high|unfold is_low]; bool_to_prop; lia.
Qed.

(** A string, written and read. *)
Lemma json_scan_string s t :
  forallb scalar s = true → json_scan ((s ≫= json_char) ++ ch_dquote :: t) = Some (s, t).
Proof.
  induction s as [|c s IH]; [done|]. cbn [forallb]. intros [Hc Hs]%andb_true_iff.
  change ((c :: s) ≫= json_char) with (json_char c ++ (s ≫= json_char)).
  by rewrite <-(assoc_L (++)), json_scan_char, IH.
Qed.

Lemma expect_ws c pre r :
  forallb json_ws pre = true → json_ws c = false → expect c (pre ++ c :: r) = Some r.
Proof.
  intros Hpre Hc. unfold expect, skip_ws.
  rewrite drop_while_app_all, drop_while_cons_false, N.eqb_refl; [done..|].
  by apply Forall_true_forallb.
Qed.

(** The document of line 372, token by token. *)
Lemma json_review_tokens review_output :
  json_review review_output
  = [] ++ 123 :: ([10; 32; 32] ++ ch_dquote :: ((lit "review" ≫= json_char) ++ ch_dquote
    :: ([] ++ 58 :: ([32] ++ ch_dquote :: ((review_output ≫= json_char) ++ ch_dquote
    :: ([10] ++ 125 :: [])))))).
Proof. unfold json_review, json_string. by rewrite <-!(assoc_L (++)). Qed.

(** ** The round trip *)

(** C20: the JSON export reads back as the review: for a review of
    characters that are not surrogates, [json.load] of what line 372
    writes gives an object whose [review] is the review, character for
    character. *)
Theorem json_review_roundtrip review_output :
  forallb scalar review_output = true →
  json_load_review (json_review review_output) = Some review_output.
Proof.
  intros Hs. unfold json_load_review. rewrite json_review_tokens.
  rewrite (expect_ws 123 []) by done. cbn [mbind option_bind option_ret].
  rewrite (expect_ws ch_dquote) by done. cbn [mbind option_bind].
  rewrite json_scan_string by done. cbn [mbind option_bind].
  rewrite (expect_ws 58) by done. cbn [mbind option_bind].
  rewrite (expect_ws ch_dquote) by done. cbn [mbind option_bind].
  rewrite json_scan_string by done. cbn [mbind option_bind].
  rewrite (expect_ws 125) by done. done.
Qed.

Lemma json_review_roundtrip_witness :
  json_load_review (json_review (lit "# Bugs
1. `x` is never closed 🤖")) = Some (lit "# Bugs
1. `x` is never closed 🤖").
Proof. apply json_review_roundtrip. by vm_compute. Defined.
