(* ===== verification/Pipeline.v ===== *)
(** * The pipeline: [run_pipeline]

    src/app.py lines 310-382.  The function is the sequence of its stages:
    the checks of the path and of the file list with their early returns,
    [read_contents] (the dictionary of line 337), [chunk_files],
    [review_batches] (the loop of lines 340-365, one round per batch:
    review, display, fixes) and [export_stage] (lines 367-382).  It returns
    [None] on an early return and the aggregated review otherwise. *)

From stdpp Require Import gmap.
From S2P Require Import PyStr Fences Batcher World Console Config FileIO.
From S2P Require Import Requester FixApplier Collector Export.

Local Open Scope io_scope.

(** ** Messages *)

(** [f"{i}/{len(batches)}"]. *)
Definition batch_tag (i n : nat) : str := str_of_nat i ++ [ch_slash] ++ str_of_nat n.

(** Lines 353 and 357: the review as it is shown, cut to 20000
    characters. *)
Definition show_review (ui_logger : bool) (i n : nat) (output : str) : M unit :=
  if ui_logger then
    ui_log (lit "
==== Review for batch " ++ batch_tag i n ++ lit " ====
");;
    emit (UiLog (take 20000 output ++
                 (if bool_decide (20000 < length output) then lit "
...[truncated]
" else [ch_nl])) true)
  else
    console_rule (lit "[bold blue]🧩 Review for batch " ++ batch_tag i n ++ lit "[/bold blue]");;
    emit (PrintMarkdown (take 20000 output)).

(** ** The stages *)

(** Line 337: the dictionary from every file to [read_file(f)], or to the
    empty string when that is [None]. *)
Definition read_contents `{Env} (files : list str) : M (gmap str str) :=
  fold_each files ∅ (λ contents f, code ← read_file f; ret (<[f := default [] code]> contents)).

(** Lines 341-365: one round of the loop, for batch number [i] of [n]. *)
Definition review_round `{Unicode, Env} (path : str) (autofix apply_all : bool)
    (userprompt : option str) (ui_logger : bool) (prompt_func : option prompt_fn) (n : nat)
    (all_reviews : list str) (item : nat * (str * list str)) : M (list str) :=
  let i := item.1 in
  let batch := item.2.1 in
  let batch_file_list := item.2.2 in
  log_or ui_logger (lit "Processing batch " ++ batch_tag i n ++ lit " (Review)...
")
    (console_print (lit "[green]Processing batch " ++ batch_tag i n
                    ++ lit " (Review)...[/green]"));;
  output ← review_project batch userprompt;
  show_review ui_logger i n output;;
  (if autofix then
     log_or ui_logger (lit "Processing batch " ++ batch_tag i n ++ lit " (Auto-Fix)...
")
       (console_rule (lit "[bold green]🔧 Auto-Fix for batch " ++ batch_tag i n
                      ++ lit "[/bold green]"));;
     auto_fix_project path output batch_file_list apply_all true prompt_func ui_logger
   else ret ());;
  ret (all_reviews ++ [output]).

(** Lines 340-365: [enumerate(zip(batches, batch_files), 1)]. *)
Definition review_batches `{Unicode, Env} (path : str) (autofix apply_all : bool)
    (userprompt : option str) (ui_logger : bool) (prompt_func : option prompt_fn)
    (batches : list str) (batch_files : list (list str)) : M (list str) :=
  fold_each (zip (seq 1 (length (zip batches batch_files))) (zip batches batch_files)) []
    (review_round path autofix apply_all userprompt ui_logger prompt_func (length batches)).

(** Lines 367-382. *)
Definition export_stage `{Env} (export_json ui_logger : bool) (excel_filename : str)
    (all_reviews : list str) : M (option str) :=
  let review_output := join_with (lit "

") all_reviews in
  save_to_excel review_output excel_filename;;
  (if export_json then
     export_json_file review_output;;
     log_or ui_logger (lit "Review saved to project_review.json
")
       (console_print (lit "[green]📦 Review saved to project_review.json[/green]"))
   else ret ());;
  log_or ui_logger (lit "
Done.
") (console_rule (lit "[bold green]✅ Done[/bold green]"));;
  ret (Some review_output).

(** ** [run_pipeline] *)

Definition run_pipeline `{Unicode, Env} (path : str) (export_json autofix apply_all : bool)
    (userprompt : option str) (max_chars : Z) (ui_logger : bool) (excel_filename : str)
    (interactive : bool) (prompt_func : option prompt_fn) : M (option str) :=
  (if ui_logger then ui_log (lit "Starting analysis...
") else (clear_screen;; print_logo));;
  found ← path_exists path;
  if negb found then
    let msg := lit "Invalid path: " ++ path in
    log_or ui_logger (msg ++ [ch_nl]) (console_print (lit "[red]" ++ msg ++ lit "[/red]"));;
    ret None
  else
    files ← get_code_files path;
    if negb (nonempty files) then
      log_or ui_logger (lit "No source files found!
") (console_print (lit "[red]No source files found![/red]"));;
      ret None
    else
      log_or ui_logger (lit "Analyzing " ++ str_of_nat (length files) ++ lit " files...
")
        (console_rule (lit "[bold magenta]🔍 Analyzing " ++ str_of_nat (length files)
                       ++ lit " files...[/bold magenta]"));;
      contents ← read_contents files;
      chunks ← lift (chunk_files files contents max_chars);
      all_reviews ← review_batches path autofix apply_all userprompt ui_logger prompt_func
                      chunks.1 chunks.2;
      export_stage export_json ui_logger excel_filename all_reviews.

(** ** What the theorems speak of *)

(** The file the JSON export writes. *)
Definition json_path : str := lit "project_review.json".

(** The dictionary of line 337 for a file system: every listed file, with
    its text, or the empty string when it cannot be read. *)
Definition contents_of `{Env} (fs : gmap str node) (files : list str) : gmap str str :=
  foldl (λ c f, <[f := default [] (readable_text fs f)]> c) ∅ files.

(** The exceptions that end a run: the model was not constructed at
    import, its constructor fails when fixes are asked for, the workbook
    cannot be built or saved, the JSON file cannot be written. *)
Definition pipeline_failure `{Env} (export_json autofix : bool) (excel_filename : str)
    (e : exn) : Prop :=
  (model_loaded = false ∧ e = model_unavailable) ∨
  (autofix = true ∧ ∃ log, GenerativeModel log MODEL_NAME = Some e) ∨
  (has_openpyxl = true ∧ ((∃ msg, e = IllegalCharacterError msg) ∨ os_failure excel_filename e)) ∨
  (export_json = true ∧ os_failure json_path e).

(** ** Lemmas *)

Section pipeline.
Context `{Unicode, Env}.
Implicit Types (w : world) (files : list str) (ui_logger autofix apply_all export_json : bool).

Lemma log_or_fs_pure ui_logger msg console : fs_pure console → fs_pure (log_or ui_logger msg console).
Proof. by destruct ui_logger. Qed.

Lemma log_or_log_grows ui_logger msg console :
  log_grows console → log_grows (log_or ui_logger msg console).
Proof. destruct ui_logger; [intros _; apply emit_log_grows|done]. Qed.

Lemma log_or_total ui_logger msg console : total console → total (log_or ui_logger msg console).
Proof. by destruct ui_logger. Qed.

Lemma show_review_fs_pure ui_logger i n output : fs_pure (show_review ui_logger i n output).
Proof. by destruct ui_logger. Qed.

Lemma show_review_total ui_logger i n output : total (show_review ui_logger i n output).
Proof. by destruct ui_logger. Qed.

Lemma show_review_log_grows ui_logger i n output : log_grows (show_review ui_logger i n output).
Proof.
  unfold show_review. destruct ui_logger; apply log_grows_bind; intros; apply emit_log_grows.
Qed.

(** *** The dictionary *)

Lemma read_file_run w f :
  ∃ w1, read_file f w = (Ok (readable_text (w_fs w) f), w1) ∧ w_fs w1 = w_fs w ∧
        w_log w `prefix_of` w_log w1.
Proof.
  pose proof (read_file_result w f) as Hres. pose proof (read_file_fs_pure f w) as Hfs.
  pose proof (read_file_log_grows f w) as Hlog.
  destruct (read_file f w) as [r w1]. simpl in *. subst r. by exists w1.
Qed.

Lemma read_contents_from files (c0 : gmap str str) w :
  ∃ w', fold_each files c0
          (λ contents f, code ← read_file f; ret (<[f := default [] code]> contents)) w
        = (Ok (foldl (λ c f, <[f := default [] (readable_text (w_fs w) f)]> c) c0 files), w') ∧
        w_fs w' = w_fs w ∧ w_log w `prefix_of` w_log w'.
Proof.
  revert c0 w. induction files as [|f files IH]; intros c0 w; [by exists w|].
  cbn [fold_each foldl]. destruct (read_file_run w f) as (w1 & Hr & Hfs & Hlog).
  rewrite bind_assoc, (bind_Ok _ _ _ _ _ Hr), bind_ret_l.
  destruct (IH (<[f := default [] (readable_text (w_fs w) f)]> c0) w1) as (w' & -> & Hfs' & Hlog').
  exists w'. rewrite Hfs. split_and!; [done|congruence|by etrans].
Qed.

Lemma read_contents_run files w :
  ∃ w', read_contents files w = (Ok (contents_of (w_fs w) files), w') ∧
        w_fs w' = w_fs w ∧ w_log w `prefix_of` w_log w'.
Proof. apply read_contents_from. Qed.

Lemma read_contents_silent files : silent (read_contents files).
Proof.
  apply fold_each_silent. intros contents f. apply silent_bind; [|done].
  intros w. apply read_file_requests.
Qed.

Lemma read_contents_fs_pure files : fs_pure (read_contents files).
Proof. intros w. by destruct (read_contents_run files w) as (w' & -> & ? & ?). Qed.

Lemma read_contents_log_grows files : log_grows (read_contents files).
Proof. intros w. by destruct (read_contents_run files w) as (w' & -> & ? & ?). Qed.

Lemma foldl_insert_keys (g : str → str) files (c0 : gmap str str) f :
  f ∈ files → is_Some (foldl (λ c f, <[f := g f]> c) c0 files !! f).
Proof.
  revert c0. induction files as [|f' files IH] using rev_ind; intros c0; [by intros ?%elem_of_nil|].
  rewrite foldl_app. simpl. destruct (decide (f = f')) as [->|Hne].
  - rewrite lookup_insert_eq. eauto.
  - rewrite lookup_insert_ne by done. intros [?|?%list_elem_of_singleton]%elem_of_app; [|done].
    by apply IH.
Qed.

(** Every file is a key of the dictionary. *)
Lemma contents_of_keys fs files : Forall (λ f, is_Some (contents_of fs files !! f)) files.
Proof. apply list.Forall_forall. intros f Hf. by apply foldl_insert_keys. Qed.

(** *** One round, the loop, the exports *)

(** A round changes the files as its call of [auto_fix_project] does. *)
Lemma review_round_prop `{!FsProp Φ} path autofix apply_all userprompt ui_logger prompt_func n
    all_reviews item :
  (autofix = true →
   ∀ output, Φ _ (auto_fix_project path output item.2.2 apply_all true prompt_func ui_logger)) →
  Φ _ (review_round path autofix apply_all userprompt ui_logger prompt_func n all_reviews item).
Proof.
  intros Hfix. unfold review_round. cbv zeta.
  apply fs_prop_bind; [apply fs_prop_pure, log_or_fs_pure, emit_fs_pure|]. intros _.
  apply fs_prop_bind; [apply fs_prop_pure, review_project_fs_pure|]. intros output.
  apply fs_prop_bind; [apply fs_prop_pure, show_review_fs_pure|]. intros _.
  apply fs_prop_bind; [|intros; by apply fs_prop_pure].
  destruct autofix; [|by apply fs_prop_pure].
  apply fs_prop_bind; [apply fs_prop_pure, log_or_fs_pure, emit_fs_pure|]. intros _.
  by apply Hfix.
Qed.

Lemma review_round_fs_pure path apply_all userprompt ui_logger prompt_func n all_reviews item :
  fs_pure (review_round path false apply_all userprompt ui_logger prompt_func n all_reviews item).
Proof. by apply fs_frame_nil, (review_round_prop (Φ := λ A, @fs_frame A _)). Qed.

Lemma review_round_declined path autofix userprompt ui_logger prompt_func n all_reviews item :
  declines ui_logger prompt_func →
  fs_pure (review_round path autofix false userprompt ui_logger prompt_func n all_reviews item).
Proof.
  intros Hno. apply fs_frame_nil, (review_round_prop (Φ := λ A, @fs_frame A _)).
  intros _ output. by apply fs_pure_frame, auto_fix_project_declined.
Qed.

Lemma review_round_log_grows path autofix apply_all userprompt ui_logger prompt_func n
    all_reviews item :
  log_grows (review_round path autofix apply_all userprompt ui_logger prompt_func n
               all_reviews item).
Proof.
  unfold review_round. cbv zeta.
  apply log_grows_bind; [apply log_or_log_grows, emit_log_grows|]. intros _.
  apply log_grows_bind; [apply review_project_log_grows|]. intros output.
  apply log_grows_bind; [apply show_review_log_grows|]. intros _.
  apply log_grows_bind; [|intros; apply ret_log_grows].
  destruct autofix; [|apply ret_log_grows].
  apply log_grows_bind; [apply log_or_log_grows, emit_log_grows|]. intros _.
  unfold auto_fix_project. apply log_grows_bind; [apply new_model_log_grows|intros _].
  apply for_each_log_grows. intros f. apply fix_file_log_grows.
Qed.

Lemma review_batches_fs_pure path apply_all userprompt ui_logger prompt_func batches batch_files :
  fs_pure (review_batches path false apply_all userprompt ui_logger prompt_func batches
             batch_files).
Proof. apply fold_each_fs_pure. intros. apply review_round_fs_pure. Qed.

Lemma review_batches_declined path autofix userprompt ui_logger prompt_func batches batch_files :
  declines ui_logger prompt_func →
  fs_pure (review_batches path autofix false userprompt ui_logger prompt_func batches
             batch_files).
Proof. intros Hno. apply fold_each_fs_pure. intros. by apply review_round_declined. Qed.

(** The loop changes the files through [write_file] on the files of the
    batches only. *)
Lemma review_batches_prop `{!FsProp Φ} path autofix apply_all userprompt ui_logger prompt_func
    batches batch_files :
  (∀ f new_code, f ∈ mjoin batch_files → Φ _ (write_file f new_code)) →
  Φ _ (review_batches path autofix apply_all userprompt ui_logger prompt_func batches
         batch_files).
Proof.
  intros Hw. apply fold_each_prop.
  intros all_reviews [i [batch fl]] Hin%elem_of_zip_r%elem_of_zip_r.
  apply review_round_prop. intros _ output. apply auto_fix_project_prop.
  intros f new_code Hf. apply Hw, list_elem_of_join. by exists fl.
Qed.

Lemma review_batches_frame path autofix apply_all userprompt ui_logger prompt_func batches
    batch_files :
  fs_frame (touched (mjoin batch_files))
    (review_batches path autofix apply_all userprompt ui_logger prompt_func batches batch_files).
Proof.
  apply (review_batches_prop (Φ := λ A, @fs_frame A _)). intros f new_code Hf.
  eapply fs_frame_mono, write_file_frame. by apply touched_elem.
Qed.

Lemma review_batches_raises path export_json autofix apply_all userprompt ui_logger
    prompt_func excel_filename batches batch_files :
  raises_only (pipeline_failure export_json autofix excel_filename)
    (review_batches path autofix apply_all userprompt ui_logger prompt_func batches batch_files).
Proof.
  apply fold_each_raises. intros all_reviews item. unfold review_round. cbv zeta.
  apply raises_only_bind; [apply total_raises_only, log_or_total, emit_total|]. intros _.
  apply raises_only_bind; [|intros output].
  { eapply raises_only_mono, review_project_raises. intros e He. by left. }
  apply raises_only_bind; [apply total_raises_only, show_review_total|]. intros _.
  apply raises_only_bind; [|intros; by apply total_raises_only].
  destruct autofix; [|by apply total_raises_only].
  apply raises_only_bind; [apply total_raises_only, log_or_total, emit_total|]. intros _.
  eapply raises_only_mono, auto_fix_project_raises. intros e He. right. by left.
Qed.

Lemma export_stage_raises export_json autofix ui_logger excel_filename all_reviews :
  raises_only (pipeline_failure export_json autofix excel_filename)
    (export_stage export_json ui_logger excel_filename all_reviews).
Proof.
  unfold export_stage. cbv zeta. apply raises_only_bind; [|intros _].
  { eapply raises_only_mono, save_to_excel_raises. intros e He. right. right. by left. }
  apply raises_only_bind; [|intros _].
  - destruct export_json; [|by apply total_raises_only].
    apply raises_only_bind; [|intros; apply total_raises_only, log_or_total, emit_total].
    eapply raises_only_mono, export_json_file_raises. intros e He. by do 3 right.
  - apply total_raises_only, total_bind; [apply log_or_total, emit_total|done].
Qed.

(** What the export stage returns when it returns. *)
Lemma export_stage_returns export_json ui_logger excel_filename all_reviews w result w' :
  export_stage export_json ui_logger excel_filename all_reviews w = (Ok result, w') →
  result = Some (join_with (lit "

") all_reviews).
Proof.
  unfold export_stage. cbv zeta. unfold bind.
  repeat (match goal with |- context [match ?m ?w0 with _ => _ end] =>
            destruct (m w0) as [[[]|?] ?] end; [|done]).
  by intros [= <- _].
Qed.

(** The export stage without [openpyxl] and without the JSON file. *)
Lemma export_stage_plain ui_logger excel_filename all_reviews w :
  has_openpyxl = false →
  ∃ w', export_stage false ui_logger excel_filename all_reviews w
        = (Ok (Some (join_with (lit "

") all_reviews)), w') ∧
        w_fs w' = w_fs w ∧ requests (w_log w') = requests (w_log w).
Proof.
  intros Hx. unfold export_stage. cbv zeta.
  rewrite (bind_Ok _ _ _ _ _ (save_to_excel_no_openpyxl_run _ _ _ Hx)), bind_ret_l.
  match goal with |- context [bind ?m _ ?w0] =>
    destruct (silent_run m w0) as ([] & w' & Hrun & Hfs & _ & Hreq); [solve_quiet..|] end.
  exists w'. rewrite (bind_Ok _ _ _ _ _ Hrun). split_and!; [done..|].
  rewrite Hreq. cbn [w_log]. by rewrite requests_snoc, app_nil_r.
Qed.

Lemma save_to_excel_frame review_output filename :
  fs_frame [filename] (save_to_excel review_output filename).
Proof.
  unfold save_to_excel. destruct has_openpyxl; [|apply fs_pure_frame, emit_fs_pure].
  apply fs_frame_bind; [apply fs_pure_frame, lift_fs_pure|]. intros book.
  apply fs_frame_bind; [apply save_workbook_frame|]. intros _. apply fs_pure_frame, emit_fs_pure.
Qed.

Lemma export_stage_frame export_json ui_logger excel_filename all_reviews :
  fs_frame [excel_filename; json_path]
    (export_stage export_json ui_logger excel_filename all_reviews).
Proof.
  unfold export_stage. cbv zeta.
  apply fs_frame_bind; [eapply fs_frame_mono, save_to_excel_frame; sub_singleton|]. intros _.
  apply fs_frame_bind; [|intros _].
  - destruct export_json; [|done].
    apply fs_frame_bind; [eapply fs_frame_mono, open_write_frame; sub_singleton|]. intros _.
    apply fs_pure_frame, log_or_fs_pure, emit_fs_pure.
  - apply fs_frame_bind; [apply fs_pure_frame, log_or_fs_pure, emit_fs_pure|done].
Qed.

Lemma get_code_files_fs_pure path : fs_pure (get_code_files path).
Proof. done. Qed.

(** The whole run only adds to the log. *)
Lemma get_code_files_log_grows path : log_grows (get_code_files path).
Proof. by intros w. Qed.

Lemma review_batches_log_grows path autofix apply_all userprompt ui_logger prompt_func batches
    batch_files :
  log_grows (review_batches path autofix apply_all userprompt ui_logger prompt_func batches
               batch_files).
Proof. apply fold_each_log_grows. intros. apply review_round_log_grows. Qed.

Lemma save_to_excel_log_grows review_output filename :
  log_grows (save_to_excel review_output filename).
Proof. unfold save_to_excel. destruct has_openpyxl; solve_quiet. Qed.

Lemma export_stage_log_grows export_json ui_logger excel_filename all_reviews :
  log_grows (export_stage export_json ui_logger excel_filename all_reviews).
Proof.
  unfold export_stage. cbv zeta.
  apply log_grows_bind; [apply save_to_excel_log_grows|intros _].
  apply log_grows_bind; [|intros _; solve_quiet]. destruct export_json; [|solve_quiet].
  apply log_grows_bind; [apply open_write_log_grows|intros _; solve_quiet].
Qed.

(** A run starts with its banner, or with its first message in window
    mode, and only adds to the log after it. *)
Lemma run_pipeline_log path export_json autofix apply_all userprompt max_chars ui_logger
    excel_filename interactive prompt_func w :
  ∃ rest,
    w_log (run_pipeline path export_json autofix apply_all userprompt max_chars ui_logger
             excel_filename interactive prompt_func w).2
    = w_log w ++ (if ui_logger then [UiLog (lit "Starting analysis...
") false] else banner) ++ rest.
Proof.
  unfold run_pipeline.
  match goal with |- context [bind _ ?k] => set (tail := k); assert (log_grows (tail ())) as Hk end.
  { unfold tail. apply log_grows_bind; [unfold path_exists; solve_quiet|intros found].
    destruct (negb found); [solve_quiet|].
    apply log_grows_bind; [apply get_code_files_log_grows|intros files].
    destruct (negb (nonempty files)); [solve_quiet|].
    apply log_grows_bind; [solve_quiet|intros _].
    apply log_grows_bind; [apply read_contents_log_grows|intros contents].
    apply log_grows_bind; [apply lift_log_grows|intros chunks].
    apply log_grows_bind; [apply review_batches_log_grows|intros all_reviews].
    apply export_stage_log_grows. }
  destruct ui_logger; unfold ui_log; rewrite ?banner_run, ?bind_emit;
    match goal with |- context [tail () ?w'] => destruct (Hk w') as [rest Hrest] end;
    exists rest; rewrite Hrest; simpl; by rewrite <-!(assoc_L (++)).
Qed.

Lemma run_pipeline_log_grows path export_json autofix apply_all userprompt max_chars ui_logger
    excel_filename interactive prompt_func :
  log_grows (run_pipeline path export_json autofix apply_all userprompt max_chars ui_logger
               excel_filename interactive prompt_func).
Proof.
  intros w. destruct (run_pipeline_log path export_json autofix apply_all userprompt max_chars
    ui_logger excel_filename interactive prompt_func w) as [rest ->]. by eexists.
Qed.

(** [run_pipeline] changes what its loop changes, and the two files it
    exports to. *)
Lemma run_pipeline_frame_with paths path export_json autofix apply_all userprompt max_chars
    ui_logger excel_filename interactive prompt_func :
  (∀ batches batch_files,
     fs_frame paths (review_batches path autofix apply_all userprompt ui_logger prompt_func
                       batches batch_files)) →
  fs_frame (paths ++ [excel_filename; json_path])
    (run_pipeline path export_json autofix apply_all userprompt max_chars ui_logger
       excel_filename interactive prompt_func).
Proof.
  intros Hloop. unfold run_pipeline.
  apply fs_frame_bind; [apply fs_pure_frame; by destruct ui_logger|]. intros _.
  apply fs_frame_bind; [by apply fs_pure_frame|]. intros found.
  destruct found; cbn [negb];
    [|apply fs_pure_frame, fs_pure_bind; [apply log_or_fs_pure, emit_fs_pure|done]].
  apply fs_frame_bind; [by apply fs_pure_frame|]. intros files.
  destruct (nonempty files); cbn [negb];
    [|apply fs_pure_frame, fs_pure_bind; [apply log_or_fs_pure, emit_fs_pure|done]].
  apply fs_frame_bind; [apply fs_pure_frame, log_or_fs_pure, emit_fs_pure|]. intros _.
  apply fs_frame_bind; [apply fs_pure_frame, read_contents_fs_pure|]. intros contents.
  apply fs_frame_bind; [apply fs_pure_frame, lift_fs_pure|]. intros chunks.
  apply fs_frame_bind; [eapply fs_frame_mono, Hloop; apply sub_app_l|]. intros all_reviews.
  eapply fs_frame_mono, export_stage_frame. apply sub_app_r.
Qed.

Lemma run_pipeline_declined path export_json autofix userprompt max_chars ui_logger
    excel_filename interactive prompt_func :
  declines ui_logger prompt_func →
  fs_frame [excel_filename; json_path]
    (run_pipeline path export_json autofix false userprompt max_chars ui_logger
       excel_filename interactive prompt_func).
Proof.
  intros Hno. apply (run_pipeline_frame_with []). intros.
  by apply fs_pure_frame, review_batches_declined.
Qed.

(** C3: without [autofix], [run_pipeline] changes no file other than the
    two it exports to, whatever the model answers: the sources are only
    read. *)
Theorem run_pipeline_review_only path export_json apply_all userprompt max_chars ui_logger
    excel_filename interactive prompt_func :
  fs_frame [excel_filename; json_path]
    (run_pipeline path export_json false apply_all userprompt max_chars ui_logger
       excel_filename interactive prompt_func).
Proof.
  apply (run_pipeline_frame_with []). intros. apply fs_pure_frame, review_batches_fs_pure.
Qed.

(** *** The run up to the loop *)

(** With a path that exists and files under it, the run reaches the loop
    over the batches of those files with no file changed. *)
Lemma run_pipeline_stages path export_json autofix apply_all userprompt max_chars ui_logger
    excel_filename interactive prompt_func w files :
  is_Some (w_fs w !! path) → (get_code_files path w).1 = Ok files → files ≠ [] →
  ∃ bfs w1, mjoin bfs = files ∧
    chunk_files files (contents_of (w_fs w) files) max_chars
    = Ok (batch_text (contents_of (w_fs w) files) <$> bfs, bfs) ∧
    w_fs w1 = w_fs w ∧ w_log w `prefix_of` w_log w1 ∧
    requests (w_log w1) = requests (w_log w) ∧
    run_pipeline path export_json autofix apply_all userprompt max_chars ui_logger
      excel_filename interactive prompt_func w
    = bind (review_batches path autofix apply_all userprompt ui_logger prompt_func
              (batch_text (contents_of (w_fs w) files) <$> bfs) bfs)
           (export_stage export_json ui_logger excel_filename) w1.
Proof.
  intros Hp [= Hfiles] Hne%nonempty_true. unfold run_pipeline.
  match goal with |- context [bind ?m _ w] =>
    destruct (silent_run m w) as ([] & w0 & Hrun0 & Hfs0 & Hlog0 & Hreq0);
      [solve_quiet..|rewrite (bind_Ok _ _ _ _ _ Hrun0)] end.
  rewrite bind_path_exists, Hfs0, (bool_decide_eq_true_2 _ Hp). cbn [negb].
  unfold get_code_files at 1, os_walk at 1. rewrite bind_assoc. unfold bind at 1. rewrite bind_ret_l.
  rewrite Hfs0, Hfiles, Hne. cbn [negb].
  match goal with |- context [bind ?m _ w0] =>
    destruct (silent_run m w0) as ([] & w0' & Hrun0' & Hfs0' & Hlog0' & Hreq0');
      [solve_quiet..|rewrite (bind_Ok _ _ _ _ _ Hrun0')] end.
  destruct (read_contents_run files w0') as (w1 & Hr & Hfs1 & Hlog1).
  pose proof (read_contents_silent files w0') as Hreq1. rewrite Hr in Hreq1. simpl in Hreq1.
  rewrite (bind_Ok _ _ _ _ _ Hr), Hfs0', Hfs0.
  destruct (chunk_files_run (contents_of (w_fs w) files) max_chars files
              (contents_of_keys _ _)) as (bfs & Hc & Hj).
  rewrite Hc, bind_lift_Ok. cbn [fst snd].
  exists bfs, w1.
  split_and!; [done..|congruence|by do 2 (etrans; [eassumption|])|congruence|done].
Qed.

(** *** Rounds without fixes *)

Lemma log_or_print_run ui_logger msg markup w :
  ∃ w', log_or ui_logger msg (console_print markup) w = (Ok (), w') ∧ w_fs w' = w_fs w ∧
        requests (w_log w') = requests (w_log w) ∧ answered w w' [].
Proof.
  destruct ui_logger; (eexists; split; [done|]); simpl;
    (split_and!; [done|by rewrite requests_snoc, app_nil_r|by eexists]).
Qed.

Lemma show_review_run ui_logger i n output w :
  ∃ w', show_review ui_logger i n output w = (Ok (), w') ∧ w_fs w' = w_fs w ∧
        requests (w_log w') = requests (w_log w) ∧ answered w w' [].
Proof.
  unfold show_review, ui_log, console_rule.
  destruct ui_logger; rewrite bind_emit; (eexists; split; [done|]); simpl;
    (split_and!; [done|by rewrite !requests_snoc, !app_nil_r|]);
    eexists [_; _]; by rewrite <-(assoc_L (++)).
Qed.

(** A round without fixes sends the review prompt of its batch and adds
    what [generate_content] returns for it. *)
Lemma review_round_run path apply_all userprompt ui_logger prompt_func n all_reviews item w :
  model_loaded = true →
  ∃ output w',
    review_round path false apply_all userprompt ui_logger prompt_func n all_reviews item w
    = (Ok (all_reviews ++ [output]), w') ∧
    w_fs w' = w_fs w ∧
    requests (w_log w') = requests (w_log w) ++ [review_prompt item.2.1 userprompt] ∧
    answered w w' [output].
Proof.
  intros Hm. unfold review_round. cbv zeta.
  match goal with |- context [bind (log_or ?u ?m (console_print ?c)) _ w] =>
    destruct (log_or_print_run u m c w) as (w1 & Hrun1 & Hfs1 & Hreq1 & Hans1) end.
  rewrite (bind_Ok _ _ _ _ _ Hrun1), (bind_Ok _ _ _ _ _ (review_project_run _ _ _ Hm)).
  pose proof (review_project_answered item.2.1 userprompt w1) as Hans2.
  match goal with |- context [bind (show_review ?u ?i ?k ?o) _ ?w2] =>
    destruct (show_review_run u i k o w2) as (w3 & Hrun3 & Hfs3 & Hreq3 & Hans3) end.
  rewrite (bind_Ok _ _ _ _ _ Hrun3), !bind_ret_l. eexists _, w3. split; [done|].
  split_and!; [by rewrite Hfs3|by rewrite Hreq3; simpl; rewrite requests_snoc, Hreq1|].
  exact (answered_trans _ _ _ _ _ (answered_trans _ _ _ _ _ Hans1 Hans2) Hans3).
Qed.

Lemma review_rounds_run path apply_all userprompt ui_logger prompt_func n items all_reviews w :
  model_loaded = true →
  ∃ outputs w',
    fold_each items all_reviews
      (review_round path false apply_all userprompt ui_logger prompt_func n) w
    = (Ok (all_reviews ++ outputs), w') ∧
    length outputs = length items ∧ w_fs w' = w_fs w ∧
    requests (w_log w')
    = requests (w_log w) ++ ((λ item, review_prompt item.2.1 userprompt) <$> items) ∧
    answered w w' outputs.
Proof.
  intros Hm. revert all_reviews w. induction items as [|item items IH]; intros all_reviews w.
  - exists [], w. rewrite !app_nil_r. split_and!; [done..|apply answered_refl].
  - destruct (review_round_run path apply_all userprompt ui_logger prompt_func n all_reviews
                item w Hm) as (output & w1 & Hrun & Hfs & Hreq & Hans).
    destruct (IH (all_reviews ++ [output]) w1)
      as (outputs & w' & Hrun' & Hlen & Hfs' & Hreq' & Hans').
    exists (output :: outputs), w'. cbn [fold_each]. rewrite (bind_Ok _ _ _ _ _ Hrun), Hrun'.
    split_and!; [by rewrite <-(assoc_L (++))|simpl; lia|congruence| |].
    + by rewrite Hreq', Hreq, <-(assoc_L (++)).
    + exact (answered_trans _ _ _ [output] _ Hans Hans').
Qed.

Lemma batch_items_texts (batches : list str) (batch_files : list (list str)) :
  length batches = length batch_files →
  (λ item : nat * (str * list str), item.2.1)
    <$> zip (seq 1 (length (zip batches batch_files))) (zip batches batch_files)
  = batches.
Proof.
  intros Hlen. change (λ item : nat * (str * list str), item.2.1) with (fst ∘ (@snd nat (str * list str))).
  rewrite (list_fmap_compose snd fst), snd_zip by (rewrite length_seq; lia).
  apply fst_zip. lia.
Qed.

(** *** The first round without a model *)

Lemma review_batches_unloaded path autofix apply_all userprompt ui_logger prompt_func batch
    batches files batch_files w :
  model_loaded = false →
  ∃ w', review_batches path autofix apply_all userprompt ui_logger prompt_func
          (batch :: batches) (files :: batch_files) w = (Raise model_unavailable, w') ∧
        w_fs w' = w_fs w.
Proof.
  intros Hm. unfold review_batches. cbn [zip zip_with length seq fold_each].
  unfold review_round at 1. cbv zeta. cbn [fst snd]. rewrite bind_assoc.
  match goal with |- context [bind (log_or ?u ?m ?c) _ w] =>
    destruct (quiet_run (log_or u m c) w) as ([] & w1 & Hrun & Hfs & _); [solve_quiet..|] end.
  exists w1. rewrite (bind_Ok _ _ _ _ _ Hrun), bind_assoc.
  by rewrite (bind_Raise _ _ _ _ _ (review_project_unloaded _ _ _ Hm)).
Qed.

End pipeline.

(** ** Theorems *)

Section pipeline_theorems.
Context `{Unicode, Env}.
Implicit Types (w : world) (files : list str) (path : str).

(** A path that does not exist ends the run at once: the message is
    shown, [None] is returned, no file is read or changed and no request is
    made. *)
Theorem run_pipeline_invalid_path path export_json autofix apply_all userprompt max_chars
    ui_logger excel_filename interactive prompt_func w :
  w_fs w !! path = None →
  run_pipeline path export_json autofix apply_all userprompt max_chars ui_logger excel_filename
    interactive prompt_func w
  = (Ok None,
     World (w_fs w)
       (w_log w ++
        if ui_logger
        then [UiLog (lit "Starting analysis...
") false; UiLog ((lit "Invalid path: " ++ path) ++ [ch_nl]) false]
        else banner ++
             [Print (lit "[red]" ++ (lit "Invalid path: " ++ path) ++ lit "[/red]")])).
Proof.
  intros Hp. unfold run_pipeline, ui_log, console_print, log_or.
  destruct ui_logger; rewrite ?banner_run, ?bind_emit, bind_path_exists; cbn [w_fs w_log];
    rewrite Hp, (bool_decide_eq_false_2 (is_Some None)) by (by intros [??]); cbn [negb].
  all: unfold ui_log; rewrite bind_emit; unfold ret; cbn [w_fs w_log];
    by rewrite <-!(assoc_L (++)).
Qed.

(** When no eligible file is found the run ends after the message,
    with [None], no request and no file changed. *)
Theorem run_pipeline_no_files path export_json autofix apply_all userprompt max_chars
    ui_logger excel_filename interactive prompt_func w :
  is_Some (w_fs w !! path) → (get_code_files path w).1 = Ok [] →
  run_pipeline path export_json autofix apply_all userprompt max_chars ui_logger excel_filename
    interactive prompt_func w
  = (Ok None,
     World (w_fs w)
       (w_log w ++
        if ui_logger
        then [UiLog (lit "Starting analysis...
") false; UiLog (lit "No source files found!
") false]
        else banner ++ [Print (lit "[red]No source files found![/red]")])).
Proof.
  intros Hp [= Hfiles]. unfold run_pipeline, ui_log, console_print, log_or.
  destruct ui_logger; rewrite ?banner_run, ?bind_emit, bind_path_exists; cbn [w_fs w_log];
    rewrite (bool_decide_eq_true_2 _ Hp); cbn [negb];
    unfold get_code_files, os_walk; rewrite bind_assoc; unfold bind at 1; rewrite bind_ret_l;
    cbn [w_fs w_log]; rewrite Hfiles; cbn [nonempty negb];
    unfold ui_log; rewrite bind_emit; unfold ret; cbn [w_fs w_log];
    by rewrite <-!(assoc_L (++)).
Qed.

(** With [autofix] but without [apply_all], and when nobody agrees
    to a fix (in the window every dialog is declined, on the console no
    answer is [y]), [run_pipeline] changes no file other than the two it
    exports to. *)
Theorem run_pipeline_no_consent path export_json autofix userprompt max_chars ui_logger
    excel_filename interactive prompt_func :
  declines ui_logger prompt_func →
  fs_frame [excel_filename; json_path]
    (run_pipeline path export_json autofix false userprompt max_chars ui_logger
       excel_filename interactive prompt_func).
Proof. apply run_pipeline_declined. Qed.

(** A source file is no backup and no export of the run. *)
Lemma source_file_names path w files f q :
  (get_code_files path w).1 = Ok files → f ∈ files → f ≠ bak_of q ∧ f ≠ json_path.
Proof.
  intros Hfiles Hf.
  split; intros ->;
    [pose proof (source_file_last path w files _ 107 Hfiles Hf) as Hl
    |pose proof (source_file_last path w files _ 110 Hfiles Hf) as Hl];
    revert Hl; unfold bak_of; rewrite ?last_app; intros Hl;
    specialize (Hl eq_refl eq_refl); revert Hl; apply (bool_decide_eq_false_1 _);
    by vm_compute.
Qed.

Lemma bak_of_ne_json q : bak_of q ≠ json_path.
Proof. intros Heq%(f_equal list.last). unfold bak_of in Heq. by rewrite last_app in Heq. Qed.

(** C2: no run loses the first version of a source file.  For every file
    that [get_code_files] finds, that can be read and whose backup can be
    written, whatever the options, the model and the user do in a run of
    [run_pipeline]: the file is still there afterwards, and a restore from
    its backup gives what it gave before the run, however many times the
    file was rewritten. *)
Theorem run_pipeline_keeps_originals path export_json autofix apply_all userprompt max_chars
    ui_logger excel_filename interactive prompt_func w files f :
  (get_code_files path w).1 = Ok files → f ∈ files →
  is_Some (w_fs w !! f) → unreadable f = false → unwritable (bak_of f) = false →
  excel_filename ∉ [f; bak_of f] →
  kept (original (w_fs w) f) f
    (w_fs (run_pipeline path export_json autofix apply_all userprompt max_chars ui_logger
             excel_filename interactive prompt_func w).2).
Proof.
  intros Hfiles Hf Hthere Hr Hw [Hx1 Hx2]%not_elem_of_pair.
  destruct (source_file_names path w files f f Hfiles Hf) as [_ Hj].
  pose proof (bak_of_ne_json f) as Hbj.
  destruct (w_fs w !! path) as [n|] eqn:Hpath; [|by rewrite run_pipeline_invalid_path].
  destruct (run_pipeline_stages path export_json autofix apply_all userprompt max_chars
              ui_logger excel_filename interactive prompt_func w files)
    as (bfs & w1 & Hbfs & _ & Hfs & _ & _ & ->); [by rewrite Hpath|done|by intros ->; inv Hf|].
  assert (kept (original (w_fs w) f) f (w_fs w1)) as Hk by by rewrite Hfs.
  clear Hfs. revert w1 Hk. apply (fs_prop_bind (Φ := λ A, @fs_inv (kept _ f) A)).
  - apply review_batches_prop. intros g new_code Hg. rewrite Hbfs in Hg.
    destruct (source_file_names path w files g f Hfiles Hg) as [Hgb _].
    apply write_file_kept; [done..|]. intros <-.
    by destruct (source_file_names path w files _ g Hfiles Hf).
  - intros all_reviews. eapply fs_frame_inv, export_stage_frame. intros fs fs'.
    apply kept_agree; by apply not_elem_of_pair.
Qed.

(** C4: whatever the options, the model and the user, a run changes only
    the source files that [get_code_files] finds under the path, their
    [.bak] backups, and the two files it exports to. *)
Theorem run_pipeline_only_project path export_json autofix apply_all userprompt max_chars
    ui_logger excel_filename interactive prompt_func w files p :
  (get_code_files path w).1 = Ok files →
  p ∉ touched files ++ [excel_filename; json_path] →
  w_fs (run_pipeline path export_json autofix apply_all userprompt max_chars ui_logger
          excel_filename interactive prompt_func w).2 !! p = w_fs w !! p.
Proof.
  intros Hfiles Hp. destruct (w_fs w !! path) as [n|] eqn:Hpath;
    [|by rewrite run_pipeline_invalid_path].
  destruct (decide (files = [])) as [->|Hne]; [by rewrite run_pipeline_no_files|].
  destruct (run_pipeline_stages path export_json autofix apply_all userprompt max_chars
              ui_logger excel_filename interactive prompt_func w files)
    as (bfs & w1 & <- & _ & Hfs & _ & _ & ->); [by rewrite Hpath|done..|].
  trans (w_fs w1 !! p); [|by rewrite Hfs]. clear Hfs. revert w1 p Hp.
  apply (fs_frame_bind (touched (mjoin bfs) ++ [excel_filename; json_path])).
  - eapply fs_frame_mono, review_batches_frame. apply sub_app_l.
  - intros all_reviews. eapply fs_frame_mono, export_stage_frame. apply sub_app_r.
Qed.

(** A run raises only what its loop and its exports raise. *)
Lemma run_pipeline_failures path export_json autofix apply_all userprompt max_chars
    ui_logger excel_filename interactive prompt_func :
  raises_only (pipeline_failure export_json autofix excel_filename)
    (run_pipeline path export_json autofix apply_all userprompt max_chars ui_logger
       excel_filename interactive prompt_func).
Proof.
  intros w e w' Hrun. destruct (w_fs w !! path) as [n|] eqn:Hpath;
    [|by rewrite run_pipeline_invalid_path in Hrun].
  destruct (get_code_files path w) as [[files|?] w0] eqn:Hfiles; [|done].
  destruct (decide (files = [])) as [->|Hne];
    [rewrite run_pipeline_no_files in Hrun; [done|by rewrite Hpath|by rewrite Hfiles]|].
  destruct (run_pipeline_stages path export_json autofix apply_all userprompt max_chars
              ui_logger excel_filename interactive prompt_func w files)
    as (bfs & w1 & _ & _ & _ & _ & _ & Heq); [by rewrite Hpath|by rewrite Hfiles|done|].
  rewrite Heq in Hrun. revert Hrun. apply raises_only_bind.
  - apply review_batches_raises.
  - intros all_reviews. apply export_stage_raises.
Qed.

(** C5: the failures of a run, all of them: [run_pipeline] raises only
    when the model was not constructed at import ([RuntimeError] out of the
    first review), when fixes are asked for and the constructor of the model
    fails, when the workbook cannot be built or saved, or when the JSON
    file, asked for, cannot be written.  Everything else (unreadable files,
    a failing service, refused writes, a missing prompt function) is turned
    into messages, and an invalid path or an empty project ends the run
    without an exception.  So with the model constructed, without fixes,
    without [openpyxl] and without the JSON export, the run returns. *)
Theorem run_pipeline_raises_only path export_json autofix apply_all userprompt max_chars
    ui_logger excel_filename interactive prompt_func :
  raises_only (pipeline_failure export_json autofix excel_filename)
    (run_pipeline path export_json autofix apply_all userprompt max_chars ui_logger
       excel_filename interactive prompt_func) ∧
  (model_loaded = true → autofix = false → has_openpyxl = false → export_json = false →
   total (run_pipeline path export_json autofix apply_all userprompt max_chars ui_logger
            excel_filename interactive prompt_func)).
Proof.
  split; [apply run_pipeline_failures|]. intros Hm Hf Hx Hj w.
  destruct (run_pipeline path export_json autofix apply_all userprompt max_chars ui_logger
              excel_filename interactive prompt_func w) as [[r|e] w'] eqn:Hrun; [done|].
  apply run_pipeline_failures in Hrun as [[? _]|[[? _]|[[? _]|[? _]]]]; congruence.
Qed.

(** C30: when the model could not be constructed at start-up and there are
    files to review, [run_pipeline] raises [RuntimeError] out of the first
    round: the failure is not turned into a message, and nothing is
    exported. *)
Theorem run_pipeline_model_unavailable path export_json autofix apply_all userprompt max_chars
    ui_logger excel_filename interactive prompt_func w files :
  model_loaded = false →
  is_Some (w_fs w !! path) → (get_code_files path w).1 = Ok files → files ≠ [] →
  (run_pipeline path export_json autofix apply_all userprompt max_chars ui_logger
     excel_filename interactive prompt_func w).1 = Raise model_unavailable ∧
  w_fs (run_pipeline path export_json autofix apply_all userprompt max_chars ui_logger
          excel_filename interactive prompt_func w).2 = w_fs w.
Proof.
  intros Hm Hp Hfiles Hne.
  destruct (run_pipeline_stages path export_json autofix apply_all userprompt max_chars
              ui_logger excel_filename interactive prompt_func w files Hp Hfiles Hne)
    as (bfs & w1 & Hj & _ & Hfs & _ & _ & ->).
  destruct bfs as [|b bfs]; [by subst files|]. rewrite fmap_cons.
  destruct (review_batches_unloaded path autofix apply_all userprompt ui_logger prompt_func
              (batch_text (contents_of (w_fs w) files) b)
              (batch_text (contents_of (w_fs w) files) <$> bfs) b bfs w1 Hm) as (w' & Hrun & Hfs').
  rewrite (bind_Raise _ _ _ _ _ Hrun). simpl. split; [done|congruence].
Qed.

(** The parameter [interactive] has no effect: fixes are always asked
    for as if it were true. *)
Theorem run_pipeline_interactive_ignored path export_json autofix apply_all userprompt max_chars
    ui_logger excel_filename prompt_func :
  run_pipeline path export_json autofix apply_all userprompt max_chars ui_logger excel_filename
    false prompt_func
  = run_pipeline path export_json autofix apply_all userprompt max_chars ui_logger
      excel_filename true prompt_func.
Proof. done. Qed.

(** The loop without fixes sends one request per batch, in order, each
    the review prompt of the batch's text; it returns one review per batch,
    the answer to the batch's request as [generate_content] returns it, and
    changes no file. *)
Theorem review_batches_requests path apply_all userprompt ui_logger prompt_func batches
    batch_files w :
  model_loaded = true → length batches = length batch_files →
  ∃ reviews w',
    review_batches path false apply_all userprompt ui_logger prompt_func batches batch_files w
    = (Ok reviews, w') ∧
    length reviews = length batches ∧ w_fs w' = w_fs w ∧
    requests (w_log w')
    = requests (w_log w) ++ ((λ batch, review_prompt batch userprompt) <$> batches) ∧
    answered w w' reviews.
Proof.
  intros Hm Hlen. unfold review_batches.
  edestruct review_rounds_run as (outputs & w' & -> & Hl & Hfs & Hreq & Hans); [done|].
  exists outputs, w'. split_and!; [done| |done| |done].
  - rewrite Hl, length_zip, length_seq, length_zip. lia.
  - rewrite Hreq. f_equal. pose proof (batch_items_texts batches batch_files Hlen) as Hitems.
    revert Hitems. generalize (zip (seq 1 (length (zip batches batch_files)))
                                 (zip batches batch_files)).
    intros items <-. rewrite <-list_fmap_compose. unfold compose. reflexivity.
Qed.

(** C12: the review of a project, end to end, in every installation.  With
    the model constructed, a path that exists and source files under it, a
    run without fixes packs the files that [get_code_files] finds, with the
    texts that [read_file] gives, into the batches of [chunk_files].  Up to
    the export no file changes and exactly one request per batch is sent,
    in order, each the review prompt of the batch's text; the reviews are
    the answers to these requests as [generate_content] returns them
    ([answered]: the text of the reply, or [Error: ...] when the service
    fails), one per batch, whole.  The run then ends as [export_stage] does
    on these reviews, with or without [openpyxl] and the JSON export: it
    writes the workbook and the JSON file as the installation and the
    options have it, and when it returns, it returns the reviews joined by
    blank lines. *)
Theorem run_pipeline_review path export_json apply_all userprompt max_chars ui_logger
    excel_filename interactive prompt_func w files :
  model_loaded = true →
  is_Some (w_fs w !! path) → (get_code_files path w).1 = Ok files → files ≠ [] →
  ∃ batches batch_files reviews w1,
    chunk_files files (contents_of (w_fs w) files) max_chars = Ok (batches, batch_files) ∧
    w_fs w1 = w_fs w ∧
    requests (w_log w1)
    = requests (w_log w) ++ ((λ batch, review_prompt batch userprompt) <$> batches) ∧
    answered w w1 reviews ∧ length reviews = length batches ∧
    run_pipeline path export_json false apply_all userprompt max_chars ui_logger excel_filename
      interactive prompt_func w
    = export_stage export_json ui_logger excel_filename reviews w1 ∧
    ∀ result w',
      run_pipeline path export_json false apply_all userprompt max_chars ui_logger
        excel_filename interactive prompt_func w = (Ok result, w') →
      result = Some (join_with (lit "

") reviews).
Proof.
  intros Hm Hp Hfiles Hne.
  destruct (run_pipeline_stages path export_json false apply_all userprompt max_chars ui_logger
              excel_filename interactive prompt_func w files Hp Hfiles Hne)
    as (bfs & w1 & _ & Hc & Hfs1 & Hlog1 & Hreq1 & Hrun).
  destruct (review_batches_requests path apply_all userprompt ui_logger prompt_func
              (batch_text (contents_of (w_fs w) files) <$> bfs) bfs w1 Hm)
    as (reviews & w2 & Hrun2 & Hlen & Hfs2 & Hreq2 & Hans2); [by rewrite length_fmap|].
  rewrite (bind_Ok _ _ _ _ _ Hrun2) in Hrun.
  eexists _, bfs, reviews, w2. rewrite Hrun.
  split_and!; [done|congruence|congruence| |done|done|by intros ? ? ?%export_stage_returns].
  exact (answered_trans _ _ _ [] _ (answered_quiet _ _ Hlog1 Hreq1) Hans2).
Qed.

(** C37: the workbook is saved before the JSON file is written and its
    failure is not caught: when the workbook cannot be written, the run
    ends with the exception and without the JSON file, even if it was asked
    for. *)
Theorem export_stage_excel_first ui_logger excel_filename all_reviews w :
  has_openpyxl = true → unwritable excel_filename = true →
  w_fs w !! excel_filename ≠ Some Dir →
  Forall legal_line (splitlines (join_with (lit "

") all_reviews)) →
  export_stage true ui_logger excel_filename all_reviews w
  = (Raise (OSError (os_msg EACCES excel_filename)), w).
Proof.
  intros Hx Hw Hd Hl. unfold export_stage. cbv zeta. erewrite bind_Raise; [done|].
  unfold save_to_excel, review_book. rewrite Hx. cbv zeta.
  rewrite (raw_lines_ok _ _ _ Hl). simpl outcome_bind. rewrite bind_lift_Ok.
  unfold save_workbook. rewrite bind_assoc, bind_lookup_fs, (bool_decide_eq_false_2 _ Hd), Hw.
  done.
Qed.

(** Without [openpyxl] and with a writable JSON file, the export stage
    returns the reviews joined by blank lines and leaves exactly that text,
    as a JSON object with the key [review], in [project_review.json]. *)
Theorem export_stage_json ui_logger excel_filename all_reviews w :
  has_openpyxl = false → writable (w_fs w) json_path = true →
  (export_stage true ui_logger excel_filename all_reviews w).1
  = Ok (Some (join_with (lit "

") all_reviews)) ∧
  w_fs (export_stage true ui_logger excel_filename all_reviews w).2 !! json_path
  = Some (File (Some (json_review (join_with (lit "

") all_reviews)))).
Proof.
  intros Hx Hw. unfold export_stage. cbv zeta.
  rewrite (bind_Ok _ _ _ _ _ (save_to_excel_no_openpyxl_run _ _ _ Hx)).
  unfold export_json_file. rewrite !bind_assoc.
  erewrite bind_Ok; [|apply open_write_Ok; [done|apply json_review_encodable]].
  destruct ui_logger; simpl; by rewrite lookup_insert_eq.
Qed.

End pipeline_theorems.

(** ** Witnesses on the example project *)

Lemma run_pipeline_invalid_path_witness :
  @run_pipeline ascii_unicode ex_env (lit "nowhere") false true true None 1000 false
    (lit "out.xlsx") false None ex_project
  = (Ok None,
     World (w_fs ex_project)
       (w_log ex_project ++
        if false
        then [UiLog (lit "Starting analysis...
") false; UiLog ((lit "Invalid path: " ++ lit "nowhere") ++ [ch_nl]) false]
        else @banner ex_env ++
             [Print (lit "[red]" ++ (lit "Invalid path: " ++ lit "nowhere") ++ lit "[/red]")])).
Proof.
  apply (@run_pipeline_invalid_path ascii_unicode ex_env (lit "nowhere") false true true None
           1000 false (lit "out.xlsx") false None ex_project).
  by vm_compute.
Defined.

Lemma run_pipeline_no_files_witness :
  @run_pipeline ascii_unicode (with_walk ex_env [(lit "proj", [], [lit "notes.txt"])])
    (lit "proj") false true true None 1000 true (lit "out.xlsx") false None ex_project
  = (Ok None,
     World (w_fs ex_project)
       (w_log ex_project ++
        if true
        then [UiLog (lit "Starting analysis...
") false; UiLog (lit "No source files found!
") false]
        else @banner (with_walk ex_env [(lit "proj", [], [lit "notes.txt"])])
             ++ [Print (lit "[red]No source files found![/red]")])).
Proof.
  apply (@run_pipeline_no_files ascii_unicode
           (with_walk ex_env [(lit "proj", [], [lit "notes.txt"])]) (lit "proj") false true true
           None 1000 true (lit "out.xlsx") false None ex_project); vm_compute; eauto.
Defined.

Lemma run_pipeline_no_consent_witness :
  fs_frame [lit "out.xlsx"; json_path]
    (@run_pipeline ascii_unicode ex_env (lit "proj") true true false None 1000 true
       (lit "out.xlsx") true (Some (λ _ _, false))).
Proof. apply (@run_pipeline_no_consent ascii_unicode ex_env). by intros g log q [= <-]. Defined.

Lemma run_pipeline_keeps_originals_witness :
  kept (original (w_fs ex_project) (lit "proj/a.py")) (lit "proj/a.py")
    (w_fs (@run_pipeline ascii_unicode ex_env (lit "proj") true true true None 1000 false
             (lit "out.xlsx") true None ex_project).2).
Proof.
  apply (@run_pipeline_keeps_originals ascii_unicode ex_env (lit "proj") true true true None
           1000 false (lit "out.xlsx") true None ex_project
           [lit "proj/a.py"; lit "proj/b.py"; lit "proj/src/Main.JS"]);
    first [by vm_compute|by apply (bool_decide_unpack _); vm_compute|vm_compute; eauto].
Defined.

(** In that run the file is rewritten, and its first version is in the
    backup. *)
Example run_pipeline_fixes_example :
  let fs := w_fs (@run_pipeline ascii_unicode ex_env (lit "proj") true true true None 1000 false
                    (lit "out.xlsx") true None ex_project).2 in
  fs !! lit "proj/a.py" = Some (File (Some (lit "x = 2
"))) ∧
  fs !! lit "proj/a.py.bak" = Some (File (Some (lit "x = 1"))).
Proof. by vm_compute. Qed.

Lemma run_pipeline_only_project_witness :
  w_fs (@run_pipeline ascii_unicode ex_env (lit "proj") true true true None 1000 false
          (lit "out.xlsx") true None ex_project).2 !! lit "proj/src"
  = w_fs ex_project !! lit "proj/src".
Proof.
  apply (@run_pipeline_only_project ascii_unicode ex_env (lit "proj") true true true None 1000
           false (lit "out.xlsx") true None ex_project
           [lit "proj/a.py"; lit "proj/b.py"; lit "proj/src/Main.JS"]); [by vm_compute|].
  apply (bool_decide_unpack _). by vm_compute.
Defined.

Lemma run_pipeline_raises_only_witness :
  raises_only (@pipeline_failure (without_openpyxl ex_env) false false (lit "out.xlsx"))
    (@run_pipeline ascii_unicode (without_openpyxl ex_env) (lit "proj") false false false None
       1000 false (lit "out.xlsx") false None) ∧
  total (@run_pipeline ascii_unicode (without_openpyxl ex_env) (lit "proj") false false false
           None 1000 false (lit "out.xlsx") false None).
Proof.
  destruct (@run_pipeline_raises_only ascii_unicode (without_openpyxl ex_env) (lit "proj")
              false false false None 1000 false (lit "out.xlsx") false None) as [Hr Ht].
  split; [exact Hr|]. apply Ht; by vm_compute.
Defined.

Lemma run_pipeline_review_witness :
  ∃ batches batch_files reviews w1,
    chunk_files [lit "proj/a.py"; lit "proj/b.py"; lit "proj/src/Main.JS"]
      (@contents_of ex_env (w_fs ex_project)
         [lit "proj/a.py"; lit "proj/b.py"; lit "proj/src/Main.JS"]) 1000
    = Ok (batches, batch_files) ∧
    w_fs w1 = w_fs ex_project ∧
    requests (w_log w1)
    = requests (w_log ex_project) ++ ((λ batch, review_prompt batch None) <$> batches) ∧
    @answered ex_env ex_project w1 reviews ∧ length reviews = length batches ∧
    @run_pipeline ascii_unicode ex_env (lit "proj") true false false None 1000 false
      (lit "out.xlsx") false None ex_project
    = @export_stage ex_env true false (lit "out.xlsx") reviews w1 ∧
    ∀ result w',
      @run_pipeline ascii_unicode ex_env (lit "proj") true false false None 1000 false
        (lit "out.xlsx") false None ex_project = (Ok result, w') →
      result = Some (join_with (lit "

") reviews).
Proof.
  apply (@run_pipeline_review ascii_unicode ex_env (lit "proj") true false None 1000 false
           (lit "out.xlsx") false None ex_project
           [lit "proj/a.py"; lit "proj/b.py"; lit "proj/src/Main.JS"]);
    first [by vm_compute|vm_compute; eauto].
Defined.

Lemma run_pipeline_model_unavailable_witness :
  (@run_pipeline ascii_unicode (unloaded ex_env) (lit "proj") true true true None 1000 false
     (lit "out.xlsx") false None ex_project).1 = Raise model_unavailable ∧
  w_fs (@run_pipeline ascii_unicode (unloaded ex_env) (lit "proj") true true true None 1000
          false (lit "out.xlsx") false None ex_project).2 = w_fs ex_project.
Proof.
  apply (@run_pipeline_model_unavailable ascii_unicode (unloaded ex_env) (lit "proj") true true
           true None 1000 false (lit "out.xlsx") false None ex_project
           [lit "proj/a.py"; lit "proj/b.py"; lit "proj/src/Main.JS"]);
    first [by vm_compute|vm_compute; eauto].
Defined.

Lemma review_batches_requests_witness :
  ∃ reviews w',
    @review_batches ascii_unicode ex_env (lit "proj") false false None false None
      [lit "one"; lit "two"] [[lit "a.py"]; [lit "b.py"]] ex_project
    = (Ok reviews, w') ∧
    length reviews = length [lit "one"; lit "two"] ∧ w_fs w' = w_fs ex_project ∧
    requests (w_log w')
    = requests (w_log ex_project)
      ++ ((λ batch, review_prompt batch None) <$> [lit "one"; lit "two"]) ∧
    @answered ex_env ex_project w' reviews.
Proof.
  by apply (@review_batches_requests ascii_unicode ex_env (lit "proj") false None false None
              [lit "one"; lit "two"] [[lit "a.py"]; [lit "b.py"]] ex_project).
Defined.

Lemma export_stage_excel_first_witness :
  @export_stage ex_env true false (lit "locked.py") [lit "review one"; lit "review two"]
    ex_project
  = (Raise (OSError (@os_msg ex_env EACCES (lit "locked.py"))), ex_project).
Proof.
  apply (@export_stage_excel_first ex_env false (lit "locked.py")
           [lit "review one"; lit "review two"] ex_project).
  - reflexivity.
  - by vm_compute.
  - by vm_compute.
  - unfold legal_line. apply (bool_decide_unpack _). by vm_compute.
Defined.

Lemma export_stage_json_witness :
  (@export_stage (without_openpyxl ex_env) true false (lit "out.xlsx")
     [lit "review one"; lit "review two"] ex_project).1
  = Ok (Some (join_with (lit "

") [lit "review one"; lit "review two"])) ∧
  w_fs (@export_stage (without_openpyxl ex_env) true false (lit "out.xlsx")
          [lit "review one"; lit "review two"] ex_project).2 !! json_path
  = Some (File (Some (json_review (join_with (lit "

") [lit "review one"; lit "review two"])))).
Proof.
  apply (@export_stage_json (without_openpyxl ex_env) false (lit "out.xlsx")
           [lit "review one"; lit "review two"] ex_project); by vm_compute.
Defined.
