(* ===== verification/Markdown.v ===== *)
(** * The window's Markdown renderer: [render_markdown]

    src/app.py lines 498-581.  The text widget is the list of what was
    inserted into it, each piece with its tag.  The [while] loop over the
    index [i] is [render_step] (one iteration, the inner loop over the rows
    of a table included) run by [render_loop]; the loop variables are the
    record [render_state]. *)

From S2P Require Import PyStr Regex.

(** ** The widget *)

(** The tags configured for [out_text]. *)
Inductive tag : Type :=
| tag_section | tag_info | tag_success | tag_warning | tag_error | tag_muted | tag_code.

#[export] Instance tag_eq_dec : EqDecision tag.
Proof. solve_decision. Defined.

(** [out_text.insert(tk.END, chars, (tag,))], or without a tag. *)
Record insert : Type := Insert {
  ins_text : str;
  ins_tag : option tag;
}.

#[export] Instance insert_eq_dec : EqDecision insert.
Proof. solve_decision. Defined.

(** ** Lines and cells *)

Definition ch_pipe : char := 124%N.
Definition ch_hash : char := 35%N.

(** [^\s*\|?\s*[-:\s|]+\s*\|?\s*$]. *)
Definition sep_char (c : char) : bool :=
  (c =? ch_minus)%N || (c =? ch_colon)%N || is_space c || (c =? ch_pipe)%N.

Definition table_sep_re : regex :=
  Seq Bol (Seq (Star (Class is_space)) (Seq (Opt (Chr ch_pipe)) (Seq (Star (Class is_space))
    (Seq (Plus (Class sep_char)) (Seq (Star (Class is_space)) (Seq (Opt (Chr ch_pipe))
      (Seq (Star (Class is_space)) Eol))))))).

(** [`[^`]+`]. *)
Definition inline_code_re : regex :=
  Seq (Chr ch_backtick) (Seq (Plus (Class (λ c, negb (c =? ch_backtick)%N))) (Chr ch_backtick)).

(** [[c.strip() for c in line.split('|')[1:-1]]]. *)
Definition split_cells (line : str) : list str :=
  let parts := split_on ch_pipe line in
  strip <$> drop 1 (take (length parts - 1) parts).

(** ['| ' + ' | '.join(cols) + ' |\n']. *)
Definition row_text (cols : list str) : str :=
  lit "| " ++ join_with (lit " | ") cols ++ lit " |
".

(** Lines 556-559: the cells of a row, padded and cut to the number of
    columns of the header. *)
Definition row_cells (ncols : nat) (line : str) : list str :=
  let row_cols := split_cells line in
  take ncols (row_cols ++ replicate (ncols - length row_cols) []).

(** Lines 555-562: the rows of a table, from line [i] on; [rest] is
    [lines[i:]]. *)
Fixpoint table_rows (ncols : nat) (rest : list str) (i : nat) (out : list insert)
    : nat * list insert :=
  match rest with
  | line :: rest' =>
    if has_char ch_pipe line
    then table_rows ncols rest' (S i) (out ++ [Insert (row_text (row_cells ncols line)) None])
    else (i, out)
  | [] => (i, out)
  end.

(** Lines 569-574: the pieces of a line with inline code. *)
Definition inline_part (part : str) : insert :=
  if startswith part [ch_backtick] && endswith part [ch_backtick]
     && bool_decide (2 < length part)
  then Insert (strip_chars [ch_backtick] part) (Some tag_code)
  else Insert part None.

(** Line 568: the line cut at its code spans, the spans included. *)
Definition inline_parts (line : str) : list str := re_split_group inline_code_re line.

(** ** The loop *)

Record render_state : Type := RenderState {
  r_i : nat;
  in_code_block : bool;
  code_block_lines : list str;
  out_text : list insert;
}.

(** Lines 527-542: a header line; the three tests do the same. *)
Definition header_insert (line : str) : insert :=
  Insert (strip (lstrip_chars [ch_hash] line) ++ [ch_nl]) (Some tag_section).

(** Lines 545-564: a table that starts at line [i]. *)
Definition render_table (lines : list str) (line : str) (st : render_state) : render_state :=
  let cols := split_cells line in
  let out :=
    if nonempty cols then
      out_text st ++
      [Insert (row_text cols) (Some tag_info);
       Insert ([ch_pipe] ++ join_with [ch_pipe] (replicate (length cols) (lit " --- "))
               ++ [ch_pipe; ch_nl]) (Some tag_muted)]
    else out_text st in
  let i := r_i st + 2 in
  let rows := table_rows (length cols) (drop i lines) i out in
  RenderState rows.1 (in_code_block st) (code_block_lines st) (rows.2 ++ [Insert [ch_nl] None]).

(** Lines 506-581: one iteration of the [while] loop, at a line that exists. *)
Definition render_line (lines : list str) (line : str) (st : render_state) : render_state :=
  let next i := RenderState i (in_code_block st) (code_block_lines st) in
  let i := r_i st in
  if startswith (strip line) (lit "```") then
    if negb (in_code_block st) then RenderState (i + 1) true [] (out_text st)
    else
      let code_text := join_with [ch_nl] (code_block_lines st) in
      RenderState (i + 1) false (code_block_lines st)
        (out_text st ++ [Insert (code_text ++ [ch_nl]) (Some tag_code); Insert [ch_nl] None])
  else if in_code_block st then
    RenderState (i + 1) true (code_block_lines st ++ [line]) (out_text st)
  else if startswith line (lit "###") then next (i + 1) (out_text st ++ [header_insert line])
  else if startswith line (lit "##") then next (i + 1) (out_text st ++ [header_insert line])
  else if startswith line (lit "#") then next (i + 1) (out_text st ++ [header_insert line])
  else if has_char ch_pipe line
          && match lines !! (i + 1) with
             | Some below => bool_decide (is_Some (re_match table_sep_re below))
             | None => false
             end
  then render_table lines line st
  else if has_char ch_backtick line then
    next (i + 1)
      (out_text st ++ (inline_part <$> inline_parts line)
       ++ [Insert [ch_nl] None])
  else next (i + 1) (out_text st ++ [Insert (line ++ [ch_nl]) None]).

Definition render_step (lines : list str) (st : render_state) : render_state :=
  match lines !! r_i st with
  | Some line => render_line lines line st
  | None => st
  end.

(** [while i < len(lines)]. *)
Fixpoint render_loop (fuel : nat) (lines : list str) (st : render_state) : render_state :=
  match fuel with
  | 0 => st
  | S fuel' =>
    if bool_decide (r_i st < length lines)
    then render_loop fuel' lines (render_step lines st)
    else st
  end.

(** [render_markdown(text)] on a widget that holds [out]: what it holds
    afterwards.  Every iteration moves [i] forward, so [len(lines)]
    iterations are enough. *)
Definition render_markdown (text : str) (out : list insert) : list insert :=
  let lines := split_on ch_nl text in
  out_text (render_loop (length lines) lines (RenderState 0 false [] out)).

(** ** What the theorems speak of *)

(** The characters the widget holds. *)
Definition widget_text (out : list insert) : str := out ≫= ins_text.

(** The closed form of the separator test: the line is not empty and has
    only dashes, colons, bars and whitespace. *)
Definition is_table_sep (line : str) : bool := nonempty line && forallb sep_char line.

(** A line that opens or closes a code block. *)
Definition is_fence (line : str) : bool := startswith (strip line) (lit "```").

(** A line that none of the special cases takes. *)
Definition plain_line (line : str) : bool :=
  negb (is_fence line) && negb (startswith line [ch_hash])
  && negb (has_char ch_pipe line) && negb (has_char ch_backtick line).

(** The loop with the counter it needs from the state [st] on. *)
Definition render_from (lines : list str) (st : render_state) : render_state :=
  render_loop (length lines - r_i st) lines st.

(** The piece a regular line inserts. *)
Definition plain_insert (line : str) : insert := Insert (line ++ [ch_nl]) None.

(** A text without its backticks. *)
Definition no_backticks (s : str) : str := filter (λ c, c ≠ ch_backtick) s.

(** ** Concrete runs *)

Example render_markdown_examples :
  render_markdown (lit "# Title
text with `code` inside
```python
x = 1
```
| a | b |
|---|---|
| 1 | 2 | 3 |
| 4 |
done") []
  = [Insert (lit "Title
") (Some tag_section);
     Insert (lit "text with ") None; Insert (lit "code") (Some tag_code);
     Insert (lit " inside") None; Insert [ch_nl] None;
     Insert (lit "x = 1
") (Some tag_code); Insert [ch_nl] None;
     Insert (lit "| a | b |
") (Some tag_info);
     Insert (lit "| --- | --- |
") (Some tag_muted);
     Insert (lit "| 1 | 2 |
") None;
     Insert (lit "| 4 |  |
") None;
     Insert [ch_nl] None;
     Insert (lit "done
") None].
Proof. by vm_compute. Qed.

(** ** The loop ends

    Every iteration moves [i] forward and never past the end, so the loop
    leaves by its own test after at most [len(lines)] iterations. *)

Lemma table_rows_index ncols rest i out :
  i ≤ (table_rows ncols rest i out).1 ≤ i + length rest.
Proof.
  revert i out. induction rest as [|line rest IH]; intros i out; simpl; [lia|].
  destruct (has_char ch_pipe line); simpl; [|lia]. specialize (IH (S i) (out ++ [Insert (row_text (row_cells ncols line)) None])). lia.
Qed.

Lemma render_line_index lines line st :
  lines !! r_i st = Some line →
  r_i st < r_i (render_line lines line st) ≤ length lines.
Proof.
  intros Hi%lookup_lt_Some. unfold render_line, render_table.
  repeat case_match; simpl; try lia;
    match goal with
    | H : lines !! _ = Some _ |- context [table_rows ?n ?r ?i ?o] =>
      apply lookup_lt_Some in H; pose proof (table_rows_index n r i o) as Hr;
      rewrite length_drop in Hr; lia
    end.
Qed.

Lemma render_step_index lines st :
  r_i st < length lines → r_i st < r_i (render_step lines st) ≤ length lines.
Proof.
  intros Hi. unfold render_step. destruct (lookup_lt_is_Some_2 _ _ Hi) as [line Hl].
  rewrite Hl. by apply render_line_index.
Qed.

Lemma render_loop_exit fuel lines st : length lines ≤ r_i st → render_loop fuel lines st = st.
Proof. intros Hi. destruct fuel; [done|]. simpl. rewrite bool_decide_eq_false_2; [done|lia]. Qed.

Lemma render_loop_S fuel lines st :
  r_i st < length lines →
  render_loop (S fuel) lines st = render_loop fuel lines (render_step lines st).
Proof. intros Hi. simpl. by rewrite bool_decide_eq_true_2. Qed.

(** Any counter that covers the lines left gives the same run. *)
Lemma render_loop_fuel_eq fuel fuel' lines st :
  length lines - r_i st ≤ fuel → length lines - r_i st ≤ fuel' →
  render_loop fuel lines st = render_loop fuel' lines st.
Proof.
  revert fuel' st. induction fuel as [|fuel IH]; intros fuel' st Hf Hf'.
  { by rewrite !render_loop_exit by lia. }
  destruct (decide (r_i st < length lines)) as [Hi|Hi]; [|by rewrite !render_loop_exit by lia].
  destruct fuel' as [|fuel']; [lia|]. rewrite !render_loop_S by done.
  pose proof (render_step_index lines st Hi). apply IH; lia.
Qed.

Lemma render_loop_fuel fuel lines st :
  length lines - r_i st ≤ fuel → render_loop fuel lines st = render_from lines st.
Proof. intros Hf. by apply render_loop_fuel_eq. Qed.

Lemma render_from_exit lines st : length lines ≤ r_i st → render_from lines st = st.
Proof. apply render_loop_exit. Qed.

Lemma render_from_step lines st :
  r_i st < length lines → render_from lines st = render_from lines (render_step lines st).
Proof.
  intros Hi. unfold render_from at 1. destruct (length lines - r_i st) as [|n] eqn:Hn; [lia|].
  rewrite render_loop_S by done. apply render_loop_fuel.
  pose proof (render_step_index lines st Hi). lia.
Qed.

Lemma render_markdown_from text out :
  render_markdown text out
  = out_text (render_from (split_on ch_nl text) (RenderState 0 false [] out)).
Proof. unfold render_markdown. cbv zeta. rewrite render_loop_fuel; [done|simpl; lia]. Qed.

(** The loop stops at the end of the lines. *)
Lemma render_from_index lines st :
  r_i st ≤ length lines → r_i (render_from lines st) = length lines.
Proof.
  remember (length lines - r_i st) as n eqn:Hn.
  revert st Hn. induction (lt_wf n) as [n _ IH]; intros st -> Hi.
  destruct (decide (r_i st < length lines)) as [Hlt|Hlt];
    [|rewrite render_from_exit by lia; lia].
  rewrite render_from_step by done. pose proof (render_step_index lines st Hlt).
  eapply IH; [|done|]; lia.
Qed.

(** ** One iteration, case by case *)

Lemma plain_line_tests line :
  plain_line line = true →
  startswith (strip line) (lit "```") = false ∧ startswith line (lit "###") = false ∧
  startswith line (lit "##") = false ∧ startswith line (lit "#") = false ∧
  has_char ch_pipe line = false ∧ has_char ch_backtick line = false.
Proof.
  unfold plain_line, is_fence. rewrite !andb_true_iff, !negb_true_iff.
  intros [[[Hf Hh] Hp] Hb].
  assert (∀ pre, startswith line (ch_hash :: pre) = false) as Hpre.
  { intros pre. destruct line as [|c line]; [done|]. simpl in *.
    rewrite andb_true_r in Hh. by rewrite Hh. }
  split_and!; try done; apply Hpre.
Qed.

Lemma render_line_plain lines line st :
  plain_line line = true → in_code_block st = false →
  render_line lines line st
  = RenderState (r_i st + 1) false (code_block_lines st) (out_text st ++ [plain_insert line]).
Proof.
  intros (Hf & H3 & H2 & H1 & Hp & Hb)%plain_line_tests Hc. unfold render_line.
  by rewrite Hf, Hc, H3, H2, H1, Hp, Hb.
Qed.

Lemma render_line_code lines line st :
  is_fence line = false → in_code_block st = true →
  render_line lines line st
  = RenderState (r_i st + 1) true (code_block_lines st ++ [line]) (out_text st).
Proof. unfold is_fence, render_line. by intros -> ->. Qed.

Lemma render_line_open lines line st :
  is_fence line = true → in_code_block st = false →
  render_line lines line st = RenderState (r_i st + 1) true [] (out_text st).
Proof. unfold is_fence, render_line. by intros -> ->. Qed.

Lemma render_line_close lines line st :
  is_fence line = true → in_code_block st = true →
  render_line lines line st
  = RenderState (r_i st + 1) false (code_block_lines st)
      (out_text st ++ [Insert (join_with [ch_nl] (code_block_lines st) ++ [ch_nl]) (Some tag_code);
                       Insert [ch_nl] None]).
Proof. unfold is_fence, render_line. by intros -> ->. Qed.

(** ** Runs of lines *)

Lemma drop_cons_inv {A} (l : list A) i x rest :
  drop i l = x :: rest → l !! i = Some x ∧ drop (S i) l = rest.
Proof.
  intros Hd. assert (l !! i = Some x) as Hl.
  { by rewrite <-(Nat.add_0_r i), <-lookup_drop, Hd. }
  split; [done|]. rewrite (drop_S _ _ _ Hl) in Hd. by simplify_eq.
Qed.

Lemma render_from_line lines line st :
  lines !! r_i st = Some line → render_from lines st = render_from lines (render_line lines line st).
Proof.
  intros Hl. rewrite render_from_step by by eapply lookup_lt_Some.
  unfold render_step. by rewrite Hl.
Qed.

(** Regular lines outside a code block are inserted one by one. *)
Lemma render_from_plain lines ls rest st :
  drop (r_i st) lines = ls ++ rest → Forall (λ l, plain_line l = true) ls →
  in_code_block st = false →
  render_from lines st
  = render_from lines (RenderState (r_i st + length ls) false (code_block_lines st)
                         (out_text st ++ (plain_insert <$> ls))).
Proof.
  revert st. induction ls as [|l ls IH]; intros [i b code out]; simpl; intros Hd Hp ->.
  { by rewrite Nat.add_0_r, (right_id_L [] (++)). }
  apply drop_cons_inv in Hd as [Hl Hd]. apply Forall_cons_1 in Hp as [Hl' Hp].
  rewrite (render_from_line lines l (RenderState i false code out) Hl), render_line_plain by done. simpl.
  rewrite IH; simpl; [|by rewrite Nat.add_1_r|done..].
  by rewrite <-(assoc_L (++)), <-Nat.add_assoc.
Qed.

(** Lines inside a code block are collected and nothing is inserted. *)
Lemma render_from_code lines ls rest st :
  drop (r_i st) lines = ls ++ rest → Forall (λ l, is_fence l = false) ls →
  in_code_block st = true →
  render_from lines st
  = render_from lines (RenderState (r_i st + length ls) true (code_block_lines st ++ ls)
                         (out_text st)).
Proof.
  revert st. induction ls as [|l ls IH]; intros [i b code out]; simpl; intros Hd Hp ->.
  { by rewrite Nat.add_0_r, (right_id_L [] (++)). }
  apply drop_cons_inv in Hd as [Hl Hd]. apply Forall_cons_1 in Hp as [Hl' Hp].
  rewrite (render_from_line lines l (RenderState i true code out) Hl), render_line_code by done. simpl.
  rewrite IH; simpl; [|by rewrite Nat.add_1_r|done..].
  by rewrite <-(assoc_L (++)), <-Nat.add_assoc.
Qed.

(** ** The text of the widget *)

Lemma widget_text_app out out' : widget_text (out ++ out') = widget_text out ++ widget_text out'.
Proof. apply bind_app. Qed.

Lemma widget_text_plain ls :
  ls ≠ [] → widget_text (plain_insert <$> ls) = join_with [ch_nl] ls ++ [ch_nl].
Proof.
  induction ls as [|l ls IH]; [done|]. intros _. destruct ls as [|l' ls].
  { simpl. by rewrite (right_id_L [] (++)). }
  rewrite join_with_cons, fmap_cons. change (widget_text (?x :: ?r)) with (ins_text x ++ widget_text r).
  rewrite IH by done. simpl. by rewrite <-!(assoc_L (++)).
Qed.

(** ** The renderer *)

(** C17: the [while] loop of [render_markdown] ends: with any counter of at
    least [len(lines)] iterations it leaves by its own test, with [i] equal
    to [len(lines)], and the widget holds what [render_markdown] gives. *)
Theorem render_loop_terminates text out fuel :
  length (split_on ch_nl text) ≤ fuel →
  r_i (render_loop fuel (split_on ch_nl text) (RenderState 0 false [] out))
    = length (split_on ch_nl text) ∧
  out_text (render_loop fuel (split_on ch_nl text) (RenderState 0 false [] out))
    = render_markdown text out.
Proof.
  intros Hf. rewrite render_markdown_from, render_loop_fuel by (simpl; lia).
  split; [apply render_from_index; simpl; lia|done].
Qed.

Lemma render_loop_terminates_witness :
  r_i (render_loop 7 (split_on ch_nl (lit "# a
| b")) (RenderState 0 false [] []))
    = length (split_on ch_nl (lit "# a
| b")) ∧
  out_text (render_loop 7 (split_on ch_nl (lit "# a
| b")) (RenderState 0 false [] []))
    = render_markdown (lit "# a
| b") [].
Proof. apply render_loop_terminates. vm_compute. lia. Defined.

Lemma render_markdown_plain text out :
  Forall (λ l, plain_line l = true) (split_on ch_nl text) →
  render_markdown text out = out ++ (plain_insert <$> split_on ch_nl text).
Proof.
  intros Hp. rewrite render_markdown_from.
  rewrite (render_from_plain _ (split_on ch_nl text) []); simpl;
    [|by rewrite (right_id_L [] (++))|done..].
  by rewrite render_from_exit.
Qed.

(** A text without fences, headers, bars and backticks is shown as it
    is: the widget gets the characters of the text and one newline, after
    what it held. *)
Theorem render_markdown_plain_text text out :
  Forall (λ l, plain_line l = true) (split_on ch_nl text) →
  widget_text (render_markdown text out) = widget_text out ++ text ++ [ch_nl].
Proof.
  intros Hp. rewrite render_markdown_plain, widget_text_app, widget_text_plain by
    (done || apply split_on_nonempty).
  by rewrite join_split_on.
Qed.

Lemma render_markdown_plain_text_witness :
  widget_text (render_markdown (lit "No issues found.

All good") [])
  = widget_text [] ++ lit "No issues found.

All good" ++ [ch_nl].
Proof. apply render_markdown_plain_text, Forall_true_forallb. by vm_compute. Defined.

(** The lines of a text that is a fence line, a body and more. *)
Lemma split_on_fenced op body :
  has_char ch_nl op = false →
  split_on ch_nl (op ++ ch_nl :: body) = op :: split_on ch_nl body.
Proof. apply split_on_app. Qed.

(** C26: a code block is shown verbatim under the tag [code]: for an
    opening fence line, a body without fence lines and a closing fence line,
    the widget gets the body with one newline, tagged, and an empty line. *)
Theorem render_markdown_code_block op body cl out :
  is_fence op = true → has_char ch_nl op = false →
  is_fence cl = true → has_char ch_nl cl = false →
  Forall (λ l, is_fence l = false) (split_on ch_nl body) →
  render_markdown (op ++ ch_nl :: body ++ ch_nl :: cl) out
  = out ++ [Insert (body ++ [ch_nl]) (Some tag_code); Insert [ch_nl] None].
Proof.
  intros Hop Hop' Hcl Hcl' Hbody. rewrite render_markdown_from, split_on_fenced by done.
  rewrite split_on_sep_app, (split_on_single _ cl) by done.
  set (lines := op :: split_on ch_nl body ++ [cl]).
  rewrite (render_from_line lines op), render_line_open by done. simpl.
  rewrite (render_from_code lines (split_on ch_nl body) [cl]) by done. simpl.
  rewrite (render_from_line lines cl), render_line_close; simpl; [|done..|].
  - rewrite render_from_exit; simpl; [by rewrite join_split_on|].
    unfold lines. simpl. rewrite length_app. simpl. lia.
  - by rewrite lookup_app_r, Nat.sub_diag by lia.
Qed.

Lemma render_markdown_code_block_witness :
  render_markdown (lit "```python" ++ ch_nl :: lit "x = 1
| y | `z`" ++ ch_nl :: lit "```") []
  = [] ++ [Insert (lit "x = 1
| y | `z`" ++ [ch_nl]) (Some tag_code); Insert [ch_nl] None].
Proof. apply render_markdown_code_block; [..|apply Forall_false_forallb]; by vm_compute. Defined.

(** C25: a code block that is never closed swallows the rest of the text:
    after regular lines, an opening fence and any lines without a fence,
    the widget holds what the regular lines alone give.  Neither the fence
    nor anything below it is shown. *)
Theorem render_markdown_unclosed_fence pre op body out :
  Forall (λ l, plain_line l = true) (split_on ch_nl pre) →
  is_fence op = true → has_char ch_nl op = false →
  Forall (λ l, is_fence l = false) (split_on ch_nl body) →
  render_markdown (pre ++ ch_nl :: op ++ ch_nl :: body) out = render_markdown pre out.
Proof.
  intros Hpre Hop Hop' Hbody. rewrite (render_markdown_plain pre), render_markdown_from by done.
  rewrite split_on_sep_app, split_on_fenced by done.
  set (lines := split_on ch_nl pre ++ op :: split_on ch_nl body).
  rewrite (render_from_plain lines (split_on ch_nl pre) (op :: split_on ch_nl body)) by done.
  simpl. rewrite (render_from_line lines op), render_line_open; simpl; [|done..|].
  - rewrite (render_from_code lines (split_on ch_nl body) []); simpl; [|..|done|done].
    + rewrite render_from_exit; [done|]. unfold lines. simpl. rewrite length_app. simpl. lia.
    + unfold lines. by rewrite <-drop_drop, drop_app_length, (right_id_L [] (++)).
  - unfold lines. by rewrite lookup_app_r, Nat.sub_diag by lia.
Qed.

Lemma render_markdown_unclosed_fence_witness :
  render_markdown (lit "Summary" ++ ch_nl :: lit "```python" ++ ch_nl :: lit "x = 1
# Bugs
The loop never ends.") []
  = render_markdown (lit "Summary") [].
Proof.
  apply (render_markdown_unclosed_fence (lit "Summary") (lit "```python") (lit "x = 1
# Bugs
The loop never ends.") []);
    [apply Forall_true_forallb|..|apply Forall_false_forallb]; by vm_compute.
Defined.

(** ** Tables *)

Lemma length_row_cells ncols line : length (row_cells ncols line) = ncols.
Proof. unfold row_cells. cbv zeta. rewrite length_take, length_app, length_replicate. lia. Qed.

(** A header line without a bar at both ends has no cell between its
    first and its last bar when it has one bar only. *)
Lemma split_cells_one_bar a b :
  has_char ch_pipe a = false → has_char ch_pipe b = false →
  split_cells (a ++ ch_pipe :: b) = [].
Proof. intros Ha Hb. unfold split_cells. by rewrite split_on_app, split_on_single. Qed.

Lemma table_sep_classes : classes_in sep_char table_sep_re.
Proof.
  assert (∀ c, is_space c = true → sep_char c = true) as Hs.
  { intros c Hc. unfold sep_char. by rewrite Hc, !orb_true_r. }
  assert (∀ c, (c =? ch_pipe)%N = true → sep_char c = true) as Hb.
  { intros c Hc. unfold sep_char. by rewrite Hc, !orb_true_r. }
  simpl. by split_and!.
Qed.

Lemma table_sep_matches c m :
  sep_char c = true → forallb sep_char m = true →
  matches table_sep_re 0 (c :: m) (1 + length m) [].
Proof.
  intros Hc Hm. unfold table_sep_re, Opt, Plus.
  eapply matches_seq; [constructor|]. eapply matches_seq; [apply matches_star_nil|].
  eapply matches_seq; [apply matches_alt_r; constructor|].
  eapply matches_seq; [apply matches_star_nil|].
  eapply matches_seq.
  { eapply matches_seq; [by constructor|].
    rewrite <-(right_id_L [] (++) m) at 1. by apply matches_star_class. }
  eapply matches_seq; [apply matches_star_nil|].
  eapply matches_seq; [apply matches_alt_r; constructor|].
  eapply matches_seq; [apply matches_star_nil|]. by constructor.
Qed.

Lemma at_eol_sep t : at_eol t = true → forallb sep_char t = true.
Proof. destruct t as [|c [|??]]; [done| |done]. simpl. by intros ->%N.eqb_eq. Qed.

(** C24: the test for the separator line of a table: the pattern
    [^\s*\|?\s*[-:\s|]+\s*\|?\s*$] matches a line exactly when the line
    is not empty and has only dashes, colons, bars and whitespace; a line
    of blanks is a separator as well. *)
Theorem table_sep_closed_form line :
  bool_decide (is_Some (re_match table_sep_re line)) = is_table_sep line.
Proof.
  destruct (is_table_sep line) eqn:Hsep.
  - apply bool_decide_eq_true_2, re_match_is_Some. unfold is_table_sep in Hsep.
    destruct line as [|c m]; [done|]. simpl in Hsep. apply andb_true_iff in Hsep as [Hc Hm].
    eexists _, _. by apply table_sep_matches.
  - apply bool_decide_eq_false_2. intros (j & t & Hm)%re_match_is_Some.
    destruct (matches_within sep_char _ _ _ _ _ table_sep_classes Hm) as (u & -> & Hu).
    pose proof (matches_ends_eol table_sep_re _ _ _ _ eq_refl Hm) as He%at_eol_sep.
    unfold is_table_sep in Hsep. rewrite forallb_app, Hu, He, andb_true_r in Hsep.
    destruct u; [|done]. destruct t; [|done].
    assert (is_Some (re_match table_sep_re [])) as [? Hnil]; [|by vm_compute in Hnil].
    apply re_match_is_Some. eauto.
Qed.

(** A table written without bars at the ends of its lines loses its
    cells: with two columns the header gives no column, nothing is shown
    for it, and every row is shown as two bars. *)
Example render_markdown_table_no_outer_bars :
  render_markdown (lit "name | role
--- | ---
app.py | entry point") []
  = [Insert (lit "|  |
") None; Insert [ch_nl] None].
Proof. by vm_compute. Qed.

(** ** Inline code *)

Lemma no_backticks_app s t : no_backticks (s ++ t) = no_backticks s ++ no_backticks t.
Proof. apply list.filter_app. Qed.

Lemma no_backticks_drop_while s :
  no_backticks (drop_while (λ c, bool_decide (c ∈ [ch_backtick])) s) = no_backticks s.
Proof.
  induction s as [|c s IH]; [done|]. simpl. case_bool_decide as Hc; [|done].
  apply list_elem_of_singleton in Hc as ->. rewrite IH. unfold no_backticks.
  by rewrite filter_cons_False by (by intros []).
Qed.

Lemma no_backticks_strip s : no_backticks (strip_chars [ch_backtick] s) = no_backticks s.
Proof.
  unfold strip_chars, lstrip_chars, rstrip_chars. rewrite no_backticks_drop_while.
  unfold no_backticks. rewrite <-(reverse_involutive s) at 2.
  rewrite filter_reverse, (filter_reverse _ (reverse s)). f_equal.
  apply no_backticks_drop_while.
Qed.

Lemma inline_part_text part : no_backticks (ins_text (inline_part part)) = no_backticks part.
Proof. unfold inline_part. case_match; [apply no_backticks_strip|done]. Qed.

(** A line with inline code keeps its characters: what is inserted
    for the pieces of the line is the line, but for backticks (those around
    a code span are dropped, and a span is shown under the tag [code]). *)
Theorem inline_code_text line :
  no_backticks (widget_text (inline_part <$> inline_parts line)) = no_backticks line.
Proof.
  rewrite <-(re_split_group_join inline_code_re line) at 2. fold (inline_parts line).
  induction (inline_parts line) as [|part parts IH]; [done|].
  rewrite fmap_cons. change (widget_text (?x :: ?r)) with (ins_text x ++ widget_text r).
  simpl mjoin. by rewrite !no_backticks_app, IH, inline_part_text.
Qed.
