(* ===== verification/Gui.v ===== *)
(** * The window: [launch_ui]

    src/app.py lines 384-701.  The window is the record [window]: the
    variables bound to the form, the header, the controls whose state
    [set_running] changes, the text widget (the list of what was inserted,
    as in [Markdown]) and the two queues of the main loop, the callbacks
    registered with [app.after(0, f)] and those registered with
    [app.after(300, f)].  A callback is a value of [callback]; [run_callback]
    is its body.

    [safe_log] registers [append], [ui_yes_no] registers [ask],
    [pulse_header] registers itself, the worker of [on_run] registers
    [set_running(False)] when it is done.  [on_run] reads the form and gives
    the arguments of the call of [run_pipeline] ([job]); [worker] is the
    body of the thread it starts. *)

From stdpp Require Import gmap.
From S2P Require Import PyStr Regex World Requester FixApplier Pipeline Markdown.

Local Open Scope io_scope.

(** ** The state of the window *)

(** [state="normal"] and [state="disabled"]. *)
Inductive widget_state : Type := state_normal | state_disabled.

#[export] Instance widget_state_eq_dec : EqDecision widget_state.
Proof. solve_decision. Defined.

(** What the main loop can be asked to call later. *)
Inductive callback : Type :=
| Append (msg : str) (tag : option tag) (is_markdown : bool)   (* [append] of [safe_log] *)
| Ask (question : str) (log : list event)                      (* [ask] of [ui_yes_no] *)
| Pulse (step : nat)                                           (* [pulse_header(step)] *)
| SetRunning (running : bool).                                 (* [set_running(running)] *)

(** Lines 398-403: the variables of the form.  [maxchars_var] is [None]
    when what the entry holds is not a number, so that [get] raises. *)
Record form : Type := Form {
  path_var : str;
  json_var : bool;
  autofix_var : bool;
  apply_all_var : bool;
  userprompt_var : str;
  maxchars_var : option Z;
}.

(** Lines 407-412: the header bar, its title and its status label. *)
Record header : Type := Header {
  header_bg : str;
  title_bg : str;
  status_bg : str;
  status_text : str;
  status_fg : str;
}.

(** The state of the eight widgets of line 647, the text of the button
    [Run], and the progress bar with its placeholder. *)
Record controls : Type := Controls {
  inputs_state : widget_state;
  run_btn_text : str;
  progress_packed : bool;
  progress_moving : bool;
  placeholder_packed : bool;
}.

Record window : Type := Window {
  w_form : form;
  is_running : bool;
  w_header : header;
  w_controls : controls;
  w_out : list insert;
  after_idle : list callback;
  after_timer : list callback;
}.

(** The answers of the user, and whether Tkinter could be imported. *)
Class Tk : Type := {
  tk_loaded : bool;
  (** [messagebox.askyesno(...)]: the answer, or [None] when it raises. *)
  askyesno : list event → str → option bool;
}.

(** Lines 389-493: the window as [launch_ui] builds it. *)
Definition initial_window : window := {|
  w_form := Form [] false false false [] (Some 200000%Z);
  is_running := false;
  w_header := Header (lit "#2b2d42") (lit "#2b2d42") (lit "#2b2d42") (lit "Idle") (lit "#a8dadc");
  w_controls := Controls state_normal (lit "Run") false false true;
  w_out := [];
  after_idle := [];
  after_timer := [];
|}.

(** ** [safe_log] *)

(** Lines 587-595: the tag of a message that comes without one. *)
Definition classify `{Unicode} (msg : str) : option tag :=
  let low := lower msg in
  if contains low (lit "error") || contains msg (lit "❌") || contains low (lit "failed")
  then Some tag_error
  else if startswith low (lit "starting") || contains low (lit "processing batch")
  then Some tag_info
  else if contains low (lit "suggested fix") || contains low (lit "gemini debugging output")
          || contains low (lit "starting auto fix")
  then Some tag_section
  else if contains low (lit "saved") || contains msg (lit "✅") || contains low (lit "done")
  then Some tag_success
  else None.

(** Lines 584-612: [append], on the text widget.  [render_markdown] does
    not raise, so the handler of line 601 has no case. *)
Definition append `{Unicode} (msg : str) (tag : option tag) (is_markdown : bool)
    (out : list insert) : list insert :=
  let applied_tag := if tag is Some t then Some t else classify msg in
  if is_markdown then render_markdown msg out
  else
    let msg_to_insert := if endswith msg [ch_nl] then msg else msg ++ [ch_nl] in
    out ++ [Insert msg_to_insert applied_tag].

(** [app.after(0, f)]. *)
Definition after_0 (f : callback) (w : window) : window :=
  Window (w_form w) (is_running w) (w_header w) (w_controls w) (w_out w)
         (after_idle w ++ [f]) (after_timer w).

(** [app.after(300, f)]. *)
Definition after_300 (f : callback) (w : window) : window :=
  Window (w_form w) (is_running w) (w_header w) (w_controls w) (w_out w)
         (after_idle w) (after_timer w ++ [f]).

(** Lines 583-613. *)
Definition safe_log (msg : str) (tag : option tag) (is_markdown : bool) (w : window) : window :=
  after_0 (Append msg tag is_markdown) w.

(** ** [ui_yes_no] *)

(** Lines 618-624: what [ask] stores in [result_holder]. *)
Definition ask `{Tk} (log : list event) (question : str) : bool :=
  default false (askyesno log question).

(** Lines 615-627, as the function [run_pipeline] is given: the answer of
    the dialog, [False] when the dialog fails. *)
Definition ui_yes_no `{Tk} : prompt_fn := ask.

(** ** [pulse_header] and [set_running] *)

Definition set_header_bg (c : str) (w : window) : window :=
  let h := w_header w in
  Window (w_form w) (is_running w) (Header c c c (status_text h) (status_fg h))
         (w_controls w) (w_out w) (after_idle w) (after_timer w).

(** Line 637. *)
Definition colors : list str := [lit "#2b2d42"; lit "#31344f"].

(** Lines 630-642. *)
Definition pulse_header (step : nat) (w : window) : window :=
  if negb (is_running w) then set_header_bg (lit "#2b2d42") w
  else
    let c := default [] (colors !! (step mod length colors)) in
    after_300 (Pulse (step + 1)) (set_header_bg c w).

(** Lines 644-667. *)
Definition set_running (running : bool) (w : window) : window :=
  let state := if running then state_disabled else state_normal in
  let h := w_header w in
  if running then
    pulse_header 0
      (Window (w_form w) running
         (Header (header_bg h) (title_bg h) (status_bg h) (lit "Running...") (lit "#ffd166"))
         (Controls state (lit "Running...") true true false)
         (w_out w) (after_idle w) (after_timer w))
  else
    Window (w_form w) running
      (Header (header_bg h) (title_bg h) (status_bg h) (lit "Idle") (lit "#a8dadc"))
      (Controls state (lit "Run") false false true)
      (w_out w) (after_idle w) (after_timer w).

(** ** [on_run] *)

(** The arguments of the call of [run_pipeline] in line 691. *)
Record job : Type := Job {
  j_folder : str;
  j_export_json : bool;
  j_autofix : bool;
  j_apply_all : bool;
  j_userprompt : option str;
  j_max_chars : Z;
}.

(** Lines 670-679: the form as [on_run] reads it; a number that cannot be
    read is replaced by 200000, in the entry as well. *)
Definition read_form (f : form) : job * form :=
  let folder := strip (path_var f) in
  let userprompt := if strip (userprompt_var f) is [] then None else Some (strip (userprompt_var f)) in
  match maxchars_var f with
  | Some max_chars =>
    (Job folder (json_var f) (autofix_var f) (apply_all_var f) userprompt max_chars, f)
  | None =>
    (Job folder (json_var f) (autofix_var f) (apply_all_var f) userprompt 200000,
     Form (path_var f) (json_var f) (autofix_var f) (apply_all_var f) (userprompt_var f)
          (Some 200000%Z))
  end.

Definition set_form (f : form) (w : window) : window :=
  Window f (is_running w) (w_header w) (w_controls w) (w_out w) (after_idle w) (after_timer w).

(** Lines 423-426: [browse], with [d] what [filedialog.askdirectory()]
    returns: the directory, or the empty string when the dialog is
    cancelled. *)
Definition browse (d : str) (w : window) : window :=
  if nonempty d
  then set_form (Form d (json_var (w_form w)) (autofix_var (w_form w)) (apply_all_var (w_form w))
                      (userprompt_var (w_form w)) (maxchars_var (w_form w))) w
  else w.

(** Lines 669-685 and 697: the window after [on_run], and the job of the
    thread it starts, if any. *)
Definition on_run (w : window) : window * option job :=
  let (j, f) := read_form (w_form w) in
  let w := set_form f w in
  if negb (nonempty (j_folder j)) then
    (safe_log (lit "Please select a project folder.
") None false w, None)
  else (set_running true w, Some j).

(** Lines 689-691: the call of [run_pipeline]. *)
Definition run_job `{Unicode, Env, Tk} (j : job) : M (option str) :=
  let interactive := j_autofix j && negb (j_apply_all j) in
  let prompt_func := if interactive then Some ui_yes_no else None in
  run_pipeline (j_folder j) (j_export_json j) (j_autofix j) (j_apply_all j)
    (j_userprompt j) (j_max_chars j) true (lit "project_review.xlsx")
    interactive prompt_func.

(** Lines 687-693: the body of the thread, but for the callback of line
    695.  A call of [safe_log] is the event [UiLog]. *)
Definition worker `{Unicode, Env, Tk} (j : job) : M unit :=
  try_except (_ ← run_job j; ret ())
    (λ e, ui_log (lit "Error: " ++ exn_text e ++ [ch_nl])).

(** ** The main loop runs a callback *)

(** What a callback does to the window.  [ask] gives its answer to the
    thread that waits for it, not to the window. *)
Definition run_callback `{Unicode} (f : callback) (w : window) : window :=
  match f with
  | Append msg tag is_markdown =>
    Window (w_form w) (is_running w) (w_header w) (w_controls w)
           (append msg tag is_markdown (w_out w)) (after_idle w) (after_timer w)
  | Ask _ _ => w
  | Pulse step => pulse_header step w
  | SetRunning running => set_running running w
  end.

(** ** What the theorems speak of *)

(** The look of a window that runs, and of one that does not. *)
Definition running_look (w : window) : Prop :=
  w_controls w = Controls state_disabled (lit "Running...") true true false ∧
  status_text (w_header w) = lit "Running..." ∧ status_fg (w_header w) = lit "#ffd166".

Definition idle_look (w : window) : Prop :=
  w_controls w = Controls state_normal (lit "Run") false false true ∧
  status_text (w_header w) = lit "Idle" ∧ status_fg (w_header w) = lit "#a8dadc".

(** The window is consistent: it looks as [is_running] says, the header
    has one colour, and that is one of the two of the pulse. *)
Definition window_ok (w : window) : Prop :=
  (if is_running w then running_look w else idle_look w) ∧
  header_bg (w_header w) = title_bg (w_header w) ∧
  title_bg (w_header w) = status_bg (w_header w) ∧
  header_bg (w_header w) ∈ colors.

(** The widget after the messages of a log, in order: what [safe_log]
    appends for every [UiLog] event. *)
Definition shown `{Unicode} (log : list event) (out : list insert) : list insert :=
  foldl (λ out e, if e is UiLog msg is_markdown then append msg None is_markdown out else out)
        out log.

(** An environment of the window for the examples: the user agrees. *)
Definition ex_tk : Tk := {| tk_loaded := true; askyesno := λ _ _, Some true |}.

Arguments pulse_header : simpl never.
Arguments set_running : simpl never.
Arguments append : simpl never.

(** ** Concrete runs *)

Example classify_examples :
  classify (lit "Starting analysis...
") = Some tag_info ∧
  classify (lit "Processing batch 1/2 (Auto-Fix)...
") = Some tag_info ∧
  classify (lit "
===== Suggested Fix for app.py =====
") = Some tag_section ∧
  classify (lit "Review saved to project_review.json
") = Some tag_success ∧
  classify (lit "
Done.
") = Some tag_success ∧
  classify (lit "Skipped (non-interactive): app.py
") = None ∧
  classify (lit "Analyzing 3 files...
") = None ∧
  classify (lit "Invalid path: /tmp/x
") = None ∧
  classify (lit "No source files found!
") = None.
Proof. by vm_compute. Qed.

(** ** The tag of a message *)

(** The tag of an ASCII message does not depend on the Unicode tables. *)
Lemma classify_ascii `{Unicode} msg :
  forallb (λ c, (c <? 128)%N) msg = true → classify msg = @classify ascii_unicode msg.
Proof. intros Hmsg. unfold classify. by rewrite !lower_ascii. Qed.

Lemma append_plain `{Unicode} msg out :
  forallb (λ c, (c <? 128)%N) msg = true → @classify ascii_unicode msg = None →
  endswith msg [ch_nl] = true →
  append msg None false out = out ++ [Insert msg None].
Proof. intros Hmsg Hc Hnl. unfold append. by rewrite classify_ascii, Hc, Hnl. Qed.

(** ** The look of the window *)

Lemma initial_window_ok : window_ok initial_window.
Proof. split_and!; try done. by apply list_elem_of_here. Qed.

Lemma pulse_colour step : default [] (colors !! (step mod length colors)) ∈ colors.
Proof.
  change (length colors) with 2. pose proof (Nat.mod_upper_bound step 2).
  destruct (step mod 2) as [|[|n]]; [apply list_elem_of_here|apply list_elem_of_further,
    list_elem_of_here|lia].
Qed.

Lemma set_header_bg_ok c w : c ∈ colors → window_ok w → window_ok (set_header_bg c w).
Proof. intros Hc (Hlook & _). split_and!; try done. Qed.

Lemma after_0_ok f w : window_ok w → window_ok (after_0 f w).
Proof. done. Qed.

Lemma after_300_ok f w : window_ok w → window_ok (after_300 f w).
Proof. done. Qed.

Lemma pulse_header_ok step w : window_ok w → window_ok (pulse_header step w).
Proof.
  intros Hw. unfold pulse_header. destruct (is_running w) eqn:Hr; simpl.
  - apply after_300_ok, set_header_bg_ok; [apply pulse_colour|done].
  - apply set_header_bg_ok; [apply list_elem_of_here|done].
Qed.

Lemma set_running_ok running w : window_ok w → window_ok (set_running running w).
Proof.
  intros (_ & ? & ? & ?). destruct running; [apply pulse_header_ok|];
    unfold window_ok, running_look, idle_look; simpl; by split_and!.
Qed.

Lemma set_form_ok f w : window_ok w → window_ok (set_form f w).
Proof. done. Qed.

(** The two ways [on_run] ends. *)
Lemma browse_ok d w : window_ok w → window_ok (browse d w).
Proof. unfold browse. by destruct (nonempty d). Qed.

Lemma on_run_cases w :
  (∃ f j, on_run w = (set_running true (set_form f w), Some j)) ∨
  (∃ f msg, on_run w = (safe_log msg None false (set_form f w), None)).
Proof.
  unfold on_run. destruct (read_form (w_form w)) as [j f].
  destruct (nonempty (j_folder j)); cbn [negb]; eauto.
Qed.

Lemma on_run_ok w : window_ok w → window_ok (on_run w).1.
Proof.
  intros Hw. destruct (on_run_cases w) as [(f & j & ->)|(f & msg & ->)]; cbn [fst];
    [by apply set_running_ok, set_form_ok|by apply after_0_ok, set_form_ok].
Qed.

Lemma run_callback_ok `{Unicode} f w : window_ok w → window_ok (run_callback f w).
Proof.
  destruct f; simpl; [done|done|apply pulse_header_ok|apply set_running_ok].
Qed.

(** C21: the window stays consistent: whatever [on_run], [browse],
    [safe_log] and the callbacks of the main loop do, the controls, the
    status label and the progress bar look as [is_running] says (disabled,
    [Running...] and moving, or enabled, [Idle] and hidden), and the three
    parts of the header have one colour, one of the two of the pulse. *)
Theorem window_ok_preserved `{Unicode} w f d msg tag is_markdown :
  window_ok w →
  window_ok (on_run w).1 ∧ window_ok (browse d w) ∧ window_ok (run_callback f w) ∧
  window_ok (safe_log msg tag is_markdown w).
Proof.
  intros Hw. split_and!; [by apply on_run_ok|by apply browse_ok|by apply run_callback_ok|done].
Qed.

Lemma window_ok_preserved_witness :
  window_ok (on_run initial_window).1 ∧
  window_ok (browse (lit "proj") initial_window) ∧
  window_ok (@run_callback ascii_unicode (SetRunning true) initial_window) ∧
  window_ok (safe_log (lit "Done.") None false initial_window).
Proof. apply (@window_ok_preserved ascii_unicode), initial_window_ok. Defined.

(** ** [on_run] *)

(** [on_run] with an entry for the batch size that is not a number
    goes on with 200000 and writes 200000 into the entry; the other fields
    are read as they are. *)
Theorem read_form_bad_number f :
  maxchars_var f = None →
  j_max_chars (read_form f).1 = 200000%Z ∧
  maxchars_var (read_form f).2 = Some 200000%Z ∧
  j_folder (read_form f).1 = strip (path_var f) ∧
  path_var (read_form f).2 = path_var f.
Proof. unfold read_form. by intros ->. Qed.

Lemma read_form_bad_number_witness :
  j_max_chars (read_form (Form (lit " proj ") true false false [] None)).1 = 200000%Z ∧
  maxchars_var (read_form (Form (lit " proj ") true false false [] None)).2 = Some 200000%Z ∧
  j_folder (read_form (Form (lit " proj ") true false false [] None)).1
    = strip (path_var (Form (lit " proj ") true false false [] None)) ∧
  path_var (read_form (Form (lit " proj ") true false false [] None)).2
    = path_var (Form (lit " proj ") true false false [] None).
Proof. by apply read_form_bad_number. Defined.

(** Without a folder, [on_run] starts nothing: it asks for a folder
    in the output, the window does not change to running and the controls
    stay enabled; the message is shown without a tag. *)
Theorem on_run_no_folder `{Unicode} w :
  strip (path_var (w_form w)) = [] →
  (on_run w).2 = None ∧
  is_running (on_run w).1 = is_running w ∧
  w_controls (on_run w).1 = w_controls w ∧
  after_idle (on_run w).1
    = after_idle w ++ [Append (lit "Please select a project folder.
") None false] ∧
  append (lit "Please select a project folder.
") None false (w_out w)
    = w_out w ++ [Insert (lit "Please select a project folder.
") None].
Proof.
  intros Hp. split_and!; [..|by apply append_plain];
    unfold on_run, read_form; by destruct (maxchars_var (w_form w)); cbv zeta; rewrite Hp.
Qed.

Lemma on_run_no_folder_witness :
  (on_run initial_window).2 = None ∧
  is_running (on_run initial_window).1 = is_running initial_window ∧
  w_controls (on_run initial_window).1 = w_controls initial_window ∧
  after_idle (on_run initial_window).1
    = after_idle initial_window ++ [Append (lit "Please select a project folder.
") None false] ∧
  @append ascii_unicode (lit "Please select a project folder.
") None false (w_out initial_window)
    = w_out initial_window ++ [Insert (lit "Please select a project folder.
") None].
Proof. by apply (@on_run_no_folder ascii_unicode). Defined.

(** ** The thread *)

Section worker.
Context `{Unicode, Env, Tk}.

Lemma classify_error m : classify (lit "Error: " ++ m) = Some tag_error.
Proof.
  unfold classify. cbv zeta. rewrite lower_app, (lower_ascii (lit "Error: ")) by done.
  by rewrite (contains_startswith _ (lit "error")) by by apply startswith_app_l.
Qed.

Lemma worker_run j w :
  worker j w
  = match run_job j w with
    | (Ok _, w') => (Ok (), w')
    | (Raise e, w') =>
      (Ok (), World (w_fs w') (w_log w' ++ [UiLog (lit "Error: " ++ exn_text e ++ [ch_nl]) false]))
    end.
Proof. unfold worker, try_except, bind. by destruct (run_job j w) as [[r|e] w']. Qed.

(** With [apply_all] unchecked and every dialog declined, the thread
    changes no file but the two exports. *)
Lemma worker_no_consent j :
  j_apply_all j = false → (∀ log q, askyesno log q ≠ Some true) →
  fs_frame [lit "project_review.xlsx"; json_path] (worker j).
Proof.
  intros Ha Hno. unfold worker.
  apply fs_frame_try; [|intros e; apply fs_pure_frame, emit_fs_pure].
  apply fs_frame_bind; [|done]. unfold run_job. rewrite Ha. cbv zeta.
  apply run_pipeline_declined. cbn [declines]. intros g log q.
  destruct (j_autofix j && negb false); [|done]. intros [= <-].
  unfold ui_yes_no, ask. specialize (Hno log q). by destruct (askyesno log q) as [[]|].
Qed.

(** C31: the thread never ends with an exception: when [run_pipeline]
    raises, the thread logs [Error: ] with the text of the exception and
    returns, with the files as the call left them; the window shows that
    line under the tag [error]. *)
Theorem worker_error_shown j w e w' out :
  run_job j w = (Raise e, w') →
  worker j w
    = (Ok (), World (w_fs w') (w_log w' ++ [UiLog (lit "Error: " ++ exn_text e ++ [ch_nl]) false])) ∧
  append (lit "Error: " ++ exn_text e ++ [ch_nl]) None false out
    = out ++ [Insert (lit "Error: " ++ exn_text e ++ [ch_nl]) (Some tag_error)].
Proof.
  intros Hrun. split; [by rewrite worker_run, Hrun|]. unfold append.
  by rewrite classify_error, !(assoc_L (++)), endswith_app.
Qed.

(** From the window, [run_pipeline] has a function to ask with
    whenever it can need one: the call of line 691 does what it does with
    [ui_yes_no] given in every case, so the [TypeError] of a call of [None]
    cannot occur. *)
Theorem run_job_prompt_func j :
  run_job j
  = run_pipeline (j_folder j) (j_export_json j) (j_autofix j) (j_apply_all j) (j_userprompt j)
      (j_max_chars j) true (lit "project_review.xlsx") true (Some ui_yes_no).
Proof. by destruct j as [folder export_json [] [] userprompt max_chars]. Qed.

End worker.

Lemma worker_error_shown_witness :
  @worker ascii_unicode (unloaded ex_env) ex_tk (Job (lit "proj") false true false None 1000) ex_project
    = (Ok (), World (w_fs ex_project)
        (w_log (@run_job ascii_unicode (unloaded ex_env) ex_tk
                  (Job (lit "proj") false true false None 1000) ex_project).2
         ++ [UiLog (lit "Error: " ++ @exn_text (unloaded ex_env) model_unavailable ++ [ch_nl])
               false])) ∧
  @append ascii_unicode (lit "Error: " ++ @exn_text (unloaded ex_env) model_unavailable ++ [ch_nl])
      None false []
    = [] ++ [Insert (lit "Error: " ++ @exn_text (unloaded ex_env) model_unavailable ++ [ch_nl])
               (Some tag_error)].
Proof.
  apply (@worker_error_shown ascii_unicode (unloaded ex_env) ex_tk
           (Job (lit "proj") false true false None 1000) ex_project model_unavailable
           (World (w_fs ex_project)
              (w_log (@run_job ascii_unicode (unloaded ex_env) ex_tk
                        (Job (lit "proj") false true false None 1000) ex_project).2)) []).
  by vm_compute.
Defined.
