(* ===== verification/Toolkit.v ===== *)
(** * The toolkit: widgets, their options and the packer

    What the program relies on of Tkinter, as far as [launch_ui] uses it.
    The toolkit ([toolkit]) holds every widget with its class, its parent
    and its options, the list of the packer in the order in which the
    widgets take their room, the tags of the text widget and its
    contents, the Tk variables and the two queues of [app.after].  A call
    of a widget is a function on the toolkit: [create], [configure],
    [pack], [pack_forget], [tag_configure].

    A call in a [try] block fails when Tcl refuses it ([Tcl], an oracle
    that sees the toolkit), and what was done before it stays done
    ([try_pass]).  A call outside a [try] block is taken to succeed.

    The lemmas say what a call does to what the toolkit is asked
    ([cget], [state_of], [is_packed]) and what it leaves alone: the
    widgets it knows ([complete]), the tree and the packer ([still]), an
    option ([keeps]). *)

From stdpp Require Import list strings.
From S2P Require Import PyStr Markdown Gui.

Declare Scope tk_scope.
Delimit Scope tk_scope with tk.
Local Open Scope tk_scope.

(** ** Widgets and their options *)

(** The widgets of the window, by the names [launch_ui] gives them.  The
    three labels of lines 420, 441 and 447 and the button of line 496 have
    no name in the source: they are [path_caption], [prompt_caption],
    [max_caption] and [clear_btn]. *)
Inductive widget : Type :=
| app | header | title_lbl | status_lbl | frm
| path_row | path_caption | path_entry | browse_btn
| opts_row1 | json_chk | autofix_chk | apply_all_chk
| prompt_row | prompt_caption | prompt_entry
| max_row | max_caption | max_entry
| out_label | btn_row | out_container | out_text
| progress_placeholder | progress | run_btn | clear_btn.

#[export] Instance widget_eq_dec : EqDecision widget.
Proof. solve_decision. Defined.

Inductive widget_class : Type :=
| tk_Tk | tk_Frame | tk_Label
| ttk_Frame | ttk_Label | ttk_Entry | ttk_Button | ttk_Checkbutton | ttk_Progressbar
| ScrolledText.

#[export] Instance widget_class_eq_dec : EqDecision widget_class.
Proof. solve_decision. Defined.

(** What a keyword argument of a widget call is given. *)
Inductive value : Type :=
| Str (s : str)
| Int (n : Z)
| Bool (b : bool)
| Pair (a b : Z)                                    (* [pady=(10, 0)] *)
| Font (family : str) (size : Z) (style : option str)
| Var (name : string)                               (* a Tk variable *)
| Cmd (name : string).                              (* a function of [launch_ui] *)

#[export] Instance value_eq_dec : EqDecision value.
Proof. solve_decision. Defined.

Definition text_value (s : string) : value := Str (lit s).

Coercion text_value : string >-> value.
Coercion Int : Z >-> value.
Coercion Bool : bool >-> value.

(** Keyword arguments, in the order written. *)
Definition options : Type := list (string * value).

Notation "k =: v" := (pair k%string (v : value)) (at level 60) : tk_scope.

(** The constants of [tkinter]. *)
Definition tk_X : value := "x".
Definition tk_BOTH : value := "both".
Definition tk_TOP : value := "top".
Definition tk_BOTTOM : value := "bottom".
Definition tk_LEFT : value := "left".
Definition tk_RIGHT : value := "right".
Definition tk_WORD : value := "word".

(** Association lists: keyword arguments, and the tables of Tk that keep
    the order of their entries. *)
Section assoc.
Context {K V : Type} `{EqDecision K}.

Fixpoint assoc (l : list (K * V)) (k : K) : option V :=
  match l with
  | [] => None
  | (k', v) :: l' => if decide (k' = k) then Some v else assoc l' k
  end.

(** The entry of [k] becomes [f] of what it was; a new entry goes to the
    end. *)
Fixpoint upsert (k : K) (f : option V → V) (l : list (K * V)) : list (K * V) :=
  match l with
  | [] => [(k, f None)]
  | (k', v) :: l' => if decide (k' = k) then (k', f (Some v)) :: l' else (k', v) :: upsert k f l'
  end.

(** The entry of [k] becomes [f] of what it was, if there is one. *)
Definition adjust (k : K) (f : V → V) (l : list (K * V)) : list (K * V) :=
  (λ kv, if decide (kv.1 = k) then (kv.1, f kv.2) else kv) <$> l.

Definition remove (k : K) (l : list (K * V)) : list (K * V) := filter (λ kv, kv.1 ≠ k) l.

End assoc.

Definition opt (o : options) (k : string) : option value := assoc o k.

Definition set_opt (k : string) (v : value) (o : options) : options := upsert k (λ _, v) o.

(** The options [o] after a call that gives [new]. *)
Definition set_opts (new o : options) : options :=
  foldl (λ o kv, set_opt kv.1 kv.2 o) o new.

(** ** The toolkit *)

Record winfo : Type := Winfo {
  winfo_class : widget_class;
  winfo_parent : option widget;
  winfo_options : options;
}.

Record toolkit : Type := Toolkit {
  (** title, geometry and icon of the window *)
  wm : options;
  (** the widgets, in the order of their creation *)
  widgets : list (widget * winfo);
  (** the list of the packer: the widgets that are packed, in the order
      in which they take their room *)
  packing : list (widget * options);
  (** the tags of [out_text] *)
  tags : list (tag * options);
  (** what [out_text] holds *)
  contents : list insert;
  (** whether [progress] runs *)
  moving : bool;
  (** lines 398-404: the variables *)
  variables : form;
  running : bool;
  (** what [app.after] was given *)
  idle_queue : list callback;
  timer_queue : list callback;
}.

(** What Tcl answers to the calls that the source makes in a [try] block:
    whether it takes the call. *)
Class Tcl : Type := {
  iconbitmap_ok : toolkit → str → bool;
  configure_ok : toolkit → widget → options → bool;
  tag_configure_ok : toolkit → tag → options → bool;
  stop_ok : toolkit → bool;
}.

Definition set_wm (f : options → options) (t : toolkit) : toolkit :=
  Toolkit (f (wm t)) (widgets t) (packing t) (tags t) (contents t) (moving t) (variables t)
          (running t) (idle_queue t) (timer_queue t).

Definition set_widgets (f : list (widget * winfo) → list (widget * winfo)) (t : toolkit)
    : toolkit :=
  Toolkit (wm t) (f (widgets t)) (packing t) (tags t) (contents t) (moving t) (variables t)
          (running t) (idle_queue t) (timer_queue t).

Definition set_packing (f : list (widget * options) → list (widget * options)) (t : toolkit)
    : toolkit :=
  Toolkit (wm t) (widgets t) (f (packing t)) (tags t) (contents t) (moving t) (variables t)
          (running t) (idle_queue t) (timer_queue t).

Definition set_tags (f : list (tag * options) → list (tag * options)) (t : toolkit) : toolkit :=
  Toolkit (wm t) (widgets t) (packing t) (f (tags t)) (contents t) (moving t) (variables t)
          (running t) (idle_queue t) (timer_queue t).

Definition set_contents (f : list insert → list insert) (t : toolkit) : toolkit :=
  Toolkit (wm t) (widgets t) (packing t) (tags t) (f (contents t)) (moving t) (variables t)
          (running t) (idle_queue t) (timer_queue t).

Definition set_moving (b : bool) (t : toolkit) : toolkit :=
  Toolkit (wm t) (widgets t) (packing t) (tags t) (contents t) b (variables t)
          (running t) (idle_queue t) (timer_queue t).

Definition set_variables (f : form) (t : toolkit) : toolkit :=
  Toolkit (wm t) (widgets t) (packing t) (tags t) (contents t) (moving t) f
          (running t) (idle_queue t) (timer_queue t).

Definition set_is_running (b : bool) (t : toolkit) : toolkit :=
  Toolkit (wm t) (widgets t) (packing t) (tags t) (contents t) (moving t) (variables t)
          b (idle_queue t) (timer_queue t).

Definition set_idle_queue (f : list callback → list callback) (t : toolkit) : toolkit :=
  Toolkit (wm t) (widgets t) (packing t) (tags t) (contents t) (moving t) (variables t)
          (running t) (f (idle_queue t)) (timer_queue t).

Definition set_timer_queue (f : list callback → list callback) (t : toolkit) : toolkit :=
  Toolkit (wm t) (widgets t) (packing t) (tags t) (contents t) (moving t) (variables t)
          (running t) (idle_queue t) (f (timer_queue t)).

(** ** The calls of the toolkit *)

(** [w = cls(parent, o...)]. *)
Definition create (w : widget) (cls : widget_class) (parent : option widget) (o : options)
    : toolkit → toolkit :=
  set_widgets (λ ws, ws ++ [(w, Winfo cls parent o)]).

Definition configure_info (o : options) (i : winfo) : winfo :=
  Winfo (winfo_class i) (winfo_parent i) (set_opts o (winfo_options i)).

(** [w.configure(o...)]. *)
Definition configure (w : widget) (o : options) : toolkit → toolkit :=
  set_widgets (adjust w (configure_info o)).

(** The options of an entry of a table of Tk after a call with [o]. *)
Definition given (o : options) (old : option options) : options :=
  if old is Some o' then set_opts o o' else o.

(** [w.pack(o...)]: a widget that is not packed goes to the end of the
    list of the packer; one that is packed keeps its place and takes the
    options. *)
Definition pack (w : widget) (o : options) : toolkit → toolkit :=
  set_packing (upsert w (given o)).

(** [w.pack_forget()]. *)
Definition pack_forget (w : widget) : toolkit → toolkit := set_packing (remove w).

(** [out_text.tag_configure(g, o...)]. *)
Definition tag_configure (g : tag) (o : options) : toolkit → toolkit :=
  set_tags (upsert g (given o)).

(** [app.title(s)], [app.geometry(s)], [app.iconbitmap(default=s)]. *)
Definition title (s : str) : toolkit → toolkit := set_wm (set_opt "title" (Str s)).
Definition geometry (s : str) : toolkit → toolkit := set_wm (set_opt "geometry" (Str s)).
Definition iconbitmap (s : str) : toolkit → toolkit := set_wm (set_opt "iconbitmap" (Str s)).

(** [app.after(0, f)] and [app.after(300, f)]. *)
Definition tk_after_0 (f : callback) : toolkit → toolkit := set_idle_queue (λ q, q ++ [f]).
Definition tk_after_300 (f : callback) : toolkit → toolkit := set_timer_queue (λ q, q ++ [f]).

(** A sequence of calls. *)
Definition run (calls : list (toolkit → toolkit)) (t : toolkit) : toolkit :=
  foldl (λ t f, f t) t calls.

(** [try: body except Exception: pass]: the calls of [body] up to the
    first that raises. *)
Fixpoint try_pass (body : list (toolkit → option toolkit)) (t : toolkit) : toolkit :=
  match body with
  | [] => t
  | f :: body' => match f t with Some t' => try_pass body' t' | None => t end
  end.

(** A call that raises when Tcl refuses it. *)
Definition or_raise (ok : toolkit → bool) (f : toolkit → toolkit) (t : toolkit)
    : option toolkit :=
  if ok t then Some (f t) else None.

Definition iconbitmap_or_raise `{Tcl} (s : str) : toolkit → option toolkit :=
  or_raise (λ t, iconbitmap_ok t s) (iconbitmap s).

Definition configure_or_raise `{Tcl} (w : widget) (o : options) : toolkit → option toolkit :=
  or_raise (λ t, configure_ok t w o) (configure w o).

Definition tag_configure_or_raise `{Tcl} (go : tag * options) : toolkit → option toolkit :=
  or_raise (λ t, tag_configure_ok t go.1 go.2) (tag_configure go.1 go.2).

Definition stop_or_raise `{Tcl} : toolkit → option toolkit :=
  or_raise stop_ok (set_moving false).

(** ** What the toolkit is asked *)

Definition info (t : toolkit) (w : widget) : option winfo := assoc (widgets t) w.

(** [w.cget(k)], in the widgets [ws] and in the toolkit. *)
Definition cget_in (ws : list (widget * winfo)) (w : widget) (k : string) : option value :=
  i ← assoc ws w; opt (winfo_options i) k.

Definition cget (t : toolkit) (w : widget) (k : string) : option value :=
  cget_in (widgets t) w k.

Definition cget_str (t : toolkit) (w : widget) (k : string) : str :=
  if cget t w k is Some (Str s) then s else [].

(** The state of a widget; a widget that was given none is [normal]. *)
Definition state_of (t : toolkit) (w : widget) : widget_state :=
  if decide (cget t w "state" = Some (Str (lit "disabled"))) then state_disabled
  else state_normal.

Definition is_packed (t : toolkit) (w : widget) : bool := bool_decide (w ∈ (packing t).*1).

(** [w.master]. *)
Definition master (t : toolkit) (w : widget) : option widget := info t w ≫= winfo_parent.

(** The widgets packed in [p], in the order of the packer. *)
Definition packed_in (t : toolkit) (p : widget) : list widget :=
  filter (λ w, master t w = Some p) (packing t).*1.

(** ** What the lemmas speak of *)

(** Every widget of [launch_ui] is there. *)
Definition complete (t : toolkit) : Prop := ∀ w, is_Some (info t w).

(** Who is whose child, in the order of creation. *)
Definition skeleton (t : toolkit) : list (widget * (widget_class * option widget)) :=
  (λ wi, (wi.1, (winfo_class wi.2, winfo_parent wi.2))) <$> widgets t.

(** The parent of a widget in a tree. *)
Definition parent_in (sk : list (widget * (widget_class * option widget))) (w : widget)
    : option widget :=
  assoc sk w ≫= snd.

(** The tree is well formed: no widget is made twice, the parent of a
    widget was made before it, and the window is the one widget without
    a parent. *)
Fixpoint grown (made : list widget) (sk : list (widget * (widget_class * option widget)))
    : bool :=
  match sk with
  | [] => true
  | (w, (_, p)) :: sk' =>
    bool_decide (w ∉ made)
    && (if p is Some p' then bool_decide (p' ∈ made) && bool_decide (w ≠ app)
        else bool_decide (w = app))
    && grown (made ++ [w]) sk'
  end.

(** What is packed is packed once, in a parent that is seen. *)
Definition seen (t : toolkit) (w : widget) : bool :=
  if master t w is Some p then bool_decide (p = app) || is_packed t p else false.

Definition tree_ok (t : toolkit) : Prop :=
  grown [] (skeleton t) = true ∧ NoDup (packing t).*1 ∧
  ∀ w, w ∈ (packing t).*1 → seen t w = true.

(** Tcl that takes every call, and Tcl that takes none. *)
Definition tcl_yes : Tcl :=
  {| iconbitmap_ok := λ _ _, true; configure_ok := λ _ _ _, true;
     tag_configure_ok := λ _ _ _, true; stop_ok := λ _, true |}.

Definition tcl_no : Tcl :=
  {| iconbitmap_ok := λ _ _, false; configure_ok := λ _ _ _, false;
     tag_configure_ok := λ _ _ _, false; stop_ok := λ _, false |}.

(** The text and the state of a widget after a call that gives the
    option the value [v], or does not give it. *)
Definition str_of (old : str) (v : option value) : str :=
  match v with
  | Some (Str s) => s
  | Some _ => []
  | None => old
  end.

Definition state_from (old : widget_state) (v : option value) : widget_state :=
  match v with
  | Some v => if decide (v = Str (lit "disabled")) then state_disabled else state_normal
  | None => old
  end.

(** The call leaves the tree and the packer alone. *)
Definition still (f : toolkit → toolkit) : Prop :=
  ∀ t, skeleton (f t) = skeleton t ∧ packing (f t) = packing t.

(** The call leaves the option [k] of every widget alone. *)
Definition keeps (k : string) (f : toolkit → toolkit) : Prop :=
  ∀ t w, cget (f t) w k = cget t w k.

(** ** Association lists *)

Section assoc_lemmas.
Context {K V : Type} `{EqDecision K}.
Implicit Types (l : list (K * V)) (k : K).

Lemma assoc_is_Some l k : is_Some (assoc l k) ↔ k ∈ l.*1.
Proof.
  induction l as [|[k' v] l IH]; simpl.
  - rewrite elem_of_nil. split; [by intros [??]|done].
  - rewrite elem_of_cons, <-IH.
    destruct (decide (k' = k)) as [->|]; [|split; [by right|by intros [->|]]].
    split; [by left|by eexists].
Qed.

Lemma assoc_upsert k f l k' :
  assoc (upsert k f l) k' = if decide (k' = k) then Some (f (assoc l k)) else assoc l k'.
Proof.
  induction l as [|[k0 v] l IH]; simpl; repeat (case_decide; simpl); by simplify_eq.
Qed.

Lemma assoc_adjust k f l k' :
  assoc (adjust k f l) k' = if decide (k' = k) then f <$> assoc l k else assoc l k'.
Proof.
  induction l as [|[k0 v] l IH]; simpl; repeat (case_decide; simpl); by simplify_eq.
Qed.

Lemma adjust_keys k f l : (adjust k f l).*1 = l.*1.
Proof.
  unfold adjust. rewrite <-list_fmap_compose. apply list_fmap_ext.
  intros ? [??] ?; simpl. by case_decide.
Qed.

Lemma upsert_keys k f l :
  (upsert k f l).*1 = if decide (k ∈ l.*1) then l.*1 else l.*1 ++ [k].
Proof.
  induction l as [|[k0 v] l IH]; csimpl; [done|].
  destruct (decide (k0 = k)) as [->|Hne]; csimpl.
  - by rewrite decide_True by left.
  - rewrite IH. destruct (decide (k ∈ l.*1)).
    + by rewrite decide_True by by right.
    + rewrite decide_False; [done|]. rewrite not_elem_of_cons. by split; [intros ->|].
Qed.

Lemma remove_keys k l : (remove k l).*1 = filter (λ k', k' ≠ k) l.*1.
Proof.
  induction l as [|[k0 v] l IH]; [done|]. unfold remove in *.
  rewrite fmap_cons, !filter_cons; csimpl. case_decide; csimpl; by rewrite IH.
Qed.

End assoc_lemmas.

(** ** Options and calls *)

Lemma opt_set_opt k v o k' :
  opt (set_opt k v o) k' = if decide (k' = k) then Some v else opt o k'.
Proof. apply assoc_upsert. Qed.

Lemma opt_set_opts new o k :
  opt (set_opts new o) k = from_option Some (opt o k) (opt (reverse new) k).
Proof.
  unfold set_opts. revert o. induction new as [|[k' v] new IH] using rev_ind; intros o; [done|].
  rewrite foldl_app, reverse_snoc; simpl. rewrite opt_set_opt, IH.
  by repeat case_decide; simplify_eq.
Qed.

Lemma run_app c c' t : run (c ++ c') t = run c' (run c t).
Proof. apply foldl_app. Qed.

Section calls.
Context `{Tcl}.

(** A call in a [try] block of its own is made or is not. *)
Lemma try_or_raise ok f t :
  ∃ b : bool, b = ok t ∧ try_pass [or_raise ok f] t = if b then f t else t.
Proof. exists (ok t). split; [done|]. unfold or_raise; simpl. by destruct (ok t). Qed.

(** A [try] block of calls of [tag_configure] makes some first of
    them. *)
Lemma try_tag_configure gos t :
  ∃ k, k ≤ length gos ∧
    try_pass (tag_configure_or_raise <$> gos) t
    = run ((λ go, tag_configure go.1 go.2) <$> take k gos) t.
Proof.
  revert t. induction gos as [|go gos IH]; intros t; [by exists 0|].
  rewrite fmap_cons. cbn [try_pass]. unfold tag_configure_or_raise at 1, or_raise.
  destruct (tag_configure_ok t go.1 go.2); [|exists 0; split; [lia|done]].
  destruct (IH (tag_configure go.1 go.2 t)) as (k & Hk & ->).
  exists (S k). split; [simpl; lia|done].
Qed.

Lemma try_tag_configure_taken gos t :
  (∀ t g o, tag_configure_ok t g o = true) →
  try_pass (tag_configure_or_raise <$> gos) t = run ((λ go, tag_configure go.1 go.2) <$> gos) t.
Proof.
  intros Hok. revert t. induction gos as [|go gos IH]; intros t; [done|].
  rewrite !fmap_cons. cbn [try_pass run foldl].
  unfold tag_configure_or_raise at 1, or_raise. rewrite Hok. apply IH.
Qed.

(** The loop over the inputs: every call that Tcl takes is made. *)
Lemma try_configure w o t :
  ∃ b : bool, b = configure_ok t w o ∧
    try_pass [configure_or_raise w o] t = if b then configure w o t else t.
Proof. exact (try_or_raise (λ t, configure_ok t w o) (configure w o) t). Qed.

Lemma try_stop t :
  ∃ b : bool, b = stop_ok t ∧ try_pass [stop_or_raise] t = if b then set_moving false t else t.
Proof. exact (try_or_raise stop_ok (set_moving false) t). Qed.

End calls.

(** A closed decidable fact. *)
Ltac by_decide := apply (bool_decide_unpack _); by vm_compute.

(** ** What a call changes *)

Lemma skeleton_names t : (skeleton t).*1 = (widgets t).*1.
Proof. unfold skeleton. rewrite <-!list_fmap_compose. by apply list_fmap_ext. Qed.

Lemma master_skeleton t w : master t w = parent_in (skeleton t) w.
Proof.
  unfold master, parent_in, info, skeleton. induction (widgets t) as [|[w' i] ws IH]; [done|].
  csimpl. case_decide; [done|apply IH].
Qed.

Lemma cget_in_adjust ws w o w' k :
  cget_in (adjust w (configure_info o) ws) w' k =
    if decide (w' = w)
    then assoc ws w ≫= λ i, from_option Some (opt (winfo_options i) k) (opt (reverse o) k)
    else cget_in ws w' k.
Proof.
  unfold cget_in. rewrite assoc_adjust. case_decide; [subst|done].
  destruct (assoc ws w); simpl; [|done]. by rewrite opt_set_opts.
Qed.

Lemma cget_configure t w o w' k :
  cget (configure w o t) w' k =
    if decide (w' = w)
    then info t w ≫= λ i, from_option Some (opt (winfo_options i) k) (opt (reverse o) k)
    else cget t w' k.
Proof. apply cget_in_adjust. Qed.

Lemma cget_str_configure t w o w' k :
  is_Some (info t w) →
  cget_str (configure w o t) w' k =
    if decide (w = w') then str_of (cget_str t w k) (opt (reverse o) k) else cget_str t w' k.
Proof.
  intros [i Hi]. unfold cget_str. rewrite cget_configure.
  destruct (decide (w = w')) as [<-|];
    [rewrite (decide_True (P:=w = w)) by done|by rewrite (decide_False (P:=w' = w))].
  unfold cget, cget_in, info in *. rewrite Hi; simpl. by destruct (opt (reverse o) k) as [[]|].
Qed.

Lemma state_of_configure t w o w' :
  is_Some (info t w) →
  state_of (configure w o t) w' =
    if decide (w = w') then state_from (state_of t w) (opt (reverse o) "state")
    else state_of t w'.
Proof.
  intros [i Hi]. unfold state_of. rewrite cget_configure.
  destruct (decide (w = w')) as [<-|];
    [rewrite (decide_True (P:=w = w)) by done|by rewrite (decide_False (P:=w' = w))].
  unfold cget, cget_in, info in *. rewrite Hi; simpl.
  destruct (opt (reverse o) _); [|done]. cbn [from_option state_from].
  by repeat case_decide; simplify_eq.
Qed.

Lemma complete_configure t w o : complete t → complete (configure w o t).
Proof.
  intros Ht w'. apply assoc_is_Some. cbn. rewrite adjust_keys. apply assoc_is_Some, Ht.
Qed.

(** A call that leaves the widgets alone. *)
Lemma complete_frame (f : toolkit → toolkit) t :
  (∀ t, widgets (f t) = widgets t) → complete t → complete (f t).
Proof. intros Hf Ht w. unfold info. rewrite Hf. apply Ht. Qed.

Lemma complete_if (b : bool) t t' : complete t → complete t' → complete (if b then t else t').
Proof. by destruct b. Qed.

Create HintDb tk discriminated.
#[export] Hint Resolve complete_configure complete_if : tk.
#[export] Hint Extern 2 (complete (_ _)) => apply complete_frame; [reflexivity|] : tk.

Lemma is_packed_pack t w o w' :
  is_packed (pack w o t) w' = bool_decide (w' = w) || is_packed t w'.
Proof.
  unfold is_packed; cbn. rewrite upsert_keys. destruct (decide (w' = w)) as [->|Hne].
  - rewrite (bool_decide_eq_true_2 (w = w)) by done. apply bool_decide_eq_true_2.
    case_decide; [done|]. apply elem_of_app; right. by left.
  - rewrite (bool_decide_eq_false_2 (w' = w)) by done. apply bool_decide_ext.
    case_decide; [done|]. rewrite elem_of_app, list_elem_of_singleton. by intuition.
Qed.

Lemma is_packed_pack_forget t w w' :
  is_packed (pack_forget w t) w' = negb (bool_decide (w' = w)) && is_packed t w'.
Proof.
  unfold is_packed; cbn. rewrite remove_keys. destruct (decide (w' = w)) as [->|Hne].
  - rewrite (bool_decide_eq_true_2 (w = w)) by done. apply bool_decide_eq_false_2.
    rewrite list_elem_of_filter. by intros [? _].
  - rewrite (bool_decide_eq_false_2 (w' = w)) by done. apply bool_decide_ext.
    rewrite list_elem_of_filter. by intuition.
Qed.

Lemma pack_names w o t :
  (packing (pack w o t)).*1
  = if decide (w ∈ (packing t).*1) then (packing t).*1 else (packing t).*1 ++ [w].
Proof. apply upsert_keys. Qed.

Lemma pack_forget_names w t :
  (packing (pack_forget w t)).*1 = filter (λ w', w' ≠ w) (packing t).*1.
Proof. apply remove_keys. Qed.

Lemma NoDup_pack w o t : NoDup (packing t).*1 → NoDup (packing (pack w o t)).*1.
Proof.
  intros Hnd. rewrite pack_names. case_decide; [done|].
  apply list.NoDup_app. split_and!; [done| |apply NoDup_singleton].
  intros w' Hw' ->%list_elem_of_singleton. done.
Qed.

Lemma NoDup_pack_forget w t : NoDup (packing t).*1 → NoDup (packing (pack_forget w t)).*1.
Proof. rewrite pack_forget_names. apply list.NoDup_filter. Qed.

(** ** What a call leaves alone *)

Lemma still_frame f :
  (∀ t, widgets (f t) = widgets t) → (∀ t, packing (f t) = packing t) → still f.
Proof. intros Hw Hp t. unfold skeleton. by rewrite Hw, Hp. Qed.

Lemma still_configure w o : still (configure w o).
Proof.
  intros t. split; [|done]. unfold skeleton, configure, adjust; cbn.
  rewrite <-list_fmap_compose. apply list_fmap_ext. intros ? [??] ?; simpl. by case_decide.
Qed.

Lemma still_compose f g : still f → still g → still (λ t, g (f t)).
Proof. intros Hf Hg t. destruct (Hf t) as [<- <-]. apply Hg. Qed.

Lemma still_run calls : Forall still calls → still (run calls).
Proof.
  unfold run. induction 1 as [|f calls Hf _ IH]; [done|].
  intros t. cbn [foldl]. destruct (Hf t) as [<- <-]. apply IH.
Qed.

Lemma still_try `{Tcl} ok f : still f → still (try_pass [or_raise ok f]).
Proof. intros Hf t. destruct (try_or_raise ok f t) as ([] & _ & ->); [apply Hf|done]. Qed.

#[export] Hint Resolve still_configure still_compose still_try : tk.
#[export] Hint Extern 1 (still _) => apply still_frame; reflexivity : tk.
#[export] Hint Extern 1 (still (run _)) => apply still_run; repeat constructor : tk.

Lemma complete_still f t : still f → complete t → complete (f t).
Proof.
  intros Hf Ht w. apply assoc_is_Some. rewrite <-skeleton_names, (proj1 (Hf t)), skeleton_names.
  apply assoc_is_Some, Ht.
Qed.

Lemma keeps_frame k f : (∀ t, widgets (f t) = widgets t) → keeps k f.
Proof. intros Hf t w. unfold cget. by rewrite Hf. Qed.

Lemma keeps_configure k w o : opt (reverse o) k = None → keeps k (configure w o).
Proof.
  intros Hk t w'. rewrite cget_configure, Hk. case_decide; [subst|done].
  unfold cget, cget_in, info. by destruct (assoc (widgets t) w).
Qed.

Lemma keeps_run k calls : Forall (keeps k) calls → keeps k (run calls).
Proof.
  unfold run. induction 1 as [|f calls Hf _ IH]; [done|].
  intros t w. cbn [foldl]. by rewrite IH.
Qed.

Lemma keeps_try `{Tcl} k ok f : keeps k f → keeps k (try_pass [or_raise ok f]).
Proof. intros Hf t w. destruct (try_or_raise ok f t) as ([] & _ & ->); [apply Hf|done]. Qed.

#[export] Hint Resolve keeps_configure keeps_try : tk.
#[export] Hint Extern 1 (keeps _ _) => apply keeps_frame; reflexivity : tk.
#[export] Hint Extern 1 (keeps _ (run _)) => apply keeps_run; repeat constructor : tk.
#[export] Hint Extern 1 (opt _ _ = None) => by vm_compute : tk.

Lemma state_of_keeps f t w : keeps "state" f → state_of (f t) w = state_of t w.
Proof. intros Hf. unfold state_of. by rewrite Hf. Qed.

Section tries.
Context `{Tcl}.

Lemma complete_try_stop t : complete t → complete (try_pass [stop_or_raise] t).
Proof. intros Ht. destruct (try_stop t) as (b & _ & ->). auto with tk. Qed.

Lemma still_try_stop : still (try_pass [stop_or_raise]).
Proof. apply still_try. auto with tk. Qed.

End tries.
