(* ===== verification/Threads.v ===== *)
(** * The window at work: the main loop and the thread of [on_run]

    src/app.py lines 613, 615-627, 695-701.  Two threads share the window:
    the main loop of Tk, which runs the callbacks registered with
    [app.after] one at a time, and the thread [on_run] starts, which runs
    [run_pipeline] and talks to the window through [safe_log] and
    [ui_yes_no] only.  The state of the two is [sys]; [step] is one move of
    either, or of the user, named by a [label].  The thread is the list of
    the calls of [safe_log] and [ui_yes_no] it still has to make
    ([actions], read off the events of its run); the rendezvous of
    [ui_yes_no] is the pair of [result_holder] and [gate]. *)

From stdpp Require Import gmap.
From S2P Require Import PyStr World Pipeline Markdown Gui.

(** ** The thread *)

(** A call of the window by the thread. *)
Inductive action : Type :=
| Log (msg : str) (is_markdown : bool)          (* [safe_log(msg, is_markdown=...)] *)
| Question (question : str) (log : list event). (* [ui_yes_no(question)], asked after [log] *)

(** The calls of the window among the events [new] that follow [log]. *)
Fixpoint actions (log new : list event) : list action :=
  match new with
  | [] => []
  | e :: new' =>
    let rest := actions (log ++ [e]) new' in
    match e with
    | UiLog msg is_markdown => Log msg is_markdown :: rest
    | Asked question => Question question log :: rest
    | _ => rest
    end
  end.

Inductive thread : Type :=
| Stopped                        (* there is no thread *)
| Working (todo : list action)   (* at work, with these calls to come *)
| Waiting (todo : list action).  (* in [gate.wait()] *)

(** ** The system *)

Record sys : Type := Sys {
  s_window : window;
  s_thread : thread;
  (** Lines 616-617 of the call of [ui_yes_no] in progress. *)
  result_holder : bool;
  gate : bool;
  (** The files and the log of the run. *)
  s_world : world;
  (** What the calls of [ui_yes_no] returned so far. *)
  s_answers : list bool;
}.

Inductive label : Type :=
| Click            (* the user presses [Run] *)
| Edit (f : form)  (* the user changes the form *)
| Browse (d : str) (* the user presses [Browse...] and leaves the dialog with [d] *)
| Clear            (* the user presses [Clear Output] *)
| Idle             (* the main loop runs the oldest callback of [after(0, ...)] *)
| Timer            (* the main loop runs the oldest callback of [after(300, ...)] *)
| Thread.          (* the thread makes its next call *)

Definition set_window (w : window) (s : sys) : sys :=
  Sys w (s_thread s) (result_holder s) (gate s) (s_world s) (s_answers s).

Definition set_after_idle (q : list callback) (w : window) : window :=
  Window (w_form w) (is_running w) (w_header w) (w_controls w) (w_out w) q (after_timer w).

Definition set_after_timer (q : list callback) (w : window) : window :=
  Window (w_form w) (is_running w) (w_header w) (w_controls w) (w_out w) (after_idle w) q.

(** Line 495: [clear_output]. *)
Definition clear_output (w : window) : window :=
  Window (w_form w) (is_running w) (w_header w) (w_controls w) [] (after_idle w) (after_timer w).

(** Line 697: the thread that [on_run] starts on the job [j]. *)
Definition start_thread `{Unicode, Env, Tk} (j : job) (w : window) (s : sys) : sys :=
  let world' := (worker j (s_world s)).2 in
  let new := drop (length (w_log (s_world s))) (w_log world') in
  Sys w (Working (actions (w_log (s_world s)) new)) (result_holder s) (gate s) world'
      (s_answers s).

(** The main loop calls [f]: lines 618-624 for [ask], which sets the
    gate. *)
Definition call `{Unicode, Tk} (f : callback) (s : sys) : sys :=
  let w := run_callback f (s_window s) in
  match f with
  | Ask question log =>
    Sys w (s_thread s) (ask log question) true (s_world s) (s_answers s)
  | _ => set_window w s
  end.

(** The next call of the thread: [safe_log] (line 613), [ui_yes_no] up to
    [gate.wait()] (lines 616-626), its return (line 627), and the end of
    the thread (line 695). *)
Definition thread_step (s : sys) : option sys :=
  let w := s_window s in
  match s_thread s with
  | Stopped => None
  | Working [] =>
    Some (Sys (after_0 (SetRunning false) w) Stopped (result_holder s) (gate s) (s_world s)
              (s_answers s))
  | Working (Log msg is_markdown :: todo) =>
    Some (Sys (safe_log msg None is_markdown w) (Working todo) (result_holder s) (gate s)
              (s_world s) (s_answers s))
  | Working (Question question log :: todo) =>
    Some (Sys (after_0 (Ask question log) w) (Waiting todo) false false (s_world s)
              (s_answers s))
  | Waiting todo =>
    if gate s
    then Some (Sys w (Working todo) (result_holder s) (gate s) (s_world s)
                   (s_answers s ++ [result_holder s]))
    else None
  end.

(** One move.  A disabled button or entry does not react. *)
Definition step `{Unicode, Env, Tk} (l : label) (s : sys) : option sys :=
  let w := s_window s in
  match l with
  | Click =>
    if decide (inputs_state (w_controls w) = state_normal) then
      match on_run w with
      | (w', Some j) => Some (start_thread j w' s)
      | (w', None) => Some (set_window w' s)
      end
    else None
  | Edit f =>
    if decide (inputs_state (w_controls w) = state_normal)
    then Some (set_window (set_form f w) s) else None
  | Browse d =>
    if decide (inputs_state (w_controls w) = state_normal)
    then Some (set_window (browse d w) s) else None
  | Clear => Some (set_window (clear_output w) s)
  | Idle =>
    match after_idle w with
    | f :: rest => Some (call f (set_window (set_after_idle rest w) s))
    | [] => None
    end
  | Timer =>
    match after_timer w with
    | f :: rest => Some (call f (set_window (set_after_timer rest w) s))
    | [] => None
    end
  | Thread => thread_step s
  end.

(** A sequence of moves. *)
Fixpoint steps `{Unicode, Env, Tk} (ls : list label) (s : sys) : option sys :=
  match ls with
  | [] => Some s
  | l :: ls' =>
    match step l s with
    | Some s' => steps ls' s'
    | None => None
    end
  end.

(** Line 701: the window when the main loop starts. *)
Definition initial (world : world) : sys := Sys initial_window Stopped false false world [].

(** The states the window can be in. *)
Inductive reachable `{Unicode, Env, Tk} (world : world) : sys → Prop :=
| reachable_initial : reachable world (initial world)
| reachable_step s l s' : reachable world s → step l s = Some s' → reachable world s'.

(** ** What the theorems speak of *)

(** A move of the program, not of the user or of the clock. *)
Definition internal (l : label) : bool :=
  match l with Idle | Thread => true | _ => false end.

Definition is_ask (f : callback) : bool := if f is Ask _ _ then true else false.
Definition is_stop (f : callback) : bool := if f is SetRunning false then true else false.
Definition is_pulse (f : callback) : bool := if f is Pulse _ then true else false.

(** What [after(0, ...)] is given: [append], [ask], [set_running(False)]. *)
Definition idle_callback (f : callback) : bool :=
  match f with
  | Append _ _ _ | Ask _ _ | SetRunning false => true
  | _ => false
  end.

Fixpoint count {A} (p : A → bool) (l : list A) : nat :=
  match l with
  | [] => 0
  | x :: l' => (if p x then 1 else 0) + count p l'
  end.

(** The state is consistent: the window is, the queues hold what is
    registered with them, a thread is alive only while the window runs, a
    window that runs without a thread has its release queued, and a thread
    that waits has its question queued or its gate open. *)
Definition sys_ok (s : sys) : Prop :=
  let w := s_window s in
  window_ok w ∧
  forallb idle_callback (after_idle w) = true ∧
  forallb is_pulse (after_timer w) = true ∧
  match s_thread s with
  | Stopped =>
    count is_ask (after_idle w) = 0 ∧
    count is_stop (after_idle w) = (if is_running w then 1 else 0)
  | Working _ =>
    count is_ask (after_idle w) = 0 ∧ count is_stop (after_idle w) = 0 ∧ is_running w = true
  | Waiting _ =>
    count is_ask (after_idle w) = (if gate s then 0 else 1) ∧
    count is_stop (after_idle w) = 0 ∧ is_running w = true
  end.

(** The work that is left: the calls of the thread and the callbacks
    queued. *)
Definition work (s : sys) : nat :=
  length (after_idle (s_window s)) +
  match s_thread s with
  | Stopped => 0
  | Working todo => 3 * length todo + 2
  | Waiting todo => 3 * length todo + 3
  end.

(** A move that is not the user's. *)
Definition program (l : label) : bool :=
  match l with Idle | Timer | Thread => true | _ => false end.

(** Nothing is left to do. *)
Definition quiet (s : sys) : Prop :=
  s_thread s = Stopped ∧ after_idle (s_window s) = [].

(** What a callback does to the text widget. *)
Definition callback_out `{Unicode} (f : callback) (out : list insert) : list insert :=
  if f is Append msg tag is_markdown then append msg tag is_markdown out else out.

(** The text widget once the callbacks of a queue have run. *)
Definition shown_queue `{Unicode} (q : list callback) (out : list insert) : list insert :=
  foldl (λ out f, callback_out f out) out q.

(** The text widget once the calls of a thread have been made and run. *)
Definition shown_actions `{Unicode} (todo : list action) (out : list insert) : list insert :=
  foldl (λ out a, if a is Log msg is_markdown then append msg None is_markdown out else out)
        out todo.

(** What the text widget will hold when everything has run. *)
Definition future `{Unicode} (s : sys) : list insert :=
  shown_actions (match s_thread s with Stopped => [] | Working todo | Waiting todo => todo end)
                (shown_queue (after_idle (s_window s)) (w_out (s_window s))).

(** The two files a run from the window exports to. *)
Definition exports : list str := [lit "project_review.xlsx"; json_path].

(** The user does not tick [Apply all fixes automatically]. *)
Definition careful (l : label) : bool :=
  if l is Edit f then negb (apply_all_var f) else true.

(** The box is not ticked, and every file but the exports is as it was in
    [world]. *)
Definition sources_kept (world : world) (s : sys) : Prop :=
  apply_all_var (w_form (s_window s)) = false ∧
  agree_outside exports (w_fs (s_world s)) (w_fs world).

(** ** Concrete runs *)

(** A user who declines every dialog. *)
Definition ex_tk_no : Tk := {| tk_loaded := true; askyesno := λ _ _, Some false |}.

(** A review of the example project, with fixes to be confirmed. *)
Definition ex_form : form := Form (lit "proj") false true false [] (Some 1000%Z).

(** A review only. *)
Definition ex_form_review : form := Form (lit " proj ") false false false [] (Some 1000%Z).

(** The state when the thread has asked its first question. *)
Definition ex_asked : sys :=
  default (initial ex_project)
    (@steps ascii_unicode ex_env ex_tk ([Edit ex_form; Click] ++ replicate 9 Thread)
       (initial ex_project)).

(** The form is filled for a review. *)
Definition ex_filled : sys :=
  default (initial ex_project)
    (@steps ascii_unicode ex_env ex_tk [Edit ex_form_review] (initial ex_project)).

Example ex_asked_waits :
  s_thread ex_asked ≠ Stopped ∧ gate ex_asked = false ∧
  length (after_idle (s_window ex_asked)) = 9 ∧
  (λ f, if f is Ask question _ then question else []) <$> list.last (after_idle (s_window ex_asked))
    = Some (lit "Apply suggested changes to proj/a.py?").
Proof. by vm_compute. Qed.

(** ** Lemmas *)

Lemma count_app {A} (p : A → bool) l k : count p (l ++ k) = count p l + count p k.
Proof. induction l as [|x l IH]; simpl; [done|]. rewrite IH. lia. Qed.

(** What the operations of the window leave alone. *)
Lemma pulse_header_frame step w :
  is_running (pulse_header step w) = is_running w ∧
  after_idle (pulse_header step w) = after_idle w ∧
  w_out (pulse_header step w) = w_out w ∧
  w_form (pulse_header step w) = w_form w ∧
  (forallb is_pulse (after_timer w) = true →
   forallb is_pulse (after_timer (pulse_header step w)) = true).
Proof.
  unfold pulse_header. destruct (is_running w) eqn:Hr; simpl; split_and!; try done.
  intros Hq. by rewrite forallb_app, Hq.
Qed.

Lemma set_running_frame running w :
  is_running (set_running running w) = running ∧
  after_idle (set_running running w) = after_idle w ∧
  w_out (set_running running w) = w_out w ∧
  w_form (set_running running w) = w_form w ∧
  (forallb is_pulse (after_timer w) = true →
   forallb is_pulse (after_timer (set_running running w)) = true).
Proof.
  unfold set_running. destruct running; [|done].
  match goal with |- context [pulse_header 0 ?w'] =>
    destruct (pulse_header_frame 0 w') as (-> & -> & -> & -> & Hq) end.
  by split_and!.
Qed.

Lemma window_ok_not_running w :
  window_ok w → inputs_state (w_controls w) = state_normal → is_running w = false.
Proof.
  intros [Hlook _] Hn. destruct (is_running w); [|done].
  destruct Hlook as [Hc _]. by rewrite Hc in Hn.
Qed.

Section system.
Context `{Unicode, Env, Tk}.

Lemma run_callback_frame f w :
  idle_callback f = true ∨ is_pulse f = true →
  after_idle (run_callback f w) = after_idle w ∧
  w_form (run_callback f w) = w_form w ∧
  w_out (run_callback f w) = callback_out f (w_out w) ∧
  is_running (run_callback f w) = (if is_stop f then false else is_running w) ∧
  (forallb is_pulse (after_timer w) = true →
   forallb is_pulse (after_timer (run_callback f w)) = true).
Proof.
  destruct f as [msg tag md|q log|n|[]]; simpl; try done; intros Hf.
  - destruct (pulse_header_frame n w) as (? & ? & ? & ? & ?). by split_and!.
  - by destruct Hf.
Qed.

(** The thread of a consistent state, by the counts of the queue. *)
Lemma sys_ok_thread s :
  sys_ok s →
  match s_thread s with
  | Stopped => True
  | _ => is_running (s_window s) = true
  end.
Proof. intros (_ & _ & _ & Ht). by destruct (s_thread s); destruct_and?. Qed.

Lemma step_click_ok s s' : sys_ok s → step Click s = Some s' → sys_ok s'.
Proof.
  intros (Hw & Hq & Ht & Hth). cbn [step]. case_decide as Hn; [|done].
  pose proof (window_ok_not_running _ Hw Hn) as Hr. pose proof (on_run_ok _ Hw) as Hw'.
  assert (s_thread s = Stopped) as Hs.
  { destruct (s_thread s); [done|destruct Hth as (_ & _ & ?); congruence..]. }
  rewrite Hs, Hr in Hth. destruct Hth as [Hask Hstop].
  destruct (on_run_cases (s_window s)) as [(f & j & Hrun)|(f & msg & Hrun)];
    rewrite Hrun in Hw' |- *; intros [= <-]; cbn [fst] in Hw'.
  - destruct (set_running_frame true (set_form f (s_window s))) as (Hr' & Hq' & _ & _ & Ht').
    unfold sys_ok, start_thread. cbn [s_window s_thread].
    rewrite Hq', Hr'.
    split_and!; try done. by apply Ht'.
  - unfold sys_ok, safe_log. cbn [s_window s_thread set_window after_0 after_idle after_timer
      is_running set_form]. rewrite Hs, Hr, forallb_app, !count_app, Hq, Hask, Hstop.
    by split_and!.
Qed.

(** What a call by the main loop changes. *)
Lemma call_frame f s :
  idle_callback f = true ∨ is_pulse f = true →
  s_thread (call f s) = s_thread s ∧
  after_idle (s_window (call f s)) = after_idle (s_window s) ∧
  gate (call f s) = (if is_ask f then true else gate s) ∧
  is_running (s_window (call f s)) = (if is_stop f then false else is_running (s_window s)) ∧
  (window_ok (s_window s) → window_ok (s_window (call f s))) ∧
  (forallb is_pulse (after_timer (s_window s)) = true →
   forallb is_pulse (after_timer (s_window (call f s))) = true).
Proof.
  intros Hf. destruct (run_callback_frame f (s_window s) Hf) as (Hq & _ & _ & Hr & Ht).
  assert (s_window (call f s) = run_callback f (s_window s)) as -> by by destruct f.
  split_and!; [by destruct f|done|by destruct f|done|apply run_callback_ok|done].
Qed.

Lemma step_idle_ok s s' : sys_ok s → step Idle s = Some s' → sys_ok s'.
Proof.
  intros (Hw & Hq & Ht & Hth). cbn [step].
  destruct (after_idle (s_window s)) as [|f q] eqn:Hf; [done|]. intros [= <-].
  cbn [forallb] in Hq. apply andb_true_iff in Hq as [Hf' Hq].
  destruct (call_frame f (set_window (set_after_idle q (s_window s)) s) (or_introl Hf'))
    as (Hth' & Hq' & Hg' & Hr' & Hw' & Ht').
  unfold sys_ok. rewrite Hth', Hq', Hg', Hr'. cbn [s_window set_window s_thread gate] in *.
  split_and!; [by apply Hw'|done|by apply Ht'|]. cbn [count] in Hth.
  destruct f as [msg tag md|question log|n|[]]; try done; simpl in *;
    destruct (s_thread s), (gate s), (is_running (s_window s)); destruct_and?;
    split_and?; try done; lia.
Qed.

Lemma step_timer_ok s s' : sys_ok s → step Timer s = Some s' → sys_ok s'.
Proof.
  intros (Hw & Hq & Ht & Hth). cbn [step].
  destruct (after_timer (s_window s)) as [|f q] eqn:Hf; [done|]. intros [= <-].
  cbn [forallb] in Ht. apply andb_true_iff in Ht as [Hf' Ht].
  destruct (call_frame f (set_window (set_after_timer q (s_window s)) s) (or_intror Hf'))
    as (Hth' & Hq' & Hg' & Hr' & Hw' & Ht').
  unfold sys_ok. rewrite Hth', Hq', Hg', Hr'. cbn [s_window set_window s_thread gate] in *.
  split_and!; [by apply Hw'|done|by apply Ht'|].
  by destruct f as [msg tag md|question log|n|[]].
Qed.

Lemma step_thread_ok s s' : sys_ok s → step Thread s = Some s' → sys_ok s'.
Proof.
  intros (Hw & Hq & Ht & Hth). simpl. unfold thread_step.
  destruct (s_thread s) as [|[|[msg md|question log] todo]|todo]; [done|..];
    [| | |destruct (gate s) eqn:Hg; [|done]]; intros [= <-];
    (split_and!; [done| |done|]); simpl;
    rewrite ?forallb_app, ?count_app, ?Hq; simpl; destruct_and?; try done;
    split_and?; try done; try lia.
  by destruct (is_running (s_window s)); [lia|].
Qed.

Lemma step_ok l s s' : sys_ok s → step l s = Some s' → sys_ok s'.
Proof.
  destruct l as [|f|d| | | |];
    [apply step_click_ok| | | |apply step_idle_ok|apply step_timer_ok|apply step_thread_ok].
  - intros Hs. simpl. case_decide; [|done]. by intros [= <-].
  - intros Hs. simpl. case_decide; [|done]. intros [= <-]. unfold browse.
    by destruct (nonempty d).
  - intros Hs [= <-]. done.
Qed.

Lemma initial_ok world : sys_ok (initial world).
Proof. split_and!; try done. apply initial_window_ok. Qed.

Lemma reachable_ok world s : reachable world s → sys_ok s.
Proof. induction 1 as [|s l s' _ IH Hstep]; [apply initial_ok|by eapply step_ok]. Qed.

Lemma steps_app ls ls' s :
  steps (ls ++ ls') s = s' ← steps ls s; steps ls' s'.
Proof.
  revert s. induction ls as [|l ls IH]; intros s; [done|]. cbn [steps app].
  destruct (step l s); [apply IH|done].
Qed.

Lemma reachable_steps world ls s s' : reachable world s → steps ls s = Some s' → reachable world s'.
Proof.
  revert s. induction ls as [|l ls IH]; intros s Hs; cbn [steps]; [by intros [= <-]|].
  destruct (step l s) as [s1|] eqn:Hstep; [|done]. apply IH. by eapply reachable_step.
Qed.

(** ** The work left goes down *)

Lemma run_callback_after_idle f w : after_idle (run_callback f w) = after_idle w.
Proof.
  destruct f as [msg tag md|q log|n|b]; simpl; [done|done|apply pulse_header_frame|
    apply set_running_frame].
Qed.

Lemma run_callback_out f w : w_out (run_callback f w) = callback_out f (w_out w).
Proof.
  destruct f as [msg tag md|q log|n|b]; simpl; [done|done|apply pulse_header_frame|
    apply set_running_frame].
Qed.

Lemma call_window f s : s_window (call f s) = run_callback f (s_window s).
Proof. by destruct f. Qed.

Lemma call_thread f s : s_thread (call f s) = s_thread s.
Proof. by destruct f. Qed.

Lemma step_work l s s' : internal l = true → step l s = Some s' → work s' < work s.
Proof.
  destruct l; try done; intros _; cbn [step].
  - destruct (after_idle (s_window s)) as [|f q] eqn:Hq; [done|]. intros [= <-].
    unfold work. rewrite call_window, call_thread, run_callback_after_idle, Hq. simpl. lia.
  - unfold thread_step, work.
    destruct (s_thread s) as [|[|[msg md|question log] todo]|todo]; [done|..];
      [| | |destruct (gate s); [|done]]; intros [= <-]; simpl; rewrite ?length_app; simpl; lia.
Qed.

Lemma steps_work ls s s' :
  forallb internal ls = true → steps ls s = Some s' → length ls + work s' ≤ work s.
Proof.
  revert s. induction ls as [|l ls IH]; intros s; cbn [steps forallb length].
  { intros _ [= <-]. lia. }
  intros [Hl Hls]%andb_true_iff. destruct (step l s) as [s1|] eqn:Hstep; [|done].
  intros Hs'. pose proof (step_work _ _ _ Hl Hstep). specialize (IH _ Hls Hs'). lia.
Qed.

(** A consistent state with work left can move: the thread is never
    stuck in [gate.wait()] with no question queued. *)
Lemma progress s : sys_ok s → 0 < work s → ∃ l s', internal l = true ∧ step l s = Some s'.
Proof.
  intros (_ & _ & _ & Hth) Hwork. unfold work in Hwork.
  destruct (after_idle (s_window s)) as [|f q] eqn:Hq.
  - exists Thread. cbn [step]. unfold thread_step.
    destruct (s_thread s) as [|[|[msg md|question log] todo]|todo]; simpl in *; [lia|eauto..|].
    destruct Hth as [Hask _]. destruct (gate s); [eauto|done].
  - exists Idle. cbn [step]. rewrite Hq. eauto.
Qed.

(** With no work left the window is released. *)
Lemma work_0_released s :
  sys_ok s → work s = 0 →
  quiet s ∧ is_running (s_window s) = false ∧ idle_look (s_window s).
Proof.
  intros (Hw & _ & _ & Hth) Hwork. unfold work in Hwork.
  destruct (after_idle (s_window s)) as [|f q] eqn:Hq; [|simpl in Hwork; lia].
  destruct (s_thread s) eqn:Ht; [|simpl in Hwork; lia..].
  destruct Hth as [_ Hstop]. destruct Hw as [Hlook _].
  destruct (is_running (s_window s)); [done|]. by split_and!.
Qed.

End system.

(** ** The rendezvous of [ui_yes_no] *)

Lemma count_split {A} (p : A → bool) l :
  0 < count p l →
  ∃ pre x post, l = pre ++ x :: post ∧ p x = true ∧ forallb (λ y, negb (p y)) pre = true.
Proof.
  induction l as [|y l IH]; simpl; [lia|]. destruct (p y) eqn:Hy.
  - intros _. by exists [], y, l.
  - intros (pre & x & post & -> & Hx & Hpre)%IH. exists (y :: pre), x, post.
    simpl. by rewrite Hy.
Qed.

Section rendezvous.
Context `{Unicode, Env, Tk}.

Lemma call_other f s :
  is_ask f = false →
  gate (call f s) = gate s ∧ result_holder (call f s) = result_holder s ∧
  s_answers (call f s) = s_answers s.
Proof. by destruct f. Qed.

(** The main loop runs the callbacks queued before a question. *)
Lemma steps_idle_prefix pre rest s :
  after_idle (s_window s) = pre ++ rest → forallb (λ f, negb (is_ask f)) pre = true →
  ∃ s1, steps (replicate (length pre) Idle) s = Some s1 ∧
    after_idle (s_window s1) = rest ∧ s_thread s1 = s_thread s ∧ gate s1 = gate s ∧
    s_answers s1 = s_answers s ∧ w_out (s_window s1) = shown_queue pre (w_out (s_window s)).
Proof.
  revert s. induction pre as [|f pre IH]; intros s Hq; cbn [forallb length replicate steps].
  { intros _. by exists s. }
  intros [Hf%negb_true_iff Hpre]%andb_true_iff. cbn [step]. rewrite Hq. cbn [app].
  set (s0 := call f _). destruct (call_other f (set_window (set_after_idle (pre ++ rest)
    (s_window s)) s) Hf) as (Hg & _ & Ha).
  destruct (IH s0) as (s1 & Hsteps & Hrest & Hth & Hg1 & Ha1 & Hout); [|done|].
  { unfold s0. by rewrite call_window, run_callback_after_idle. }
  exists s1. split_and!; [done..| | | |].
  - by rewrite Hth; unfold s0; rewrite call_thread.
  - by rewrite Hg1.
  - by rewrite Ha1.
  - rewrite Hout. unfold s0. by rewrite call_window, run_callback_out.
Qed.

(** The main loop runs [ask], and the thread goes on with the answer. *)
Lemma steps_answer question log post todo s :
  after_idle (s_window s) = Ask question log :: post → s_thread s = Waiting todo →
  ∃ s', steps [Idle; Thread] s = Some s' ∧ s_thread s' = Working todo ∧
    s_answers s' = s_answers s ++ [ask log question] ∧ w_out (s_window s') = w_out (s_window s).
Proof.
  destruct s as [w th h g wd ans]. simpl. intros Hq ->. rewrite Hq. simpl. by eexists.
Qed.

End rendezvous.

(** ** What the widget will hold *)

Section future.
Context `{Unicode, Env, Tk}.

Lemma shown_queue_snoc q f out : shown_queue (q ++ [f]) out = callback_out f (shown_queue q out).
Proof. unfold shown_queue. by rewrite foldl_app. Qed.

Lemma shown_actions_actions log new out : shown_actions (actions log new) out = shown new out.
Proof.
  revert log out. induction new as [|e new IH]; intros log out; [done|].
  cbn [actions]. destruct e; cbn [shown_actions shown foldl]; apply IH.
Qed.

(** No move of the program changes what the widget will hold. *)
Lemma step_future l s s' :
  sys_ok s → program l = true → step l s = Some s' → future s' = future s.
Proof.
  intros (_ & _ & Ht & _). destruct l; try done; intros _; cbn [step].
  - destruct (after_idle (s_window s)) as [|f q] eqn:Hq; [done|]. intros [= <-].
    unfold future. by rewrite call_thread, call_window, run_callback_after_idle,
      run_callback_out, Hq.
  - destruct (after_timer (s_window s)) as [|f q] eqn:Hq; [done|]. intros [= <-].
    unfold future. rewrite call_thread, call_window, run_callback_after_idle, run_callback_out.
    by destruct f.
  - unfold thread_step, future.
    destruct (s_thread s) as [|[|[msg md|question log] todo]|todo]; [done|..];
      [| | |destruct (gate s); [|done]]; intros [= <-]; cbn [s_thread s_window];
      try done; unfold safe_log; cbn [after_0 after_idle w_out]; by rewrite shown_queue_snoc.
Qed.

Lemma steps_future ls s s' :
  sys_ok s → forallb program ls = true → steps ls s = Some s' → future s' = future s.
Proof.
  revert s. induction ls as [|l ls IH]; intros s Hs; cbn [steps forallb]; [by intros _ [= <-]|].
  intros [Hl Hls]%andb_true_iff. destruct (step l s) as [s1|] eqn:Hstep; [|done].
  intros Hs'. rewrite (IH s1), (step_future l s s1); try done. by eapply step_ok.
Qed.

Lemma future_quiet s : quiet s → future s = w_out (s_window s).
Proof. intros [Ht Hq]. unfold future. by rewrite Ht, Hq. Qed.

End future.

(** ** The sources of a careful user *)

Section sources.
Context `{Unicode, Env, Tk}.

Lemma run_callback_form f w : w_form (run_callback f w) = w_form w.
Proof.
  destruct f as [msg tag md|q log|n|running]; cbn [run_callback]; try done.
  - by destruct (pulse_header_frame n w) as (_ & _ & _ & ? & _).
  - by destruct (set_running_frame running w) as (_ & _ & _ & ? & _).
Qed.

Lemma call_world f s : s_world (call f s) = s_world s.
Proof. by destruct f. Qed.

(** [on_run] reads the box and leaves it as it is. *)
Lemma on_run_apply_all w :
  apply_all_var (w_form (on_run w).1) = apply_all_var (w_form w) ∧
  ∀ j, (on_run w).2 = Some j → j_apply_all j = apply_all_var (w_form w).
Proof.
  unfold on_run. destruct (read_form (w_form w)) as [j f] eqn:Hr.
  assert (j_apply_all j = apply_all_var (w_form w) ∧
          apply_all_var f = apply_all_var (w_form w)) as [Hj Hf].
  { unfold read_form in Hr. destruct (maxchars_var (w_form w)); by injection Hr as <- <-. }
  destruct (negb (nonempty (j_folder j))); cbn [fst snd].
  - split; [done|by intros ? [=]].
  - destruct (set_running_frame true (set_form f w)) as (_ & _ & _ & -> & _).
    split; [done|by intros ? [= <-]].
Qed.

Lemma step_sources_kept world l s s' :
  (∀ log q, askyesno log q ≠ Some true) → careful l = true →
  sources_kept world s → step l s = Some s' → sources_kept world s'.
Proof.
  intros Hno Hl [Ha Hfs]. destruct l as [|f|d| | | |]; cbn [step].
  - case_decide; [|done]. destruct (on_run_apply_all (s_window s)) as [Hf Hj].
    destruct (on_run (s_window s)) as [w' [j|]]; intros [= <-];
      (split; [cbn in *; congruence|]); [|done].
    unfold start_thread. cbn [s_world]. rewrite <-Hfs.
    apply fs_frame_agree, worker_no_consent; [|done]. by rewrite (Hj j eq_refl).
  - case_decide; [|done]. intros [= <-]. split; [|done]. by apply negb_true_iff.
  - case_decide; [|done]. intros [= <-]. split; [|done]. unfold browse.
    by destruct (nonempty d).
  - by intros [= <-].
  - destruct (after_idle (s_window s)); [done|]. intros [= <-]. split.
    + by rewrite call_window, run_callback_form.
    + by rewrite call_world.
  - destruct (after_timer (s_window s)); [done|]. intros [= <-]. split.
    + by rewrite call_window, run_callback_form.
    + by rewrite call_world.
  - unfold thread_step.
    destruct (s_thread s) as [|[|[msg md|question log] todo]|todo]; [done|..];
      [| | |destruct (gate s); [|done]]; by intros [= <-].
Qed.

Lemma steps_sources_kept world ls s s' :
  (∀ log q, askyesno log q ≠ Some true) → forallb careful ls = true →
  sources_kept world s → steps ls s = Some s' → sources_kept world s'.
Proof.
  intros Hno. revert s. induction ls as [|l ls IH]; intros s; cbn [steps forallb].
  { by intros _ ? [= <-]. }
  intros [Hl Hls]%andb_true_iff Hs. destruct (step l s) as [s1|] eqn:Hstep; [|done].
  apply IH; [done|]. by eapply step_sources_kept.
Qed.

End sources.

(** ** The queue of the pulse *)

Section pulse.
Context `{Unicode, Env, Tk}.

Lemma pulse_header_timer n w :
  after_timer (pulse_header n w)
  = if is_running w then after_timer w ++ [Pulse (n + 1)] else after_timer w.
Proof. unfold pulse_header. by destruct (is_running w). Qed.

Lemma set_running_timer running w :
  after_timer (set_running running w)
  = after_timer w ++ (if running then [Pulse 1] else []).
Proof.
  unfold set_running. destruct running; [by rewrite pulse_header_timer|].
  cbn [after_timer]. by rewrite app_nil_r.
Qed.

Lemma run_callback_timer f w :
  idle_callback f = true → after_timer (run_callback f w) = after_timer w.
Proof.
  by destruct f as [msg tag md|q log|n|[]].
Qed.

Lemma on_run_timer w :
  after_timer (on_run w).1
  = after_timer w ++ (if (on_run w).2 is Some _ then [Pulse 1] else []).
Proof.
  destruct (on_run_cases w) as [(f & j & ->)|(f & msg & ->)]; cbn [fst snd].
  - by rewrite set_running_timer.
  - cbn. by rewrite app_nil_r.
Qed.

End pulse.

(** ** Theorems *)

Section theorems.
Context `{Unicode, Env, Tk}.

(** C22: one thread at a time: [Run] reacts only when no thread of an
    earlier run is alive and the window does not run; while a thread is
    alive the controls are disabled. *)
Theorem one_thread_at_a_time world s s' :
  reachable world s → step Click s = Some s' →
  s_thread s = Stopped ∧ is_running (s_window s) = false.
Proof.
  intros (Hw & _ & _ & Hth)%reachable_ok. cbn [step]. case_decide as Hn; [|done]. intros _.
  pose proof (window_ok_not_running _ Hw Hn) as Hr. split; [|done].
  destruct (s_thread s); [done|destruct Hth as (_ & _ & ?); congruence..].
Qed.

(** C13: a run ends and the window is released, whatever the order in
    which the thread and the main loop move: from a state the window can be
    in, moves of the program are at most [work] many; as long as work is
    left one of the two can move (the thread never waits for a question
    that is not queued); and when no work is left there is no thread, the
    queue is empty and the window is idle again with its controls
    enabled. *)
Theorem run_ends world s ls s' :
  reachable world s → forallb internal ls = true → steps ls s = Some s' →
  length ls + work s' ≤ work s ∧
  (0 < work s' → ∃ l s'', internal l = true ∧ step l s' = Some s'') ∧
  (work s' = 0 → quiet s' ∧ is_running (s_window s') = false ∧ idle_look (s_window s')).
Proof.
  intros Hs Hls Hsteps. pose proof (reachable_ok _ _ (reachable_steps _ _ _ _ Hs Hsteps)) as Hok.
  split_and!; [by apply steps_work|by apply progress|by apply work_0_released].
Qed.

(** C16: [ui_yes_no] returns, with the answer of the dialog: when the
    thread waits at the gate its question is in the queue; once the main
    loop has run the callbacks queued before it, which puts everything the
    thread logged before the question into the widget, and the question
    itself, the thread goes on with what [askyesno] answered, or with
    [False] when the dialog failed. *)
Theorem ui_yes_no_answered world s todo :
  reachable world s → s_thread s = Waiting todo → gate s = false →
  ∃ pre question log post s',
    after_idle (s_window s) = pre ++ Ask question log :: post ∧
    steps (replicate (length pre) Idle ++ [Idle; Thread]) s = Some s' ∧
    s_thread s' = Working todo ∧
    s_answers s' = s_answers s ++ [ui_yes_no log question] ∧
    w_out (s_window s') = shown_queue pre (w_out (s_window s)).
Proof.
  intros (_ & _ & _ & Hth)%reachable_ok Ht Hg. rewrite Ht, Hg in Hth. destruct Hth as (Hask & _).
  destruct (count_split is_ask (after_idle (s_window s))) as (pre & f & post & Hq & Hf & Hpre);
    [lia|]. destruct f as [| question log| |]; try done.
  destruct (steps_idle_prefix pre (Ask question log :: post) s Hq Hpre)
    as (s1 & Hsteps & Hq1 & Ht1 & _ & Ha1 & Hout).
  destruct (steps_answer question log post todo s1 Hq1) as (s' & Hsteps' & Ht' & Ha' & Hout');
    [congruence|].
  exists pre, question, log, post, s'. rewrite steps_app, Hsteps. cbn [mbind option_bind].
  split_and!; [done..|by rewrite Ha', Ha1|congruence].
Qed.

(** C15: the window shows the log of the run: after [Run], whatever the
    order of the moves of the thread, of the main loop and of the pulse,
    once nothing is left to do the text widget holds what the callbacks
    queued before gave it, followed by every message the thread logged, in
    the order of the log, each rendered as [safe_log] renders it. *)
Theorem window_shows_log world s j s1 ls s' :
  reachable world s → step Click s = Some s1 → (on_run (s_window s)).2 = Some j →
  forallb program ls = true → steps ls s1 = Some s' → quiet s' →
  w_out (s_window s')
  = shown (drop (length (w_log (s_world s))) (w_log (worker j (s_world s)).2))
          (shown_queue (after_idle (s_window s)) (w_out (s_window s))).
Proof.
  intros Hs Hclick Hj Hls Hsteps Hquiet.
  rewrite <-(future_quiet _ Hquiet), (steps_future ls s1 s');
    [|by eapply reachable_ok, reachable_step|done..].
  revert Hclick. cbn [step]. case_decide; [|done].
  destruct (on_run_cases (s_window s)) as [(f & j' & Hrun)|(f & msg & Hrun)];
    rewrite Hrun in Hj |- *; [|done]. simplify_eq/=. intros [= <-].
  destruct (set_running_frame true (set_form f (s_window s))) as (_ & Hq & Hout & _).
  unfold future, start_thread. cbn [s_thread s_window]. by rewrite shown_actions_actions, Hq, Hout.
Qed.

(** C14: the sources of a careful user are safe: when the box [Apply all
    fixes automatically] is never ticked and every dialog is declined (or
    fails), then after any sequence of moves of the user, the main loop and
    the threads, every file but the two exports is what it was when the
    window opened. *)
Theorem declined_keeps_sources world ls s p :
  (∀ log q, askyesno log q ≠ Some true) → forallb careful ls = true →
  steps ls (initial world) = Some s → p ∉ exports →
  w_fs (s_world s) !! p = w_fs world !! p.
Proof.
  intros Hno Hls Hsteps. by apply (steps_sources_kept world ls (initial world) s Hno Hls).
Qed.

(** C40: the queue of [after(300, ...)], move by move: a press of [Run]
    that starts a run adds a pulse; the main loop takes the oldest pulse and,
    while the window runs, queues its successor, whatever the number of
    pulses at work; no other move touches the queue.  So a pulse ends only
    at a moment when the window does not run, and every run that starts
    before that moment adds another one. *)
Theorem pulse_chains world s l s' :
  reachable world s → step l s = Some s' →
  after_timer (s_window s')
  = match l with
    | Click =>
      after_timer (s_window s) ++ (if (on_run (s_window s)).2 is Some _ then [Pulse 1] else [])
    | Timer =>
      match after_timer (s_window s) with
      | Pulse n :: q => if is_running (s_window s) then q ++ [Pulse (n + 1)] else q
      | _ => []
      end
    | _ => after_timer (s_window s)
    end.
Proof.
  intros (_ & Hq & Ht & _)%reachable_ok. destruct l as [|f|d| | | |]; cbn [step].
  - case_decide; [|done]. rewrite <-on_run_timer.
    by destruct (on_run (s_window s)) as [w' [j|]]; intros [= <-].
  - case_decide; [|done]. by intros [= <-].
  - case_decide; [|done]. intros [= <-]. unfold browse. by destruct (nonempty d).
  - by intros [= <-].
  - destruct (after_idle (s_window s)) as [|f q] eqn:Hi; [done|]. intros [= <-].
    apply andb_true_iff in Hq as [Hf _]. by rewrite call_window, run_callback_timer.
  - destruct (after_timer (s_window s)) as [|[| |n|] q] eqn:Hi; try done. intros [= <-].
    cbn [s_window set_window]. by rewrite pulse_header_timer.
  - unfold thread_step.
    destruct (s_thread s) as [|[|[msg md|question log] todo]|todo]; [done|..];
      [| | |destruct (gate s); [|done]]; by intros [= <-].
Qed.

End theorems.

Lemma ex_filled_reachable : @reachable ascii_unicode ex_env ex_tk ex_project ex_filled.
Proof.
  apply (@reachable_steps ascii_unicode ex_env ex_tk ex_project [Edit ex_form_review]
           (initial ex_project)); [apply reachable_initial|by vm_compute].
Qed.

Lemma ex_asked_reachable : @reachable ascii_unicode ex_env ex_tk ex_project ex_asked.
Proof.
  apply (@reachable_steps ascii_unicode ex_env ex_tk ex_project
           ([Edit ex_form; Click] ++ replicate 9 Thread) (initial ex_project));
    [apply reachable_initial|by vm_compute].
Qed.

Lemma declined_keeps_sources_witness :
  w_fs (s_world (default (initial ex_project)
          (@steps ascii_unicode ex_env ex_tk_no ([Edit ex_form; Click] ++ replicate 9 Thread)
             (initial ex_project)))) !! lit "proj/a.py"
  = w_fs ex_project !! lit "proj/a.py".
Proof.
  apply (@declined_keeps_sources ascii_unicode ex_env ex_tk_no ex_project
           ([Edit ex_form; Click] ++ replicate 9 Thread)); [done|by vm_compute..|].
  apply (bool_decide_unpack _). by vm_compute.
Defined.

Lemma one_thread_at_a_time_witness :
  s_thread ex_filled = Stopped ∧ is_running (s_window ex_filled) = false.
Proof.
  apply (@one_thread_at_a_time ascii_unicode ex_env ex_tk ex_project ex_filled
           (default ex_filled (@step ascii_unicode ex_env ex_tk Click ex_filled)));
    [apply ex_filled_reachable|by vm_compute].
Defined.

Lemma run_ends_witness :
  length [Idle; Idle; Idle]
    + work (default ex_asked (@steps ascii_unicode ex_env ex_tk [Idle; Idle; Idle] ex_asked))
    ≤ work ex_asked ∧
  (0 < work (default ex_asked (@steps ascii_unicode ex_env ex_tk [Idle; Idle; Idle] ex_asked)) →
   ∃ l s'', internal l = true ∧
     @step ascii_unicode ex_env ex_tk l
       (default ex_asked (@steps ascii_unicode ex_env ex_tk [Idle; Idle; Idle] ex_asked))
     = Some s'') ∧
  (work (default ex_asked (@steps ascii_unicode ex_env ex_tk [Idle; Idle; Idle] ex_asked)) = 0 →
   quiet (default ex_asked (@steps ascii_unicode ex_env ex_tk [Idle; Idle; Idle] ex_asked)) ∧
   is_running (s_window (default ex_asked
     (@steps ascii_unicode ex_env ex_tk [Idle; Idle; Idle] ex_asked))) = false ∧
   idle_look (s_window (default ex_asked
     (@steps ascii_unicode ex_env ex_tk [Idle; Idle; Idle] ex_asked)))).
Proof.
  apply (@run_ends ascii_unicode ex_env ex_tk ex_project ex_asked [Idle; Idle; Idle]
           (default ex_asked (@steps ascii_unicode ex_env ex_tk [Idle; Idle; Idle] ex_asked)));
    [apply ex_asked_reachable|done|by vm_compute].
Defined.

Lemma ui_yes_no_answered_witness :
  ∃ pre question log post s',
    after_idle (s_window ex_asked) = pre ++ Ask question log :: post ∧
    @steps ascii_unicode ex_env ex_tk (replicate (length pre) Idle ++ [Idle; Thread]) ex_asked
      = Some s' ∧
    s_thread s' = Working (match s_thread ex_asked with Waiting todo => todo | _ => [] end) ∧
    s_answers s' = s_answers ex_asked ++ [@ui_yes_no ex_tk log question] ∧
    w_out (s_window s') = @shown_queue ascii_unicode pre (w_out (s_window ex_asked)).
Proof.
  apply (@ui_yes_no_answered ascii_unicode ex_env ex_tk ex_project ex_asked
           (match s_thread ex_asked with Waiting todo => todo | _ => [] end));
    [apply ex_asked_reachable|by vm_compute..].
Defined.

Lemma window_shows_log_witness :
  w_out (s_window (default ex_filled
    (@steps ascii_unicode ex_env ex_tk (Click :: replicate 7 Thread ++ replicate 7 Idle ++ [Timer])
       ex_filled)))
  = @shown ascii_unicode
      (drop (length (w_log (s_world ex_filled)))
         (w_log (@worker ascii_unicode ex_env ex_tk (Job (lit "proj") false false false None 1000)
                   (s_world ex_filled)).2))
      (@shown_queue ascii_unicode (after_idle (s_window ex_filled)) (w_out (s_window ex_filled))).
Proof.
  apply (@window_shows_log ascii_unicode ex_env ex_tk ex_project ex_filled
           (Job (lit "proj") false false false None 1000)
           (default ex_filled (@step ascii_unicode ex_env ex_tk Click ex_filled))
           (replicate 7 Thread ++ replicate 7 Idle ++ [Timer]));
    [apply ex_filled_reachable|by vm_compute..].
Defined.

(** The window after a run on a path that does not exist: released, with
    the pulse of that run still queued. *)
Definition ex_released : sys :=
  default (initial ex_project)
    (@steps ascii_unicode ex_env ex_tk
       [Edit (Form (lit "nowhere") false false false [] (Some 1000%Z)); Click;
        Thread; Thread; Thread; Idle; Idle; Idle]
       (initial ex_project)).

Lemma pulse_chains_witness :
  after_timer (s_window (default ex_released (@step ascii_unicode ex_env ex_tk Click ex_released)))
  = after_timer (s_window ex_released)
    ++ (if (on_run (s_window ex_released)).2 is Some _ then [Pulse 1] else []).
Proof.
  apply (@pulse_chains ascii_unicode ex_env ex_tk ex_project ex_released Click
           (default ex_released (@step ascii_unicode ex_env ex_tk Click ex_released)));
    [|by vm_compute].
  apply (@reachable_steps ascii_unicode ex_env ex_tk ex_project
           [Edit (Form (lit "nowhere") false false false [] (Some 1000%Z)); Click;
            Thread; Thread; Thread; Idle; Idle; Idle] (initial ex_project));
    [apply reachable_initial|by vm_compute].
Defined.

(** Pressing [Run] again before the pulse of the last run has fired
    leaves two pulses at work: after a run on a path that does not exist
    and a second press, two callbacks of [pulse_header] are pending, and
    each of them goes on as long as the window runs. *)
Example pulse_chains_double :
  (after_timer ∘ s_window) <$>
    @steps ascii_unicode ex_env ex_tk
      [Edit (Form (lit "nowhere") false false false [] (Some 1000%Z)); Click;
       Thread; Thread; Thread; Idle; Idle; Idle; Click]
      (initial ex_project)
  = Some [Pulse 1; Pulse 1].
Proof. by vm_compute. Qed.
