(* ===== verification/Widgets.v ===== *)
(** * The widgets of the window: what [launch_ui] builds

    src/app.py lines 389-496 and 630-667.  [Gui] keeps of the window what
    its callbacks read and write; this file keeps the widgets themselves,
    in the toolkit of [Toolkit].  [launch_ui_widgets] is the sequence of
    the calls that build the window, in the order of the source, group by
    group ([root_window], [header_bar], [folder_row], [option_rows],
    [output_area], [button_row]); [launch_ui_build] is the toolkit when
    the main loop starts.  [tk_pulse_header], [tk_set_running],
    [tk_on_run], [tk_browse] and [tk_clear_output] are the callbacks
    written on the widgets, call by call, with their [try] blocks.

    [window_of] reads the window of [Gui] off the toolkit, and [built] are
    the toolkits that the callbacks can make of the window as built.  The
    theorems show that the toolkit as built is [initial_window] whatever
    Tcl refuses, that a callback on the widgets is the callback of [Gui]
    on the window read off, that every window [Threads] can reach is the
    window of a toolkit that is [built], that the tree and the packing of
    [launch_ui] stay ([laid_out], [tree_ok]), which tags are configured,
    which widgets react to the user and in which state they are during a
    run, and where the packer puts the placeholder of the progress bar. *)

From stdpp Require Import list strings.
From S2P Require Import PyStr World Markdown Gui Threads Toolkit.

Local Open Scope tk_scope.

(** ** [launch_ui]: the window is built *)

(** Before line 389: there is no window. *)
Definition no_toolkit : toolkit :=
  Toolkit [] [] [] [] [] false (Form [] false false false [] None) false [] [].

(** Lines 389-396: the window itself. *)
Definition root_window `{Tcl} : list (toolkit → toolkit) := [
  create app tk_Tk None [];
  title (lit "AI Code Debugger + Auto Fixer (Gemini)");
  geometry (lit "900x700");
  try_pass [iconbitmap_or_raise []];
  configure app ["bg" =: "#f5f7fb"]
].

(** Lines 398-404: the variables of the form and [is_running]. *)
Definition declare_variables : list (toolkit → toolkit) := [
  set_variables (Form [] false false false [] (Some 200000%Z));
  set_is_running false
].

(** Lines 407-412: the header bar. *)
Definition header_bar : list (toolkit → toolkit) := [
  create header tk_Frame (Some app) ["bg" =: "#2b2d42"; "height" =: 52%Z];
  pack header ["fill" =: tk_X; "side" =: tk_TOP];
  create title_lbl tk_Label (Some header)
    ["text" =: "AI Code Debugger + Auto Fixer (Gemini)"; "fg" =: "white"; "bg" =: "#2b2d42";
     "font" =: Font (lit "Segoe UI") 12 (Some (lit "bold"))];
  pack title_lbl ["side" =: tk_LEFT; "padx" =: 12%Z; "pady" =: 10%Z];
  create status_lbl tk_Label (Some header)
    ["text" =: "Idle"; "fg" =: "#a8dadc"; "bg" =: "#2b2d42";
     "font" =: Font (lit "Segoe UI") 10 None];
  pack status_lbl ["side" =: tk_RIGHT; "padx" =: 12%Z]
].

(** Lines 415-428: the frame of the form and the row of the folder. *)
Definition folder_row : list (toolkit → toolkit) := [
  create frm ttk_Frame (Some app) ["padding" =: 10%Z];
  pack frm ["fill" =: tk_BOTH; "expand" =: true];
  create path_row ttk_Frame (Some frm) [];
  pack path_row ["fill" =: tk_X; "pady" =: 5%Z];
  create path_caption ttk_Label (Some path_row) ["text" =: "Project folder:"];
  pack path_caption ["side" =: tk_LEFT];
  create path_entry ttk_Entry (Some path_row) ["textvariable" =: Var "path_var"];
  pack path_entry ["side" =: tk_LEFT; "fill" =: tk_X; "expand" =: true; "padx" =: 5%Z];
  create browse_btn ttk_Button (Some path_row) ["text" =: "Browse..."; "command" =: Cmd "browse"];
  pack browse_btn ["side" =: tk_LEFT]
].

(** Lines 430-449: the check boxes, the requirement and the budget. *)
Definition option_rows : list (toolkit → toolkit) := [
  create opts_row1 ttk_Frame (Some frm) [];
  pack opts_row1 ["fill" =: tk_X; "pady" =: 5%Z];
  create json_chk ttk_Checkbutton (Some opts_row1)
    ["text" =: "Export review as JSON"; "variable" =: Var "json_var"];
  pack json_chk ["side" =: tk_LEFT; "padx" =: 5%Z];
  create autofix_chk ttk_Checkbutton (Some opts_row1)
    ["text" =: "Auto-fix"; "variable" =: Var "autofix_var"];
  pack autofix_chk ["side" =: tk_LEFT; "padx" =: 5%Z];
  create apply_all_chk ttk_Checkbutton (Some opts_row1)
    ["text" =: "Apply all fixes automatically"; "variable" =: Var "apply_all_var"];
  pack apply_all_chk ["side" =: tk_LEFT; "padx" =: 5%Z];
  create prompt_row ttk_Frame (Some frm) [];
  pack prompt_row ["fill" =: tk_X; "pady" =: 5%Z];
  create prompt_caption ttk_Label (Some prompt_row) ["text" =: "User requirement (optional):"];
  pack prompt_caption ["side" =: tk_LEFT];
  create prompt_entry ttk_Entry (Some prompt_row) ["textvariable" =: Var "userprompt_var"];
  pack prompt_entry ["side" =: tk_LEFT; "fill" =: tk_X; "expand" =: true; "padx" =: 5%Z];
  create max_row ttk_Frame (Some frm) [];
  pack max_row ["fill" =: tk_X; "pady" =: 5%Z];
  create max_caption ttk_Label (Some max_row) ["text" =: "Max chars per batch:"];
  pack max_caption ["side" =: tk_LEFT];
  create max_entry ttk_Entry (Some max_row) ["textvariable" =: Var "maxchars_var"; "width" =: 12%Z];
  pack max_entry ["side" =: tk_LEFT; "padx" =: 5%Z]
].

(** Lines 475-481: the tags of the output, in the order of the calls. *)
Definition tag_table : list (tag * options) := [
  (tag_section, ["foreground" =: "#1d4ed8";
                 "font" =: Font (lit "Consolas") 10 (Some (lit "bold"))]);
  (tag_info, ["foreground" =: "#2563eb"]);
  (tag_success, ["foreground" =: "#059669"]);
  (tag_warning, ["foreground" =: "#d97706"]);
  (tag_error, ["foreground" =: "#dc2626"]);
  (tag_muted, ["foreground" =: "#475569"]);
  (tag_code, ["background" =: "#eef2f7"])
].

(** Line 470. *)
Definition out_text_look : options :=
  ["font" =: Font (lit "Consolas") 10 None; "padx" =: 14%Z; "pady" =: 12%Z;
   "spacing1" =: 4%Z; "spacing3" =: 4%Z].

(** Lines 451-484: the output, and the row of the buttons, which is packed
    before it. *)
Definition output_area `{Tcl} : list (toolkit → toolkit) := [
  create out_label ttk_Label (Some frm) ["text" =: "Output:"];
  pack out_label ["anchor" =: "w"; "pady" =: Pair 10 0];
  create btn_row ttk_Frame (Some frm) [];
  pack btn_row ["side" =: tk_BOTTOM; "fill" =: tk_X; "pady" =: 10%Z];
  create out_container ttk_Frame (Some frm) [];
  pack out_container ["fill" =: tk_BOTH; "expand" =: true];
  create out_text ScrolledText (Some out_container)
    ["height" =: 25%Z; "wrap" =: tk_WORD; "bg" =: "#f8fafc"; "fg" =: "#0f172a";
     "insertbackground" =: "#0f172a"; "borderwidth" =: 1%Z; "relief" =: "solid"];
  try_pass [configure_or_raise out_text out_text_look];
  try_pass (tag_configure_or_raise <$> tag_table);
  pack out_text ["fill" =: tk_BOTH; "expand" =: true]
].

(** Lines 487-496 and 699: the progress bar, its placeholder and the
    buttons. *)
Definition button_row : list (toolkit → toolkit) := [
  create progress_placeholder ttk_Label (Some btn_row) ["width" =: 28%Z];
  pack progress_placeholder ["side" =: tk_LEFT; "padx" =: 10%Z];
  create progress ttk_Progressbar (Some btn_row) ["mode" =: "indeterminate"; "length" =: 220%Z];
  create run_btn ttk_Button (Some btn_row) ["text" =: "Run"];
  pack run_btn ["side" =: tk_LEFT];
  create clear_btn ttk_Button (Some btn_row)
    ["text" =: "Clear Output"; "command" =: Cmd "clear_output"];
  pack clear_btn ["side" =: tk_LEFT; "padx" =: 5%Z];
  configure run_btn ["command" =: Cmd "on_run"]
].

(** Lines 389-496 and 699: the calls of [launch_ui] before the main loop. *)
Definition launch_ui_widgets `{Tcl} : list (toolkit → toolkit) :=
  root_window ++ declare_variables ++ header_bar ++ folder_row ++ option_rows ++ output_area
    ++ button_row.

(** The toolkit when the main loop starts. *)
Definition launch_ui_build `{Tcl} : toolkit := run launch_ui_widgets no_toolkit.

(** ** The window of [Gui] in the toolkit *)

(** Line 647: the widgets that [set_running] enables and disables. *)
Definition inputs : list widget :=
  [path_entry; browse_btn; json_chk; autofix_chk; apply_all_chk; prompt_entry; max_entry;
   run_btn].

(** The window of [Gui] that the toolkit shows: the variables, the
    colours and texts of the header, of the status label and of [Run]
    as the widgets have them, the state of [Run] for the inputs, and
    whether the progress bar and its placeholder are packed. *)
Definition window_of (t : toolkit) : window :=
  Window (variables t) (running t)
    (Header (cget_str t header "bg") (cget_str t title_lbl "bg") (cget_str t status_lbl "bg")
            (cget_str t status_lbl "text") (cget_str t status_lbl "fg"))
    (Controls (state_of t run_btn) (cget_str t run_btn "text") (is_packed t progress)
              (moving t) (is_packed t progress_placeholder))
    (contents t) (idle_queue t) (timer_queue t).

(** ** The callbacks, on the widgets *)

(** [progress.start(12)]. *)
Definition start (interval : Z) : toolkit → toolkit := set_moving true.

(** Lines 494-495: [out_text.delete("1.0", tk.END)]. *)
Definition tk_clear_output : toolkit → toolkit := set_contents (λ _, []).

(** Lines 630-642. *)
Definition tk_pulse_header (step : nat) (t : toolkit) : toolkit :=
  if negb (running t) then
    run [configure header ["bg" =: "#2b2d42"];
         configure title_lbl ["bg" =: "#2b2d42"];
         configure status_lbl ["bg" =: "#2b2d42"]] t
  else
    let c := default [] (colors !! (step mod length colors)) in
    run [configure header ["bg" =: Str c];
         configure title_lbl ["bg" =: Str c];
         configure status_lbl ["bg" =: Str c];
         tk_after_300 (Pulse (step + 1))] t.

(** Lines 646-651: the loop over the inputs. *)
Definition configure_inputs `{Tcl} (state : value) (t : toolkit) : toolkit :=
  foldl (λ t w, try_pass [configure_or_raise w ["state" =: state]] t) t inputs.

(** Lines 644-667. *)
Definition tk_set_running `{Tcl} (running : bool) (t : toolkit) : toolkit :=
  let state : value := if running then "disabled" : value else "normal" in
  let t := configure_inputs state (set_is_running running t) in
  if running then
    run [configure status_lbl ["text" =: "Running..."; "fg" =: "#ffd166"];
         configure run_btn ["text" =: "Running..."];
         pack_forget progress_placeholder;
         pack progress ["side" =: tk_LEFT; "padx" =: 10%Z];
         start 12;
         tk_pulse_header 0] t
  else
    run [configure status_lbl ["text" =: "Idle"; "fg" =: "#a8dadc"];
         configure run_btn ["text" =: "Run"];
         try_pass [stop_or_raise];
         pack_forget progress;
         pack progress_placeholder ["side" =: tk_LEFT; "padx" =: 10%Z]] t.

(** Lines 423-426, with [d] what the dialog returns. *)
Definition tk_browse (d : str) (t : toolkit) : toolkit :=
  let f := variables t in
  if nonempty d
  then set_variables (Form d (json_var f) (autofix_var f) (apply_all_var f) (userprompt_var f)
                           (maxchars_var f)) t
  else t.

(** Lines 669-685: [on_run], up to the start of the thread. *)
Definition tk_on_run `{Tcl} (t : toolkit) : toolkit * option job :=
  let (j, f) := read_form (variables t) in
  let t := set_variables f t in
  if negb (nonempty (j_folder j)) then
    (tk_after_0 (Append (lit "Please select a project folder.
") None false) t, None)
  else (tk_set_running true t, Some j).

(** What the main loop does when it calls [f]. *)
Definition tk_run_callback `{Unicode, Tcl} (f : callback) (t : toolkit) : toolkit :=
  match f with
  | Append msg tag is_markdown => set_contents (append msg tag is_markdown) t
  | Ask _ _ => t
  | Pulse step => tk_pulse_header step t
  | SetRunning running => tk_set_running running t
  end.

(** ** What the theorems speak of *)

(** The tree of the window, and what is packed for good. *)
Definition layout : list (widget * (widget_class * option widget)) :=
  skeleton (@launch_ui_build tcl_no).

Definition comes_and_goes (w : widget) : bool :=
  bool_decide (w = progress ∨ w = progress_placeholder).

Definition packed_for_good (t : toolkit) : list widget :=
  filter (λ w, comes_and_goes w = false) (packing t).*1.

(** The window is laid out as [launch_ui] did it, but for the progress
    bar and its placeholder, of which one is packed. *)
Definition laid_out (t : toolkit) : Prop :=
  skeleton t = layout ∧
  NoDup (packing t).*1 ∧
  packed_for_good t = packed_for_good (@launch_ui_build tcl_no) ∧
  is_packed t progress = negb (is_packed t progress_placeholder).

(** The inputs are enabled when no run is on, and only then. *)
Definition inputs_follow (t : toolkit) : Prop :=
  ∀ w, w ∈ inputs → state_of t w = if running t then state_disabled else state_normal.

(** Tcl takes the calls of [set_running] that are in a [try] block. *)
Definition tcl_takes_state `{Tcl} : Prop :=
  (∀ t w o, w ∈ inputs → configure_ok t w o = true) ∧ (∀ t, stop_ok t = true).

(** The widget reacts to the user: it has a command or a variable. *)
Definition reacts (t : toolkit) (w : widget) : bool :=
  bool_decide (is_Some (cget t w "command")) || bool_decide (is_Some (cget t w "variable"))
  || bool_decide (is_Some (cget t w "textvariable")).

(** What a call of a widget means for the window of [Gui]: [retouch] for
    [w.configure] with the options [o], last first, [repack] for [w.pack]
    and [w.pack_forget], [spin] for [progress.start] and [progress.stop]. *)
Definition retouch (w : widget) (o : options) (win : window) : window :=
  let h := w_header win in
  let c := w_controls win in
  Window (w_form win) (is_running win)
    (Header (if decide (w = header) then str_of (header_bg h) (opt o "bg") else header_bg h)
       (if decide (w = title_lbl) then str_of (title_bg h) (opt o "bg") else title_bg h)
       (if decide (w = status_lbl) then str_of (status_bg h) (opt o "bg") else status_bg h)
       (if decide (w = status_lbl) then str_of (status_text h) (opt o "text")
        else status_text h)
       (if decide (w = status_lbl) then str_of (status_fg h) (opt o "fg") else status_fg h))
    (Controls
       (if decide (w = run_btn) then state_from (inputs_state c) (opt o "state")
        else inputs_state c)
       (if decide (w = run_btn) then str_of (run_btn_text c) (opt o "text")
        else run_btn_text c)
       (progress_packed c) (progress_moving c) (placeholder_packed c))
    (w_out win) (after_idle win) (after_timer win).

Definition repack (w : widget) (b : bool) (win : window) : window :=
  let c := w_controls win in
  Window (w_form win) (is_running win) (w_header win)
    (Controls (inputs_state c) (run_btn_text c)
       (if decide (w = progress) then b else progress_packed c)
       (progress_moving c)
       (if decide (w = progress_placeholder) then b else placeholder_packed c))
    (w_out win) (after_idle win) (after_timer win).

Definition spin (b : bool) (win : window) : window :=
  let c := w_controls win in
  Window (w_form win) (is_running win) (w_header win)
    (Controls (inputs_state c) (run_btn_text c) (progress_packed c) b (placeholder_packed c))
    (w_out win) (after_idle win) (after_timer win).

(** Lines 652-667 on the window of [Gui]: what [set_running] does after
    its loop, with [stopped] whether [progress.stop] was taken. *)
Definition after_inputs (running stopped : bool) (win : window) : window :=
  if running then
    pulse_header 0 (spin true (repack progress true (repack progress_placeholder false
      (retouch run_btn ["text" =: "Running..."]
        (retouch status_lbl ["fg" =: "#ffd166"; "text" =: "Running..."] win)))))
  else
    repack progress_placeholder true (repack progress false
      ((if stopped then spin false else id)
        (retouch run_btn ["text" =: "Run"]
          (retouch status_lbl ["fg" =: "#a8dadc"; "text" =: "Idle"] win)))).

(** The windows differ in the state of the inputs and in whether the
    progress bar runs, at most. *)
Definition same_but_tries (win win' : window) : Prop :=
  let c := w_controls win in
  let c' := w_controls win' in
  w_form win = w_form win' ∧ is_running win = is_running win' ∧
  w_header win = w_header win' ∧ run_btn_text c = run_btn_text c' ∧
  progress_packed c = progress_packed c' ∧ placeholder_packed c = placeholder_packed c' ∧
  w_out win = w_out win' ∧ after_idle win = after_idle win' ∧
  after_timer win = after_timer win'.

(** The options that say how the user reaches the program. *)
Definition bindings : list string := ["command"; "variable"; "textvariable"].

(** The toolkits that the main loop, the user and the thread of [on_run]
    can make of the window as built. *)
Inductive built `{Unicode, Tcl} : toolkit → Prop :=
| built_launch_ui : built launch_ui_build
| built_callback f t : built t → built (tk_run_callback f t)          (* the main loop *)
| built_on_run t : built t → built (tk_on_run t).1                    (* [Run] *)
| built_browse d t : built t → built (tk_browse d t)                  (* [Browse...] *)
| built_clear_output t : built t → built (tk_clear_output t)          (* [Clear Output] *)
| built_edit f t : built t → built (set_variables f t)                (* the form *)
| built_after_0 f t : built t → built (tk_after_0 f t)                (* the thread *)
| built_idle t : built t → built (set_idle_queue (drop 1) t)          (* a callback is due *)
| built_timer t : built t → built (set_timer_queue (drop 1) t).

Arguments tk_pulse_header : simpl never.
Arguments tk_set_running : simpl never.
Arguments configure_inputs : simpl never.

(** The [try] blocks of the goal, case by case. *)
Ltac try_blocks :=
  unfold iconbitmap_or_raise, configure_or_raise, stop_or_raise;
  repeat match goal with
  | |- context [try_pass [or_raise ?ok ?f] ?t] =>
    let b := fresh "b" in destruct (try_or_raise ok f t) as (b & _ & ->); destruct b
  | |- context [try_pass (tag_configure_or_raise <$> ?gos) ?t] =>
    let k := fresh "k" in
    let Hk := fresh "Hk" in
    destruct (try_tag_configure gos t) as (k & Hk & ->); vm_compute in Hk;
    repeat (destruct k as [|k]; [|apply le_S_n in Hk]);
    try (apply Nat.le_0_r in Hk; subst k)
  end.

(** A fact of the toolkit as built, whatever Tcl refuses. *)
Ltac by_build :=
  unfold launch_ui_build, launch_ui_widgets, root_window, output_area;
  rewrite !run_app; cbn [run foldl]; try_blocks; by vm_compute.

(** ** The window as built *)

Section build.
Context `{Tcl}.

Lemma launch_ui_build_window : window_of launch_ui_build = initial_window.
Proof. by_build. Qed.

(** What Tcl refuses changes the icon, the tags and the look of the
    output at most. *)
Lemma launch_ui_build_cases :
  ∃ b : bool,
    set_wm (λ _, []) (set_tags (λ _, []) launch_ui_build)
    = set_wm (λ _, []) (set_tags (λ _, []) (@launch_ui_build (if b then tcl_yes else tcl_no))).
Proof.
  unfold launch_ui_build at 1, launch_ui_widgets, root_window, output_area.
  rewrite !run_app; cbn [run foldl]; try_blocks;
    first [by exists true; vm_compute|by exists false; vm_compute].
Qed.

Lemma launch_ui_build_widgets :
  ∃ b : bool,
    widgets launch_ui_build = widgets (@launch_ui_build (if b then tcl_yes else tcl_no)).
Proof. destruct launch_ui_build_cases as [b Hb]. exists b. apply (f_equal widgets Hb). Qed.

Lemma launch_ui_build_skeleton : skeleton launch_ui_build = layout.
Proof.
  destruct launch_ui_build_widgets as [b Hb]. unfold skeleton. rewrite Hb.
  by destruct b; vm_compute.
Qed.

Lemma launch_ui_build_packing :
  (packing launch_ui_build).*1 = (packing (@launch_ui_build tcl_no)).*1.
Proof.
  destruct launch_ui_build_cases as [b Hb].
  rewrite (f_equal packing Hb : packing launch_ui_build = packing launch_ui_build).
  by destruct b; vm_compute.
Qed.

Lemma launch_ui_build_laid_out : laid_out launch_ui_build.
Proof.
  unfold laid_out, packed_for_good, is_packed.
  rewrite launch_ui_build_skeleton, launch_ui_build_packing.
  split_and!; [done|apply (bool_decide_unpack _)|done|]; by vm_compute.
Qed.

(** The rows of the form from top to bottom, with the row of the buttons
    packed before the output. *)
Lemma launch_ui_build_rows :
  packed_in launch_ui_build frm
    = [path_row; opts_row1; prompt_row; max_row; out_label; btn_row; out_container] ∧
  packed_in launch_ui_build btn_row = [progress_placeholder; run_btn; clear_btn].
Proof. by_build. Qed.

(** The tags are configured in the order of [tag_table], up to the first
    that Tcl refuses. *)
Lemma launch_ui_build_tags : tags launch_ui_build `prefix_of` tag_table.
Proof.
  unfold launch_ui_build, launch_ui_widgets, root_window, output_area.
  rewrite !run_app; cbn [run foldl]; try_blocks;
    match goal with |- context [take ?k tag_table] => exists (drop k tag_table) end;
    by vm_compute.
Qed.

Lemma launch_ui_build_all_tags :
  (∀ t g o, tag_configure_ok t g o = true) → tags launch_ui_build = tag_table.
Proof.
  intros Hok. unfold launch_ui_build, launch_ui_widgets, root_window, output_area.
  rewrite !run_app; cbn [run foldl]. rewrite try_tag_configure_taken by done.
  try_blocks; by vm_compute.
Qed.

Lemma launch_ui_build_reacts w :
  reacts launch_ui_build w = bool_decide (w ∈ inputs ++ [clear_btn]).
Proof.
  destruct launch_ui_build_widgets as [b Hb]. unfold reacts, cget. rewrite Hb.
  by destruct b, w; vm_compute.
Qed.

End build.

(** ** The callbacks on the widgets and on the window *)

Lemma laid_out_complete t : laid_out t → complete t.
Proof.
  intros (Hsk & _) w. apply assoc_is_Some. rewrite <-skeleton_names, Hsk.
  apply (bool_decide_unpack _). by destruct w; vm_compute.
Qed.

Lemma window_of_configure t w o :
  complete t → window_of (configure w o t) = retouch w (reverse o) (window_of t).
Proof.
  intros Ht. unfold window_of, retouch. cbn [w_header w_controls header_bg title_bg status_bg
    status_text status_fg inputs_state run_btn_text].
  rewrite !cget_str_configure, state_of_configure by done.
  by repeat case_decide; subst.
Qed.

Lemma window_of_pack t w o : window_of (pack w o t) = repack w true (window_of t).
Proof.
  unfold window_of, repack. cbn [w_controls progress_packed placeholder_packed].
  rewrite !is_packed_pack. by repeat case_decide; simplify_eq.
Qed.

Lemma window_of_pack_forget t w :
  window_of (pack_forget w t) = repack w false (window_of t).
Proof.
  unfold window_of, repack. cbn [w_controls progress_packed placeholder_packed].
  rewrite !is_packed_pack_forget. by repeat case_decide; simplify_eq.
Qed.

#[export] Instance same_but_tries_equiv : Equivalence same_but_tries.
Proof.
  unfold same_but_tries. split; [intros ?|intros ??|intros ???]; [done|..];
    intuition congruence.
Qed.

Lemma retouch_state w s win : same_but_tries (retouch w [("state", s)] win) win.
Proof.
  unfold same_but_tries, retouch. destruct win as [? ? [] [] ? ? ?]; simpl.
  by repeat case_decide.
Qed.

Section callbacks.
Context `{Unicode, Tcl}.

Lemma window_of_after_300 f t : window_of (tk_after_300 f t) = after_300 f (window_of t).
Proof. done. Qed.

Lemma complete_tk_pulse_header step t : complete t → complete (tk_pulse_header step t).
Proof.
  intros Ht. unfold tk_pulse_header.
  destruct (running t); cbn [negb run foldl]; auto 10 with tk.
Qed.

Lemma tk_pulse_header_window step t :
  complete t → window_of (tk_pulse_header step t) = pulse_header step (window_of t).
Proof.
  intros Ht. unfold tk_pulse_header, pulse_header. cbn [window_of is_running].
  destruct (running t); cbn [negb run foldl];
    rewrite ?window_of_after_300, !window_of_configure by auto with tk.
  - by generalize (default [] (colors !! (step `mod` length colors))).
  - by vm_compute.
Qed.

Lemma configure_inputs_taken state t :
  tcl_takes_state →
  configure_inputs state t = run ((λ w, configure w ["state" =: state]) <$> inputs) t.
Proof.
  intros [Hok _]. unfold configure_inputs, run. revert Hok. generalize inputs. intros ws Hok.
  revert t. induction ws as [|w ws IH]; intros t; [done|]. rewrite fmap_cons. cbn [foldl].
  destruct (try_configure w ["state" =: state] t) as (b & Hb & ->).
  rewrite Hok in Hb by left. subst b. apply IH. intros ????. apply Hok. by right.
Qed.

Lemma complete_configure_inputs state t : complete t → complete (configure_inputs state t).
Proof.
  unfold configure_inputs. generalize inputs. intros ws. revert t.
  induction ws as [|w ws IH]; intros t Ht; [done|]. cbn [foldl].
  destruct (try_configure w ["state" =: state] t) as (b & _ & ->). auto with tk.
Qed.

(** The loop touches the state of the inputs and nothing else of the
    window. *)
Lemma configure_inputs_window state t :
  complete t → same_but_tries (window_of (configure_inputs state t)) (window_of t).
Proof.
  unfold configure_inputs. generalize inputs. intros ws. revert t.
  induction ws as [|w ws IH]; intros t Ht; [done|]. cbn [foldl].
  destruct (try_configure w ["state" =: state] t) as ([] & _ & ->); [|by apply IH].
  rewrite IH, window_of_configure by auto with tk. apply retouch_state.
Qed.

Lemma window_of_set_moving b t : window_of (set_moving b t) = spin b (window_of t).
Proof. done. Qed.

Lemma complete_tk_set_running running t : complete t → complete (tk_set_running running t).
Proof.
  intros Ht. unfold tk_set_running.
  assert (complete (configure_inputs (if running then "disabled" : value else "normal")
    (set_is_running running t))) by (apply complete_configure_inputs; auto with tk).
  destruct running; cbn [run foldl]; [apply complete_tk_pulse_header|];
    auto 10 using complete_try_stop with tk.
Qed.

Lemma tk_set_running_after_inputs running t :
  complete t →
  ∃ stopped : bool, ((∀ t, stop_ok t = true) → stopped = true) ∧
    window_of (tk_set_running running t)
    = after_inputs running stopped
        (window_of (configure_inputs (if running then "disabled" : value else "normal")
                      (set_is_running running t))).
Proof.
  intros Ht. unfold tk_set_running, after_inputs.
  assert (complete (configure_inputs (if running then "disabled" : value else "normal")
    (set_is_running running t))) by (apply complete_configure_inputs; auto with tk).
  destruct running; cbn [run foldl].
  - exists true. split; [done|]. unfold start.
    by rewrite tk_pulse_header_window, window_of_set_moving, window_of_pack,
      window_of_pack_forget, !window_of_configure by auto 10 with tk.
  - destruct (try_stop (configure run_btn ["text" =: "Run"]
      (configure status_lbl ["text" =: "Idle"; "fg" =: "#a8dadc"]
        (configure_inputs "normal" (set_is_running false t))))) as (b & Hb & ->).
    exists b. split; [by intros Hok; rewrite Hok in Hb|].
    rewrite window_of_pack, window_of_pack_forget.
    by destruct b; rewrite ?window_of_set_moving, !window_of_configure by auto 10 with tk.
Qed.

Lemma tk_set_running_window running t :
  tcl_takes_state → complete t →
  window_of (tk_set_running running t) = set_running running (window_of t).
Proof.
  intros [Hc Hs] Ht. destruct (tk_set_running_after_inputs running t Ht) as (b & Hb & ->).
  rewrite (Hb Hs), configure_inputs_taken by done. unfold inputs. cbn [run foldl fmap list_fmap].
  rewrite !window_of_configure by auto 20 with tk. by destruct running; vm_compute.
Qed.

(** C33: what the [try] blocks of [set_running] can hide: whatever Tcl
    refuses of the calls in them, the window after [set_running] on the
    widgets is the window of [Gui] after its [set_running], but for the
    state of the inputs and for whether the progress bar runs. *)
Theorem tk_set_running_tries running t :
  complete t → same_but_tries (window_of (tk_set_running running t))
                              (set_running running (window_of t)).
Proof.
  intros Ht. destruct (tk_set_running_after_inputs running t Ht) as (b & _ & ->).
  assert (complete (set_is_running running t)) as Hw by auto with tk.
  apply (configure_inputs_window (if running then "disabled" : value else "normal")) in Hw.
  revert Hw. generalize (window_of (configure_inputs (if running then "disabled" : value
    else "normal") (set_is_running running t))).
  unfold same_but_tries. intros [? ? [] [] ? ? ?] Hw. cbn in Hw. destruct_and!; simplify_eq.
  by destruct running, b; vm_compute.
Qed.

Lemma tk_run_callback_window f t :
  tcl_takes_state → complete t →
  window_of (tk_run_callback f t) = run_callback f (window_of t).
Proof.
  intros Htcl Ht.
  destruct f; [done..|by apply tk_pulse_header_window|by apply tk_set_running_window].
Qed.

Lemma tk_on_run_window t :
  tcl_takes_state → complete t →
  (window_of (tk_on_run t).1, (tk_on_run t).2) = on_run (window_of t).
Proof.
  intros Htcl Ht. unfold tk_on_run, on_run. cbn [window_of w_form].
  destruct (read_form (variables t)) as [j f]. destruct (nonempty (j_folder j)); [|done].
  cbn [negb fst snd]. by rewrite tk_set_running_window by auto with tk.
Qed.

Lemma tk_browse_window d t : window_of (tk_browse d t) = browse d (window_of t).
Proof. unfold tk_browse, browse. by destruct (nonempty d). Qed.

Lemma tk_clear_output_window t : window_of (tk_clear_output t) = clear_output (window_of t).
Proof. done. Qed.

Lemma complete_tk_run_callback f t : complete t → complete (tk_run_callback f t).
Proof.
  destruct f; cbn [tk_run_callback];
    auto using complete_tk_pulse_header, complete_tk_set_running with tk.
Qed.

Lemma complete_tk_on_run t : complete t → complete (tk_on_run t).1.
Proof.
  intros Ht. unfold tk_on_run. destruct (read_form (variables t)) as [j f].
  destruct (nonempty (j_folder j)); cbn [negb fst];
    auto using complete_tk_set_running with tk.
Qed.

End callbacks.

(** ** The layout stays *)

Section layout.
Context `{Unicode, Tcl}.

Lemma still_configure_inputs state : still (configure_inputs state).
Proof.
  unfold configure_inputs. generalize inputs. intros ws t. revert t.
  induction ws as [|w ws IH]; intros t; [done|]. cbn [foldl].
  destruct (still_try (λ t, configure_ok t w ["state" =: state])
    (configure w ["state" =: state]) (still_configure _ _) t) as [<- <-]. apply IH.
Qed.

Lemma still_tk_pulse_header step : still (tk_pulse_header step).
Proof.
  intros t. unfold tk_pulse_header.
  destruct (running t); cbn [negb]; by apply still_run; auto with tk.
Qed.

Lemma laid_out_still f t : still f → laid_out t → laid_out (f t).
Proof.
  intros Hf. unfold laid_out, packed_for_good, is_packed. by destruct (Hf t) as [-> ->].
Qed.

Lemma packed_for_good_pack w o t :
  comes_and_goes w = true → packed_for_good (pack w o t) = packed_for_good t.
Proof.
  intros Hw. unfold packed_for_good. rewrite pack_names. case_decide; [done|].
  rewrite list.filter_app, filter_cons_False, filter_nil, app_nil_r; [done|]. by rewrite Hw.
Qed.

Lemma packed_for_good_pack_forget w t :
  comes_and_goes w = true → packed_for_good (pack_forget w t) = packed_for_good t.
Proof.
  intros Hw. unfold packed_for_good. rewrite pack_forget_names.
  rewrite list_filter_filter. apply list_filter_iff. intros w'. split; [by intros [??]|].
  intros Hw'. split; [done|]. intros ->. by rewrite Hw in Hw'.
Qed.

(** The progress bar and its placeholder change places. *)
Lemma laid_out_swap a b o t :
  comes_and_goes a = true → comes_and_goes b = true → a ≠ b →
  laid_out t → laid_out (pack a o (pack_forget b t)).
Proof.
  intros Ha Hb Hab (Hsk & Hnd & Hgood & Hone). split_and!.
  - done.
  - by apply NoDup_pack, NoDup_pack_forget.
  - by rewrite packed_for_good_pack, packed_for_good_pack_forget.
  - rewrite !is_packed_pack, !is_packed_pack_forget.
    apply bool_decide_eq_true in Ha as [->| ->], Hb as [->| ->]; try done; by vm_compute.
Qed.

Lemma laid_out_tk_set_running running t : laid_out t → laid_out (tk_set_running running t).
Proof.
  intros Ht. unfold tk_set_running, start. destruct running; cbn [run foldl];
    repeat first
      [ assumption
      | apply laid_out_swap; [done..|]
      | apply laid_out_still;
        [solve [auto using still_configure_inputs, still_tk_pulse_header, still_try_stop
                       with tk]|] ].
Qed.

Lemma laid_out_tk_on_run t : laid_out t → laid_out (tk_on_run t).1.
Proof.
  intros Ht. unfold tk_on_run. destruct (read_form (variables t)) as [j f].
  destruct (nonempty (j_folder j)); cbn [negb fst];
    [apply laid_out_tk_set_running|]; by apply laid_out_still; auto with tk.
Qed.

(** The window keeps its layout. *)
Lemma built_laid_out t : built t → laid_out t.
Proof.
  induction 1 as [|f t _ IH|t _ IH|d t _ IH|t _ IH|f t _ IH|f t _ IH|t _ IH|t _ IH];
    try (by apply laid_out_still; auto with tk).
  - apply launch_ui_build_laid_out.
  - destruct f; cbn [tk_run_callback];
      [by apply laid_out_still; auto with tk|done
      |by apply laid_out_still; auto using still_tk_pulse_header
      |by apply laid_out_tk_set_running].
  - by apply laid_out_tk_on_run.
  - unfold tk_browse. destruct (nonempty d); [|done]. by apply laid_out_still; auto with tk.
Qed.

End layout.

(** ** What the callbacks leave alone *)

Section bindings.
Context `{Unicode, Tcl}.

Lemma keeps_configure_inputs k state : k ≠ "state" → keeps k (configure_inputs state).
Proof.
  intros Hk. unfold configure_inputs. generalize inputs. intros ws t. revert t.
  induction ws as [|w' ws IH]; intros t w; [done|]. cbn [foldl]. rewrite IH.
  apply (keeps_try k (λ t, configure_ok t w' ["state" =: state])), keeps_configure.
  cbn. by rewrite decide_False.
Qed.

Lemma keeps_tk_pulse_header k step : k ≠ "bg" → keeps k (tk_pulse_header step).
Proof.
  intros Hk t. unfold tk_pulse_header.
  assert (∀ w (c : value), keeps k (configure w ["bg" =: c])).
  { intros. apply keeps_configure. cbn. by rewrite decide_False. }
  destruct (running t); cbn [negb]; apply keeps_run; repeat constructor; auto with tk.
Qed.

Lemma keeps_tk_set_running k running :
  k ∉ ["state"; "text"; "fg"; "bg"] → keeps k (tk_set_running running).
Proof.
  rewrite !not_elem_of_cons. intros (Hstate & Htext & Hfg & Hbg & _) t.
  unfold tk_set_running, start, stop_or_raise.
  assert (∀ w (a b : value), keeps k (configure w ["text" =: a; "fg" =: b])) as Hc.
  { intros. apply keeps_configure. cbn. by rewrite !decide_False. }
  assert (∀ w (a : value), keeps k (configure w ["text" =: a])) as Hc'.
  { intros. apply keeps_configure. cbn. by rewrite !decide_False. }
  destruct running; intros w;
    (rewrite keeps_run; [by rewrite keeps_configure_inputs|]);
    repeat constructor; auto using keeps_tk_pulse_header with tk.
Qed.

Lemma bindings_kept k : k ∈ bindings → k ∉ ["state"; "text"; "fg"; "bg"].
Proof.
  intros Hk. repeat (apply elem_of_cons in Hk as [->|Hk]); [by_decide..|].
  by apply elem_of_nil in Hk.
Qed.

Lemma keeps_tk_run_callback k f :
  k ∉ ["state"; "text"; "fg"; "bg"] → keeps k (tk_run_callback f).
Proof.
  intros Hk. destruct f; cbn [tk_run_callback]; [auto with tk|done| |by apply keeps_tk_set_running].
  apply keeps_tk_pulse_header. intros ->. apply Hk. by_decide.
Qed.

Lemma keeps_tk_on_run k : k ∉ ["state"; "text"; "fg"; "bg"] → keeps k (λ t, (tk_on_run t).1).
Proof.
  intros Hk t w. unfold tk_on_run. destruct (read_form (variables t)) as [j f].
  destruct (nonempty (j_folder j)); cbn [negb fst]; [|done].
  by rewrite keeps_tk_set_running.
Qed.

(** No callback changes what a widget is bound to. *)
Lemma built_bindings k t w :
  k ∈ bindings → built t → cget t w k = cget launch_ui_build w k.
Proof.
  intros Hk%bindings_kept.
  induction 1 as [|f t _ IH|t _ IH|d t _ IH|t _ IH|f t _ IH|f t _ IH|t _ IH|t _ IH];
    try done.
  - by rewrite keeps_tk_run_callback.
  - by rewrite (keeps_tk_on_run k Hk t).
  - unfold tk_browse. by destruct (nonempty d).
Qed.

Lemma built_reacts t w : built t → reacts t w = bool_decide (w ∈ inputs ++ [clear_btn]).
Proof.
  intros Ht. rewrite <-launch_ui_build_reacts. unfold reacts.
  by rewrite !(λ k Hk, built_bindings k t w Hk Ht) by by_decide.
Qed.

End bindings.

(** ** The inputs while a run is on *)

Section inputs.
Context `{Unicode, Tcl}.

Lemma running_tk_pulse_header step t : running (tk_pulse_header step t) = running t.
Proof. unfold tk_pulse_header. by destruct (running t) eqn:Hr. Qed.

Lemma running_configure_inputs state t : running (configure_inputs state t) = running t.
Proof.
  unfold configure_inputs. generalize inputs. intros ws. revert t.
  induction ws as [|w ws IH]; intros t; [done|]. cbn [foldl]. rewrite IH.
  by destruct (try_configure w ["state" =: state] t) as ([] & _ & ->).
Qed.

Lemma running_tk_set_running running' t : running (tk_set_running running' t) = running'.
Proof.
  unfold tk_set_running, start. destruct running'; cbn [run foldl].
  - by rewrite running_tk_pulse_header; cbn; rewrite running_configure_inputs.
  - destruct (try_stop (configure run_btn ["text" =: "Run"]
      (configure status_lbl ["text" =: "Idle"; "fg" =: "#a8dadc"]
        (configure_inputs "normal" (set_is_running false t))))) as ([] & _ & ->);
      cbn; by rewrite running_configure_inputs.
Qed.

Lemma state_of_configure_each (state : value) ws t w :
  complete t →
  state_of (run ((λ w, configure w ["state" =: state]) <$> ws) t) w
  = if decide (w ∈ ws) then state_from state_normal (Some state) else state_of t w.
Proof.
  intros Ht. induction ws as [|w' ws IH] using rev_ind.
  - by rewrite decide_False by apply not_elem_of_nil.
  - rewrite fmap_app, run_app. cbn [fmap list_fmap run foldl]. rewrite state_of_configure, IH.
    + destruct (decide (w' = w)) as [->|Hne];
        [by rewrite decide_True by (apply elem_of_app; right; left)|].
      apply decide_ext. rewrite elem_of_app, list_elem_of_singleton.
      split; [by left|by intros [?| ->]].
    + apply complete_still; [|done]. apply still_run, Forall_fmap, Forall_true.
      intros ?. apply still_configure.
Qed.

Lemma state_of_configure_inputs (state : value) t w :
  tcl_takes_state → complete t → w ∈ inputs →
  state_of (configure_inputs state t) w = state_from state_normal (Some state).
Proof.
  intros Htcl Ht Hw. rewrite configure_inputs_taken, state_of_configure_each by done.
  by rewrite decide_True.
Qed.

Lemma tk_set_running_inputs running t :
  tcl_takes_state → complete t → inputs_follow (tk_set_running running t).
Proof.
  intros Htcl Ht w Hw. rewrite running_tk_set_running. unfold tk_set_running, start, stop_or_raise.
  transitivity (state_of (configure_inputs (if running then "disabled" : value else "normal")
    (set_is_running running t)) w).
  - destruct running; (apply (state_of_keeps (run _)), keeps_run);
      repeat constructor; auto using keeps_tk_pulse_header with tk.
  - rewrite state_of_configure_inputs by auto with tk. by destruct running; vm_compute.
Qed.

Lemma launch_ui_build_inputs : inputs_follow launch_ui_build.
Proof.
  intros w Hw. replace (running launch_ui_build) with false by by_build.
  destruct launch_ui_build_widgets as [b Hb]. unfold state_of, cget. rewrite Hb.
  revert w Hw. apply list.Forall_forall. by destruct b; repeat constructor; vm_compute.
Qed.

Lemma built_inputs_follow t : tcl_takes_state → built t → inputs_follow t.
Proof.
  intros Htcl.
  induction 1 as [|f t Ht IH|t Ht IH|d t _ IH|t _ IH|f t _ IH|f t _ IH|t _ IH|t _ IH];
    try done.
  - apply launch_ui_build_inputs.
  - apply built_laid_out, laid_out_complete in Ht.
    destruct f; cbn [tk_run_callback]; [done..| |by apply tk_set_running_inputs].
    intros w Hw. rewrite running_tk_pulse_header, state_of_keeps; [by apply IH|].
    by apply keeps_tk_pulse_header.
  - apply built_laid_out, laid_out_complete in Ht.
    unfold tk_on_run. destruct (read_form (variables t)) as [j f].
    destruct (nonempty (j_folder j)); cbn [negb fst]; [|done].
    apply tk_set_running_inputs; auto with tk.
  - unfold tk_browse. by destruct (nonempty d).
Qed.

(** C23: while a run is on, the one widget that still reacts to the user is
    the button Clear Output: in every toolkit the callbacks make of the
    window as built, when [is_running] is set, every other widget that has
    a command or a variable is disabled.  So neither a second run can be
    started nor the form be changed under a run. *)
Theorem running_only_clear_output t w :
  tcl_takes_state → built t → running t = true →
  reacts t w = true → w ≠ clear_btn → state_of t w = state_disabled.
Proof.
  intros Htcl Ht Hrun Hw Hne. rewrite built_reacts in Hw by done.
  apply bool_decide_eq_true, elem_of_app in Hw as [Hw|Hw%list_elem_of_singleton]; [|done].
  apply (built_inputs_follow t Htcl Ht) in Hw. by rewrite Hrun in Hw.
Qed.

End inputs.

(** ** Where the packer puts the placeholder *)

Lemma packed_in_laid_out t p :
  laid_out t → packed_in t p = filter (λ w, parent_in layout w = Some p) (packing t).*1.
Proof.
  intros [Hsk _]. unfold packed_in. apply list_filter_iff. intros w.
  by rewrite master_skeleton, Hsk.
Qed.

Section placeholder.
Context `{Unicode, Tcl}.

Lemma tk_set_running_packing running t :
  packing (tk_set_running running t)
  = packing (if running
             then pack progress ["side" =: tk_LEFT; "padx" =: 10%Z]
                    (pack_forget progress_placeholder t)
             else pack progress_placeholder ["side" =: tk_LEFT; "padx" =: 10%Z]
                    (pack_forget progress t)).
Proof.
  unfold tk_set_running, start. destruct running; cbn [run foldl].
  - rewrite (proj2 (still_tk_pulse_header 0 _)). cbn.
    by rewrite (proj2 (still_configure_inputs _ _)).
  - cbn [packing pack pack_forget set_packing].
    rewrite (proj2 (still_try_stop _)). cbn.
    by rewrite (proj2 (still_configure_inputs _ _)).
Qed.

Lemma packed_for_good_filter (l : list widget) :
  filter (λ w, w ≠ progress) (filter (λ w, w ≠ progress_placeholder) l)
  = filter (λ w, comes_and_goes w = false) l.
Proof.
  rewrite list_filter_filter. apply list_filter_iff. intros w.
  unfold comes_and_goes. rewrite bool_decide_eq_false. by intuition.
Qed.

Lemma packed_for_good_running t :
  filter (λ w, w ≠ progress) (packing (tk_set_running true t)).*1 = packed_for_good t.
Proof.
  rewrite tk_set_running_packing, pack_names, pack_forget_names.
  case_decide; [apply packed_for_good_filter|].
  rewrite list.filter_app, filter_cons_False, filter_nil, app_nil_r by (by intros []).
  apply packed_for_good_filter.
Qed.

(** After a run the placeholder is the last that is packed. *)
Lemma run_packs_placeholder_last t :
  (packing (tk_set_running false (tk_set_running true t))).*1
  = packed_for_good t ++ [progress_placeholder].
Proof.
  rewrite tk_set_running_packing, pack_names, pack_forget_names, packed_for_good_running.
  apply decide_False. unfold packed_for_good. rewrite list_elem_of_filter.
  intros [Hph _]. by vm_compute in Hph.
Qed.

Lemma placeholder_last t :
  built t →
  packed_in (tk_set_running false (tk_set_running true t)) btn_row
  = [run_btn; clear_btn; progress_placeholder].
Proof.
  intros Ht%built_laid_out. rewrite packed_in_laid_out by by do 2 apply laid_out_tk_set_running.
  rewrite run_packs_placeholder_last. destruct Ht as (_ & _ & -> & _). by vm_compute.
Qed.

(** In the packer of [Toolkit] the placeholder of the progress bar does
    not keep its place: in the window as built it is packed left of the
    buttons Run and Clear Output; during a run the progress bar is packed
    right of them, and after a run the placeholder is, because [pack] puts
    what was forgotten at the end of the list of the packer.  This is a
    fact of the model of Tk, not of the source alone. *)
Theorem placeholder_moves t :
  built t →
  packed_in launch_ui_build btn_row = [progress_placeholder; run_btn; clear_btn] ∧
  packed_in (tk_set_running false (tk_set_running true t)) btn_row
  = [run_btn; clear_btn; progress_placeholder].
Proof. intros Ht. split; [apply launch_ui_build_rows|by apply placeholder_last]. Qed.

End placeholder.

(** ** The tree is well formed *)

Lemma good_is_packed t p :
  laid_out t → p ∈ packed_for_good (@launch_ui_build tcl_no) → is_packed t p = true.
Proof.
  intros (_ & _ & <- & _) Hp. apply bool_decide_eq_true.
  unfold packed_for_good in Hp. by apply list_elem_of_filter in Hp as [_ ?].
Qed.

Lemma packed_seen t w : laid_out t → w ∈ (packing t).*1 → seen t w = true.
Proof.
  intros Ht Hw.
  assert (w ∈ packed_for_good (@launch_ui_build tcl_no) ++ [progress; progress_placeholder])
    as Hw'.
  { destruct Ht as (_ & _ & <- & _). unfold packed_for_good.
    rewrite elem_of_app, list_elem_of_filter.
    destruct (comes_and_goes w) eqn:Hcg; [right|by left].
    apply bool_decide_eq_true in Hcg as [->| ->]; by_decide. }
  unfold seen. rewrite master_skeleton, (proj1 Ht). clear Hw. vm_compute in Hw'.
  repeat (apply elem_of_cons in Hw' as [->|Hw']); [..|by apply elem_of_nil in Hw'];
    match goal with
    | |- context [parent_in layout ?w] =>
      let p := eval vm_compute in (parent_in layout w) in change (parent_in layout w) with p
    end; cbv beta iota;
    first [rewrite good_is_packed by (done || by_decide); apply orb_true_r|by vm_compute].
Qed.

Lemma laid_out_tree_ok t : laid_out t → tree_ok t.
Proof.
  intros Ht. split_and!; [|apply Ht|intros w; by apply packed_seen].
  rewrite (proj1 Ht). by vm_compute.
Qed.

(** ** The window of [Threads] is a window of widgets *)

Section threads.
Context `{Unicode, Env, Gui.Tk, Tcl}.

Lemma thread_step_built s s' t :
  built t → window_of t = s_window s → thread_step s = Some s' →
  ∃ t', built t' ∧ window_of t' = s_window s'.
Proof.
  intros Ht Hw Hs. destruct s as [w [|[|[msg md|q log] todo]|todo] held [] world answers];
    cbn in Hw, Hs; simplify_eq;
    first [by exists t|eexists (tk_after_0 _ t); split; [by constructor|done]].
Qed.

Lemma queue_step_built f rest t :
  tcl_takes_state → built t →
  (idle_queue t = f :: rest →
   ∃ t', built t' ∧ window_of t' = run_callback f (set_after_idle rest (window_of t))) ∧
  (timer_queue t = f :: rest →
   ∃ t', built t' ∧ window_of t' = run_callback f (set_after_timer rest (window_of t))).
Proof.
  intros Htcl Ht. pose proof (laid_out_complete t (built_laid_out t Ht)) as Hc.
  split; intros Hq;
    [exists (tk_run_callback f (set_idle_queue (drop 1) t))
    |exists (tk_run_callback f (set_timer_queue (drop 1) t))];
    (split; [by do 2 constructor|]); rewrite tk_run_callback_window by auto with tk;
    unfold window_of, set_after_idle, set_after_timer; cbn; by rewrite Hq.
Qed.

(** A move of [Threads] is a sequence of calls of the toolkit. *)
Lemma step_built l s s' t :
  tcl_takes_state → built t → window_of t = s_window s → step l s = Some s' →
  ∃ t', built t' ∧ window_of t' = s_window s'.
Proof.
  intros Htcl Ht Hw Hs. pose proof (laid_out_complete t (built_laid_out t Ht)) as Hc.
  destruct l; try (by eapply thread_step_built);
    destruct s as [w th held g world answers]; cbn in Hw; subst w; cbn [step s_window] in Hs.
  - case_decide; [|done]. rewrite <-tk_on_run_window in Hs by done.
    exists (tk_on_run t).1. split; [by constructor|]. by destruct (tk_on_run t).2; simplify_eq.
  - case_decide; [|done]. exists (set_variables f t). split; [by constructor|]. by simplify_eq.
  - case_decide; [|done]. exists (tk_browse d t). split; [by constructor|].
    rewrite tk_browse_window. by simplify_eq.
  - exists (tk_clear_output t). split; [by constructor|]. by simplify_eq.
  - destruct (idle_queue t) as [|f rest] eqn:Hq; cbn in Hs; rewrite Hq in Hs; [done|].
    injection Hs as <-. rewrite call_window. by apply queue_step_built.
  - destruct (timer_queue t) as [|f rest] eqn:Hq; cbn in Hs; rewrite Hq in Hs; [done|].
    injection Hs as <-. rewrite call_window. by apply queue_step_built.
Qed.

Lemma reachable_built world s :
  tcl_takes_state → reachable world s → ∃ t, built t ∧ window_of t = s_window s.
Proof.
  intros Htcl. induction 1 as [|s l s' _ (t & Ht & Hw) Hs].
  - exists launch_ui_build. split; [constructor|apply launch_ui_build_window].
  - by eapply step_built.
Qed.

End threads.

(** ** The window and its widgets *)

Section refinement.
Context `{Unicode, Env, Gui.Tk, Tcl}.

(** C32: whatever Tcl refuses of the calls that [launch_ui] makes in a
    [try] block (the icon, the look of the output, the tags), the window
    is built with the tree and the packing of the source and is the
    initial window of [Gui]; the tags that are configured are the first of
    the seven, in their order, up to the first that is refused, and all
    seven when none is. *)
Theorem launch_ui_whatever_tcl :
  window_of launch_ui_build = initial_window ∧
  laid_out launch_ui_build ∧ tree_ok launch_ui_build ∧
  tags launch_ui_build `prefix_of` tag_table ∧
  ((∀ t g o, tag_configure_ok t g o = true) → tags launch_ui_build = tag_table).
Proof.
  split_and!; [apply launch_ui_build_window|apply launch_ui_build_laid_out| |
    apply launch_ui_build_tags|apply launch_ui_build_all_tags].
  apply laid_out_tree_ok, launch_ui_build_laid_out.
Qed.

(** C19: the callbacks of [Gui] are the callbacks on the widgets: in every
    toolkit made of the window as built, when Tcl takes the state of the
    inputs and the stop of the progress bar, running a callback of the
    main loop, [on_run], [browse] and [clear_output] on the widgets and
    reading the window off gives what the function of [Gui] gives on the
    window read off before. *)
Theorem callbacks_refine t :
  tcl_takes_state → built t →
  (∀ f, window_of (tk_run_callback f t) = run_callback f (window_of t)) ∧
  (window_of (tk_on_run t).1, (tk_on_run t).2) = on_run (window_of t) ∧
  (∀ d, window_of (tk_browse d t) = browse d (window_of t)) ∧
  window_of (tk_clear_output t) = clear_output (window_of t).
Proof.
  intros Htcl Ht%built_laid_out%laid_out_complete. split_and!.
  - intros f. by apply tk_run_callback_window.
  - by apply tk_on_run_window.
  - intros d. apply tk_browse_window.
  - apply tk_clear_output_window.
Qed.

(** The one state that [Gui] keeps for the inputs is the state of each of
    them. *)
Lemma inputs_follow_window t w :
  inputs_follow t → w ∈ inputs → state_of t w = inputs_state (w_controls (window_of t)).
Proof.
  intros Ht Hw. rewrite (Ht w Hw). cbn [window_of w_controls inputs_state].
  rewrite (Ht run_btn); [done|]. by_decide.
Qed.

(** C18: the window of the main loop is a window of widgets: every state
    that the user, the main loop and the thread of [on_run] can reach has
    as its window the one read off a toolkit that the calls of [launch_ui]
    and of the callbacks make, when Tcl takes the state of the inputs and
    the stop of the progress bar.  In that toolkit the tree of the widgets
    is the one [launch_ui] built and is well formed, everything but the
    progress bar and its placeholder is packed as at the start, and each
    of the eight inputs is in the state that the window records for them
    all, disabled exactly while a run is on. *)
Theorem reachable_widgets world s :
  tcl_takes_state → reachable world s →
  ∃ t, built t ∧ window_of t = s_window s ∧ laid_out t ∧ tree_ok t ∧ inputs_follow t ∧
       ∀ w, w ∈ inputs → state_of t w = inputs_state (w_controls (s_window s)).
Proof.
  intros Htcl (t & Ht & Hw)%reachable_built; [|done]. exists t.
  pose proof (built_laid_out t Ht). pose proof (built_inputs_follow t Htcl Ht).
  split_and!; [done..|by apply laid_out_tree_ok|done|].
  intros w Hin. rewrite <-Hw. by apply inputs_follow_window.
Qed.

End refinement.

(** ** Concrete runs *)

Lemma tcl_yes_takes_state : @tcl_takes_state tcl_yes.
Proof. by split. Qed.

Lemma running_only_clear_output_witness :
  state_of (@tk_on_run tcl_yes (tk_browse (lit "proj") (@launch_ui_build tcl_yes))).1 run_btn
  = state_disabled.
Proof.
  apply (@running_only_clear_output ascii_unicode tcl_yes);
    [apply tcl_yes_takes_state|apply built_on_run, built_browse, built_launch_ui
    |by vm_compute..].
Defined.

Lemma tk_set_running_tries_witness :
  same_but_tries (window_of (@tk_set_running tcl_no true (@launch_ui_build tcl_no)))
                 (set_running true (window_of (@launch_ui_build tcl_no))).
Proof. apply tk_set_running_tries, laid_out_complete, launch_ui_build_laid_out. Defined.

Lemma placeholder_moves_witness :
  packed_in (@launch_ui_build tcl_yes) btn_row = [progress_placeholder; run_btn; clear_btn] ∧
  packed_in (@tk_set_running tcl_yes false (@tk_set_running tcl_yes true
               (@launch_ui_build tcl_yes))) btn_row
  = [run_btn; clear_btn; progress_placeholder].
Proof. apply (@placeholder_moves ascii_unicode tcl_yes), built_launch_ui. Defined.

Lemma launch_ui_whatever_tcl_witness : tags (@launch_ui_build tcl_yes) = tag_table.
Proof. by apply (@launch_ui_whatever_tcl tcl_yes). Defined.

Lemma callbacks_refine_witness :
  (∀ f, window_of (@tk_run_callback ascii_unicode tcl_yes f (@launch_ui_build tcl_yes))
        = @run_callback ascii_unicode f (window_of (@launch_ui_build tcl_yes))) ∧
  (window_of (@tk_on_run tcl_yes (@launch_ui_build tcl_yes)).1,
   (@tk_on_run tcl_yes (@launch_ui_build tcl_yes)).2)
  = on_run (window_of (@launch_ui_build tcl_yes)) ∧
  (∀ d, window_of (tk_browse d (@launch_ui_build tcl_yes))
        = browse d (window_of (@launch_ui_build tcl_yes))) ∧
  window_of (tk_clear_output (@launch_ui_build tcl_yes))
  = clear_output (window_of (@launch_ui_build tcl_yes)).
Proof.
  apply (@callbacks_refine ascii_unicode tcl_yes); [apply tcl_yes_takes_state|constructor].
Defined.

Lemma reachable_widgets_witness :
  ∃ t, @built ascii_unicode tcl_yes t ∧ window_of t = s_window ex_asked ∧
       laid_out t ∧ tree_ok t ∧ inputs_follow t ∧
       ∀ w, w ∈ inputs → state_of t w = inputs_state (w_controls (s_window ex_asked)).
Proof.
  apply (@reachable_widgets ascii_unicode ex_env ex_tk tcl_yes ex_project ex_asked);
    [apply tcl_yes_takes_state|apply ex_asked_reachable].
Defined.
