(* ===== verification/Cli.v ===== *)
(** * The entry point: [main] and the head of [launch_ui]

    src/app.py lines 384-389 and 703-721.  [main] opens the window
    when the program is started without arguments and runs the pipeline on
    the console otherwise.  The command line and what [argparse] makes of
    it are data of the environment ([Argv]); how a run of [main] ends is a
    value of [ending].  [main_endings] says when [main] ends how: with
    the main loop on the window that [Widgets.launch_ui_widgets] builds,
    with an exit status, with a return, or with one of the exceptions of
    [Pipeline.pipeline_failure]. *)

From stdpp Require Import gmap.
From S2P Require Import PyStr World Console Pipeline Gui Toolkit Threads Widgets.

Local Open Scope io_scope.

(** ** The command line *)

(** Lines 713-718: the arguments of the parser. *)
Record args : Type := Args {
  a_path : str;
  a_json : bool;
  a_autofix : bool;
  a_apply_all : bool;
  a_userprompt : option str;
  a_max_chars : Z;
}.

Class Argv : Type := {
  (** [sys.argv]. *)
  argv : list str;
  (** [parser.parse_args()]: the arguments, or the status [argparse] exits
      with after its message. *)
  parse_args : args + Z;
}.

(** How [main] ends. *)
Inductive ending : Type :=
| Returned              (* [main] returns *)
| MainLoop (s : sys)    (* [app.mainloop()] runs, from the state [s] *)
| SystemExit (code : Z) (* [sys.exit(code)] *)
| Uncaught (e : exn).   (* an exception leaves [main] *)

(** ** [launch_ui] *)

(** Lines 384-389 and 701: without Tkinter a message and [sys.exit(1)],
    else the window of [Gui.initial_window] and the main loop. *)
Definition launch_ui `{Tk} (w : world) : ending * world :=
  if tk_loaded then (MainLoop (initial w), w)
  else
    (SystemExit 1,
     (console_print (lit "[red]Tkinter is not available in this environment. Please run via CLI.[/red]") w).2).

(** ** [main] *)

(** Lines 703-721. *)
Definition main `{Unicode, Env, Tk, Argv} (w : world) : ending * world :=
  if bool_decide (length argv = 1) then launch_ui w
  else
    let w1 := ((clear_screen;; print_logo) w).2 in
    match parse_args with
    | inr code => (SystemExit code, w1)
    | inl a =>
      match run_pipeline (a_path a) (a_json a) (a_autofix a) (a_apply_all a) (a_userprompt a)
              (a_max_chars a) false (lit "project_review.xlsx") false None w1 with
      | (Ok _, w2) => (Returned, w2)
      | (Raise e, w2) => (Uncaught e, w2)
      end
    end.

(** ** Concrete runs *)

(** [python app.py nowhere --autofix]. *)
Definition ex_argv : Argv := {|
  argv := [lit "app.py"; lit "nowhere"; lit "--autofix"];
  parse_args := inl (Args (lit "nowhere") false true false None 200000);
|}.

(** [python app.py]. *)
Definition ex_no_argv : Argv := {| argv := [lit "app.py"]; parse_args := inr 2%Z |}.

(** Tkinter cannot be imported. *)
Definition ex_no_tk : Tk := {| tk_loaded := false; askyesno := λ _ _, None |}.

Example main_examples :
  @main ascii_unicode ex_env ex_tk ex_argv ex_project
    = (Returned, World (w_fs ex_project)
         (@banner ex_env ++ @banner ex_env ++
          [Print (lit "[red]Invalid path: nowhere[/red]")])) ∧
  @main ascii_unicode ex_env ex_tk ex_no_argv ex_project
    = (MainLoop (initial ex_project), ex_project).
Proof. by vm_compute. Qed.

(** ** Theorems *)

Section main.
Context `{Unicode, Env, Tk, Argv}.

(** Started without arguments, the program opens the window and
    nothing else: no file is touched, nothing is printed, and the main loop
    starts from the initial state, which is consistent; without Tkinter it
    prints one message and exits with status 1. *)
Theorem main_no_arguments w :
  length argv = 1 →
  main w
  = (if tk_loaded then (MainLoop (initial w), w)
     else (SystemExit 1,
           World (w_fs w)
             (w_log w ++ [Print (lit "[red]Tkinter is not available in this environment. Please run via CLI.[/red]")]))) ∧
  sys_ok (initial w).
Proof.
  intros Hargv. unfold main, launch_ui. rewrite bool_decide_eq_true_2 by done.
  split; [done|apply initial_ok].
Qed.

(** On the command line the screen is cleared and the logo printed
    twice, once by [main] and once more by [run_pipeline], before anything
    else happens. *)
Theorem main_banner_twice w a :
  length argv ≠ 1 → parse_args = inl a →
  ∃ rest, w_log (main w).2 = w_log w ++ banner ++ banner ++ rest.
Proof.
  intros Hargv Ha. unfold main. rewrite bool_decide_eq_false_2, Ha by done. cbv zeta.
  rewrite banner_world. cbn [snd].
  match goal with |- context [run_pipeline ?p ?e ?af ?aa ?u ?m ?ui ?x ?i ?pf ?w1] =>
    destruct (run_pipeline_log p e af aa u m ui x i pf w1) as [rest Hrest];
    destruct (run_pipeline p e af aa u m ui x i pf w1) as [[r|e'] w2] end;
    exists rest; cbn [snd] in *; rewrite Hrest; simpl; by rewrite <-!(assoc_L (++)).
Qed.

(** C29: how the program ends, case by case.  Started without arguments it
    enters the main loop, on the window that the calls of lines 389-496
    build and with the files untouched, or exits with status 1 when Tkinter
    is missing; with arguments that [argparse] refuses it exits with the
    status of [argparse]; otherwise it returns, or it ends with an
    exception, and then the exception is one of the failures of
    [run_pipeline]: the model was not constructed, its constructor fails
    when fixes are asked for, the workbook or the JSON file cannot be
    written.  Nothing else ends the program. *)
Theorem main_endings `{Tcl} w :
  match (main w).1 with
  | MainLoop s =>
    length argv = 1 ∧ tk_loaded = true ∧ s = initial w ∧ (main w).2 = w ∧
    s_window s = window_of launch_ui_build
  | SystemExit code =>
    if bool_decide (length argv = 1) then tk_loaded = false ∧ code = 1%Z
    else parse_args = inr code
  | Returned => bool_decide (length argv = 1) = false ∧ ∃ a, parse_args = inl a
  | Uncaught e =>
    bool_decide (length argv = 1) = false ∧
    ∃ a, parse_args = inl a ∧
         pipeline_failure (a_json a) (a_autofix a) (lit "project_review.xlsx") e
  end.
Proof.
  unfold main, launch_ui. case_bool_decide.
  - destruct tk_loaded; cbn [fst snd]; [|done].
    by rewrite launch_ui_build_window.
  - destruct parse_args as [a|code]; [|done].
    match goal with |- context [run_pipeline ?p ?e ?af ?aa ?u ?m ?ui ?x ?i ?pf ?w1] =>
      destruct (run_pipeline p e af aa u m ui x i pf w1) as [[r|e'] w2] eqn:Hrun end;
      cbn [fst]; (split; [done|]); exists a; [done|]. split; [done|].
    by apply run_pipeline_failures in Hrun.
Qed.

End main.

Lemma main_no_arguments_witness :
  @main ascii_unicode ex_env ex_no_tk ex_no_argv ex_project
  = (if @tk_loaded ex_no_tk then (MainLoop (initial ex_project), ex_project)
     else (SystemExit 1,
           World (w_fs ex_project)
             (w_log ex_project ++ [Print (lit "[red]Tkinter is not available in this environment. Please run via CLI.[/red]")]))) ∧
  sys_ok (initial ex_project).
Proof. by apply (@main_no_arguments ascii_unicode ex_env ex_no_tk ex_no_argv ex_project). Defined.

Lemma main_banner_twice_witness :
  ∃ rest, w_log (@main ascii_unicode ex_env ex_tk ex_argv ex_project).2
          = w_log ex_project ++ @banner ex_env ++ @banner ex_env ++ rest.
Proof.
  by apply (@main_banner_twice ascii_unicode ex_env ex_tk ex_argv ex_project
              (Args (lit "nowhere") false true false None 200000)).
Defined.

Lemma main_endings_witness :
  bool_decide (length (@argv ex_argv) = 1) = false ∧
  ∃ a, @parse_args ex_argv = inl a.
Proof. exact (@main_endings ascii_unicode ex_env ex_tk ex_argv tcl_yes ex_project). Defined.
